(** * Mesh-file ingestion (deal.II [GridIn]): a shallow embedding

    The development follows [source/grid/grid_in.cc].  A reader consumes a
    C++ [std::istream]; the embedding models the stream as its remaining
    characters together with the [eofbit] and [failbit] flags, and the
    formatted extractors ([in >> x], [getline], [ignore]) as functions on it
    that behave as the C++ library does: an extractor applied to a stream
    that is not [good()] sets [failbit] and leaves its target unchanged, a
    numeric extractor that finds no digits stores zero and sets [failbit].

    The readers are written in a state-and-exception monad over the pair of
    the input stream and the attached triangulation, so that the order of
    the effects of the C++ code (reading, throwing, handing the mesh to the
    triangulation) is the order of the binds. *)

From Stdlib Require Import ZArith QArith Qabs Ascii String DecimalString List
  Sorted Lia Bool.
From stdpp Require Import base tactics option list strings gmap.

Local Open Scope string_scope.
Local Open Scope list_scope.
Local Open Scope Z_scope.

(** ** Exceptions *)

(** The exception classes [grid_in.cc] throws ([DeclException] in
    [grid_in.h] and [exceptions.h]); the arguments are the values the
    exception is constructed from. *)
Inductive exc : Type :=
| ExcMessage (msg : string)
| ExcIO
| ExcNotImplemented
| ExcInternalError
| ExcIndexRange (i lo hi : Z)
| ExcDimensionMismatch (a b : Z)
| ExcNoTriangulationSelected
| ExcInvalidVertexIndex (cell vertex : Z)
| ExcInvalidVertexIndexGmsh (cell elm vertex : Z)
| ExcUnknownIdentifier (id : string)
| ExcUnknownSectionType (t : Z)
| ExcUnknownElementType (t : Z)
| ExcInvalidGMSHInput (line : string)
| ExcGmshUnsupportedGeometry (t : Z)
| ExcGmshNoCellInformation
| ExcImpossibleInDim (d : Z)
| ExcNeedsAssimp.

(** How a call ends.  [Throw] is a C++ exception ([AssertThrow]); [Abort] is
    a failed debug-mode [Assert] (it ends the program); [Hang] is a loop of
    the source that never exits; [Undefined] is an operation to which C++
    gives no meaning (an access outside a vector). *)
Inductive result (A : Type) : Type :=
| Ok (a : A)
| Throw (e : exc)
| Abort (e : exc)
| Hang
| Undefined.
Arguments Ok {A} a.
Arguments Throw {A} e.
Arguments Abort {A} e.
Arguments Hang {A}.
Arguments Undefined {A}.

Definition is_Ok {A} (r : result A) : bool :=
  match r with Ok _ => true | _ => false end.

(** ** Characters and numerals *)

Definition ascii_code (c : ascii) : Z := Z.of_N (N_of_ascii c).

(** [std::isspace] in the "C" locale. *)
Definition isspace (c : ascii) : bool :=
  (ascii_code c =? 32) || ((9 <=? ascii_code c) && (ascii_code c <=? 13)).

(** [std::isdigit]. *)
Definition isdigit (c : ascii) : bool :=
  (48 <=? ascii_code c) && (ascii_code c <=? 57).

Definition digit_value (c : ascii) : Z := ascii_code c - 48.

(** [::toupper] in the "C" locale. *)
Definition toupper (c : ascii) : ascii :=
  if (97 <=? ascii_code c) && (ascii_code c <=? 122)
  then ascii_of_N (Z.to_N (ascii_code c - 32))
  else c.

Fixpoint string_map (f : ascii -> ascii) (s : string) : string :=
  match s with
  | EmptyString => EmptyString
  | String c s' => String (f c) (string_map f s')
  end.

Fixpoint skipws (s : string) : string :=
  match s with
  | String c s' => if isspace c then skipws s' else s
  | EmptyString => EmptyString
  end.

(** The longest prefix of [s] whose characters satisfy [p], and the rest. *)
Fixpoint span (p : ascii -> bool) (s : string) : string * string :=
  match s with
  | String c s' =>
      if p c then let '(a, b) := span p s' in (String c a, b)
      else (EmptyString, s)
  | EmptyString => (EmptyString, EmptyString)
  end.

(** The value of a string of decimal digits, most significant first. *)
Fixpoint decimal_value (acc : Z) (s : string) : Z :=
  match s with
  | String c s' => decimal_value (10 * acc + digit_value c) s'
  | EmptyString => acc
  end.

Definition is_empty (s : string) : bool :=
  match s with EmptyString => true | _ => false end.

(** ** The input stream *)

Record istream : Type := Istream {
  buf : string;      (* the characters not yet extracted *)
  eofbit : bool;
  failbit : bool
}.

Definition istream_of (text : string) : istream := Istream text false false.

Definition good (i : istream) : bool := negb (eofbit i) && negb (failbit i).

(** [static_cast<bool>(in)], that is [!in.fail()]: what [AssertThrow(in, ...)]
    and [while (in >> x)] test. *)
Definition stream_ok (i : istream) : bool := negb (failbit i).

Definition setstate (eof fail : bool) (i : istream) : istream :=
  Istream (buf i) (eofbit i || eof) (failbit i || fail).

(** [istream::sentry].  With [skip] (formatted input) leading white space is
    extracted first, and meeting the end of the stream there sets [eofbit]
    and [failbit]. *)
Definition sentry (skip : bool) (i : istream) : bool * istream :=
  if good i then
    if skip then
      match skipws (buf i) with
      | EmptyString => (false, Istream EmptyString true true)
      | b => (true, Istream b false false)
      end
    else (true, i)
  else (false, setstate false true i).

(** [in >> str] for a [std::string]. *)
Definition extract_string (old : string) (i : istream) : string * istream :=
  let '(ok, i1) := sentry true i in
  if ok then
    let '(tok, rest) := span (fun c => negb (isspace c)) (buf i1) in
    (tok, Istream rest (is_empty rest) (is_empty tok))
  else (old, i1).

(** [std::getline(in, str)]. *)
Fixpoint upto_newline (s : string) : string * option string :=
  match s with
  | EmptyString => (EmptyString, None)
  | String c s' =>
      if (ascii_code c =? 10) then (EmptyString, Some s')
      else let '(l, r) := upto_newline s' in (String c l, r)
  end.

Definition getline (old : string) (i : istream) : string * istream :=
  let '(ok, i1) := sentry false i in
  if ok then
    match upto_newline (buf i1) with
    | (l, Some rest) => (l, Istream rest false false)
    | (l, None) => (l, Istream EmptyString true (is_empty l))
    end
  else (old, i1).

(** [in.ignore(n, '\n')]. *)
Fixpoint ignore_chars (n : nat) (s : string) : option string :=
  match n, s with
  | _, EmptyString => None
  | O, _ => Some s
  | S n', String c s' =>
      if (ascii_code c =? 10) then Some s' else ignore_chars n' s'
  end.

Definition ignore (n : nat) (i : istream) : istream :=
  let '(ok, i1) := sentry false i in
  if ok then
    match ignore_chars n (buf i1) with
    | Some rest => Istream rest false false
    | None => Istream EmptyString true false
    end
  else i1.

(** [in.get(c)], [in.get()] (whose result is the character or the end of
    the stream) and [in.putback(c)] (which first clears [eofbit]).  The
    stream of the model does not record the characters that have been
    extracted, so [putback] is that of the library where [c] is the
    character before the read position, as it is in [skip_comment_lines]
    and, for a line that a newline ended, in [skip_empty_lines].  For
    another character the library leaves the outcome to the stream buffer
    (one that cannot be written to refuses it, and the stream goes bad);
    the model puts it in front all the same. *)
Definition get_char (old : ascii) (i : istream) : ascii * istream :=
  let '(ok, i1) := sentry false i in
  if ok then
    match buf i1 with
    | String c rest => (c, Istream rest false false)
    | EmptyString => (old, Istream EmptyString true true)
    end
  else (old, i1).

Definition get (i : istream) : option ascii * istream :=
  let '(ok, i1) := sentry false i in
  if ok then
    match buf i1 with
    | String c rest => (Some c, Istream rest false false)
    | EmptyString => (None, Istream EmptyString true true)
    end
  else (None, i1).

Definition putback (c : ascii) (i : istream) : istream :=
  if failbit i then Istream (buf i) false true
  else Istream (String c (buf i)) false false.

Fixpoint putback_string_reversed (line : string) (i : istream) : istream :=
  match line with
  | EmptyString => i
  | String c line' => putback c (putback_string_reversed line' i)
  end.

(** The integer [num_get] reads: an optional sign and decimal digits.  The
    result is the sign, the digits and what follows them. *)
Definition scan_integer (s : string) : bool * string * string :=
  let '(neg, s1) :=
    match s with
    | String "-" s' => (true, s')
    | String "+" s' => (false, s')
    | _ => (false, s)
    end in
  let '(ds, rest) := span isdigit s1 in
  (neg, ds, rest).

(** [in >> n] for an unsigned integer type of [bits] bits.  A value that
    does not fit is stored as the largest value with [failbit]; a negative
    numeral is negated in the unsigned type. *)
Definition extract_unsigned (bits : Z) (old : Z) (i : istream) : Z * istream :=
  let '(ok, i1) := sentry true i in
  if ok then
    let '(neg, ds, rest) := scan_integer (buf i1) in
    let eof := is_empty rest in
    if is_empty ds then (0, Istream rest eof true)
    else
      let v := decimal_value 0 ds in
      if 2 ^ bits - 1 <? v then (2 ^ bits - 1, Istream rest eof true)
      else ((if neg then (2 ^ bits - v) mod 2 ^ bits else v), Istream rest eof false)
  else (old, i1).

(** [in >> n] for [int]. *)
Definition extract_signed (old : Z) (i : istream) : Z * istream :=
  let '(ok, i1) := sentry true i in
  if ok then
    let '(neg, ds, rest) := scan_integer (buf i1) in
    let eof := is_empty rest in
    if is_empty ds then (0, Istream rest eof true)
    else
      let v := if neg then - decimal_value 0 ds else decimal_value 0 ds in
      if v <? - 2 ^ 31 then (- 2 ^ 31, Istream rest eof true)
      else if 2 ^ 31 - 1 <? v then (2 ^ 31 - 1, Istream rest eof true)
      else (v, Istream rest eof false)
  else (old, i1).

(** [in >> a[0] >> a[1] >> ...]: one extraction into each element of an
    array whose elements hold [olds]. *)
Fixpoint extract_unsigned_each (bits : Z) (olds : list Z) (i : istream)
  : list Z * istream :=
  match olds with
  | [] => ([], i)
  | o :: olds' =>
      let '(v, i1) := extract_unsigned bits o i in
      let '(vs, i2) := extract_unsigned_each bits olds' i1 in
      (v :: vs, i2)
  end.

(** The characters [num_get] accumulates for a floating-point number: sign,
    digits, one decimal point, and after a digit an exponent with its sign. *)
Definition scan_float (s : string) : string * string :=
  let '(sign, s1) :=
    match s with
    | String "-" s' => ("-", s')
    | String "+" s' => ("+", s')
    | _ => ("", s)
    end in
  let '(int_part, s2) := span isdigit s1 in
  let '(frac, s3) :=
    match s2 with
    | String "." s' => let '(ds, r) := span isdigit s' in (String "." ds, r)
    | _ => ("", s2)
    end in
  let has_mantissa := negb (is_empty int_part) || (1 <? Z.of_nat (String.length frac)) in
  let '(expo, s4, exp_ok) :=
    match s3 with
    | String c s' =>
        if has_mantissa && ((ascii_code c =? 101) || (ascii_code c =? 69)) then
          let '(esign, s5) :=
            match s' with
            | String "-" s'' => ("-", s'')
            | String "+" s'' => ("+", s'')
            | _ => ("", s')
            end in
          let '(eds, r) := span isdigit s5 in
          (String c (esign +:+ eds), r, negb (is_empty eds))
        else ("", s3, true)
    | EmptyString => ("", s3, true)
    end in
  (if has_mantissa && exp_ok
   then sign +:+ int_part +:+ frac +:+ expo else "", s4).

(** ** The platform

    What the source takes from headers and libraries that are not part of
    [grid_in.cc]: the arithmetic of [double], the value an uninitialised
    scalar happens to hold, the width of the id types of [types.h], and
    whether the library was compiled in debug mode (only then is [Assert]
    checked). *)
Class Platform : Type := {
  double : Type;
  (** [strtod] on a well-formed decimal numeral *)
  strtod : string -> double;
  double_zero : double;
  double_of_int : Z -> double;
  (** [static_cast<unsigned int>(x)] for a [double] *)
  double_to_unsigned : double -> Z;
  double_mul : double -> double -> double;
  double_leb : double -> double -> bool;
  (** whether two points are closer than a tolerance in every coordinate;
      no tolerance stands for the default of [delete_duplicated_vertices] *)
  closer_than : option double -> list double -> list double -> bool;
  indeterminate_int : Z;
  indeterminate_double : double;
  indeterminate_char : ascii;
  (** the width of [types::material_id] and [types::boundary_id], which
      share storage in [CellData], and of [types::manifold_id] *)
  id_bits : Z;
  manifold_id_bits : Z;
  debug_mode : bool
}.

Section Extraction.
Context `{Platform}.

(** [in >> x] for a [double].  The value is that of [strtod]; a numeral
    too large for a [double], for which the library also sets [failbit],
    is not told apart. *)
Definition extract_double (old : double) (i : istream) : double * istream :=
  let '(ok, i1) := sentry true i in
  if ok then
    let '(lexeme, rest) := scan_float (buf i1) in
    let eof := is_empty rest in
    if is_empty lexeme then (double_zero, Istream rest eof true)
    else (strtod lexeme, Istream rest eof false)
  else (old, i1).

Fixpoint extract_double_each (olds : list double) (i : istream)
  : list double * istream :=
  match olds with
  | [] => ([], i)
  | o :: olds' =>
      let '(v, i1) := extract_double o i in
      let '(vs, i2) := extract_double_each olds' i1 in
      (v :: vs, i2)
  end.

(** [numbers::invalid_unsigned_int], [static_cast<unsigned int>(-1)]. *)
Definition invalid_unsigned_int : Z := 2 ^ 32 - 1.

(** [std::numeric_limits<types::material_id>::max()] and the sentinels of
    [types.h], each [static_cast<T>(-1)]. *)
Definition id_max : Z := 2 ^ id_bits - 1.
Definition invalid_material_id : Z := 2 ^ id_bits - 1.
Definition internal_face_boundary_id : Z := 2 ^ id_bits - 1.
Definition flat_manifold_id : Z := 2 ^ manifold_id_bits - 1.

(** [static_cast<types::material_id>(n)], [static_cast<types::boundary_id>(n)]
    and [static_cast<types::manifold_id>(n)] for an unsigned [n]. *)
Definition cast_material_id (n : Z) : Z := n mod 2 ^ id_bits.
Definition cast_boundary_id (n : Z) : Z := n mod 2 ^ id_bits.
Definition cast_manifold_id (n : Z) : Z := n mod 2 ^ manifold_id_bits.

(** ** The mesh data handed to the triangulation *)

(** [Point<spacedim>]: its coordinates. *)
Definition Point : Type := list double.

(** [CellData<structdim>].  [material_id] and [boundary_id] are the two
    names of one member (a union in [tria.h]): cells use the first name,
    boundary lines and quads the second. *)
Record CellData : Type := mkCellData {
  vertices : list Z;
  material_id : Z;
  manifold_id : Z
}.

Definition boundary_id (c : CellData) : Z := material_id c.

Definition set_vertices (vs : list Z) (c : CellData) : CellData :=
  mkCellData vs (material_id c) (manifold_id c).
Definition set_material_id (m : Z) (c : CellData) : CellData :=
  mkCellData (vertices c) m (manifold_id c).
Definition set_boundary_id (b : Z) (c : CellData) : CellData :=
  mkCellData (vertices c) b (manifold_id c).
Definition set_manifold_id (m : Z) (c : CellData) : CellData :=
  mkCellData (vertices c) (material_id c) m.

(** [GeometryInfo<dim>::vertices_per_cell]. *)
Definition vertices_per_cell (dim : Z) : nat := Z.to_nat (2 ^ dim).

(** Modelled from the spec: the default constructor of [CellData] (declared
    in [tria.h]): invalid vertex indices, id zero, and a manifold id that
    "when unset, defaults to a sentinel flat value". *)
Definition CellData_default (structdim : Z) : CellData :=
  mkCellData (repeat invalid_unsigned_int (vertices_per_cell structdim))
             0 flat_manifold_id.

Record SubCellData : Type := mkSubCellData {
  boundary_lines : list CellData;
  boundary_quads : list CellData
}.

Definition SubCellData_empty : SubCellData := mkSubCellData [] [].

(** ** The triangulation, seen from the reader

    The reader only calls the triangulation; what it has been asked to do is
    kept as the list of the calls it received, latest last. *)
Inductive tria_call : Type :=
| called_create_triangulation_compatibility
    (v : list Point) (c : list CellData) (s : SubCellData)
| called_create_triangulation
    (v : list Point) (c : list CellData) (s : SubCellData)
| called_set_boundary_id (cell : nat) (face : nat) (id : Z).

Definition Triangulation : Type := list tria_call.

Definition Mesh : Type := (list Point * list CellData * SubCellData)%type.

End Extraction.

(** ** The collaborators

    [GridTools], [GridReordering] and [Triangulation] are defined in other
    files of the library.  The readers call them; here they are what the
    readers are parametric in.  Each of the [GridTools] and [GridReordering]
    functions updates its arguments in place or throws; the triangulation
    may refuse the mesh it is given (it then throws), and a one-dimensional
    triangulation can be asked for the vertex index of each face (end
    point) of each active cell and whether that face is at the boundary. *)
Class Collaborators `{Platform} : Type := {
  delete_unused_vertices :
    Z -> list Point -> list CellData -> SubCellData -> result Mesh;
  delete_duplicated_vertices :
    Z -> list Point -> list CellData -> SubCellData -> list Z -> option double ->
    result Mesh;
  invert_all_cells_of_negative_grid :
    Z -> list Point -> list CellData -> result (list CellData);
  reorder_cells : Z -> list CellData -> result (list CellData);
  tria_refuses : Z -> list Point -> list CellData -> SubCellData -> option exc;
  active_cells_1d : Triangulation -> list (list Z);
  at_boundary_1d : Triangulation -> nat -> nat -> bool;
  (** [Utilities::break_text_into_lines(text, width, delimiter)],
      [Utilities::match_at_string_start(name, pattern)] and the first
      component of [Utilities::get_integer_at_position(name, position)] *)
  break_text_into_lines : string -> Z -> ascii -> list string;
  match_at_string_start : string -> string -> bool;
  get_integer_at_position : string -> Z -> Z
}.

(** ** The monad of the readers *)

Section Readers.
Context `{Collaborators}.

(** The state a reader acts on: the stream it reads and the triangulation
    attached to the [GridIn] object. *)
Record world : Type := World {
  input : istream;
  tria : Triangulation
}.

Definition M (A : Type) : Type := world -> result A * world.

Definition ret {A} (a : A) : M A := fun w => (Ok a, w).

Definition bind {A B} (m : M A) (k : A -> M B) : M B :=
  fun w =>
    match m w with
    | (Ok a, w1) => k a w1
    | (Throw e, w1) => (Throw e, w1)
    | (Abort e, w1) => (Abort e, w1)
    | (Hang, w1) => (Hang, w1)
    | (Undefined, w1) => (Undefined, w1)
    end.

Notation "'let*' x := m 'in' k" := (bind m (fun x => k))
  (at level 10, x name, m at level 100, k at level 200, only parsing).
Notation "m ;;; k" := (bind m (fun _ => k))
  (at level 100, right associativity, only parsing).

Definition throw {A} (e : exc) : M A := fun w => (Throw e, w).
Definition abort {A} (e : exc) : M A := fun w => (Abort e, w).
Definition hang {A} : M A := fun w => (Hang, w).
Definition undefined {A} : M A := fun w => (Undefined, w).

(** [v[i] = x] for a [std::vector]. *)
Definition vector_set {A} (i : Z) (x : A) (v : list A) : M (list A) :=
  if (0 <=? i) && (i <? Z.of_nat (length v))
  then ret (<[Z.to_nat i := x]> v) else undefined.

(** A function of the stream alone, run on the stream of the state. *)
Definition on_input {A} (f : istream -> A * istream) : M A :=
  fun w => let '(a, i) := f (input w) in (Ok a, World i (tria w)).

(** The outcome of a collaborator that does not see the state. *)
Definition call {A} (r : result A) : M A := fun w => (r, w).

(** [AssertThrow(cond, exc)] and the debug-mode [Assert(cond, exc)]. *)
Definition AssertThrow (cond : bool) (e : exc) : M unit :=
  if cond then ret tt else throw e.

Definition Assert (cond : bool) (e : exc) : M unit :=
  if debug_mode && negb cond then abort e else ret tt.

(** A branch on the state of the stream, [if (in) ... else ...]. *)
Definition if_in {A} (m1 m2 : M A) : M A :=
  fun w => if stream_ok (input w) then m1 w else m2 w.

(** [AssertThrow(in, exc)]. *)
Definition AssertThrow_in (e : exc) : M unit := if_in (ret tt) (throw e).

(** The number of characters left in the stream, plus one: a bound on the
    passes of a loop that extracts at least one character in each pass but
    the last. *)
Definition stream_length (w : world) : nat := String.length (buf (input w)).

Definition bounded_by_stream {A} (f : nat -> M A) : M A :=
  fun w => f (S (stream_length w)) w.

(** [for (i = first; i < first + n; ++i) body], the variables the body
    updates being threaded as [s]. *)
Fixpoint for_loop {St} (n : nat) (first : Z) (body : Z -> St -> M St) (s : St)
  : M St :=
  match n with
  | O => ret s
  | S n' => bind (body first s) (for_loop n' (first + 1) body)
  end.

(** [while (cond)]-style repetition of a fixed number of [getline]s. *)
Fixpoint getlines (n : nat) (line : string) (i : istream) : string * istream :=
  match n with
  | O => (line, i)
  | S n' => let '(l, i1) := getline line i in getlines n' l i1
  end.

(** The extractors as actions of the monad: [in >> x] for [x] of type
    [unsigned int], [unsigned long], [int], [double] and [std::string]. *)
Definition in_unsigned (old : Z) : M Z := on_input (extract_unsigned 32 old).
Definition in_unsigned_long (old : Z) : M Z := on_input (extract_unsigned 64 old).
Definition in_int (old : Z) : M Z := on_input (extract_signed old).
Definition in_double (old : double) : M double := on_input (extract_double old).
Definition in_string (old : string) : M string := on_input (extract_string old).

(** [GridIn::skip_empty_lines]: lines of blanks are dropped; the first other
    line is put back, behind it a newline (see [putback] for a last line
    that no newline ends). *)
Fixpoint has_non_blank (line : string) : bool :=
  match line with
  | EmptyString => false
  | String c line' => negb (ascii_code c =? 32) || has_non_blank line'
  end.

Fixpoint skip_empty_lines_loop (passes : nat) (line : string) : M unit :=
  match passes with
  | O => hang
  | S passes' =>
      if_in
        (bind (on_input (getline line)) (fun line =>
         if has_non_blank line then
           on_input (fun i =>
             (tt, putback_string_reversed line (putback "010"%char i)))
         else skip_empty_lines_loop passes' line))
        (ret tt)
  end.

Definition skip_empty_lines : M unit :=
  bounded_by_stream (fun n => skip_empty_lines_loop (S n) "").

(** [GridIn::skip_comment_lines].  The inner loop [while (in.get() != '\n')]
    never ends when the stream ends inside a comment line. *)
Fixpoint skip_to_newline (passes : nat) : M unit :=
  match passes with
  | O => hang
  | S passes' =>
      let* c := on_input get in
      match c with
      | Some c => if ascii_code c =? 10 then ret tt else skip_to_newline passes'
      | None => hang
      end
  end.

Fixpoint skip_comment_lines_loop (passes : nat) (comment_start : ascii)
    (c : ascii) : M ascii :=
  match passes with
  | O => hang
  | S passes' =>
      let* c := on_input (get_char c) in
      if_in
        (if ascii_code c =? ascii_code comment_start then
           bounded_by_stream skip_to_newline ;;;
           skip_comment_lines_loop passes' comment_start c
         else ret c)
        (ret c)
  end.

Definition skip_comment_lines (comment_start : ascii) : M unit :=
  let* c := bounded_by_stream
         (fun n => skip_comment_lines_loop n comment_start indeterminate_char) in
  if_in (on_input (fun i => (tt, putback c i))) (ret tt) ;;;
  skip_empty_lines.

(** The conversions between [unsigned int] and [int] that a vertex number
    undergoes as a key or a value of a [std::map<int, int>]. *)
Definition to_int (n : Z) : Z := if n <? 2 ^ 31 then n else n - 2 ^ 32.
Definition to_unsigned (n : Z) : Z := n mod 2 ^ 32.

(** [if (vertex_indices.find(v) != vertex_indices.end()) v = vertex_indices[v];
    else throw] for each vertex of an entry, with [AssertThrow] (the entry
    is refused) and with the debug-mode [Assert] (in a release build the
    vertex becomes [invalid_unsigned_int]). *)
Fixpoint renumber_or_throw (vertex_indices : gmap Z Z) (e : Z -> exc)
    (vs : list Z) : M (list Z) :=
  match vs with
  | [] => ret []
  | v :: vs' =>
      let* v' := match vertex_indices !! to_int v with
            | Some n => ret (to_unsigned n)
            | None => throw (e v)
            end in
      let* vs'' := renumber_or_throw vertex_indices e vs' in
      ret (v' :: vs'')
  end.

Fixpoint renumber_or_Assert (vertex_indices : gmap Z Z) (e : Z -> exc)
    (vs : list Z) : M (list Z) :=
  match vs with
  | [] => ret []
  | v :: vs' =>
      let* v' := match vertex_indices !! to_int v with
            | Some n => ret (to_unsigned n)
            | None => Assert false (e v) ;;; ret invalid_unsigned_int
            end in
      let* vs'' := renumber_or_Assert vertex_indices e vs' in
      ret (v' :: vs'')
  end.

(** [tria->create_triangulation_compatibility(vertices, cells, subcelldata)]:
    the triangulation receives the call, and throws if it refuses the mesh. *)
Definition create_triangulation_compatibility
    (dim : Z) (v : list Point) (c : list CellData) (s : SubCellData) : M unit :=
  fun w =>
    let w' := World (input w)
                    (tria w ++ [called_create_triangulation_compatibility v c s]) in
    match tria_refuses dim v c s with
    | Some e => (Throw e, w')
    | None => (Ok tt, w')
    end.

Definition create_triangulation
    (dim : Z) (v : list Point) (c : list CellData) (s : SubCellData) : M unit :=
  fun w =>
    let w' := World (input w) (tria w ++ [called_create_triangulation v c s]) in
    match tria_refuses dim v c s with
    | Some e => (Throw e, w')
    | None => (Ok tt, w')
    end.

(** [Point<spacedim>()]: the origin. *)
Definition Point_origin (spacedim : Z) : Point :=
  repeat double_zero (Z.to_nat spacedim).

(** [vertices[vertex](d) = x[d]] for [d < spacedim]. *)
Definition Point_of (spacedim : Z) (x : list double) : Point :=
  take (Z.to_nat spacedim) x.

(** Modelled from the spec: [SubCellData::check_consistency(dim)] (declared
    in [tria.h]): a mesh has boundary sub-entities only of dimensions below
    its own, "lines in 2D meshes, quads in 3D meshes". *)
Definition check_consistency (d : Z) (s : SubCellData) : bool :=
  if d =? 1 then
    (Nat.eqb (length (boundary_lines s)) 0) && (Nat.eqb (length (boundary_quads s)) 0)
  else if d =? 2 then Nat.eqb (length (boundary_quads s)) 0
  else true.

End Readers.

Notation "'let*' x := m 'in' k" := (bind m (fun x => k))
  (at level 10, x name, m at level 100, k at level 200, only parsing).
Notation "m ;;; k" := (bind m (fun _ => k))
  (at level 100, right associativity, only parsing).

(** ** [GridIn<3>::read_xda] *)

Section XDA.
Context `{Collaborators}.

(** [static const unsigned int xda_to_dealII_map[] = {0, 1, 5, 4, 3, 2, 6, 7}] *)
Definition xda_to_dealII_map : list nat := [0; 1; 5; 4; 3; 2; 6; 7]%nat.

(** [for (i = 0; i < 8; i++)
      cells[cell].vertices[i] = xda_ordered_nodes[xda_to_dealII_map[i]];] *)
Definition xda_store_nodes (xda_ordered_nodes : list Z) (c : CellData) : CellData :=
  set_vertices
    (fold_left
       (fun vs i => <[i := nth (nth i xda_to_dealII_map 0%nat) xda_ordered_nodes 0]> vs)
       (seq 0 8) (vertices c))
    c.

(** One pass of the loop over the cells of the file. *)
Definition read_xda_3_cell (cell : Z) (cells : list CellData) : M (list CellData) :=
  AssertThrow_in ExcIO ;;;
  Assert (Nat.eqb (vertices_per_cell 3) 8) ExcInternalError ;;;
  let* xda_ordered_nodes :=
    on_input (extract_unsigned_each 32 (repeat indeterminate_int 8)) in
  ret (alter (xda_store_nodes xda_ordered_nodes) (Z.to_nat cell) cells).

(** One pass of the loop over the vertices of the file. *)
Definition read_xda_vertex (spacedim : Z) (vertex : Z) (vs : list Point)
  : M (list Point) :=
  let* x := on_input (extract_double_each (repeat indeterminate_double 3)) in
  ret (<[Z.to_nat vertex := Point_of spacedim x]> vs).

Definition read_xda_3 : M unit :=
  AssertThrow_in ExcIO ;;;
  let* line := on_input (getline "") in
  let* n_cells := on_input (extract_unsigned 32 indeterminate_int) in
  let* line := on_input (getline line) in
  let* n_vertices := on_input (extract_unsigned 32 indeterminate_int) in
  let* line := on_input (getline line) in
  let* line := on_input (getlines 8 line) in
  let* cells := for_loop (Z.to_nat n_cells) 0 read_xda_3_cell
             (repeat (CellData_default 3) (Z.to_nat n_cells)) in
  let* vertices := for_loop (Z.to_nat n_vertices) 0 (read_xda_vertex 3)
                (repeat (Point_origin 3) (Z.to_nat n_vertices)) in
  AssertThrow_in ExcIO ;;;
  let* m := call (delete_unused_vertices 3 vertices cells SubCellData_empty) in
  let '(vertices, cells, subcelldata) := m in
  let* cells := call (invert_all_cells_of_negative_grid 3 vertices cells) in
  let* cells := call (reorder_cells 3 cells) in
  create_triangulation_compatibility 3 vertices cells subcelldata.

End XDA.

(** ** [GridIn<dim, spacedim>::read_vtk] *)

Section VTK.
Context `{Collaborators}.
Variables dim spacedim : Z.

Definition vtk_header_text : list string :=
  ["# vtk DataFile Version 3.0"; "****"; "ASCII"; "DATASET UNSTRUCTURED_GRID"].

(** The four header lines: all but the second must be the expected text. *)
Definition read_vtk_header_line (i : Z) (line : string) : M string :=
  let* line := on_input (getline line) in
  (if negb (i =? 1)
   then AssertThrow
          (String.eqb line (nth (Z.to_nat i) vtk_header_text ""))
          (ExcMessage
             ("While reading VTK file, failed to find a header line with text <"
                +:+ nth (Z.to_nat i) vtk_header_text "" +:+ ">"))
   else ret tt) ;;;
  ret line.

Definition read_vtk_header : M string := for_loop 4 0 read_vtk_header_line "".

(** One pass of the loop over the points: VTK always gives three
    coordinates, of which the first [spacedim] are kept. *)
Definition read_vtk_point (vertex : Z) (vs : list Point) : M (list Point) :=
  let* x := on_input (extract_double_each (repeat double_zero 3)) in
  ret (vs ++ [Point_of spacedim x]).

(** The POINTS section; the result is the keyword variable and the vertices. *)
Definition read_vtk_points : M (string * list Point) :=
  let* keyword := on_input (extract_string "") in
  if String.eqb keyword "POINTS" then
    let* n_vertices := on_input (extract_unsigned 32 indeterminate_int) in
    let* keyword := on_input (extract_string keyword) in
    let* vertices := for_loop (Z.to_nat n_vertices) 0 read_vtk_point [] in
    ret (keyword, vertices)
  else throw (ExcMessage "While reading VTK file, failed to find POINTS section").

(** What the loop over the geometric objects of the CELLS section updates. *)
Record vtk_objects : Type := VtkObjects {
  vtk_cells : list CellData;
  vtk_subcelldata : SubCellData
}.

Definition n_objects (o : vtk_objects) : nat :=
  (length (vtk_cells o) + length (boundary_quads (vtk_subcelldata o))
   + length (boundary_lines (vtk_subcelldata o)))%nat.

(** [container.emplace_back(); for (j = 0; j < type; j++)
    in >> container.back().vertices[j]; container.back().material_id = 0;]
    for an entry of [type] vertices stored as a [CellData<structdim>]. *)
Definition read_vtk_entry (structdim : Z) (type : Z) : M CellData :=
  let c := CellData_default structdim in
  let* vs := on_input (extract_unsigned_each 32 (take (Z.to_nat type) (vertices c))) in
  ret (set_material_id 0 (set_vertices (vs ++ drop (Z.to_nat type) (vertices c)) c)).

Definition unknown_type_3 : exc :=
  ExcMessage "While reading VTK file, unknown file type encountered".
Definition unknown_type : exc :=
  ExcMessage "While reading VTK file, unknown cell type encountered".

(** One pass of the loop over the objects, for [dim == 3], [dim == 2] and
    [dim == 1]. *)
Definition read_vtk_object_3 (count : Z) (o : vtk_objects) : M vtk_objects :=
  let* type := on_input (extract_unsigned 32 indeterminate_int) in
  if type =? 8 then
    AssertThrow
      (Nat.eqb (length (boundary_quads (vtk_subcelldata o))) 0
       && Nat.eqb (length (boundary_lines (vtk_subcelldata o))) 0)
      ExcNotImplemented ;;;
    let* c := read_vtk_entry 3 type in
    ret (VtkObjects (vtk_cells o ++ [c]) (vtk_subcelldata o))
  else if type =? 4 then
    AssertThrow (Nat.eqb (length (boundary_lines (vtk_subcelldata o))) 0)
                ExcNotImplemented ;;;
    let* c := read_vtk_entry 2 type in
    ret (VtkObjects (vtk_cells o)
           (mkSubCellData (boundary_lines (vtk_subcelldata o))
                          (boundary_quads (vtk_subcelldata o) ++ [c])))
  else if type =? 2 then
    let* c := read_vtk_entry 1 type in
    ret (VtkObjects (vtk_cells o)
           (mkSubCellData (boundary_lines (vtk_subcelldata o) ++ [c])
                          (boundary_quads (vtk_subcelldata o))))
  else throw unknown_type_3.

Definition read_vtk_object_2 (count : Z) (o : vtk_objects) : M vtk_objects :=
  let* type := on_input (extract_unsigned 32 indeterminate_int) in
  if type =? 4 then
    AssertThrow (Nat.eqb (length (boundary_lines (vtk_subcelldata o))) 0)
                ExcNotImplemented ;;;
    let* c := read_vtk_entry 2 type in
    ret (VtkObjects (vtk_cells o ++ [c]) (vtk_subcelldata o))
  else if type =? 2 then
    let* c := read_vtk_entry 1 type in
    ret (VtkObjects (vtk_cells o)
           (mkSubCellData (boundary_lines (vtk_subcelldata o) ++ [c])
                          (boundary_quads (vtk_subcelldata o))))
  else throw unknown_type.

Definition read_vtk_object_1 (count : Z) (o : vtk_objects) : M vtk_objects :=
  let* type := on_input (extract_unsigned 32 indeterminate_int) in
  AssertThrow (type =? 2) unknown_type ;;;
  let* c := read_vtk_entry 1 type in
  ret (VtkObjects (vtk_cells o ++ [c]) (vtk_subcelldata o)).

(** The CELLS section from the count on: the declared number of objects
    and the objects read. *)
Definition read_vtk_cells : M (Z * vtk_objects) :=
  let* n_geometric_objects := on_input (extract_unsigned 32 0) in
  let* n_ints := on_input (extract_unsigned 32 indeterminate_int) in
  let* o := (if dim =? 3 then
          for_loop (Z.to_nat n_geometric_objects) 0 read_vtk_object_3
            (VtkObjects [] SubCellData_empty)
        else if dim =? 2 then
          for_loop (Z.to_nat n_geometric_objects) 0 read_vtk_object_2
            (VtkObjects [] SubCellData_empty)
        else if dim =? 1 then
          for_loop (Z.to_nat n_geometric_objects) 0 read_vtk_object_1
            (VtkObjects [] SubCellData_empty)
        else
          throw (ExcMessage "While reading VTK file, failed to find CELLS section")) in
  ret (n_geometric_objects, o).

Definition cell_data_count_mismatch : exc :=
  ExcMessage "The VTK reader found a CELL_DATA statement that lists a total of cell data objects that does not equal the number of cells plus the number of quads or lines".

(** The CELL_TYPES section: its count must be the declared number of
    objects; the types themselves are read and dropped. *)
Definition read_vtk_cell_types (n_geometric_objects : Z) (keyword : string)
  : M string :=
  let* keyword := on_input (extract_string keyword) in
  AssertThrow (String.eqb keyword "CELL_TYPES")
    (ExcMessage ("While reading VTK file, missing CELL_TYPES section. Found <"
                   +:+ keyword +:+ "> instead.")) ;;;
  let* n_ints := on_input (extract_unsigned 32 indeterminate_int) in
  AssertThrow (n_ints =? n_geometric_objects) cell_data_count_mismatch ;;;
  for_loop (Z.to_nat n_ints) 0
    (fun _ tmp_int => on_input (extract_signed tmp_int)) indeterminate_int ;;;
  ret keyword.

(** [double id; in >> id;] followed by the assignment to the member that
    the data set names. *)
Definition read_vtk_id (set : string) (c : CellData) : M CellData :=
  let* id := on_input (extract_double indeterminate_double) in
  if String.eqb set "MaterialID" then
    ret (set_material_id (cast_material_id (double_to_unsigned id)) c)
  else if String.eqb set "ManifoldID" then
    ret (set_manifold_id (cast_manifold_id (double_to_unsigned id)) c)
  else
    Assert false ExcInternalError ;;; ret c.

(** The same for every element of a container, in order. *)
Fixpoint read_vtk_ids (set : string) (cs : list CellData) : M (list CellData) :=
  match cs with
  | [] => ret []
  | c :: cs' =>
      let* c' := read_vtk_id set c in
      let* cs'' := read_vtk_ids set cs' in
      ret (c' :: cs'')
  end.

(** The body of [if (keyword == "SCALARS")]: the keyword variable and the
    objects after it. *)
Definition read_vtk_scalars (o : vtk_objects) : M (string * vtk_objects) :=
  let* keyword := on_input (extract_string "SCALARS") in
  let set :=
    if String.eqb keyword "MaterialID" then keyword
    else if String.eqb keyword "ManifoldID" then keyword
    else "" in
  if is_empty set then ret (keyword, o)
  else
    on_input (fun i => (tt, ignore 256 i)) ;;;
    let* keyword := on_input (extract_string keyword) in
    AssertThrow (String.eqb keyword "LOOKUP_TABLE")
      (ExcMessage "While reading VTK file, missing keyword LOOKUP_TABLE") ;;;
    let* keyword := on_input (extract_string keyword) in
    AssertThrow (String.eqb keyword "default")
      (ExcMessage "While reading VTK file, missing keyword default") ;;;
    let* cells := read_vtk_ids set (vtk_cells o) in
    if dim =? 3 then
      let* quads := read_vtk_ids set (boundary_quads (vtk_subcelldata o)) in
      let* lines := read_vtk_ids set (boundary_lines (vtk_subcelldata o)) in
      ret (keyword, VtkObjects cells (mkSubCellData lines quads))
    else if dim =? 2 then
      let* lines := read_vtk_ids set (boundary_lines (vtk_subcelldata o)) in
      ret (keyword,
           VtkObjects cells
             (mkSubCellData lines (boundary_quads (vtk_subcelldata o))))
    else ret (keyword, VtkObjects cells (vtk_subcelldata o)).

(** [while (in >> keyword) if (keyword == "SCALARS") { ... }]: every pass
    that does not end the loop extracts at least one character, so a
    number of passes above the length of the stream is as good as
    unbounded. *)
Fixpoint read_vtk_scalars_loop (passes : nat) (st : string * vtk_objects)
  : M (string * vtk_objects) :=
  match passes with
  | O => hang
  | S passes' =>
      let* keyword := on_input (extract_string (fst st)) in
      if_in
        (if String.eqb keyword "SCALARS"
         then bind (read_vtk_scalars (snd st)) (read_vtk_scalars_loop passes')
         else read_vtk_scalars_loop passes' (keyword, snd st))
        (ret (keyword, snd st))
  end.

(** The body of [if (keyword == "CELL_DATA")]. *)
Definition read_vtk_cell_data (n_geometric_objects : Z) (o : vtk_objects)
  : M (string * vtk_objects) :=
  let* n_ids := on_input (extract_unsigned 32 indeterminate_int) in
  AssertThrow (n_ids =? n_geometric_objects) cell_data_count_mismatch ;;;
  for_loop 2 0
    (fun _ st => bounded_by_stream (fun n => read_vtk_scalars_loop n st))
    ("CELL_DATA", o).

(** [while (in >> keyword) if (keyword == "CELL_DATA") { ... }]. *)
Fixpoint read_vtk_cell_data_loop (passes : nat) (n_geometric_objects : Z)
    (st : string * vtk_objects) : M (string * vtk_objects) :=
  match passes with
  | O => hang
  | S passes' =>
      let* keyword := on_input (extract_string (fst st)) in
      if_in
        (if String.eqb keyword "CELL_DATA"
         then bind (read_vtk_cell_data n_geometric_objects (snd st))
                   (read_vtk_cell_data_loop passes' n_geometric_objects)
         else read_vtk_cell_data_loop passes' n_geometric_objects
                (keyword, snd st))
        (ret (keyword, snd st))
  end.

(** The file before the CELLS section: the vertices, and the keyword that
    follows them. *)
Definition read_vtk_before_cells : M (list Point * string) :=
  let* line := read_vtk_header in
  let* p := read_vtk_points in
  let* keyword := on_input (extract_string (fst p)) in
  ret (snd p, keyword).

(** Everything the reader does before it turns to the triangulation: the
    vertices, the objects and the declared number of objects. *)
Definition read_vtk_parse : M (list Point * vtk_objects * Z) :=
  let* p := read_vtk_before_cells in
  if String.eqb (snd p) "CELLS" then
    let* c := read_vtk_cells in
    let* keyword := read_vtk_cell_types (fst c) (snd p) in
    let* st := bounded_by_stream
                 (fun n => read_vtk_cell_data_loop n (fst c) (keyword, snd c)) in
    ret (fst p, snd st, fst c)
  else throw (ExcMessage "While reading VTK file, failed to find CELLS section").

Definition read_vtk : M unit :=
  let* r := read_vtk_parse in
  let '(vertices, o, _) := r in
  Assert (check_consistency dim (vtk_subcelldata o)) ExcInternalError ;;;
  let* m := call (delete_unused_vertices dim vertices (vtk_cells o) (vtk_subcelldata o)) in
  let '(vertices, cells, subcelldata) := m in
  let* cells := (if dim =? spacedim
            then call (invert_all_cells_of_negative_grid dim vertices cells)
            else ret cells) in
  let* cells := call (reorder_cells dim cells) in
  create_triangulation_compatibility dim vertices cells subcelldata.

End VTK.

(** ** [GridIn<dim, spacedim>::read_ucd] *)

Section UCD.
Context `{Collaborators}.
Variables dim spacedim : Z.
Variable apply_all_indicators_to_manifolds : bool.

(** One pass of the loop over the vertices: the coordinates are stored and
    the number the file gives the vertex is mapped to its position. *)
Definition read_ucd_vertex (vertex : Z) (st : list Point * gmap Z Z)
  : M (list Point * gmap Z Z) :=
  AssertThrow_in ExcIO ;;;
  let* vertex_number := on_input (extract_signed indeterminate_int) in
  let* x := on_input (extract_double_each (repeat indeterminate_double 3)) in
  ret (<[Z.to_nat vertex := Point_of spacedim x]> (fst st),
       <[vertex_number := vertex]> (snd st)).

(** The three kinds of entry of the cell list. *)
Definition read_ucd_cell (cell material_id : Z) (vertex_indices : gmap Z Z)
  : M CellData :=
  let c := CellData_default dim in
  let* vs := on_input (extract_unsigned_each 32 (vertices c)) in
  Assert (material_id <=? id_max) (ExcIndexRange material_id 0 id_max) ;;;
  Assert (material_id <? invalid_material_id)
         (ExcIndexRange material_id 0 invalid_material_id) ;;;
  let c := if apply_all_indicators_to_manifolds
           then set_manifold_id (cast_manifold_id material_id) c else c in
  let c := set_material_id (cast_material_id material_id) c in
  let* vs := renumber_or_throw vertex_indices (ExcInvalidVertexIndex cell) vs in
  ret (set_vertices vs c).

Definition ucd_set_boundary_indicators (material_id : Z) (c : CellData)
  : CellData :=
  if apply_all_indicators_to_manifolds then
    set_manifold_id (cast_manifold_id material_id)
      (set_boundary_id internal_face_boundary_id c)
  else
    set_manifold_id flat_manifold_id
      (set_boundary_id (cast_boundary_id material_id) c).

Definition read_ucd_boundary_line (cell material_id : Z)
    (vertex_indices : gmap Z Z) : M CellData :=
  let c := CellData_default 1 in
  let* vs := on_input (extract_unsigned_each 32 (vertices c)) in
  Assert (material_id <=? id_max) (ExcIndexRange material_id 0 id_max) ;;;
  Assert (material_id <? internal_face_boundary_id)
         (ExcIndexRange material_id 0 internal_face_boundary_id) ;;;
  let c := ucd_set_boundary_indicators material_id c in
  let* vs := renumber_or_throw vertex_indices (ExcInvalidVertexIndex cell) vs in
  ret (set_vertices vs c).

Definition read_ucd_boundary_quad (cell material_id : Z)
    (vertex_indices : gmap Z Z) : M CellData :=
  let c := CellData_default 2 in
  let* vs := on_input (extract_unsigned_each 32 (vertices c)) in
  Assert (material_id <=? id_max) (ExcIndexRange material_id 0 id_max) ;;;
  Assert (material_id <? internal_face_boundary_id)
         (ExcIndexRange material_id 0 internal_face_boundary_id) ;;;
  let c := ucd_set_boundary_indicators material_id c in
  let* vs := renumber_or_Assert vertex_indices (ExcInvalidVertexIndex cell) vs in
  ret (set_vertices vs c).

(** One pass of the loop over the cell list. *)
Definition read_ucd_entry (vertex_indices : gmap Z Z) (cell : Z)
    (st : list CellData * SubCellData) : M (list CellData * SubCellData) :=
  AssertThrow_in ExcIO ;;;
  let* dummy := on_input (extract_signed indeterminate_int) in
  let* material_id := on_input (extract_unsigned 32 indeterminate_int) in
  let* cell_type := on_input (extract_string "") in
  if (String.eqb cell_type "line" && (dim =? 1))
     || (String.eqb cell_type "quad" && (dim =? 2))
     || (String.eqb cell_type "hex" && (dim =? 3)) then
    let* c := read_ucd_cell cell material_id vertex_indices in
    ret (fst st ++ [c], snd st)
  else if String.eqb cell_type "line" && ((dim =? 2) || (dim =? 3)) then
    let* c := read_ucd_boundary_line cell material_id vertex_indices in
    ret (fst st,
         mkSubCellData (boundary_lines (snd st) ++ [c]) (boundary_quads (snd st)))
  else if String.eqb cell_type "quad" && (dim =? 3) then
    let* c := read_ucd_boundary_quad cell material_id vertex_indices in
    ret (fst st,
         mkSubCellData (boundary_lines (snd st)) (boundary_quads (snd st) ++ [c]))
  else throw (ExcUnknownIdentifier cell_type).

(** Everything the reader does before it turns to the triangulation: the
    vertices, the cells, the boundary entries and the declared number of
    entries of the cell list. *)
Definition read_ucd_parse : M (list Point * list CellData * SubCellData * Z) :=
  AssertThrow_in ExcIO ;;;
  skip_comment_lines "#"%char ;;;
  let* n_vertices := on_input (extract_unsigned 32 indeterminate_int) in
  let* n_cells := on_input (extract_unsigned 32 indeterminate_int) in
  let* dummy := on_input (extract_signed indeterminate_int) in
  let* dummy := on_input (extract_signed dummy) in
  let* dummy := on_input (extract_signed dummy) in
  AssertThrow_in ExcIO ;;;
  let* v := for_loop (Z.to_nat n_vertices) 0 read_ucd_vertex
         (repeat (Point_origin spacedim) (Z.to_nat n_vertices), ∅) in
  let* st := for_loop (Z.to_nat n_cells) 0 (read_ucd_entry (snd v))
          ([], SubCellData_empty) in
  ret (fst v, fst st, snd st, n_cells).

Definition read_ucd : M unit :=
  let* r := read_ucd_parse in
  let '(vertices, cells, subcelldata, _) := r in
  Assert (check_consistency dim subcelldata) ExcInternalError ;;;
  AssertThrow_in ExcIO ;;;
  let* m := call (delete_unused_vertices dim vertices cells subcelldata) in
  let '(vertices, cells, subcelldata) := m in
  let* cells := (if dim =? spacedim
            then call (invert_all_cells_of_negative_grid dim vertices cells)
            else ret cells) in
  let* cells := call (reorder_cells dim cells) in
  create_triangulation_compatibility dim vertices cells subcelldata.

End UCD.

(** ** [GridIn<dim, spacedim>::read_msh] *)

Section MSH.
Context `{Collaborators}.
Variables dim spacedim : Z.

(** [do { in >> line; } while (line != marker);]: once the stream has
    failed [line] no longer changes, and the loop never ends. *)
Fixpoint skip_until (passes : nat) (marker : string) (line : string) : M string :=
  match passes with
  | O => hang
  | S passes' =>
      let* line := in_string line in
      if_in
        (if String.eqb line marker then ret line
         else skip_until passes' marker line)
        (if String.eqb line marker then ret line else hang)
  end.

(** The bounding box and the physical tag of one entity of the
    [$Entities] block; points have a single corner from format 4.1 on. *)
Definition read_msh_entity_tag (single_corner : bool) : M (Z * Z) :=
  let* tag := in_int indeterminate_int in
  let* box := on_input (extract_double_each
                 (repeat indeterminate_double (if single_corner then 3 else 6))) in
  let* n_physicals := in_unsigned indeterminate_int in
  AssertThrow (n_physicals <? 2) (ExcMessage "More than one tag is not supported!") ;;;
  let* physical_tag :=
    for_loop (Z.to_nat n_physicals) 0 (fun _ t => in_int t) 0 in
  ret (tag, physical_tag).

(** The tags of the entities that bound an entity, read and dropped. *)
Definition read_msh_bounding_tags : M unit :=
  let* n := in_unsigned_long indeterminate_int in
  for_loop (Z.to_nat n) 0 (fun _ t => in_int t) indeterminate_int ;;;
  ret tt.

(** One pass over the entities of dimension [d]; [tag_maps[d][tag]] is
    kept under the key [(d, tag)]. *)
Definition read_msh_entity (gmsh_file_format : Z) (d : Z) (i : Z)
    (tag_maps : gmap (Z * Z) Z) : M (gmap (Z * Z) Z) :=
  let* t := read_msh_entity_tag ((d =? 0) && (40 <? gmsh_file_format)) in
  (if d =? 0 then ret tt else read_msh_bounding_tags) ;;;
  ret (<[(d, fst t) := snd t]> tag_maps).

Definition read_msh_entities (gmsh_file_format : Z) : M (gmap (Z * Z) Z) :=
  let* n_points := in_unsigned_long indeterminate_int in
  let* n_curves := in_unsigned_long indeterminate_int in
  let* n_surfaces := in_unsigned_long indeterminate_int in
  let* n_volumes := in_unsigned_long indeterminate_int in
  let* tag_maps := for_loop (Z.to_nat n_points) 0
                     (read_msh_entity gmsh_file_format 0) ∅ in
  let* tag_maps := for_loop (Z.to_nat n_curves) 0
                     (read_msh_entity gmsh_file_format 1) tag_maps in
  let* tag_maps := for_loop (Z.to_nat n_surfaces) 0
                     (read_msh_entity gmsh_file_format 2) tag_maps in
  let* tag_maps := for_loop (Z.to_nat n_volumes) 0
                     (read_msh_entity gmsh_file_format 3) tag_maps in
  let* line := in_string "$Entities" in
  AssertThrow (String.eqb line "$EndEntities") (ExcInvalidGMSHInput line) ;;;
  ret tag_maps.

(** The start of the file up to the keyword that opens the list of nodes:
    the format (10 for version 1, otherwise ten times the version) and the
    physical tags of the entities. *)
Definition read_msh_header : M (Z * gmap (Z * Z) Z) :=
  AssertThrow_in ExcIO ;;;
  let* line := in_string "" in
  let* gmsh_file_format :=
    (if String.eqb line "$NOD" then ret 10
     else if String.eqb line "$MeshFormat" then ret 20
     else throw (ExcInvalidGMSHInput line)) in
  if gmsh_file_format =? 20 then
    let* version := in_double indeterminate_double in
    let* file_type := in_unsigned indeterminate_int in
    let* data_size := in_unsigned indeterminate_int in
    Assert (double_leb (strtod "2.0") version && double_leb version (strtod "4.1"))
           ExcNotImplemented ;;;
    let gmsh_file_format :=
      double_to_unsigned (double_mul version (double_of_int 10)) in
    Assert (file_type =? 0) ExcNotImplemented ;;;
    Assert (data_size =? 8) ExcNotImplemented ;;;
    let* line := in_string line in
    AssertThrow (String.eqb line "$EndMeshFormat") (ExcInvalidGMSHInput line) ;;;
    let* line := in_string line in
    let* line :=
      (if String.eqb line "$PhysicalNames" then
         let* line := bounded_by_stream
                        (fun n => skip_until n "$EndPhysicalNames" line) in
         in_string line
       else ret line) in
    let* e :=
      (if String.eqb line "$Entities" then
         let* tag_maps := read_msh_entities gmsh_file_format in
         let* line := in_string "$EndEntities" in
         ret (line, tag_maps)
       else ret (line, ∅)) in
    let* line :=
      (if String.eqb (fst e) "$PartitionedEntities" then
         let* line := bounded_by_stream
                        (fun n => skip_until n "$EndPartitionedEntities" (fst e)) in
         in_string line
       else ret (fst e)) in
    AssertThrow (String.eqb line "$Nodes") (ExcInvalidGMSHInput line) ;;;
    ret (gmsh_file_format, snd e)
  else ret (gmsh_file_format, ∅).

(** What the loop over the nodes updates. *)
Record msh_nodes : Type := MshNodes {
  msh_vertices : list Point;
  msh_vertex_indices : gmap Z Z;
  msh_global_vertex : Z
}.

(** One pass of the loop over the nodes of an entity block.  The write to
    [vertices[global_vertex]] can fall past the end of the vector only in
    format 4, when the blocks hold more nodes than the header declares. *)
Definition read_msh_node (gmsh_file_format parametric : Z)
    (vertex_numbers : list Z) (vertex_per_entity : Z) (st : msh_nodes)
  : M msh_nodes :=
  let* vertex_number :=
    (if 40 <? gmsh_file_format
     then ret (nth (Z.to_nat vertex_per_entity) vertex_numbers 0)
     else in_int indeterminate_int) in
  let* x := on_input (extract_double_each (repeat indeterminate_double 3)) in
  let* vertices := vector_set (msh_global_vertex st) (Point_of spacedim x)
                      (msh_vertices st) in
  let* _ := (if negb (parametric =? 0)
             then on_input (extract_double_each [double_zero; double_zero])
             else ret []) in
  ret (MshNodes vertices
         (<[vertex_number := msh_global_vertex st]> (msh_vertex_indices st))
         (msh_global_vertex st + 1)).

Definition read_msh_node_block (gmsh_file_format n_vertices : Z)
    (entity_block : Z) (st : msh_nodes) : M msh_nodes :=
  let* b :=
    (if gmsh_file_format <? 40 then ret (0, n_vertices)
     else
       let* tagEntity := in_int indeterminate_int in
       let* dimEntity := in_int indeterminate_int in
       let* parametric := in_int indeterminate_int in
       let* numNodes := in_unsigned_long indeterminate_int in
       ret (parametric, numNodes)) in
  let* vertex_numbers :=
    (if 40 <? gmsh_file_format then
       for_loop (Z.to_nat (snd b)) 0
         (fun _ (st : Z * list Z) =>
            let* vertex_number := in_int (fst st) in
            ret (vertex_number, snd st ++ [vertex_number]))
         (indeterminate_int, [])
     else ret (indeterminate_int, [])) in
  for_loop (Z.to_nat (snd b)) 0
    (read_msh_node gmsh_file_format (fst b) (snd vertex_numbers)) st.

(** The list of nodes, up to the keyword that opens the list of elements;
    the second component is the variable [n_entity_blocks]. *)
Definition read_msh_nodes (gmsh_file_format : Z) : M (msh_nodes * Z) :=
  let* h :=
    (if 40 <? gmsh_file_format then
       let* n_entity_blocks := in_int 1 in
       let* n_vertices := in_unsigned indeterminate_int in
       let* min_node_tag := in_int indeterminate_int in
       let* max_node_tag := in_int indeterminate_int in
       ret (n_entity_blocks, n_vertices)
     else if gmsh_file_format =? 40 then
       let* n_entity_blocks := in_int 1 in
       let* n_vertices := in_unsigned indeterminate_int in
       ret (n_entity_blocks, n_vertices)
     else
       let* n_vertices := in_unsigned indeterminate_int in
       ret (1, n_vertices)) in
  let* st := for_loop (Z.to_nat (fst h)) 0
               (read_msh_node_block gmsh_file_format (snd h))
               (MshNodes (repeat (Point_origin spacedim) (Z.to_nat (snd h))) ∅ 0) in
  Assert (msh_global_vertex st =? snd h)
         (ExcDimensionMismatch (msh_global_vertex st) (snd h)) ;;;
  let* line := in_string "$Nodes" in
  AssertThrow
    (String.eqb line (if gmsh_file_format =? 10 then "$ENDNOD" else "$EndNodes"))
    (ExcInvalidGMSHInput line) ;;;
  let* line := in_string line in
  AssertThrow
    (String.eqb line (if gmsh_file_format =? 10 then "$ELM" else "$Elements"))
    (ExcInvalidGMSHInput line) ;;;
  ret (st, fst h).

(** What the loop over the elements updates: besides the cells and the
    boundary entries, the variables that live across passes ([material_id],
    [cell_type], [dummy]), the vertex map (which [operator[]] extends), the
    boundary ids of vertices in 1d, the number of elements read and how
    many of them were points (type 15). *)
Record msh_elements : Type := MshElements {
  msh_material_id : Z;
  msh_cell_type : Z;
  msh_dummy : Z;
  msh_cells : list CellData;
  msh_subcelldata : SubCellData;
  msh_indices : gmap Z Z;
  msh_boundary_ids_1d : gmap Z Z;
  msh_global_cell : Z;
  msh_points : nat
}.

Definition msh_n_objects (st : msh_elements) : nat :=
  (length (msh_cells st) + length (boundary_quads (msh_subcelldata st))
   + length (boundary_lines (msh_subcelldata st)))%nat.

(** The start of an element's line: its number, type, material and number
    of nodes, as the format gives them. *)
Definition read_msh_element_head (gmsh_file_format : Z) (st : msh_elements)
  : M (Z * Z * Z * Z * Z) :=
  let* n :=
    (if gmsh_file_format <? 40 then
       let* elm_number := in_unsigned 0 in
       let* cell_type := in_int (msh_cell_type st) in
       ret (elm_number, cell_type)
     else ret (0, msh_cell_type st)) in
  if gmsh_file_format <? 20 then
    let* material_id := in_unsigned (msh_material_id st) in
    let* dummy := in_unsigned (msh_dummy st) in
    let* nod_num := in_unsigned indeterminate_int in
    ret (fst n, snd n, material_id, dummy, nod_num)
  else if gmsh_file_format <? 40 then
    let* n_tags := in_unsigned indeterminate_int in
    let* material_id :=
      (if 0 <? n_tags then in_unsigned (msh_material_id st) else ret 0) in
    let* dummy := for_loop (Z.to_nat (n_tags - 1)) 1
                    (fun _ d => in_unsigned d) (msh_dummy st) in
    ret (fst n, snd n, material_id, dummy, Z.of_nat (vertices_per_cell dim))
  else
    let* tag := in_int indeterminate_int in
    ret (fst n, snd n, msh_material_id st, msh_dummy st,
         Z.of_nat (vertices_per_cell dim)).

Definition read_msh_cell (cell_per_entity elm_number material_id nod_num : Z)
    (vertex_indices : gmap Z Z) : M CellData :=
  AssertThrow (nod_num =? Z.of_nat (vertices_per_cell dim))
    (ExcMessage "Number of nodes does not coincide with the number required for this object") ;;;
  let c := CellData_default dim in
  let* vs := on_input (extract_unsigned_each 32 (vertices c)) in
  Assert (material_id <=? id_max) (ExcIndexRange material_id 0 id_max) ;;;
  Assert (material_id <? invalid_material_id)
         (ExcIndexRange material_id 0 invalid_material_id) ;;;
  let c := set_material_id (cast_material_id material_id) c in
  let* vs := renumber_or_throw vertex_indices
               (ExcInvalidVertexIndexGmsh cell_per_entity elm_number) vs in
  ret (set_vertices vs c).

Definition read_msh_boundary_line (cell_per_entity material_id : Z)
    (vertex_indices : gmap Z Z) : M CellData :=
  let c := CellData_default 1 in
  let* vs := on_input (extract_unsigned_each 32 (vertices c)) in
  Assert (material_id <=? id_max) (ExcIndexRange material_id 0 id_max) ;;;
  Assert (material_id <? internal_face_boundary_id)
         (ExcIndexRange material_id 0 internal_face_boundary_id) ;;;
  let c := set_boundary_id (cast_boundary_id material_id) c in
  let* vs := renumber_or_throw vertex_indices
               (ExcInvalidVertexIndex cell_per_entity) vs in
  ret (set_vertices vs c).

Definition read_msh_boundary_quad (cell_per_entity material_id : Z)
    (vertex_indices : gmap Z Z) : M CellData :=
  let c := CellData_default 2 in
  let* vs := on_input (extract_unsigned_each 32 (vertices c)) in
  Assert (material_id <=? id_max) (ExcIndexRange material_id 0 id_max) ;;;
  Assert (material_id <? internal_face_boundary_id)
         (ExcIndexRange material_id 0 internal_face_boundary_id) ;;;
  let c := set_boundary_id (cast_boundary_id material_id) c in
  let* vs := renumber_or_Assert vertex_indices
               (ExcInvalidVertexIndex cell_per_entity) vs in
  ret (set_vertices vs c).

(** One pass of the loop over the elements of an entity block. *)
Definition read_msh_element (gmsh_file_format : Z) (cell_per_entity : Z)
    (st : msh_elements) : M msh_elements :=
  AssertThrow_in ExcIO ;;;
  let* h := read_msh_element_head gmsh_file_format st in
  let '(elm_number, cell_type, material_id, dummy, nod_num) := h in
  let next (cells : list CellData) (sub : SubCellData) (indices ids : gmap Z Z)
           (points : nat) :=
    MshElements material_id cell_type dummy cells sub indices ids
                (msh_global_cell st + 1) points in
  if ((cell_type =? 1) && (dim =? 1)) || ((cell_type =? 3) && (dim =? 2))
     || ((cell_type =? 5) && (dim =? 3)) then
    let* c := read_msh_cell cell_per_entity elm_number material_id nod_num
                (msh_indices st) in
    ret (next (msh_cells st ++ [c]) (msh_subcelldata st) (msh_indices st)
              (msh_boundary_ids_1d st) (msh_points st))
  else if (cell_type =? 1) && ((dim =? 2) || (dim =? 3)) then
    let* c := read_msh_boundary_line cell_per_entity material_id (msh_indices st) in
    ret (next (msh_cells st)
              (mkSubCellData (boundary_lines (msh_subcelldata st) ++ [c])
                             (boundary_quads (msh_subcelldata st)))
              (msh_indices st) (msh_boundary_ids_1d st) (msh_points st))
  else if (cell_type =? 3) && (dim =? 3) then
    let* c := read_msh_boundary_quad cell_per_entity material_id (msh_indices st) in
    ret (next (msh_cells st)
              (mkSubCellData (boundary_lines (msh_subcelldata st))
                             (boundary_quads (msh_subcelldata st) ++ [c]))
              (msh_indices st) (msh_boundary_ids_1d st) (msh_points st))
  else if cell_type =? 15 then
    let* node_index :=
      (if gmsh_file_format <? 20
       then for_loop (Z.to_nat nod_num) 0 (fun _ n => in_unsigned n) 0
       else in_unsigned 0) in
    if dim =? 1 then
      let v := default 0 (msh_indices st !! to_int node_index) in
      ret (next (msh_cells st) (msh_subcelldata st)
                (<[to_int node_index := v]> (msh_indices st))
                (<[to_unsigned v := cast_boundary_id material_id]>
                   (msh_boundary_ids_1d st))
                (S (msh_points st)))
    else
      ret (next (msh_cells st) (msh_subcelldata st) (msh_indices st)
                (msh_boundary_ids_1d st) (S (msh_points st)))
  else
    AssertThrow (negb (cell_type =? 2))
      (ExcMessage "Found triangles while reading a file in gmsh format. deal.II does not support triangles") ;;;
    AssertThrow (negb (cell_type =? 11))
      (ExcMessage "Found tetrahedra while reading a file in gmsh format. deal.II does not support tetrahedra") ;;;
    throw (ExcGmshUnsupportedGeometry cell_type).

(** One entity block of the list of elements.  In format 4 the block's
    header gives the type of its elements and, through the entity it names,
    their material; [tag_maps[dimEntity]] is defined for [dimEntity] from 0
    to 3 only (the model reads the tag 0 outside). *)
Definition read_msh_element_block (gmsh_file_format n_cells : Z)
    (tag_maps : gmap (Z * Z) Z) (entity_block : Z) (st : msh_elements)
  : M msh_elements :=
  let* b :=
    (if gmsh_file_format <? 40 then ret (0, 0, n_cells)
     else
       let* t1 := in_int indeterminate_int in
       let* t2 := in_int indeterminate_int in
       let* cell_type := in_int indeterminate_int in
       let* numElements := in_unsigned_long indeterminate_int in
       let key := if gmsh_file_format =? 40 then (t2, t1) else (t1, t2) in
       ret (to_unsigned (default 0 (tag_maps !! key)), cell_type, numElements)) in
  let '(material_id, cell_type, numElements) := b in
  for_loop (Z.to_nat numElements) 0 (read_msh_element gmsh_file_format)
    (MshElements material_id cell_type (msh_dummy st) (msh_cells st)
       (msh_subcelldata st) (msh_indices st) (msh_boundary_ids_1d st)
       (msh_global_cell st) (msh_points st)).

(** The list of elements: the declared number of elements and what was
    read. *)
Definition read_msh_elements (gmsh_file_format n_entity_blocks : Z)
    (tag_maps : gmap (Z * Z) Z) (vertex_indices : gmap Z Z)
  : M (Z * msh_elements) :=
  let* h :=
    (if 40 <? gmsh_file_format then
       let* n_entity_blocks := in_int n_entity_blocks in
       let* n_cells := in_unsigned indeterminate_int in
       let* min_node_tag := in_int indeterminate_int in
       let* max_node_tag := in_int indeterminate_int in
       ret (n_entity_blocks, n_cells)
     else if gmsh_file_format =? 40 then
       let* n_entity_blocks := in_int n_entity_blocks in
       let* n_cells := in_unsigned indeterminate_int in
       ret (n_entity_blocks, n_cells)
     else
       let* n_cells := in_unsigned indeterminate_int in
       ret (1, n_cells)) in
  let* st := for_loop (Z.to_nat (fst h)) 0
               (read_msh_element_block gmsh_file_format (snd h) tag_maps)
               (MshElements indeterminate_int indeterminate_int indeterminate_int
                  [] SubCellData_empty vertex_indices ∅ 0 0) in
  Assert (msh_global_cell st =? snd h)
         (ExcDimensionMismatch (msh_global_cell st) (snd h)) ;;;
  ret (snd h, st).

(** The marker that closes the list of elements, and the checks that
    follow it.  The string read into holds the marker that opened the
    list, which is written as that of the formats 2 and 4 (in format 1 it
    is [$ELM]); it is kept only when the extraction fails. *)
Definition read_msh_end (gmsh_file_format : Z) (st : msh_elements) : M unit :=
  let* line := in_string "$Elements" in
  AssertThrow
    (String.eqb line (if gmsh_file_format =? 10 then "$ENDELM" else "$EndElements"))
    (ExcInvalidGMSHInput line) ;;;
  Assert (check_consistency dim (msh_subcelldata st)) ExcInternalError ;;;
  AssertThrow_in ExcIO ;;;
  AssertThrow (0 <? Z.of_nat (length (msh_cells st))) ExcGmshNoCellInformation.

(** [assign_1d_boundary_ids]: for every face (end point) of every active
    cell whose vertex has a boundary id, the face must be at the boundary,
    and is given the id. *)
Definition assign_1d_boundary_id (boundary_ids : gmap Z Z)
    (cell : nat) (f : nat) (vertex_index : Z) : M unit :=
  match boundary_ids !! vertex_index with
  | Some id =>
      fun w =>
        if at_boundary_1d (tria w) cell f
        then (Ok tt, World (input w) (tria w ++ [called_set_boundary_id cell f id]))
        else (Throw (ExcMessage "You are trying to prescribe boundary ids on the face of a 1d cell (i.e., on a vertex), but this face is not actually at the boundary of the mesh. This is not allowed."), w)
  | None => ret tt
  end.

Fixpoint assign_1d_boundary_ids_cells (boundary_ids : gmap Z Z)
    (cell : nat) (cells : list (list Z)) : M unit :=
  match cells with
  | [] => ret tt
  | c :: cells' =>
      assign_1d_boundary_id boundary_ids cell 0 (nth 0 c 0) ;;;
      assign_1d_boundary_id boundary_ids cell 1 (nth 1 c 0) ;;;
      assign_1d_boundary_ids_cells boundary_ids (S cell) cells'
  end.

Definition assign_1d_boundary_ids (boundary_ids : gmap Z Z) : M unit :=
  if 0 <? Z.of_nat (size boundary_ids) then
    fun w => assign_1d_boundary_ids_cells boundary_ids 0
               (active_cells_1d (tria w)) w
  else ret tt.

(** The file up to the end of the list of elements: the format, the
    vertices, the declared number of elements and what was read of them. *)
Definition read_msh_sections : M (Z * list Point * Z * msh_elements) :=
  let* h := read_msh_header in
  let* n := read_msh_nodes (fst h) in
  let* e := read_msh_elements (fst h) (snd n) (snd h)
              (msh_vertex_indices (fst n)) in
  ret (fst h, msh_vertices (fst n), fst e, snd e).

(** Everything the reader does before it turns to the triangulation. *)
Definition read_msh_parse : M (list Point * Z * msh_elements) :=
  let* r := read_msh_sections in
  let '(gmsh_file_format, vertices, n_cells, st) := r in
  read_msh_end gmsh_file_format st ;;;
  ret (vertices, n_cells, st).

Definition read_msh : M unit :=
  let* r := read_msh_parse in
  let '(vertices, _, st) := r in
  let* m := call (delete_unused_vertices dim vertices (msh_cells st)
                    (msh_subcelldata st)) in
  let '(vertices, cells, subcelldata) := m in
  let* cells := (if dim =? spacedim
                 then call (invert_all_cells_of_negative_grid dim vertices cells)
                 else ret cells) in
  let* cells := call (reorder_cells dim cells) in
  create_triangulation_compatibility dim vertices cells subcelldata ;;;
  if dim =? 1 then assign_1d_boundary_ids (msh_boundary_ids_1d st) else ret tt.

End MSH.

(** ** [GridIn<2>::read_tecplot] *)

(** [npos] and [size_t]: the positions of a [std::string]. *)
Definition npos : Z := 2 ^ 64 - 1.
Definition size_t (n : Z) : Z := n mod 2 ^ 64.

Definition string_size (s : string) : Z := Z.of_nat (String.length s).

(** [s.find(pattern, pos)]. *)
Definition string_find (s pattern : string) (pos : Z) : Z :=
  if Z.of_nat (String.length s) <? pos then npos
  else match String.index (Z.to_nat pos) pattern s with
       | Some k => Z.of_nat k
       | None => npos
       end.

(** [s.substr(pos, len)], which throws [std::out_of_range] when [pos] is
    past the end. *)
Definition string_substr (s : string) (pos len : Z) : option string :=
  if string_size s <? pos then None
  else Some (String.substring (Z.to_nat pos)
               (Z.to_nat (Z.min len (string_size s - pos))) s).

(** [s[pos]]: the character, a null character at the end, and no defined
    behaviour past it. *)
Definition string_at (s : string) (pos : Z) : result ascii :=
  if (0 <=? pos) && (pos <=? string_size s) then
    Ok (default "000"%char (String.get (Z.to_nat pos) s))
  else Undefined.

(** [s.erase(pos, 1)] for a position of [s]. *)
Definition string_erase (s : string) (pos : Z) : string :=
  String.substring 0 (Z.to_nat pos) s
  +:+ String.substring (S (Z.to_nat pos)) (String.length s) s.

Fixpoint string_mem (c : ascii) (s : string) : bool :=
  match s with
  | EmptyString => false
  | String x s' => Ascii.eqb c x || string_mem c s'
  end.

(** [line.find_first_of(chars) != std::string::npos]. *)
Fixpoint find_first_of_found (line chars : string) : bool :=
  match line with
  | EmptyString => false
  | String c line' => string_mem c chars || find_first_of_found line' chars
  end.

(** [std::replace(s.begin(), s.end(), a, b)]. *)
Definition string_replace (a b : ascii) (s : string) : string :=
  string_map (fun c => if Ascii.eqb c a then b else c) s.

Definition dquote : ascii := "034"%char.

(** The text [s] between double quotes. *)
Definition quoted (s : string) : string :=
  String dquote (s +:+ String dquote EmptyString).

(** Arithmetic of [unsigned int]. *)
Definition u32 (n : Z) : Z := n mod 2 ^ 32.

Section Tecplot.
Context `{Collaborators}.

(** What [parse_tecplot_header] hands back through its references. *)
Record tecplot_header : Type := TecplotHeader {
  tecplot2deal : list Z;
  n_vars : Z;
  n_vertices : Z;
  n_cells : Z;
  IJK : list Z;
  structured : bool;
  blocked : bool
}.

(** The loop that removes the blanks around every ['=']. *)
Fixpoint strip_blanks_at_equals (passes : nat) (header : string) (pos : Z)
  : M string :=
  match passes with
  | O => hang
  | S passes' =>
      if pos =? npos then ret header
      else
        let* after := call (string_at header (size_t (pos + 1))) in
        if Ascii.eqb after " " then
          strip_blanks_at_equals passes' (string_erase header (pos + 1)) pos
        else
          let* before := call (string_at header (size_t (pos - 1))) in
          if Ascii.eqb before " " then
            strip_blanks_at_equals passes' (string_erase header (pos - 1))
              (pos - 1)
          else
            strip_blanks_at_equals passes' header
              (string_find header "=" (size_t (pos + 1)))
  end.

(** The names that follow [VARIABLES=]: the loop over the entries that
    start with a double quote.  The loop ends at the first entry that does
    not start with one; past the last entry, [entries[i]] has no defined
    behaviour. *)
Fixpoint parse_variables (passes : nat) (dim : Z) (entries : list string)
    (i n_vars : Z) (tecplot2deal : list Z) : M (Z * Z * list Z) :=
  match passes with
  | O => hang
  | S passes' =>
      match entries !! Z.to_nat i with
      | None => undefined
      | Some entry =>
          if match entry with
             | String c _ => Ascii.eqb c dquote
             | EmptyString => false
             end
          then
            let* tecplot2deal :=
              if String.eqb entry (quoted "X") then vector_set 0 n_vars tecplot2deal
              else if String.eqb entry (quoted "Y") then
                if 1 <? dim then vector_set 1 n_vars tecplot2deal
                else ret tecplot2deal
              else if String.eqb entry (quoted "Z") then
                if 2 <? dim then vector_set 2 n_vars tecplot2deal
                else ret tecplot2deal
              else ret tecplot2deal in
            parse_variables passes' dim entries (u32 (i + 1)) (u32 (n_vars + 1))
              tecplot2deal
          else ret (i, n_vars, tecplot2deal)
      end
  end.

(** [for (d = 1; d < dim; ++d) AssertThrow(tecplot2deal[d] > 0, ...)]. *)
Definition check_variables (dim : Z) (tecplot2deal : list Z) : M unit :=
  let* _ := for_loop (Z.to_nat (dim - 1)) 1 (fun d _ =>
    match tecplot2deal !! Z.to_nat d with
    | Some t =>
        AssertThrow (0 <? t)
          (ExcMessage "Tecplot file must contain at least one variable for each dimension.")
    | None => undefined
    end) tt in
  ret tt.

(** An entry other than [VARIABLES=]. *)
Definition parse_tecplot_entry (dim : Z) (entry : string) (h : tecplot_header)
  : M tecplot_header :=
  let starts := match_at_string_start entry in
  let with_format (s b : bool) :=
    TecplotHeader (tecplot2deal h) (n_vars h) (n_vertices h) (n_cells h) (IJK h)
                  s b in
  let integer := u32 (get_integer_at_position entry 2) in
  let with_IJK (d : Z) :=
    let* ijk := vector_set d integer (IJK h) in
    ret (TecplotHeader (tecplot2deal h) (n_vars h) (n_vertices h) (n_cells h)
                       ijk (structured h) (blocked h)) in
  if starts "ZONETYPE=ORDERED" then ret (with_format true (blocked h))
  else if starts "ZONETYPE=FELINESEG" && (dim =? 1) then
    ret (with_format false (blocked h))
  else if starts "ZONETYPE=FEQUADRILATERAL" && (dim =? 2) then
    ret (with_format false (blocked h))
  else if starts "ZONETYPE=FEBRICK" && (dim =? 3) then
    ret (with_format false (blocked h))
  else if starts "ZONETYPE=" then
    throw (ExcMessage "The tecplot file contains an unsupported ZONETYPE.")
  else if starts "DATAPACKING=POINT" then ret (with_format (structured h) false)
  else if starts "DATAPACKING=BLOCK" then ret (with_format (structured h) true)
  else if starts "F=POINT" then ret (with_format true false)
  else if starts "F=BLOCK" then ret (with_format true true)
  else if starts "F=FEPOINT" then ret (with_format false false)
  else if starts "F=FEBLOCK" then ret (with_format false true)
  else if starts "ET=QUADRILATERAL" && (dim =? 2) then
    ret (with_format false (blocked h))
  else if starts "ET=BRICK" && (dim =? 3) then
    ret (with_format false (blocked h))
  else if starts "ET=" then
    throw (ExcMessage "The tecplot file contains an unsupported ElementType.")
  else if starts "I=" then with_IJK 0
  else if starts "J=" then
    let* h := with_IJK 1 in
    AssertThrow ((1 <? dim) || (integer =? 1))
      (ExcMessage "Parameter 'J=' found in tecplot, although this is only possible for dimensions greater than 1.") ;;;
    ret h
  else if starts "K=" then
    let* h := with_IJK 2 in
    AssertThrow ((2 <? dim) || (integer =? 1))
      (ExcMessage "Parameter 'K=' found in tecplot, although this is only possible for dimensions greater than 2.") ;;;
    ret h
  else if starts "N=" then
    ret (TecplotHeader (tecplot2deal h) (n_vars h) integer (n_cells h) (IJK h)
                       (structured h) (blocked h))
  else if starts "E=" then
    ret (TecplotHeader (tecplot2deal h) (n_vars h) (n_vertices h) integer (IJK h)
                       (structured h) (blocked h))
  else ret h.

(** [for (i = 0; i < entries.size(); ++i)], whose body moves [i] on in
    the [VARIABLES=] case. *)
Fixpoint parse_tecplot_entries (passes : nat) (dim : Z) (entries : list string)
    (i : Z) (h : tecplot_header) : M tecplot_header :=
  match passes with
  | O => hang
  | S passes' =>
      match entries !! Z.to_nat i with
      | None => ret h
      | Some entry =>
          if match_at_string_start entry ("VARIABLES=" +:+ String dquote "") then
            let n := u32 (n_vars h + 1) in
            let* t2d :=
              if match_at_string_start entry ("VARIABLES=" +:+ quoted "X")
              then vector_set 0 0 (tecplot2deal h) else ret (tecplot2deal h) in
            let* r := parse_variables (S (length entries)) dim entries
                        (u32 (i + 1)) n t2d in
            let '(i, n, t2d) := r in
            let i := u32 (i - 1) in
            AssertThrow (dim <=? n)
              (ExcMessage "Tecplot file must contain at least one variable for each dimension") ;;;
            check_variables dim t2d ;;;
            parse_tecplot_entries passes' dim entries (u32 (i + 1))
              (TecplotHeader t2d n (n_vertices h) (n_cells h) (IJK h)
                             (structured h) (blocked h))
          else
            let* h := parse_tecplot_entry dim entry h in
            parse_tecplot_entries passes' dim entries (u32 (i + 1)) h
      end
  end.

Definition incomplete_parameters : exc :=
  ExcMessage "Tecplot file does not contain a complete and consistent set of parameters".

(** The counts of a structured zone: [n_vertices *= IJK[d]] and
    [n_cells *= (IJK[d] - 1)] for every [d < dim]. *)
Definition structured_counts (dim : Z) (ijk : list Z) : M (Z * Z) :=
  for_loop (Z.to_nat dim) 0 (fun d counts =>
    match ijk !! Z.to_nat d with
    | Some n =>
        AssertThrow (0 <? n) incomplete_parameters ;;;
        ret (u32 (fst counts * n), u32 (snd counts * u32 (n - 1)))
    | None => undefined
    end) (1, 1).

(** [GridIn::parse_tecplot_header]. *)
Definition parse_tecplot_header (dim : Z) (header : string) : M tecplot_header :=
  let zeros := repeat 0 (Z.to_nat dim) in
  let header := string_map toupper header in
  let header := string_replace "009"%char " " header in
  let header := string_replace "," " " header in
  let header := string_replace "010"%char " " header in
  let* header := strip_blanks_at_equals (2 * String.length header + 2) header
                   (string_find header "=" 0) in
  let entries := break_text_into_lines header 1 " " in
  let* h := parse_tecplot_entries (S (length entries)) dim entries 0
              (TecplotHeader zeros 0 0 0 zeros true false) in
  if structured h then
    let* counts := structured_counts dim (IJK h) in
    ret (TecplotHeader (tecplot2deal h) (n_vars h) (fst counts) (snd counts)
                       (IJK h) true (blocked h))
  else
    AssertThrow (0 <? n_vertices h) incomplete_parameters ;;;
    let cells := if n_cells h =? 0 then fold_right Z.max 0 (IJK h)
                 else n_cells h in
    AssertThrow (0 <? cells) incomplete_parameters ;;;
    ret (TecplotHeader (tecplot2deal h) (n_vars h) (n_vertices h) cells (IJK h)
                       false (blocked h)).

(** The lines of the header: [while (line.find_first_of(letters) != npos)].
    At the end of the stream [getline] leaves the line as it is, and the
    loop does not end. *)
Definition letters : string :=
  "abcdfghijklmnopqrstuvwxyzABCDFGHIJKLMNOPQRSTUVWXYZ".

Fixpoint read_tecplot_header_lines (passes : nat) (line header : string)
  : M (string * string) :=
  match passes with
  | O => hang
  | S passes' =>
      if find_first_of_found line letters then
        let header := header +:+ " " +:+ line in
        let* line := on_input (getline line) in
        read_tecplot_header_lines passes' line header
      else ret (line, header)
  end.

(** [vertices[j](d) = x]. *)
Definition set_coordinate (j d : Z) (x : double) (vertices : list Point)
  : M (list Point) :=
  match vertices !! Z.to_nat j with
  | Some p =>
      let* p := vector_set d x p in
      vector_set j p vertices
  | None => undefined
  end.

(** [in >> vertices[j](d)]. *)
Definition read_coordinate (d j : Z) (vertices : list Point) : M (list Point) :=
  match vertices !! Z.to_nat j with
  | Some p =>
      match p !! Z.to_nat d with
      | Some old =>
          let* x := in_double old in
          set_coordinate j d x vertices
      | None => undefined
      end
  | None => undefined
  end.

(** [for (j = first; j < n_vertices + 1; ++j) in >> vertices[j](d)]. *)
Definition read_coordinates (d first n_vertices : Z) (vertices : list Point)
  : M (list Point) :=
  for_loop (Z.to_nat (u32 (n_vertices + 1) - first)) first (read_coordinate d)
    vertices.

(** The blocked format: the values of one variable for all points, then
    those of the next.  The first line has been read already. *)
Definition read_tecplot_first_variable (h : tecplot_header) (line : string)
    (vertices : list Point) : M (list Point * Z) :=
  match tecplot2deal h !! 0%nat with
  | None => undefined
  | Some t =>
      if t =? 0 then
        let first_var := break_text_into_lines line 1 " " in
        let* vertices :=
          for_loop (length first_var) 1 (fun i vertices =>
            match first_var !! Z.to_nat (i - 1) with
            | Some word => set_coordinate i 0 (strtod word) vertices
            | None => undefined
            end) vertices in
        let* vertices :=
          read_coordinates 0 (u32 (Z.of_nat (length first_var) + 1))
            (n_vertices h) vertices in
        ret (vertices, 1)
      else ret (vertices, 0)
  end.

(** One pass of the loop over the other variables; [None] stands for
    [break]. *)
Definition read_tecplot_variable (dim : Z) (h : tecplot_header) (i : Z)
    (st : option (list Point * Z)) : M (option (list Point * Z)) :=
  match st with
  | None => ret None
  | Some (vertices, next_index) =>
      if (next_index =? dim) && structured h then ret None
      else
        let wanted :=
          if next_index <? dim then
            match tecplot2deal h !! Z.to_nat next_index with
            | Some t => Ok (i =? t)
            | None => Undefined
            end
          else Ok false in
        let* wanted := call wanted in
        if wanted then
          let* vertices := read_coordinates next_index 1 (n_vertices h) vertices in
          ret (Some (vertices, u32 (next_index + 1)))
        else
          for_loop (Z.to_nat (u32 (n_vertices h + 1) - 1)) 1
            (fun _ dummy => in_double dummy) indeterminate_double ;;;
          ret (Some (vertices, next_index))
  end.

(** The loop stops at [break]; the state it leaves is the one before. *)
Fixpoint read_tecplot_variables (n : nat) (dim : Z) (h : tecplot_header)
    (i : Z) (vertices : list Point) (next_index : Z) : M (list Point * Z) :=
  match n with
  | O => ret (vertices, next_index)
  | S n' =>
      let* st := read_tecplot_variable dim h i (Some (vertices, next_index)) in
      match st with
      | None => ret (vertices, next_index)
      | Some (vertices, next_index) =>
          read_tecplot_variables n' dim h (i + 1) vertices next_index
      end
  end.

Definition read_tecplot_blocked (dim : Z) (h : tecplot_header) (line : string)
    (vertices : list Point) : M (list Point) :=
  let* r := read_tecplot_first_variable h line vertices in
  let* r := read_tecplot_variables (Z.to_nat (n_vars h - 1)) dim h 1
              (fst r) (snd r) in
  Assert (snd r =? dim) ExcInternalError ;;;
  ret (fst r).

(** The point format: all variables of one point, then those of the
    next.  [vars[tecplot2deal[i]]] is read for every [i < dim]. *)
Definition select_variables (dim : Z) (h : tecplot_header) {A}
    (vars : list A) : result (list A) :=
  fold_right (fun d acc =>
    match acc, tecplot2deal h !! d with
    | Ok xs, Some t =>
        match vars !! Z.to_nat t with
        | Some x => Ok (x :: xs)
        | None => Undefined
        end
    | Ok _, None => Undefined
    | r, _ => r
    end) (Ok []) (seq 0 (Z.to_nat dim)).

Definition set_point (dim v : Z) (xs : list double) (vertices : list Point)
  : M (list Point) :=
  for_loop (Z.to_nat dim) 0 (fun d vertices =>
    match xs !! Z.to_nat d with
    | Some x => set_coordinate v d x vertices
    | None => undefined
    end) vertices.

Definition read_tecplot_point (dim : Z) (h : tecplot_header) (v : Z)
    (st : list double * list Point) : M (list double * list Point) :=
  let* vars := on_input (extract_double_each (fst st)) in
  let* xs := call (select_variables dim h vars) in
  let* vertices := set_point dim v xs (snd st) in
  ret (vars, vertices).

Definition read_tecplot_points (dim : Z) (h : tecplot_header) (line : string)
    (vertices : list Point) : M (list Point) :=
  let vars := repeat double_zero (Z.to_nat (n_vars h)) in
  let first_vertex := break_text_into_lines line 1 " " in
  let* xs := call (select_variables dim h first_vertex) in
  let* vertices := set_point dim 1 (map strtod xs) vertices in
  let* r := for_loop (Z.to_nat (u32 (n_vertices h + 1) - 2)) 2
              (read_tecplot_point dim h) (vars, vertices) in
  ret (snd r).

(** The cells of a structured zone, and the vertices at its boundary. *)
Definition set_cell_vertices (cell : Z) (vs : list Z) (cells : list CellData)
  : M (list CellData) :=
  match cells !! Z.to_nat cell with
  | Some c => vector_set cell (set_vertices vs c) cells
  | None => undefined
  end.

Definition structured_cell (I j i : Z) : list Z :=
  [u32 (i + j * I); u32 (i + 1 + j * I); u32 (i + 1 + (j + 1) * I);
   u32 (i + (j + 1) * I)].

Definition tecplot_structured_cells (I J : Z) (cells : list CellData)
  : M (list CellData * Z) :=
  for_loop (Z.to_nat (u32 (J - 1))) 0 (fun j st =>
    for_loop (Z.to_nat (I - 1)) 1 (fun i st =>
      let* cells := set_cell_vertices (snd st) (structured_cell I j i) (fst st) in
      ret (cells, u32 (snd st + 1))) st) (cells, 0).

Definition tecplot_boundary_vertices (I J : Z) : M (list Z * Z) :=
  let boundary_vertices := repeat 0 (Z.to_nat (u32 (2 * I + 2 * J - 4))) in
  let* st := for_loop (Z.to_nat (u32 (I + 1) - 1)) 1 (fun i st =>
    let* b := vector_set (snd st) i (fst st) in
    let k := u32 (snd st + 1) in
    let* b := vector_set k (u32 (i + u32 (J - 1) * I)) b in
    ret (b, u32 (k + 1))) (boundary_vertices, 0) in
  for_loop (Z.to_nat (u32 (J - 1) - 1)) 1 (fun j st =>
    let* b := vector_set (snd st) (u32 (1 + j * I)) (fst st) in
    let k := u32 (snd st + 1) in
    let* b := vector_set k (u32 (I + j * I)) b in
    ret (b, u32 (k + 1))) st.

(** The connectivity of an unstructured zone. *)
Definition read_tecplot_cell (i : Z) (cells : list CellData)
  : M (list CellData) :=
  AssertThrow_in ExcIO ;;;
  match cells !! Z.to_nat i with
  | Some c =>
      let* vs := on_input (extract_unsigned_each 32 (vertices c)) in
      vector_set i (set_vertices vs c) cells
  | None => undefined
  end.

(** What the reader holds when it turns to the clean-up of the vertices:
    the header, the vertices with the vertex it has put in front of those
    of the file, the cells, and for a structured zone the vertices at the
    boundary. *)
Definition read_tecplot_mesh
  : M (tecplot_header * list Point * list CellData * list Z) :=
  let dim := 2 in
  let spacedim := 2 in
  AssertThrow_in ExcIO ;;;
  skip_comment_lines "#" ;;;
  let* r := bounded_by_stream (fun n =>
              let* line := on_input (getline "") in
              read_tecplot_header_lines n line "") in
  let '(line, header) := r in
  let* h := parse_tecplot_header dim header in
  let vertices := repeat (Point_origin spacedim)
                    (Z.to_nat (u32 (n_vertices h + 1))) in
  let* vertices := vector_set 0 (Point_origin spacedim) vertices in
  let cells := repeat (CellData_default dim) (Z.to_nat (n_cells h)) in
  let* vertices :=
    if blocked h then read_tecplot_blocked dim h line vertices
    else read_tecplot_points dim h line vertices in
  if structured h then
    match IJK h with
    | [i_max; j_max] =>
        let* r := tecplot_structured_cells i_max j_max cells in
        Assert (snd r =? n_cells h) ExcInternalError ;;;
        let* b := tecplot_boundary_vertices i_max j_max in
        Assert (snd b =? Z.of_nat (length (fst b))) ExcInternalError ;;;
        ret (h, vertices, fst r, fst b)
    | _ => undefined
    end
  else
    let* cells := for_loop (Z.to_nat (n_cells h)) 0 read_tecplot_cell cells in
    ret (h, vertices, cells, []).

Definition read_tecplot : M unit :=
  let dim := 2 in
  let* r := read_tecplot_mesh in
  let '(h, vertices, cells, boundary_vertices) := r in
  let* m :=
    if structured h then
      call (delete_duplicated_vertices dim vertices cells SubCellData_empty
              boundary_vertices None)
    else call (delete_unused_vertices dim vertices cells SubCellData_empty) in
  let '(vertices, cells, subcelldata) := m in
  Assert (check_consistency dim subcelldata) ExcInternalError ;;;
  AssertThrow_in ExcIO ;;;
  let* cells := call (invert_all_cells_of_negative_grid dim vertices cells) in
  let* cells := call (reorder_cells dim cells) in
  create_triangulation_compatibility dim vertices cells subcelldata.

End Tecplot.

(** A cell that refers to no vertex before the first of the file. *)
Definition refers_past_0 (c : CellData) : Prop :=
  Forall (fun v => v <> 0) (vertices c).

(** ** [GridIn<dim, spacedim>::read_assimp] *)

(** [std::to_string] for an unsigned number. *)
Definition to_string (n : Z) : string :=
  NilZero.string_of_uint (N.to_uint (Z.to_N n)).

(** [v.resize(n)], new elements being [d]. *)
Definition resize {A} (n : nat) (d : A) (v : list A) : list A :=
  take n v ++ repeat d (n - length v).

Definition aiPrimitiveType_LINE : Z := 2.
Definition aiPrimitiveType_POLYGON : Z := 8.

Section Assimp.
Context `{Collaborators}.
Variables dim spacedim : Z.

(** What the reader uses of an [aiMesh]: the kinds of its primitives, its
    vertices, and the vertex indices of its faces.  A scene is its meshes;
    [Importer::ReadFile] yields a scene or an error text. *)
Record aiMesh : Type := AiMesh {
  mPrimitiveTypes : Z;
  mVertices : list (list double);
  mFaces : list (list Z)
}.

Definition aiScene : Type := list aiMesh.

(** [while (n_verts != vertices.size())]: the clean-up of the duplicates is
    called until a call leaves the number of vertices as it was.  The
    counter is an [unsigned int]. *)
Fixpoint merge_until_stable (passes : nat) (tol : double) (n_verts : Z)
    (mesh : Mesh) : result Mesh :=
  match passes with
  | O => Hang
  | S passes' =>
      let '(vertices, cells, subcelldata) := mesh in
      if n_verts =? Z.of_nat (length vertices) then Ok mesh
      else
        match delete_duplicated_vertices dim vertices cells subcelldata []
                (Some tol) with
        | Ok mesh' =>
            merge_until_stable passes' tol (u32 (Z.of_nat (length vertices)))
              mesh'
        | r => r
        end
  end.

(** One face of a mesh: a cell, when it has as many vertices as a cell. *)
Definition read_assimp_face (ignore_unsupported_types : bool)
    (m v_offset : Z) (mesh : aiMesh) (i : Z) (st : list CellData * Z)
  : M (list CellData * Z) :=
  match mFaces mesh !! Z.to_nat i with
  | Some face =>
      if Z.of_nat (length face) =? Z.of_nat (vertices_per_cell dim) then
        match fst st !! Z.to_nat (snd st) with
        | Some c =>
            let c := set_vertices (map (fun index => u32 (index + v_offset)) face)
                       c in
            let c := set_material_id (cast_material_id m) c in
            let* cells := vector_set (snd st) c (fst st) in
            ret (cells, u32 (snd st + 1))
        | None => undefined
        end
      else
        AssertThrow ignore_unsupported_types
          (ExcMessage ("Face " +:+ to_string i +:+ " of mesh " +:+ to_string m
                       +:+ " has " +:+ to_string (Z.of_nat (length face))
                       +:+ " vertices. We expected only "
                       +:+ to_string (Z.of_nat (vertices_per_cell dim)))) ;;;
        ret st
  | None => undefined
  end.

(** One pass of the loop over the meshes; the state is the vertices, the
    cells, [v_offset] and [c_offset]. *)
Definition read_assimp_mesh (ignore_unsupported_types : bool) (scene : aiScene)
    (m : Z) (st : list Point * list CellData * Z * Z)
  : M (list Point * list CellData * Z * Z) :=
  let '(vertices, cells, v_offset, c_offset) := st in
  let incompatible :=
    ExcMessage ("Incompatible mesh " +:+ to_string m +:+ "/"
                +:+ to_string (Z.of_nat (length scene))) in
  match scene !! Z.to_nat m with
  | None => undefined
  | Some mesh =>
      if (dim =? 2)
         && negb (mPrimitiveTypes mesh =? aiPrimitiveType_POLYGON) then
        AssertThrow ignore_unsupported_types incompatible ;;; ret st
      else if (dim =? 1)
              && negb (mPrimitiveTypes mesh =? aiPrimitiveType_LINE) then
        AssertThrow ignore_unsupported_types incompatible ;;; ret st
      else
        let n_vertices := Z.of_nat (length (mVertices mesh)) in
        let n_faces := Z.of_nat (length (mFaces mesh)) in
        let vertices := resize (Z.to_nat (u32 (v_offset + n_vertices)))
                          (Point_origin spacedim) vertices in
        let cells := resize (Z.to_nat (u32 (c_offset + n_faces)))
                       (CellData_default dim) cells in
        let* vertices :=
          for_loop (length (mVertices mesh)) 0 (fun i vertices =>
            match mVertices mesh !! Z.to_nat i with
            | Some x =>
                vector_set (u32 (i + v_offset)) (Point_of spacedim x) vertices
            | None => undefined
            end) vertices in
        let* r := for_loop (length (mFaces mesh)) 0
                    (read_assimp_face ignore_unsupported_types m v_offset mesh)
                    (cells, c_offset) in
        let cells := resize (Z.to_nat (snd r)) (CellData_default dim) (fst r) in
        ret (vertices, cells, u32 (v_offset + n_vertices), snd r)
  end.

(** [read_assimp], given what [Importer::ReadFile] made of the file.
    [with_assimp] stands for [DEAL_II_WITH_ASSIMP]. *)
Definition read_assimp (with_assimp : bool) (scene : string + aiScene)
    (mesh_index : Z) (remove_duplicates : bool) (tol : double)
    (ignore_unsupported_types : bool) : M unit :=
  if with_assimp then
    AssertThrow (dim <? 3) (ExcImpossibleInDim dim) ;;;
    match scene with
    | inl error_string => throw (ExcMessage error_string)
    | inr scene =>
        let mNumMeshes := Z.of_nat (length scene) in
        AssertThrow (negb (mNumMeshes =? 0))
          (ExcMessage "Input file contains no meshes.") ;;;
        AssertThrow ((mesh_index =? invalid_unsigned_int)
                     || (mesh_index <? mNumMeshes))
          (ExcMessage "Too few meshes in the file.") ;;;
        let start_mesh :=
          if mesh_index =? invalid_unsigned_int then 0 else mesh_index in
        let end_mesh :=
          if mesh_index =? invalid_unsigned_int then mNumMeshes
          else u32 (mesh_index + 1) in
        let* st := for_loop (Z.to_nat (end_mesh - start_mesh)) start_mesh
                     (read_assimp_mesh ignore_unsupported_types scene)
                     ([], [], 0, 0) in
        let '(vertices, cells, _, _) := st in
        if Nat.eqb (length cells) 0 then ret tt
        else
          let* mesh :=
            if remove_duplicates then
              call (merge_until_stable (length vertices + 2) tol 0
                      (vertices, cells, SubCellData_empty))
            else ret (vertices, cells, SubCellData_empty) in
          let '(vertices, cells, subcelldata) := mesh in
          let* mesh := call (delete_unused_vertices dim vertices cells
                               subcelldata) in
          let '(vertices, cells, subcelldata) := mesh in
          let* cells :=
            if dim =? spacedim
            then call (invert_all_cells_of_negative_grid dim vertices cells)
            else ret cells in
          let* cells := call (reorder_cells dim cells) in
          if dim =? 2
          then create_triangulation_compatibility dim vertices cells subcelldata
          else create_triangulation dim vertices cells subcelldata
    end
  else Assert false ExcNeedsAssimp.

End Assimp.

(** ** The ABAQUS bridge: [Abaqus_to_UCD::read_in_abaqus] *)





(** [s.compare(0, n, t) == 0]. *)
Definition compare_prefix (s : string) (n : nat) (t : string) : bool :=
  String.eqb (String.substring 0 n s) t.

(** [line[0] == '*']. *)
Definition starts_with_star (line : string) : bool :=
  match line with
  | String c _ => ascii_code c =? 42
  | EmptyString => false
  end.

(** [iss >> c] for a [char]. *)
Definition extract_char (old : ascii) (i : istream) : ascii * istream :=
  let '(ok, i1) := sentry true i in
  if ok then
    match buf i1 with
    | String c rest => (c, Istream rest false false)
    | EmptyString => (old, Istream EmptyString true true)
    end
  else (old, i1).

Module Abaqus_to_UCD.
Section Bridge.
Context `{Platform}.
Variables dim spacedim : Z.

(** The members of the class: the nodes, the cells (each the material id
    followed by the node numbers), the faces and the element sets. *)
Record bridge : Type := Bridge {
  node_list : list (list double);
  cell_list : list (list double);
  face_list : list (list double);
  elsets_list : gmap string (list Z)
}.

Definition bridge_empty : bridge := Bridge [] [] [] ∅.

(** [from_string(t, s, std::dec)] for an [int]: the new value of [t]. *)
Definition from_string (t : Z) (s : string) : Z :=
  fst (extract_signed t (istream_of s)).

(** [extract_int]: the number that the digits of [s] spell. *)
Fixpoint digits_of (s : string) : string :=
  match s with
  | EmptyString => EmptyString
  | String c s' => if isdigit c then String c (digits_of s') else digits_of s'
  end.

Definition extract_int (s : string) : Z := from_string 0 (digits_of s).

(** [std::out_of_range], thrown by [substr]. *)
Definition out_of_range : exc := ExcMessage "std::out_of_range".

Definition substr_or_throw (s : string) (pos len : Z) : M string :=
  match string_substr s pos len with
  | Some t => ret t
  | None => throw out_of_range
  end.

(** [for (i = 0; i < n; ++i) iss >> v[i] >> comma;] for a fresh vector [v]
    of [n] zeros. *)
Fixpoint extract_numbers (n : nat) (comma : ascii) (iss : istream)
  : list double * ascii * istream :=
  match n with
  | O => ([], comma, iss)
  | S n' =>
      let '(x, i1) := extract_double double_zero iss in
      let '(comma, i2) := extract_char comma i1 in
      let '(xs, comma, i3) := extract_numbers n' comma i2 in
      (x :: xs, comma, i3)
  end.

Definition numbers_of_line (n : nat) (line : string) : list double :=
  fst (fst (extract_numbers n indeterminate_char (istream_of line))).

(** [v[i]] for a [std::vector]. *)
Definition vector_get {A} (v : list A) (i : Z) : result A :=
  if (0 <=? i) && (i <? Z.of_nat (length v))
  then match v !! Z.to_nat i with Some x => Ok x | None => Undefined end
  else Undefined.

Definition cell_node (cells : list (list double)) (cell k : Z) : result double :=
  match vector_get cells cell with
  | Ok c => vector_get c k
  | Throw e => Throw e
  | Abort e => Abort e
  | Hang => Hang
  | Undefined => Undefined
  end.

Fixpoint cell_nodes (cells : list (list double)) (cell : Z) (ks : list Z)
  : result (list double) :=
  match ks with
  | [] => Ok []
  | k :: ks' =>
      match cell_node cells cell k, cell_nodes cells cell ks' with
      | Ok x, Ok xs => Ok (x :: xs)
      | Ok _, r => r
      | Throw e, _ => Throw e
      | Abort e, _ => Abort e
      | Hang, _ => Hang
      | Undefined, _ => Undefined
      end
  end.

(** The faces of a quadrilateral and of a hexahedron: the positions, in the
    entry of the cell, of the nodes of the face. *)
Definition face_nodes_2d (face : Z) : option (list Z) :=
  if face =? 1 then Some [1; 2]
  else if face =? 2 then Some [2; 3]
  else if face =? 3 then Some [3; 4]
  else if face =? 4 then Some [4; 1]
  else None.

Definition face_nodes_3d (face : Z) : option (list Z) :=
  if face =? 1 then Some [1; 4; 3; 2]
  else if face =? 2 then Some [5; 8; 7; 6]
  else if face =? 3 then Some [1; 2; 6; 5]
  else if face =? 4 then Some [2; 3; 7; 6]
  else if face =? 5 then Some [3; 4; 8; 7]
  else if face =? 6 then Some [1; 5; 8; 4]
  else None.

(** [get_global_node_numbers].  For a face number that is none of the
    faces, the source checks [face_cell_face_no <= 4] in 2d and
    [face_cell_no <= 6] in 3d, and returns a list of zeros when the check
    passes. *)
Definition get_global_node_numbers (cells : list (list double))
    (face_cell_no face_cell_face_no : Z) : result (list double) :=
  let zeros := repeat double_zero (Z.to_nat (2 ^ (dim - 1))) in
  if dim =? 2 then
    match face_nodes_2d face_cell_face_no with
    | Some ks => cell_nodes cells (face_cell_no - 1) ks
    | None =>
        if face_cell_face_no <=? 4 then Ok zeros
        else Throw (ExcMessage "Invalid face number in 2d")
    end
  else if dim =? 3 then
    match face_nodes_3d face_cell_face_no with
    | Some ks => cell_nodes cells (face_cell_no - 1) ks
    | None =>
        if face_cell_no <=? 6 then Ok zeros
        else Throw (ExcMessage "Invalid face number in 3d")
    end
  else Throw ExcNotImplemented.

(** The loops [while (std::getline(input_stream, line))] of the sections
    end in one of two ways: at a line that starts with ['*'], with a jump
    to the label [cont] ([Some line]), or at the end of the stream
    ([None]). *)

(** The sections that are skipped: [*HEADING], comments, [*PART], [*NSET]. *)
Fixpoint skip_section (passes : nat) (line : string) : M (option string) :=
  match passes with
  | O => hang
  | S passes' =>
      let* line := on_input (getline line) in
      if_in
        (if starts_with_star line then ret (Some line)
         else skip_section passes' line)
        (ret None)
  end.

(** [*NODE]. *)
Fixpoint read_nodes (passes : nat) (line : string) (nodes : list (list double))
  : M (option string * list (list double)) :=
  match passes with
  | O => hang
  | S passes' =>
      let* line := on_input (getline line) in
      if_in
        (if starts_with_star line then ret (Some line, nodes)
         else read_nodes passes' line
                (nodes ++ [numbers_of_line (Z.to_nat (spacedim + 1)) line]))
        (ret (None, nodes))
  end.

(** [*ELEMENT]: the first entry of a cell, the number the file gives it,
    is overwritten by the material. *)
Fixpoint read_elements (passes : nat) (material : Z) (line : string)
    (cells : list (list double)) : M (option string * list (list double)) :=
  match passes with
  | O => hang
  | S passes' =>
      let* line := on_input (getline line) in
      if_in
        (if starts_with_star line then ret (Some line, cells)
         else
           let cell := numbers_of_line (S (vertices_per_cell dim)) line in
           read_elements passes' material line
             (cells ++ [<[0%nat := double_of_int material]> cell]))
        (ret (None, cells))
  end.

(** The faces that one line of a [*SURFACE] section adds. *)
Fixpoint faces_of_cells (cells : list (list double)) (b_indicator : Z)
    (face_number : Z) (els : list Z) : result (list (list double)) :=
  match els with
  | [] => Ok []
  | el :: els' =>
      match get_global_node_numbers cells el face_number with
      | Ok quad_node_list =>
          match faces_of_cells cells b_indicator face_number els' with
          | Ok fs => Ok ((double_of_int b_indicator :: quad_node_list) :: fs)
          | r => r
          end
      | Throw e => Throw e
      | Abort e => Abort e
      | Hang => Hang
      | Undefined => Undefined
      end
  end.

Definition surface_line_faces (st : bridge) (b_indicator : Z) (line : string)
  : result (list (list double)) :=
  let iss := istream_of line in
  let comma_pos := string_find line "," 0 in
  let elset_name := default line (string_substr line 0 comma_pos) in
  match elsets_list st !! elset_name with
  | Some cells =>
      let '(stmp, i1) := extract_string "" iss in
      let '(temp, i2) := extract_char indeterminate_char i1 in
      let '(face_number, i3) := extract_signed indeterminate_int i2 in
      faces_of_cells (cell_list st) b_indicator face_number cells
  | None =>
      let '(el_idx, i1) := extract_signed indeterminate_int iss in
      let '(comma, i2) := extract_char indeterminate_char i1 in
      let '(temp, i3) := extract_char indeterminate_char i2 in
      let '(face_number, i4) := extract_signed indeterminate_int i3 in
      faces_of_cells (cell_list st) b_indicator face_number [el_idx]
  end.

(** [*SURFACE]. *)
Fixpoint read_surface (passes : nat) (b_indicator : Z) (line : string)
    (st : bridge) : M (option string * bridge) :=
  match passes with
  | O => hang
  | S passes' =>
      let* line := on_input (getline line) in
      if_in
        (if starts_with_star line then ret (Some line, st)
         else
           let line := string_map toupper line in
           let* faces := call (surface_line_faces st b_indicator line) in
           read_surface passes' b_indicator line
             (Bridge (node_list st) (cell_list st) (face_list st ++ faces)
                     (elsets_list st)))
        (ret (None, st))
  end.

(** [for (int i = elid_start; i <= elid_end; i += elis_step)
      elements.push_back(i);] for a positive step.  The addition is one of
    [int]: past the largest [int] it has no defined behaviour. *)
Fixpoint generate (passes : nat) (i elid_end elis_step : Z) : result (list Z) :=
  match passes with
  | O => Hang
  | S passes' =>
      if i <=? elid_end then
        if 2 ^ 31 - 1 <? i + elis_step then Undefined
        else
          match generate passes' (i + elis_step) elid_end elis_step with
          | Ok l => Ok (i :: l)
          | r => r
          end
      else Ok []
  end.

Definition expected_comma (comma : ascii) (line : string) : exc :=
  ExcMessage ("While reading an ABAQUS file, the reader expected a comma but found a <"
                +:+ String comma ("> in the line <" +:+ line +:+ ">.")).

(** [Utilities::int_to_string], whose argument is an [unsigned int]. *)
Definition int_to_string (n : Z) : string := to_string (u32 n).

Definition bounds_out_of_order (elid_start elid_end : Z) : exc :=
  ExcMessage
    ("While reading an ABAQUS file, the reader encountered a GENERATE statement in which the upper bound <"
       +:+ int_to_string elid_end
       +:+ "> for the element numbers is not larger or equal than the lower bound <"
       +:+ int_to_string elid_start +:+ ">.").

(** [*ELSET ... GENERATE]: the data line [start, end[, step]]. *)
Definition read_elset_generate (line : string) : M (list Z) :=
  let iss := istream_of line in
  let '(elid_start, i1) := extract_signed indeterminate_int iss in
  let '(comma, i2) := extract_char indeterminate_char i1 in
  let '(elid_end, i3) := extract_signed indeterminate_int i2 in
  AssertThrow (ascii_code comma =? 44) (expected_comma comma line) ;;;
  AssertThrow (elid_start <=? elid_end) (bounds_out_of_order elid_start elid_end) ;;;
  let '(comma, elis_step) :=
    if is_empty (buf i3) then (comma, 1)
    else
      let '(comma, i4) := extract_char comma i3 in
      let '(elis_step, i5) := extract_signed 1 i4 in
      (comma, elis_step) in
  AssertThrow (ascii_code comma =? 44) (expected_comma comma line) ;;;
  if elis_step =? 0 then hang   (* the vector grows without end *)
  else if elis_step <? 0 then undefined   (* [i] falls below the least [int] *)
  else call (generate (S (S (Z.to_nat (elid_end - elid_start)))) elid_start
               elid_end elis_step).

(** [*ELSET] without [GENERATE]: the numbers of one data line,
    [while (!iss.eof()) { iss >> elid >> comma; ... }]. *)
Fixpoint read_elset_numbers (passes : nat) (line : string) (elid : Z)
    (comma : ascii) (iss : istream) (elements : list Z) : M (list Z) :=
  match passes with
  | O => hang
  | S passes' =>
      if eofbit iss then ret elements
      else
        let '(elid, i1) := extract_signed elid iss in
        let '(comma, i2) := extract_char comma i1 in
        AssertThrow (ascii_code comma =? 44) (expected_comma comma line) ;;;
        read_elset_numbers passes' line elid comma i2 (elements ++ [elid])
  end.

Fixpoint read_elset_lines (passes : nat) (line : string) (elements : list Z)
  : M (string * list Z) :=
  match passes with
  | O => hang
  | S passes' =>
      let* line := on_input (getline line) in
      if_in
        (if starts_with_star line then ret (line, elements)
         else
           let* elements :=
             read_elset_numbers (S (S (String.length line))) line
               indeterminate_int indeterminate_char (istream_of line) elements in
           read_elset_lines passes' line elements)
        (ret (line, elements))
  end.

(** The name of an element set in the header of [*ELSET]. *)
Definition elset_name_of (line : string) : M string :=
  let elset_key := "*ELSET, ELSET=" in
  let idx := string_find line elset_key 0 in
  if idx =? npos then ret ""
  else
    let first_comma := string_find line "," 0 in
    let second_comma := string_find line "," (size_t (first_comma + 1)) in
    let elset_name_start := size_t (idx + string_size elset_key) in
    substr_or_throw line elset_name_start
      (size_t (second_comma - elset_name_start)).

(** [*ELSET]: the line to continue with, and the bridge with the set. *)
Definition read_elset (line : string) (st : bridge) : M (string * bridge) :=
  let* elset_name := elset_name_of line in
  let store (elements : list Z) :=
    Bridge (node_list st) (cell_list st) (face_list st)
           (<[elset_name := elements]> (elsets_list st)) in
  if string_find line "GENERATE" 0 =? npos then
    let* r := bounded_by_stream (fun n => read_elset_lines n line []) in
    ret (fst r, store (snd r))
  else
    let* line := on_input (getline line) in
    let* elements := read_elset_generate line in
    let* line := on_input (getline line) in
    ret (line, store elements).

(** [cell_list[elset_cell - 1][0] = material_id] for every cell of the set. *)
Fixpoint assign_material (material_id : Z) (elset_cells : list Z)
    (cells : list (list double)) : result (list (list double)) :=
  match elset_cells with
  | [] => Ok cells
  | elset_cell :: rest =>
      let cell_id := elset_cell - 1 in
      match vector_get cells cell_id with
      | Ok c =>
          match c with
          | [] => Undefined
          | _ :: _ =>
              assign_material material_id rest
                (<[Z.to_nat cell_id := <[0%nat := double_of_int material_id]> c]> cells)
          end
      | _ => Undefined
      end
  end.

(** The element set and the material id that the header of
    [*SOLID SECTION] names. *)
Definition solid_section_elset (line : string) : M string :=
  let elset_key := "ELSET=" in
  let elset_start := size_t (string_find line "ELSET=" 0 + string_size elset_key) in
  let elset_end := string_find line "," (size_t (elset_start + 1)) in
  substr_or_throw line elset_start (size_t (elset_end - elset_start)).

Definition solid_section_material (line : string) : M Z :=
  let material_key := "MATERIAL=" in
  let last_equal :=
    size_t (string_find line "MATERIAL=" 0 + string_size material_key) in
  let material_id_start := string_find line "-" last_equal in
  let* tail := substr_or_throw line (size_t (material_id_start + 1)) npos in
  ret (from_string 0 tail).

(** [*SOLID SECTION]. *)
Definition read_solid_section (line : string) (st : bridge) : M bridge :=
  let* elset_name := solid_section_elset line in
  let* material_id := solid_section_material line in
  let elset_cells := default [] (elsets_list st !! elset_name) in
  let* cells := call (assign_material material_id elset_cells (cell_list st)) in
  ret (Bridge (node_list st) cells (face_list st)
              (<[elset_name := elset_cells]> (elsets_list st))).

(** The material that the header of [*ELEMENT] names. *)
Definition element_material (line : string) : M Z :=
  let before_material := "ELSET=EB" in
  let idx := string_find line before_material 0 in
  if idx =? npos then ret 0
  else
    let* tail := substr_or_throw line (size_t (idx + string_size before_material))
                   npos in
    ret (from_string 0 tail).

(** The boundary indicator that the header of [*SURFACE] names. *)
Definition surface_indicator (line : string) : M Z :=
  let name_key := "NAME=" in
  let name_idx_start := size_t (string_find line name_key 0 + string_size name_key) in
  let name_idx_end := string_find line "," name_idx_start in
  let name_idx_end := if name_idx_end =? npos then string_size line else name_idx_end in
  let* name := substr_or_throw line name_idx_start
                 (size_t (name_idx_end - name_idx_start)) in
  ret (extract_int name).

(** The body of the loop over the lines, from the label [cont] on: the
    line is [pending]; without one, the next line is read first.  Every
    pass but the last follows a line that has been read, so the passes are
    bounded by the length of the stream, unless the same line is met again
    and again, as an [*ELSET] header at the very end of the stream is. *)
Fixpoint read_lines (passes : nat) (pending : option string) (line : string)
    (st : bridge) : M bridge :=
  match passes with
  | O => hang
  | S passes' =>
      match pending with
      | None =>
          let* line := on_input (getline line) in
          if_in (read_lines passes' (Some line) line st) (ret st)
      | Some line =>
          let line := string_map toupper line in
          if String.eqb line "*HEADING" || compare_prefix line 2 "**"
             || compare_prefix line 5 "*PART" then
            let* next := bounded_by_stream (fun n => skip_section n line) in
            read_lines passes' next line st
          else if compare_prefix line 5 "*NODE" then
            let* r := bounded_by_stream
                        (fun n => read_nodes n line (node_list st)) in
            read_lines passes' (fst r) line
              (Bridge (snd r) (cell_list st) (face_list st) (elsets_list st))
          else if compare_prefix line 8 "*ELEMENT" then
            let* material := element_material line in
            let* r := bounded_by_stream
                        (fun n => read_elements n material line (cell_list st)) in
            read_lines passes' (fst r) line
              (Bridge (node_list st) (snd r) (face_list st) (elsets_list st))
          else if compare_prefix line 8 "*SURFACE" then
            let* b_indicator := surface_indicator line in
            let* r := bounded_by_stream
                        (fun n => read_surface n b_indicator line st) in
            read_lines passes' (fst r) line (snd r)
          else if compare_prefix line 6 "*ELSET" then
            let* r := read_elset line st in
            read_lines passes' (Some (fst r)) (fst r) (snd r)
          else if compare_prefix line 5 "*NSET" then
            let* next := bounded_by_stream (fun n => skip_section n line) in
            read_lines passes' next line st
          else if compare_prefix line 14 "*SOLID SECTION" then
            let* st := read_solid_section line st in
            read_lines passes' None line st
          else read_lines passes' None line st
      end
  end.

Definition read_in_abaqus (st : bridge) : M bridge :=
  AssertThrow_in ExcIO ;;;
  bounded_by_stream (fun n => read_lines (2 * n + 4) None "" st).

End Bridge.
End Abaqus_to_UCD.

(** *** Vocabulary for the statements about the bridge *)

(** [pattern] occurs in [s] at the position [p]. *)
Definition occurs_at (pattern s : string) (p : nat) : bool :=
  String.eqb (substring p (String.length pattern) s) pattern.

(** [pattern] occurs in [s] at the position [k], and at no position from
    [from] up to [k]. *)
Definition first_occurrence (pattern s : string) (from k : nat) : bool :=
  (from <=? k)%nat && occurs_at pattern s k
  && forallb (fun p => negb (occurs_at pattern s p)) (seq from (k - from)).

(** A string without the character [c]. *)
Definition without (c : ascii) (s : string) : bool :=
  forallb (fun x => negb (Ascii.eqb x c)) (list_ascii_of_string s).

(** A decimal numeral, and a text that does not continue one. *)
Definition all_digits (s : string) : bool :=
  negb (is_empty s) && forallb isdigit (list_ascii_of_string s).

Definition starts_with_digit (s : string) : bool :=
  match s with String c _ => isdigit c | EmptyString => false end.

(** A text that starts with a decimal numeral, with or without a sign. *)
Definition starts_with_number (s : string) : bool :=
  match s with
  | String c s' =>
      isdigit c
      || ((Ascii.eqb c "-" || Ascii.eqb c "+") && starts_with_digit s')
  | EmptyString => false
  end.

(** The [int] that an extraction stores for the numeral of value [v]: the
    value, or the nearest [int] when the value does not fit. *)
Definition nearest_int (v : Z) : Z := Z.max (- 2 ^ 31) (Z.min (2 ^ 31 - 1) v).

Definition newline : ascii := "010"%char.

(** The card [*SOLID SECTION, ELSET=<name>, MATERIAL=<material>-<digits>]. *)
Definition solid_section_card (name material digits : string) : string :=
  "*SOLID SECTION, ELSET=" +:+ name +:+ ", MATERIAL=" +:+ material +:+ "-"
    +:+ digits.

(** The cell list after [*SOLID SECTION]: the rows of the cells whose
    numbers, which count from one, are in the set start with the material. *)
Definition with_material `{Platform} (material_id : Z) (cells : list Z)
    (i : nat) (row : list double) : list double :=
  if bool_decide (Z.of_nat i + 1 ∈ cells)
  then <[0%nat := double_of_int material_id]> row else row.

(** [cell_list[i][0]] for every cell: the materials. *)
Definition materials `{Platform} (st : Abaqus_to_UCD.bridge)
  : list (option double) :=
  map (fun row => row !! 0%nat) (Abaqus_to_UCD.cell_list st).

(** The reading of a material name by its last hyphen: the number that the
    digits after the final hyphen spell. *)
Fixpoint after_final_hyphen (name : string) : option string :=
  match name with
  | EmptyString => None
  | String c name' =>
      match after_final_hyphen name' with
      | Some t => Some t
      | None => if Ascii.eqb c "-" then Some name' else None
      end
  end.

Definition final_hyphen_number (name : string) : Z :=
  match after_final_hyphen name with
  | Some t => Abaqus_to_UCD.extract_int t
  | None => 0
  end.

(** ** The vertex clean-up of [GridTools]

    [grid_tools.cc] is not among the sources; the two functions below are
    written from the specification of the mesh canonicalizer. *)

Section GridTools.
Context `{Platform}.

(** Every vertex index that a cell or a boundary entry holds. *)
Definition vertex_references (cells : list CellData) (sub : SubCellData)
  : list Z :=
  concat (map vertices (cells ++ boundary_lines sub ++ boundary_quads sub)).

Definition vertex_used (refs : list Z) (i : nat) : bool :=
  existsb (Z.eqb (Z.of_nat i)) refs.

(** The indices of the vertices that stay, in increasing order. *)
Definition kept_vertices (refs : list Z) (n : nat) : list nat :=
  filter (fun i => vertex_used refs i = true) (seq 0 n).

(** The new number of the vertex [v]: the number of used vertices before
    it. *)
Definition new_vertex_number (refs : list Z) (v : Z) : Z :=
  Z.of_nat (length (kept_vertices refs (Z.to_nat v))).

Definition renumber_vertices (f : Z -> Z) (c : CellData) : CellData :=
  set_vertices (map f (vertices c)) c.

Definition renumber_subcelldata (f : Z -> Z) (s : SubCellData) : SubCellData :=
  mkSubCellData (map (renumber_vertices f) (boundary_lines s))
                (map (renumber_vertices f) (boundary_quads s)).

Definition valid_references (n : nat) (refs : list Z) : bool :=
  forallb (fun v => (0 <=? v) && (v <? Z.of_nat n)) refs.

(** Modelled from the spec: [GridTools::delete_unused_vertices], "delete
    vertices that no cell or sub-entity references; renumber remaining
    vertices densely, rewriting every cell/sub-entity vertex index to
    match".  A reference to a vertex that does not exist makes it fail
    ("every cell's and sub-entity's vertex indices must resolve to valid
    dense vertex indices ... (fails otherwise)"). *)
Definition delete_unused_vertices_spec
    (vs : list Point) (cells : list CellData) (sub : SubCellData) : result Mesh :=
  let refs := vertex_references cells sub in
  if valid_references (length vs) refs then
    Ok (omap (fun i => vs !! i) (kept_vertices refs (length vs)),
        map (renumber_vertices (new_vertex_number refs)) cells,
        renumber_subcelldata (new_vertex_number refs) sub)
  else Throw (ExcMessage "Invalid vertex index encountered!").

(** One step of the search for duplicates: the vertex [j] is collapsed
    into the first representative it is closer than the tolerance to, and
    becomes a representative itself when there is none.  The state is the
    representatives found so far and the new number of every vertex. *)
Definition merge_step (tol : option double) (vs : list Point)
    (st : list nat * list Z) (j : nat) : list nat * list Z :=
  match vs !! j with
  | Some p =>
      match find (fun r => match vs !! r with
                           | Some q => closer_than tol q p
                           | None => false
                           end) (fst st) with
      | Some r => (fst st, <[j := Z.of_nat r]> (snd st))
      | None => (fst st ++ [j], snd st)
      end
  | None => st
  end.

(** The new number of every vertex after the search among the considered
    vertices (all of them when the list is empty). *)
Definition merged_vertex_numbers (tol : option double) (vs : list Point)
    (considered_vertices : list Z) : list Z :=
  let all := seq 0 (length vs) in
  let considered :=
    match considered_vertices with
    | [] => all
    | _ => map Z.to_nat considered_vertices
    end in
  snd (fold_left (merge_step tol vs) considered ([], map Z.of_nat all)).

(** Modelled from the spec: [GridTools::delete_duplicated_vertices], one
    pass of "collapse vertices closer than [tolerance] into one
    representative, rewrite all references"; the vertices left without a
    reference are then deleted as by [delete_unused_vertices]. *)
Definition delete_duplicated_vertices_spec
    (vs : list Point) (cells : list CellData) (sub : SubCellData)
    (considered_vertices : list Z) (tol : option double) : result Mesh :=
  if valid_references (length vs)
       (vertex_references cells sub ++ considered_vertices) then
    let numbers := merged_vertex_numbers tol vs considered_vertices in
    let f := fun v => nth (Z.to_nat v) numbers v in
    delete_unused_vertices_spec vs
      (map (renumber_vertices f) cells) (renumber_subcelldata f sub)
  else Throw (ExcMessage "Invalid vertex index encountered!").

End GridTools.

(** ** A reference platform

    Concrete collaborators, on which the readers can be run: a [double] is
    the exact rational value of its numeral, an uninitialised scalar holds
    zero, the id types have 32 bits; [GridReordering] leaves the cells as
    they are, the triangulation accepts every mesh, and a vertex of a 1d
    triangulation is at the boundary when exactly one cell has it. *)

Definition strtod_Q (s : string) : Q :=
  let '(neg, s1) :=
    match s with
    | String "-" s' => (true, s')
    | String "+" s' => (false, s')
    | _ => (false, s)
    end in
  let '(ip, s2) := span isdigit s1 in
  let '(fp, s3) :=
    match s2 with
    | String "." s' => span isdigit s'
    | _ => (EmptyString, s2)
    end in
  let e :=
    match s3 with
    | String _ s' =>
        let '(eneg, s4) :=
          match s' with
          | String "-" s'' => (true, s'')
          | String "+" s'' => (false, s'')
          | _ => (false, s')
          end in
        let v := decimal_value 0 (fst (span isdigit s4)) in
        if eneg then - v else v
    | EmptyString => 0
    end in
  let m := decimal_value 0 (ip +:+ fp) in
  let ex := e - Z.of_nat (String.length fp) in
  Qred (Qmult (Qmake (if neg then - m else m) 1)
              (if 0 <=? ex then Qmake (10 ^ ex) 1
               else Qmake 1 (Z.to_pos (10 ^ (- ex))))).

Definition Q_closer_than (tol : option Q) (p q : list Q) : bool :=
  let t := default (Qmake 1 1000000000000) tol in
  forallb (fun '(x, y) => negb (Qle_bool t (Qabs (Qminus x y))))
          (combine p q).

Definition reference_platform (debug : bool) : Platform := {|
  double := Q;
  strtod := strtod_Q;
  double_zero := 0%Q;
  double_of_int := inject_Z;
  double_to_unsigned := fun q => Z.quot (Qnum q) (Zpos (Qden q));
  double_mul := fun x y => Qred (Qmult x y);
  double_leb := Qle_bool;
  closer_than := Q_closer_than;
  indeterminate_int := 0;
  indeterminate_double := 0%Q;
  indeterminate_char := "000"%char;
  id_bits := 32;
  manifold_id_bits := 32;
  debug_mode := debug
|}.

(** The mesh a triangulation was last constructed from. *)
Fixpoint constructed_cells `{Platform} (t : Triangulation) : list CellData :=
  match t with
  | [] => []
  | called_create_triangulation_compatibility _ c _ :: t' =>
      match constructed_cells t' with [] => c | c' => c' end
  | called_create_triangulation _ c _ :: t' =>
      match constructed_cells t' with [] => c | c' => c' end
  | _ :: t' => constructed_cells t'
  end.

(** The words of a text: what [Utilities::break_text_into_lines] yields for
    the width 1, at which no line holds two words. *)
Fixpoint words_of (delimiter : ascii) (word text : string) : list string :=
  match text with
  | EmptyString => if is_empty word then [] else [word]
  | String c text' =>
      if Ascii.eqb c delimiter || (ascii_code c =? 10) then
        if is_empty word then words_of delimiter "" text'
        else word :: words_of delimiter "" text'
      else words_of delimiter (word +:+ String c "") text'
  end.

(** The [int] at a position of a string, or -1. *)
Definition integer_at (name : string) (position : Z) : Z :=
  let text := String.substring (Z.to_nat position) (String.length name) name in
  let '(n, i) := extract_signed 0 (istream_of text) in
  if failbit i then -1 else n.

Definition reference_collaborators (debug : bool)
  : @Collaborators (reference_platform debug) := {|
  delete_unused_vertices := fun _ => delete_unused_vertices_spec;
  delete_duplicated_vertices := fun _ => delete_duplicated_vertices_spec;
  invert_all_cells_of_negative_grid := fun _ _ cells => Ok cells;
  reorder_cells := fun _ cells => Ok cells;
  tria_refuses := fun _ _ _ _ => None;
  active_cells_1d := fun t => map vertices (constructed_cells t);
  at_boundary_1d := fun t cell f =>
    let cells := constructed_cells t in
    let v := nth f (nth cell (map vertices cells) []) 0 in
    Nat.eqb (length (filter (fun c => existsb (Z.eqb v) (vertices c) = true) cells)) 1;
  break_text_into_lines := fun text _ delimiter => words_of delimiter "" text;
  match_at_string_start := fun name pattern => String.prefix pattern name;
  get_integer_at_position := integer_at
|}.

(** ** Sample inputs *)

(** A state of the reference platform (release build) whose stream holds
    [text] and whose triangulation has received no call. *)
Definition release_platform : Platform := reference_platform false.
Definition release : @Collaborators release_platform :=
  reference_collaborators false.

Definition reading (text : string) : @world release_platform :=
  World (istream_of text) [].

Definition default_hex : CellData := @CellData_default release_platform 3.

(** The line of an XDA file that lists the nodes of one hexahedron. *)
Definition xda_cell_line : string := "10 11 12 13 14 15 16 17
".

(** A Gmsh file of a 1d mesh of two cells, with a physical point (type 15,
    tag 4) at the vertex the two cells share. *)
Definition msh_1d_interior_point : string := "$MeshFormat
2.2 0 8
$EndMeshFormat
$Nodes
3
1 0 0 0
2 1 0 0
3 2 0 0
$EndNodes
$Elements
3
1 15 2 4 1 2
2 1 2 0 1 1 2
3 1 2 0 1 2 3
$EndElements
".

(** A Gmsh file of a 2d mesh: one quadrilateral and one physical point. *)
Definition msh_point_and_quad : string := "$MeshFormat
2.2 0 8
$EndMeshFormat
$Nodes
4
1 0 0 0
2 1 0 0
3 1 1 0
4 0 1 0
$EndNodes
$Elements
2
1 15 2 0 1 1
2 3 2 7 1 1 2 3 4
$EndElements
".

(** The same file from the number of elements on, and the map from the
    node numbers of the file to the positions of the vertices. *)
Definition msh_point_and_quad_elements : string := "2
1 15 2 0 1 1
2 3 2 7 1 1 2 3 4
$EndElements
".

Definition four_vertex_indices : gmap Z Z :=
  list_to_map [(1, 0); (2, 1); (3, 2); (4, 3)].

(** A VTK file of a 2d mesh, from the count of the CELLS section on: one
    quadrilateral and one boundary line. *)
Definition vtk_cells_quad_and_line : string := "2 8
4 0 1 2 3
2 0 1
CELL_TYPES 2
9 3
".

(** A UCD file of a 2d mesh: one quadrilateral with material 7 and one
    boundary line with indicator 5. *)
Definition ucd_quad_and_line : string := "# a square
4 2 0 0 0
1 0 0 0
2 1 0 0
3 1 1 0
4 0 1 0
1 7 quad 1 2 3 4
2 5 line 1 2
".

(** A VTK file of a 2d mesh in which the quadrilateral follows a boundary
    line. *)
Definition vtk_quad_after_line : string := "# vtk DataFile Version 3.0
a square
ASCII
DATASET UNSTRUCTURED_GRID
POINTS 4 double
0 0 0
1 0 0
1 1 0
0 1 0
CELLS 2 8
2 0 1
4 0 1 2 3
CELL_TYPES 2
3 9
".

(** A Gmsh file of a 2d mesh that holds a boundary line and no cell. *)
Definition msh_line_only : string := "$MeshFormat
2.2 0 8
$EndMeshFormat
$Nodes
2
1 0 0 0
2 1 0 0
$EndNodes
$Elements
1
1 1 2 5 1 1 2
$EndElements
".

(** The line of a UCD file for a boundary line with the indicator 5, and
    the state of the cell loop before it. *)
Definition ucd_line_entry : string := "2 5 line 1 2
".

(** An ABAQUS file of six cells of material 3, with a generated element set
    and a section that gives the set a material; the same with a material
    name of two hyphens. *)
Definition abaqus_material_7 : string := "*ELEMENT, TYPE=S4R, ELSET=EB3
1, 1, 2, 3, 4
2, 2, 5, 6, 3
3, 5, 7, 8, 6
4, 7, 9, 10, 8
5, 9, 11, 12, 10
6, 11, 13, 14, 12
*ELSET, ELSET=Set1, GENERATE
1,5,2
*SOLID SECTION, ELSET=Set1, MATERIAL=Material-7
".

Definition abaqus_steel_grade_12 : string := "*ELEMENT, TYPE=S4R, ELSET=EB3
1, 1, 2, 3, 4
2, 2, 5, 6, 3
3, 5, 7, 8, 6
4, 7, 9, 10, 8
5, 9, 11, 12, 10
6, 11, 13, 14, 12
*ELSET, ELSET=Set1, GENERATE
1,5,2
*SOLID SECTION, ELSET=Set1, MATERIAL=Steel-Grade-12
".

(** The bridge after the cells and the set of [abaqus_material_7]. *)
Definition abaqus_six_cells : @Abaqus_to_UCD.bridge release_platform :=
  @Abaqus_to_UCD.Bridge release_platform []
    [[3; 1; 2; 3; 4]; [3; 2; 5; 6; 3]; [3; 5; 7; 8; 6]; [3; 7; 9; 10; 8];
     [3; 9; 11; 12; 10]; [3; 11; 13; 14; 12]]%Q
    [] {["SET1" := [1; 3; 5]]}.

(** A tecplot file of a structured zone of two by two vertices, and one of
    an unstructured zone of three vertices whose cell names the vertex 0. *)
Definition tecplot_variables : string :=
  "VARIABLES = " +:+ quoted "X" +:+ ", " +:+ quoted "Y".

Definition tecplot_structured : string := tecplot_variables +:+ "
ZONE I=2, J=2, F=POINT
0 0
1 0
0 1
1 1
".

Definition tecplot_cell_at_vertex_0 : string := tecplot_variables +:+ "
ZONE N=3, E=1, F=FEPOINT, ET=QUADRILATERAL
1 0
1 1
0 1
0 1 2 3
".

(** Two quadrilaterals on four vertices, two of the vertices given twice. *)
Definition doubled_vertices : list (@Point release_platform) :=
  [[0; 0]; [1; 0]; [1; 1]; [0; 1]; [0; 0]; [1; 0]]%Q.

Definition doubled_cells : list CellData :=
  [mkCellData [0; 1; 2; 3] 0 (2 ^ 32 - 1);
   mkCellData [4; 5; 2; 3] 1 (2 ^ 32 - 1)].

(** ** The formats: [default_suffix], [parse_format], [get_format_names] *)

(** The values of [GridIn::Format] that [grid_in.cc] names. *)
Inductive Format : Type :=
| Default | unv | ucd | abaqus | dbmesh | xda | msh | netcdf | tecplot | vtk
| assimp.

Section Formats.
Context `{Platform}.
(** [ExcInvalidState], one of the standard exceptions of the library. *)
Variable ExcInvalidState : exc.

(** [GridIn::default_suffix]: the [default] branch fails a debug-mode
    [Assert] and otherwise returns a text that is no suffix. *)
Definition default_suffix (format : Format) : result string :=
  match format with
  | dbmesh => Ok ".dbmesh"
  | msh => Ok ".msh"
  | vtk => Ok ".vtk"
  | unv => Ok ".unv"
  | ucd => Ok ".inp"
  | abaqus => Ok ".inp"
  | xda => Ok ".xda"
  | netcdf => Ok ".nc"
  | tecplot => Ok ".dat"
  | _ => if debug_mode then Abort ExcNotImplemented else Ok ".unknown_format"
  end.

(** [GridIn::parse_format]. *)
Definition parse_format (format_name : string) : result Format :=
  if String.eqb format_name "dbmesh" then Ok dbmesh
  else if String.eqb format_name "msh" then Ok msh
  else if String.eqb format_name "unv" then Ok unv
  else if String.eqb format_name "vtk" then Ok vtk
  else if String.eqb format_name "inp" then Ok ucd
  else if String.eqb format_name "ucd" then Ok ucd
  else if String.eqb format_name "xda" then Ok xda
  else if String.eqb format_name "netcdf" then Ok netcdf
  else if String.eqb format_name "nc" then Ok netcdf
  else if String.eqb format_name "tecplot" then Ok tecplot
  else if String.eqb format_name "dat" then Ok tecplot
  else if String.eqb format_name "plt" then Ok tecplot
  else Throw ExcInvalidState.

(** [GridIn::get_format_names]. *)
Definition get_format_names : string :=
  "dbmesh|msh|unv|vtk|ucd|abaqus|xda|netcdf|tecplot|assimp".

(** [name.find_last_of(c)]. *)
Fixpoint find_last_of_from (c : ascii) (s : string) (pos : Z) (found : Z) : Z :=
  match s with
  | EmptyString => found
  | String x s' =>
      find_last_of_from c s' (pos + 1) (if Ascii.eqb x c then pos else found)
  end.

Definition find_last_of (s : string) (c : ascii) : Z :=
  find_last_of_from c s 0 npos.

(** What [GridIn::read(filename, format)] does to the format when it is
    [Default], [name] being the file that was found: the text after the
    last dot names the format, unless a slash follows that dot. *)
Definition format_of_file_name (name : string) : result Format :=
  let slashpos := find_last_of name "/" in
  let dotpos := find_last_of name "." in
  if (dotpos <? string_size name)
     && ((slashpos <? dotpos) || (slashpos =? npos)) then
    match string_substr name (size_t (dotpos + 1)) npos with
    | Some ext => parse_format ext
    | None => Throw Abaqus_to_UCD.out_of_range
    end
  else Ok Default.

End Formats.

(** The pieces of a text between the occurrences of a separator. *)
Fixpoint split_at (sep : ascii) (s : string) : list string :=
  match s with
  | EmptyString => [EmptyString]
  | String c s' =>
      if Ascii.eqb c sep then EmptyString :: split_at sep s'
      else match split_at sep s' with
           | piece :: pieces => String c piece :: pieces
           | [] => [String c EmptyString]
           end
  end.

(** ** [GridIn<2>::read_xda] *)

Section XDA_2.
Context `{Collaborators}.

(** One pass of the loop over the cells of the file. *)
Definition read_xda_2_cell (cell : Z) (cells : list CellData) : M (list CellData) :=
  AssertThrow_in ExcIO ;;;
  Assert (Nat.eqb (vertices_per_cell 2) 4) ExcInternalError ;;;
  match cells !! Z.to_nat cell with
  | Some c =>
      let* vs := on_input (extract_unsigned_each 32 (vertices c)) in
      ret (<[Z.to_nat cell := set_vertices vs c]> cells)
  | None => undefined
  end.

(** Everything the reader does before it turns to the clean-up: the
    vertices and the cells, and the two numbers of the header. *)
Definition read_xda_2_parse : M (list Point * list CellData * Z * Z) :=
  AssertThrow_in ExcIO ;;;
  let* line := on_input (getline "") in
  let* n_cells := on_input (extract_unsigned 32 indeterminate_int) in
  let* line := on_input (getline line) in
  let* n_vertices := on_input (extract_unsigned 32 indeterminate_int) in
  let* line := on_input (getline line) in
  let* line := on_input (getlines 8 line) in
  let* cells := for_loop (Z.to_nat n_cells) 0 read_xda_2_cell
             (repeat (CellData_default 2) (Z.to_nat n_cells)) in
  let* vertices := for_loop (Z.to_nat n_vertices) 0 (read_xda_vertex 2)
                (repeat (Point_origin 2) (Z.to_nat n_vertices)) in
  AssertThrow_in ExcIO ;;;
  ret (vertices, cells, n_vertices, n_cells).

Definition read_xda_2 : M unit :=
  let* r := read_xda_2_parse in
  let '(vertices, cells, _, _) := r in
  let* m := call (delete_unused_vertices 2 vertices cells SubCellData_empty) in
  let '(vertices, cells, subcelldata) := m in
  let* cells := call (invert_all_cells_of_negative_grid 2 vertices cells) in
  let* cells := call (reorder_cells 2 cells) in
  create_triangulation_compatibility 2 vertices cells subcelldata.

(** The generic [GridIn<dim, spacedim>::read_xda], used in every other
    dimension. *)
Definition read_xda_generic : M unit := Assert false ExcNotImplemented.

Definition read_xda (dim spacedim : Z) : M unit :=
  if (dim =? 2) && (spacedim =? 2) then read_xda_2
  else if (dim =? 3) && (spacedim =? 3) then read_xda_3
  else read_xda_generic.

End XDA_2.

(** ** [GridIn<dim, spacedim>::read_unv] *)

Section UNV.
Context `{Collaborators}.
Variables dim spacedim : Z.

(** [m[k]] for a [std::map<int, int>]: a key that the map does not hold is
    inserted with the value 0. *)
Definition map_index (m : gmap Z Z) (k : Z) : Z * gmap Z Z :=
  match m !! k with
  | Some n => (n, m)
  | None => (0, <[k := 0]> m)
  end.

(** [for (v : vertices) v = vertex_indices[v];] *)
Fixpoint unv_renumber (vertex_indices : gmap Z Z) (vs : list Z)
  : list Z * gmap Z Z :=
  match vs with
  | [] => ([], vertex_indices)
  | v :: vs' =>
      let '(n, m) := map_index vertex_indices (to_int v) in
      let '(ns, m') := unv_renumber m vs' in
      (to_unsigned n :: ns, m')
  end.

(** The loop over section 2411: the vertices, the map from the labels of
    the file to their positions, and [no_vertex]. *)
Fixpoint read_unv_vertices (passes : nat) (st : list Point * gmap Z Z * Z)
  : M (list Point * gmap Z Z * Z) :=
  match passes with
  | O => hang
  | S passes' =>
      AssertThrow_in ExcIO ;;;
      let* no := in_int indeterminate_int in
      if no =? -1 then ret st
      else
        let* dummy := in_int indeterminate_int in
        let* dummy := in_int dummy in
        let* dummy := in_int dummy in
        AssertThrow_in ExcIO ;;;
        let* x := on_input (extract_double_each (repeat indeterminate_double 3)) in
        let '(vertices, vertex_indices, no_vertex) := st in
        read_unv_vertices passes'
          (vertices ++ [Point_of spacedim x],
           <[no := no_vertex]> vertex_indices, no_vertex + 1)
  end.

(** What the loop over section 2412 updates. *)
Record unv_elements : Type := UnvElements {
  unv_vertex_indices : gmap Z Z;
  unv_cells : list CellData;
  unv_subcelldata : SubCellData;
  cell_indices : gmap Z Z;
  line_indices : gmap Z Z;
  quad_indices : gmap Z Z;
  no_cell : Z;
  no_line : Z;
  no_quad : Z
}.

(** The vertices of an entry of dimension [structdim]: they are read into a
    new entry, whose id is set to 0, and then replaced by the positions
    that [vertex_indices] gives them. *)
Definition read_unv_entry (structdim : Z) (vertex_indices : gmap Z Z)
  : M (CellData * gmap Z Z) :=
  let c := CellData_default structdim in
  AssertThrow_in ExcIO ;;;
  let* vs := on_input (extract_unsigned_each 32 (vertices c)) in
  let c := set_material_id 0 c in
  let '(vs, vertex_indices) := unv_renumber vertex_indices vs in
  ret (set_vertices vs c, vertex_indices).

Definition unknown_element_label (type : Z) : exc :=
  ExcMessage ("Unknown element label <" +:+ Abaqus_to_UCD.int_to_string type
              +:+ "> when running in dim=" +:+ Abaqus_to_UCD.int_to_string dim).

(** One element of section 2412, after its label [no]. *)
Definition read_unv_element (no : Z) (st : unv_elements) : M unv_elements :=
  let* type := in_int indeterminate_int in
  let* dummy := in_int indeterminate_int in
  let* dummy := in_int dummy in
  let* dummy := in_int dummy in
  let* dummy := in_int dummy in
  AssertThrow ((type =? 11) || (type =? 44) || (type =? 94) || (type =? 115))
    (ExcUnknownElementType type) ;;;
  if (((type =? 44) || (type =? 94)) && (dim =? 2))
     || ((type =? 115) && (dim =? 3)) then
    let* r := read_unv_entry dim (unv_vertex_indices st) in
    ret (UnvElements (snd r) (unv_cells st ++ [fst r]) (unv_subcelldata st)
           (<[no := no_cell st]> (cell_indices st)) (line_indices st)
           (quad_indices st) (no_cell st + 1) (no_line st) (no_quad st))
  else if ((type =? 11) && (dim =? 2)) || ((type =? 11) && (dim =? 3)) then
    AssertThrow_in ExcIO ;;;
    let* dummy := in_int dummy in
    let* dummy := in_int dummy in
    let* dummy := in_int dummy in
    let* r := read_unv_entry 1 (unv_vertex_indices st) in
    ret (UnvElements (snd r) (unv_cells st)
           (mkSubCellData (boundary_lines (unv_subcelldata st) ++ [fst r])
              (boundary_quads (unv_subcelldata st)))
           (cell_indices st) (<[no := no_line st]> (line_indices st))
           (quad_indices st) (no_cell st) (no_line st + 1) (no_quad st))
  else if ((type =? 44) || (type =? 94)) && (dim =? 3) then
    let* r := read_unv_entry 2 (unv_vertex_indices st) in
    ret (UnvElements (snd r) (unv_cells st)
           (mkSubCellData (boundary_lines (unv_subcelldata st))
              (boundary_quads (unv_subcelldata st) ++ [fst r]))
           (cell_indices st) (line_indices st)
           (<[no := no_quad st]> (quad_indices st))
           (no_cell st) (no_line st) (no_quad st + 1))
  else throw (unknown_element_label type).

(** The loop over section 2412. *)
Fixpoint read_unv_elements (passes : nat) (st : unv_elements) : M unv_elements :=
  match passes with
  | O => hang
  | S passes' =>
      AssertThrow_in ExcIO ;;;
      let* no := in_int indeterminate_int in
      if no =? -1 then ret st
      else
        let* st := read_unv_element no st in
        read_unv_elements passes' st
  end.

(** [v[i].material_id = id] for a position [i] of the vector. *)
Definition set_id_at (i id : Z) (v : list CellData) : M (list CellData) :=
  match v !! Z.to_nat i with
  | Some c =>
      if 0 <=? i then ret (<[Z.to_nat i := set_material_id (cast_material_id id) c]> v)
      else undefined
  | None => undefined
  end.

(** The id of a group is given to the cell, the boundary line and the
    boundary quad that have the label [no]. *)
Definition unv_set_ids (id no : Z) (st : unv_elements) : M unv_elements :=
  let* cells :=
    match cell_indices st !! no with
    | Some i => set_id_at i id (unv_cells st)
    | None => ret (unv_cells st)
    end in
  let* lines :=
    match line_indices st !! no with
    | Some i => set_id_at i id (boundary_lines (unv_subcelldata st))
    | None => ret (boundary_lines (unv_subcelldata st))
    end in
  let* quads :=
    match quad_indices st !! no with
    | Some i => set_id_at i id (boundary_quads (unv_subcelldata st))
    | None => ret (boundary_quads (unv_subcelldata st))
    end in
  ret (UnvElements (unv_vertex_indices st) cells (mkSubCellData lines quads)
         (cell_indices st) (line_indices st) (quad_indices st)
         (no_cell st) (no_line st) (no_quad st)).

(** One entity of a group: four numbers, the second of which is the label.
    The state holds [dummy] and [no] beside the elements. *)
Definition read_unv_fragment (id : Z) (st : Z * Z * unv_elements)
  : M (Z * Z * unv_elements) :=
  let '(dummy, no, elements) := st in
  AssertThrow_in ExcIO ;;;
  let* dummy := in_int dummy in
  let* no := in_int no in
  let* dummy := in_int dummy in
  let* dummy := in_int dummy in
  let* elements := unv_set_ids id no elements in
  ret (dummy, no, elements).

(** [(n_entities % 2 == 0) ? (n_entities / 2) : ((n_entities + 1) / 2)] in
    [int], converted to [unsigned int]. *)
Definition unv_n_lines (n_entities : Z) : M Z :=
  if Z.rem n_entities 2 =? 0 then ret (u32 (Z.quot n_entities 2))
  else if n_entities =? 2 ^ 31 - 1 then undefined
  else ret (u32 (Z.quot (n_entities + 1) 2)).

(** One line of a group: two entities, one on the last line of a group
    with an odd number of entities. *)
Definition read_unv_group_line (n_entities n_lines id : Z) (line : Z)
    (st : Z * Z * unv_elements) : M (Z * Z * unv_elements) :=
  let n_fragments :=
    if line =? u32 (n_lines - 1)
    then (if Z.rem n_entities 2 =? 0 then 2%nat else 1%nat)
    else 2%nat in
  for_loop n_fragments 0 (fun _ => read_unv_fragment id) st.

(** One group of section 2467 or 2477, after its first number. *)
Definition read_unv_group (dummy : Z) (st : unv_elements) : M unv_elements :=
  let* dummy := in_int dummy in
  let* dummy := in_int dummy in
  let* dummy := in_int dummy in
  let* dummy := in_int dummy in
  let* dummy := in_int dummy in
  let* dummy := in_int dummy in
  let* n_entities := in_int indeterminate_int in
  AssertThrow_in ExcIO ;;;
  let* id := in_int indeterminate_int in
  let* n_lines := unv_n_lines n_entities in
  let* r := for_loop (Z.to_nat n_lines) 0
              (read_unv_group_line n_entities n_lines id)
              (dummy, indeterminate_int, st) in
  ret (snd r).

(** The loop over the groups. *)
Fixpoint read_unv_groups (passes : nat) (st : unv_elements) : M unv_elements :=
  match passes with
  | O => hang
  | S passes' =>
      AssertThrow_in ExcIO ;;;
      let* dummy := in_int indeterminate_int in
      if dummy =? -1 then ret st
      else
        let* st := read_unv_group dummy st in
        read_unv_groups passes' st
  end.

(** A branch on [in.eof()]. *)
Definition if_eof {A} (m1 m2 : M A) : M A :=
  fun w => if eofbit (input w) then m1 w else m2 w.

(** Everything the reader does before it turns to the clean-up. *)
Definition read_unv_parse : M (list Point * unv_elements) :=
  Assert ((dim =? 2) || (dim =? 3)) ExcNotImplemented ;;;
  AssertThrow_in ExcIO ;;;
  skip_comment_lines "#" ;;;
  AssertThrow_in ExcIO ;;;
  let* tmp := in_int indeterminate_int in
  AssertThrow_in ExcIO ;;;
  let* tmp := in_int tmp in
  AssertThrow (tmp =? 2411) (ExcUnknownSectionType tmp) ;;;
  let* v := bounded_by_stream (fun n => read_unv_vertices n ([], ∅, 0)) in
  let '(vertices, vertex_indices, _) := v in
  AssertThrow_in ExcIO ;;;
  let* tmp := in_int (-1) in
  AssertThrow_in ExcIO ;;;
  let* tmp := in_int tmp in
  AssertThrow (tmp =? 2412) (ExcUnknownSectionType tmp) ;;;
  let* st := bounded_by_stream (fun n =>
               read_unv_elements n
                 (UnvElements vertex_indices [] SubCellData_empty ∅ ∅ ∅ 0 0 0)) in
  let* tmp := in_int (-1) in
  let* st :=
    if_eof (ret st)
      (AssertThrow_in ExcIO ;;;
       let* tmp := in_int tmp in
       AssertThrow ((tmp =? 2467) || (tmp =? 2477)) (ExcUnknownSectionType tmp) ;;;
       bounded_by_stream (fun n => read_unv_groups n st)) in
  ret (vertices, st).

Definition read_unv : M unit :=
  let* r := read_unv_parse in
  let '(vertices, st) := r in
  let cells := unv_cells st in
  let subcelldata := unv_subcelldata st in
  Assert (check_consistency dim subcelldata) ExcInternalError ;;;
  let* m := call (delete_unused_vertices dim vertices cells subcelldata) in
  let '(vertices, cells, subcelldata) := m in
  let* cells := (if dim =? spacedim
            then call (invert_all_cells_of_negative_grid dim vertices cells)
            else ret cells) in
  let* cells := call (reorder_cells dim cells) in
  create_triangulation_compatibility dim vertices cells subcelldata.

End UNV.

(** ** [GridIn<dim, spacedim>::read_dbmesh] *)

Section DBMESH.
Context `{Collaborators}.
Variables dim spacedim : Z.
(** The exceptions of [grid_in.h] that belong to this reader. *)
Variable ExcInvalidDBMESHInput : string -> exc.
Variable ExcDBMESHWrongDimension : Z -> exc.
Variable ExcInvalidDBMeshFormat : exc.

(** [getline(in, line); AssertThrow(line == keyword, ...)]. *)
Definition dbmesh_keyword (keyword line : string) : M string :=
  let* line := on_input (getline line) in
  AssertThrow (String.eqb line keyword) (ExcInvalidDBMESHInput line) ;;;
  ret line.

(** [while (getline(in, line), line.find("# END") == std::string::npos);]:
    the state of the stream is not looked at. *)
Fixpoint dbmesh_skip_to_END (passes : nat) (line : string) : M string :=
  match passes with
  | O => hang
  | S passes' =>
      let* line := on_input (getline line) in
      if string_find line "# END" 0 =? npos
      then dbmesh_skip_to_END passes' line
      else ret line
  end.

(** [while (getline(in, line),
           ((line.find("End") == std::string::npos) && (in)));] *)
Fixpoint dbmesh_skip_to_End (passes : nat) (line : string) : M string :=
  match passes with
  | O => hang
  | S passes' =>
      let* line := on_input (getline line) in
      if string_find line "End" 0 =? npos
      then if_in (dbmesh_skip_to_End passes' line) (ret line)
      else ret line
  end.

(** One vertex: its coordinates and a number that is discarded. *)
Definition read_dbmesh_vertex (vertex : Z) (st : list Point * double)
  : M (list Point * double) :=
  let* vertices := for_loop (Z.to_nat dim) 0
                     (fun d vertices => read_coordinate d vertex vertices)
                     (fst st) in
  let* dummy := in_double (snd st) in
  ret (vertices, dummy).

(** One edge: three numbers that are discarded. *)
Definition read_dbmesh_edge (edge : Z) (dummy : double) : M double :=
  let* dummy := in_double dummy in
  let* dummy := in_double dummy in
  in_double dummy.

(** The sections [Edges] and [CrackedEdges]. *)
Definition read_dbmesh_edges (keyword line : string) (n_edges : Z)
    (dummy : double) : M (string * Z * double) :=
  let* line := dbmesh_keyword keyword line in
  let* n_edges := in_unsigned n_edges in
  let* dummy := for_loop (Z.to_nat n_edges) 0 read_dbmesh_edge dummy in
  AssertThrow_in ExcInvalidDBMeshFormat ;;;
  skip_empty_lines ;;;
  ret (line, n_edges, dummy).

(** One vertex of a cell: the number is read, checked against the number
    of the vertices, and lowered by one. *)
Definition read_dbmesh_cell_vertex (cell : Z) (n_vertices : nat) (i : Z)
    (c : CellData) : M CellData :=
  match vertices c !! Z.to_nat i with
  | Some old =>
      let* v := in_unsigned old in
      AssertThrow ((1 <=? v) && (v <=? Z.of_nat n_vertices))
        (ExcInvalidVertexIndex cell v) ;;;
      ret (set_vertices (<[Z.to_nat i := u32 (v - 1)]> (vertices c)) c)
  | None => undefined
  end.

Definition read_dbmesh_cell (n_vertices : nat) (cell : Z)
    (st : list CellData * double) : M (list CellData * double) :=
  let* c := for_loop (vertices_per_cell dim) 0
              (read_dbmesh_cell_vertex cell n_vertices) (CellData_default dim) in
  let* dummy := in_double (snd st) in
  ret (fst st ++ [c], dummy).

(** Everything the reader does before it turns to the clean-up. *)
Definition read_dbmesh_parse : M (list Point * list CellData) :=
  Assert (dim =? 2) ExcNotImplemented ;;;
  AssertThrow_in ExcIO ;;;
  skip_comment_lines "#" ;;;
  let* line := dbmesh_keyword "MeshVersionFormatted 0" "" in
  skip_empty_lines ;;;
  let* line := dbmesh_keyword "Dimension" line in
  let* dimension := in_unsigned indeterminate_int in
  AssertThrow (dimension =? dim) (ExcDBMESHWrongDimension dimension) ;;;
  skip_empty_lines ;;;
  let* line := bounded_by_stream (fun n => dbmesh_skip_to_END n line) in
  skip_empty_lines ;;;
  let* line := dbmesh_keyword "Vertices" line in
  let* n_vertices := in_unsigned indeterminate_int in
  let* r := for_loop (Z.to_nat n_vertices) 0 read_dbmesh_vertex
              (repeat (Point_origin spacedim) (Z.to_nat n_vertices),
               indeterminate_double) in
  let '(vertices, dummy) := r in
  AssertThrow_in ExcInvalidDBMeshFormat ;;;
  skip_empty_lines ;;;
  let* r := read_dbmesh_edges "Edges" line indeterminate_int dummy in
  let '(line, n_edges, dummy) := r in
  let* r := read_dbmesh_edges "CrackedEdges" line n_edges dummy in
  let '(line, n_edges, dummy) := r in
  let* line := dbmesh_keyword "Quadrilaterals" line in
  let* n_cells := in_unsigned indeterminate_int in
  let* r := for_loop (Z.to_nat n_cells) 0 (read_dbmesh_cell (length vertices))
              ([], dummy) in
  let '(cells, dummy) := r in
  AssertThrow_in ExcInvalidDBMeshFormat ;;;
  skip_empty_lines ;;;
  let* line := bounded_by_stream (fun n => dbmesh_skip_to_End n line) in
  ret (vertices, cells).

Definition read_dbmesh : M unit :=
  let* r := read_dbmesh_parse in
  let '(vertices, cells) := r in
  let subcelldata := SubCellData_empty in
  Assert (check_consistency dim subcelldata) ExcInternalError ;;;
  AssertThrow_in ExcIO ;;;
  let* m := call (delete_unused_vertices dim vertices cells subcelldata) in
  let '(vertices, cells, subcelldata) := m in
  let* cells := call (invert_all_cells_of_negative_grid dim vertices cells) in
  let* cells := call (reorder_cells dim cells) in
  create_triangulation_compatibility dim vertices cells subcelldata.

End DBMESH.

(** ** [Abaqus_to_UCD::write_out_avs_ucd] and [GridIn::read_abaqus] *)

(** [output.width(n)] for the next item, which is adjusted to the right. *)
Definition pad_left (n : nat) (s : string) : string :=
  string_of_list_ascii (repeat " "%char (n - String.length s)) +:+ s.

Section Abaqus_reader.
Context `{Collaborators}.
Variables dim spacedim : Z.
(** How the stream library writes a [double] with eight digits of
    precision, in the default format and in the scientific one, and
    [std::abs]. *)
Variable double_general : double -> string.
Variable double_scientific : double -> string.
Variable double_abs : double -> double.

Import Abaqus_to_UCD.

Definition tab : string := String "009"%char "".
Definition endl : string := String newline "".

(** [tolerance(5e-16)], set by the constructor. *)
Definition tolerance : double := strtod "5e-16".

(** The items of a row from the position [first] on, [n] of them, each
    followed by a tab. *)
Fixpoint write_row (show : double -> string) (row : list double)
    (first : Z) (n : nat) : result string :=
  match n with
  | O => Ok ""
  | S n' =>
      match vector_get row first, write_row show row (first + 1) n' with
      | Ok x, Ok rest => Ok (show x +:+ tab +:+ rest)
      | Ok _, r => r
      | Throw e, _ => Throw e
      | Abort e, _ => Abort e
      | Hang, _ => Hang
      | Undefined, _ => Undefined
      end
  end.

(** A coordinate: [if (std::abs(x) > tolerance) output << x;
    else output << 0.0;] in the scientific format. *)
Definition write_coordinate (x : double) : string :=
  if negb (double_leb (double_abs x) tolerance) then double_scientific x
  else double_scientific double_zero.

(** One node.  The width that was set before the loop holds for the first
    item that is written after it. *)
Definition write_node (wide : bool) (node : list double) : result string :=
  match vector_get node 0, write_row write_coordinate node 1 (Z.to_nat spacedim) with
  | Ok number, Ok coordinates =>
      Ok ((if wide then pad_left 16 (double_general number)
           else double_general number)
          +:+ tab +:+ coordinates
          +:+ (if spacedim =? 2 then double_scientific double_zero +:+ tab else "")
          +:+ endl)
  | Ok _, r => r
  | Throw e, _ => Throw e
  | Abort e, _ => Abort e
  | Hang, _ => Hang
  | Undefined, _ => Undefined
  end.

(** One cell or face: its number, which counts from one, its first entry,
    the name of its kind and its nodes. *)
Definition write_entry (wide : bool) (kind : string) (n_nodes : nat) (ii : Z)
    (entry : list double) : result string :=
  match vector_get entry 0, write_row double_general entry 1 n_nodes with
  | Ok id, Ok nodes =>
      Ok ((if wide then pad_left 16 (to_string (u32 (ii + 1)))
           else to_string (u32 (ii + 1)))
          +:+ tab +:+ double_general id +:+ tab +:+ kind +:+ tab +:+ nodes +:+ endl)
  | Ok _, r => r
  | Throw e, _ => Throw e
  | Abort e, _ => Abort e
  | Hang, _ => Hang
  | Undefined, _ => Undefined
  end.

(** [for (ii = first; ii < first + rows.size(); ++ii) write rows[ii]],
    the first row being written with the width when [wide]. *)
Fixpoint write_rows (write : bool -> Z -> list double -> result string)
    (wide : bool) (ii : Z) (l : list (list double)) : result string :=
  match l with
  | [] => Ok ""
  | row :: l' =>
      match write wide ii row, write_rows write false (ii + 1) l' with
      | Ok a, Ok b => Ok (a +:+ b)
      | Ok _, r => r
      | Throw e, _ => Throw e
      | Abort e, _ => Abort e
      | Hang, _ => Hang
      | Undefined, _ => Undefined
      end
  end.

(** [write_out_avs_ucd]: the text that is written to the stream.  The stream
    is the [std::stringstream] that [read_abaqus] has just made, so the
    [AssertThrow(output, ExcIO())] at the start passes. *)
Definition write_out_avs_ucd (st : bridge) : result string :=
  let header :=
    "# Abaqus to UCD mesh conversion" +:+ endl +:+ "# Mesh type: AVS UCD" +:+ endl
    +:+ to_string (Z.of_nat (length (node_list st))) +:+ tab
    +:+ to_string (Z.of_nat (length (cell_list st) + length (face_list st)))
    +:+ tab +:+ "0" +:+ tab +:+ "0" +:+ tab +:+ "0" +:+ endl in
  let no_nodes := Nat.eqb (length (node_list st)) 0 in
  let no_cells := Nat.eqb (length (cell_list st)) 0 in
  match write_rows (fun wide _ => write_node wide) true 0 (node_list st),
        write_rows (fun wide => write_entry wide (if dim =? 2 then "quad" else "hex")
                                  (vertices_per_cell dim))
          no_nodes 0 (cell_list st),
        write_rows (fun wide => write_entry wide (if dim =? 2 then "line" else "quad")
                                  (Z.to_nat (2 ^ (dim - 1))))
          (no_nodes && no_cells) 0 (face_list st) with
  | Ok nodes, Ok cells, Ok faces => Ok (header +:+ nodes +:+ cells +:+ faces)
  | Ok _, Ok _, r => r
  | Ok _, r, _ => r
  | r, _, _ => r
  end.

Definition internal_conversion_unsuccessful : exc :=
  ExcMessage "Internal conversion from ABAQUS file to UCD format was unsuccessful. More information is provided in an error message printed above. Are you sure that your ABAQUS mesh file conforms with the requirements listed in the documentation?".

(** [try { read_ucd(in_ucd, ...); } catch (std::exception &) { ... }]: the
    UCD reader runs on a stream of its own, and every exception that it or
    the triangulation throws is replaced.  The exceptions of the model all
    derive from [std::exception], so it is the first handler that takes
    them; what it prints to [std::cerr] is left out. *)
Definition read_ucd_of_text (apply_all_indicators_to_manifolds : bool)
    (text : string) : M unit :=
  fun w =>
    let '(r, w_ucd) := read_ucd dim spacedim apply_all_indicators_to_manifolds
                         (World (istream_of text) (tria w)) in
    let w' := World (input w) (tria w_ucd) in
    match r with
    | Throw _ => (Throw internal_conversion_unsuccessful, w')
    | r => (r, w')
    end.

(** [GridIn::read_abaqus].  The constructor of the bridge throws in other
    space dimensions than two and three. *)
Definition read_abaqus (apply_all_indicators_to_manifolds : bool) : M unit :=
  Assert (((spacedim =? 2) && (dim =? spacedim))
          || ((spacedim =? 3) && ((dim =? spacedim) || (dim =? spacedim - 1))))
    ExcNotImplemented ;;;
  AssertThrow_in ExcIO ;;;
  AssertThrow ((spacedim =? 2) || (spacedim =? 3)) ExcNotImplemented ;;;
  let* abaqus_to_ucd := read_in_abaqus dim spacedim bridge_empty in
  let* in_ucd := call (write_out_avs_ucd abaqus_to_ucd) in
  read_ucd_of_text apply_all_indicators_to_manifolds in_ucd.

End Abaqus_reader.

(** ** [GridIn::read(std::istream &, Format)] *)

Section Dispatch.
Context `{Collaborators}.
Variables dim spacedim : Z.
Variable ExcInvalidDBMESHInput : string -> exc.
Variable ExcDBMESHWrongDimension : Z -> exc.
Variable ExcInvalidDBMeshFormat : exc.
Variable double_general : double -> string.
Variable double_scientific : double -> string.
Variable double_abs : double -> double.
(** The default argument of [read_ucd] and of [read_abaqus], which
    [grid_in.h] declares. *)
Variable apply_all_indicators_to_manifolds : bool.

(** The constructor sets [default_format(ucd)]. *)
Definition default_format : Format := ucd.

(** [read_tecplot] is defined for two dimensions; in every other dimension
    it is a failed debug-mode assertion. *)
Definition read_tecplot_generic : M unit := Assert false ExcNotImplemented.

Definition read_tecplot_in (dim spacedim : Z) : M unit :=
  if (dim =? 2) && (spacedim =? 2) then read_tecplot else read_tecplot_generic.

Definition no_read_netcdf : exc :=
  ExcMessage "There is no read_netcdf(istream &) function. Use the read_netcdf(string &filename) functions, instead.".

Definition no_read_assimp : exc :=
  ExcMessage "There is no read_assimp(istream &) function. Use the read_assimp(string &filename, ...) functions, instead.".

Definition read (format : Format) : M unit :=
  let format := match format with Default => default_format | _ => format end in
  match format with
  | dbmesh =>
      read_dbmesh dim spacedim ExcInvalidDBMESHInput ExcDBMESHWrongDimension
        ExcInvalidDBMeshFormat
  | msh => read_msh dim spacedim
  | vtk => read_vtk dim spacedim
  | unv => read_unv dim spacedim
  | ucd => read_ucd dim spacedim apply_all_indicators_to_manifolds
  | abaqus =>
      read_abaqus dim spacedim double_general double_scientific double_abs
        apply_all_indicators_to_manifolds
  | xda => read_xda dim spacedim
  | netcdf => Assert false no_read_netcdf
  | tecplot => read_tecplot_in dim spacedim
  | assimp => Assert false no_read_assimp
  | Default => Assert false ExcInternalError
  end.

End Dispatch.

(** ** More sample inputs *)

(** A DB Mesh file and an XDA file of one square. *)
Definition dbmesh_square : string := "MeshVersionFormatted 0
Dimension
2
# END
Vertices
4
0 0 1
1 0 1
1 1 1
0 1 1
Edges
0
CrackedEdges
0
Quadrilaterals
1
1 2 3 4 1
End
".

Definition xda_square : string := "DEAL 003:003
1 # Num. Elements
4 # Num. Nodes
4 # Sum of Element Weights
0 # Num. Boundary Conds.
65536 # String Size (ignore)
1 # Num. Element Blocks.
5 # Element types in each block.
1 # Num. of elements in each block.
Id String
Title String
0 1 2 3
0 0 0
1 0 0
1 1 0
0 1 0
".

Definition unv_square : string := "    -1
  2411
         1         1         1        11
   0 0 0
         2         1         1        11
   1 0 0
         3         1         1        11
   1 1 0
         4         1         1        11
   0 1 0
    -1
    -1
  2412
         1        44         1         1         7         4
         1         2         3         4
    -1
".

(** * Properties *)

(** ** Reasoning about the monad *)

Section Monad_properties.
Context {PF : Platform} {CO : Collaborators}.

Lemma bind_Ok_inv {A B} (m : M A) (k : A -> M B) (w w' : world) (b : B) :
  bind m k w = (Ok b, w') ->
  exists a w1, m w = (Ok a, w1) /\ k a w1 = (Ok b, w').
Proof.
  unfold bind. destruct (m w) as [[a| e | e | |] w1]; intros Hb; try discriminate.
  exists a, w1. split; [reflexivity | exact Hb].
Qed.

Lemma bind_Ok {A B} (m : M A) (k : A -> M B) (w w1 : world) (a : A) :
  m w = (Ok a, w1) -> bind m k w = k a w1.
Proof. intros Hm. unfold bind. rewrite Hm. reflexivity. Qed.

Lemma bind_Throw {A B} (m : M A) (k : A -> M B) (w w1 : world) (e : exc) :
  m w = (Throw e, w1) -> bind m k w = (Throw e, w1).
Proof. intros Hm. unfold bind. rewrite Hm. reflexivity. Qed.

(** A computation that leaves the triangulation as it found it, however it
    ends. *)
Definition keeps_tria {A} (m : M A) : Prop :=
  forall w, tria (snd (m w)) = tria w.

Lemma keeps_tria_ret {A} (a : A) : keeps_tria (ret a).
Proof. intros w. reflexivity. Qed.

Lemma keeps_tria_throw {A} (e : exc) : keeps_tria (throw e : M A).
Proof. intros w. reflexivity. Qed.

Lemma keeps_tria_abort {A} (e : exc) : keeps_tria (abort e : M A).
Proof. intros w. reflexivity. Qed.

Lemma keeps_tria_hang {A} : keeps_tria (hang : M A).
Proof. intros w. reflexivity. Qed.

Lemma keeps_tria_undefined {A} : keeps_tria (undefined : M A).
Proof. intros w. reflexivity. Qed.

Lemma keeps_tria_call {A} (r : result A) : keeps_tria (call r).
Proof. intros w. reflexivity. Qed.

Lemma keeps_tria_on_input {A} (f : istream -> A * istream) :
  keeps_tria (on_input f).
Proof. intros w. unfold on_input. destruct (f (input w)). reflexivity. Qed.

Lemma keeps_tria_bind {A B} (m : M A) (k : A -> M B) :
  keeps_tria m -> (forall a, keeps_tria (k a)) -> keeps_tria (bind m k).
Proof.
  intros Hm Hk w. unfold bind. specialize (Hm w).
  destruct (m w) as [[a| e | e | |] w1]; simpl in *; try exact Hm.
  rewrite Hk. exact Hm.
Qed.

Lemma keeps_tria_if_in {A} (m1 m2 : M A) :
  keeps_tria m1 -> keeps_tria m2 -> keeps_tria (if_in m1 m2).
Proof.
  intros H1 H2 w. unfold if_in. destruct (stream_ok (input w)); [apply H1 | apply H2].
Qed.

Lemma keeps_tria_bounded_by_stream {A} (f : nat -> M A) :
  (forall n, keeps_tria (f n)) -> keeps_tria (bounded_by_stream f).
Proof. intros Hf w. apply Hf. Qed.

Lemma keeps_tria_AssertThrow (c : bool) (e : exc) : keeps_tria (AssertThrow c e).
Proof. intros w. unfold AssertThrow. destruct c; reflexivity. Qed.

Lemma keeps_tria_Assert (c : bool) (e : exc) : keeps_tria (Assert c e).
Proof. intros w. unfold Assert. destruct (debug_mode && negb c); reflexivity. Qed.

Lemma keeps_tria_AssertThrow_in (e : exc) : keeps_tria (AssertThrow_in e).
Proof. apply keeps_tria_if_in; [apply keeps_tria_ret | apply keeps_tria_throw]. Qed.

Lemma keeps_tria_for_loop {St} (n : nat) (first : Z) (body : Z -> St -> M St) (s : St) :
  (forall i s, keeps_tria (body i s)) -> keeps_tria (for_loop n first body s).
Proof.
  intros Hbody. revert first s.
  induction n as [|n IH]; intros first s; simpl.
  - apply keeps_tria_ret.
  - apply keeps_tria_bind; [apply Hbody | intros a; apply IH].
Qed.

Lemma keeps_tria_vector_set {A} (i : Z) (x : A) (v : list A) :
  keeps_tria (vector_set i x v).
Proof.
  unfold vector_set. destruct ((0 <=? i) && (i <? Z.of_nat (length v)));
    [apply keeps_tria_ret | apply keeps_tria_undefined].
Qed.

(** The loop that runs [n] passes ends well only if every pass did, and a
    property that every pass maintains holds at its end. *)
Lemma for_loop_invariant {St} (I : nat -> St -> Prop) (n : nat) (first : Z)
    (body : Z -> St -> M St) (s s' : St) (w w' : world) :
  I 0%nat s ->
  (forall k i s1 s2 w1 w2,
      I k s1 -> body i s1 w1 = (Ok s2, w2) -> I (S k) s2) ->
  for_loop n first body s w = (Ok s', w') ->
  I n s'.
Proof.
  intros H0 Hstep. revert I first s w H0 Hstep.
  induction n as [|n IH]; intros I first s w H0 Hstep Hloop; simpl in Hloop.
  - inversion Hloop; subst. exact H0.
  - apply bind_Ok_inv in Hloop as (s1 & w1 & Hb & Hrest).
    apply (IH (fun k => I (S k)) (first + 1) s1 w1).
    + eapply Hstep; eauto.
    + intros k i s2 s3 w2 w3 HI Hb'. eapply Hstep; eauto.
    + exact Hrest.
Qed.

(** When the first [k] passes end well and the next one throws, the loop
    throws. *)
Lemma for_loop_throws_at {St} (n k : nat) (first : Z) (body : Z -> St -> M St)
    (s sk : St) (w wk w' : world) (e : exc) :
  (k < n)%nat ->
  for_loop k first body s w = (Ok sk, wk) ->
  body (first + Z.of_nat k) sk wk = (Throw e, w') ->
  for_loop n first body s w = (Throw e, w').
Proof.
  revert n first s w. induction k as [|k IH]; intros n first s w Hlt Hk Hbody.
  - simpl in Hk. inversion Hk; subst. destruct n as [|n]; [lia|].
    simpl. rewrite Z.add_0_r in Hbody. apply bind_Throw. exact Hbody.
  - destruct n as [|n]; [lia|]. simpl in Hk |- *.
    apply bind_Ok_inv in Hk as (s1 & w1 & Hb & Hrest).
    rewrite (bind_Ok _ _ _ _ _ Hb).
    apply IH; [lia | exact Hrest |].
    replace (first + 1 + Z.of_nat k) with (first + Z.of_nat (S k)) by lia.
    exact Hbody.
Qed.

Lemma AssertThrow_Ok_inv (c : bool) (e : exc) (w w' : world) (u : unit) :
  AssertThrow c e w = (Ok u, w') -> c = true /\ w' = w.
Proof.
  unfold AssertThrow. destruct c; intros Hc; inversion Hc; auto.
Qed.

Lemma AssertThrow_in_Ok_inv (e : exc) (w w' : world) (u : unit) :
  AssertThrow_in e w = (Ok u, w') -> stream_ok (input w) = true /\ w' = w.
Proof.
  unfold AssertThrow_in, if_in. destruct (stream_ok (input w)); intros Hc;
    inversion Hc; auto.
Qed.

Lemma Assert_Ok_inv (c : bool) (e : exc) (w w' : world) (u : unit) :
  Assert c e w = (Ok u, w') -> w' = w /\ (debug_mode = true -> c = true).
Proof.
  unfold Assert. destruct debug_mode, c; simpl; intros Hc; inversion Hc; auto.
Qed.

Lemma AssertThrow_true (e : exc) (w : world) : AssertThrow true e w = (Ok tt, w).
Proof. reflexivity. Qed.

Lemma AssertThrow_false (e : exc) (w : world) :
  AssertThrow false e w = (Throw e, w).
Proof. reflexivity. Qed.

Lemma AssertThrow_in_ok (e : exc) (w : world) :
  stream_ok (input w) = true -> AssertThrow_in e w = (Ok tt, w).
Proof. intros Hs. unfold AssertThrow_in, if_in. rewrite Hs. reflexivity. Qed.

Lemma AssertThrow_in_fail (e : exc) (w : world) :
  stream_ok (input w) = false -> AssertThrow_in e w = (Throw e, w).
Proof. intros Hs. unfold AssertThrow_in, if_in. rewrite Hs. reflexivity. Qed.

Lemma Assert_true (e : exc) (w : world) : Assert true e w = (Ok tt, w).
Proof. unfold Assert. rewrite andb_false_r. reflexivity. Qed.

Lemma on_input_eq {A} (f : istream -> A * istream) (w : world) (a : A) (i : istream) :
  f (input w) = (a, i) -> on_input f w = (Ok a, World i (tria w)).
Proof. intros Hf. unfold on_input. rewrite Hf. reflexivity. Qed.

Lemma keeps_tria_Ok {A} (m : M A) (w w' : world) (r : result A) :
  keeps_tria m -> m w = (r, w') -> tria w' = tria w.
Proof. intros Hm Hr. specialize (Hm w). rewrite Hr in Hm. exact Hm. Qed.

Lemma ret_Ok_inv {A} (a b : A) (w w' : world) :
  ret a w = (Ok b, w') -> b = a /\ w' = w.
Proof. unfold ret. intros Hr. inversion Hr. auto. Qed.

Lemma on_input_Ok_inv {A} (f : istream -> A * istream) (a : A) (w w' : world) :
  on_input f w = (Ok a, w') ->
  a = fst (f (input w)) /\ w' = World (snd (f (input w))) (tria w).
Proof.
  unfold on_input. destruct (f (input w)) as [a' i]. intros Hr.
  inversion Hr. auto.
Qed.

End Monad_properties.

(** A hypothesis that says that a computation ended well is taken apart
    along the binds of the computation. *)
Ltac inv_Ok_step :=
  match goal with
  | H : bind _ _ _ = (Ok _, _) |- _ =>
      let a := fresh "a" in let w := fresh "w" in let Ha := fresh "Ha" in
      apply bind_Ok_inv in H as (a & w & Ha & H)
  | H : ret _ _ = (Ok _, _) |- _ =>
      apply ret_Ok_inv in H as [? ?]; simplify_eq
  | H : throw _ _ = (Ok _, _) |- _ => discriminate H
  | H : abort _ _ = (Ok _, _) |- _ => discriminate H
  | H : hang _ = (Ok _, _) |- _ => discriminate H
  | H : undefined _ = (Ok _, _) |- _ => discriminate H
  | H : AssertThrow _ _ _ = (Ok _, _) |- _ =>
      apply AssertThrow_Ok_inv in H as [? ?]; subst
  | H : AssertThrow_in _ _ = (Ok _, _) |- _ =>
      apply AssertThrow_in_Ok_inv in H as [? ?]; subst
  | H : Assert _ _ _ = (Ok _, _) |- _ =>
      apply Assert_Ok_inv in H as [? ?]; subst
  | H : (if ?b then _ else _) _ = (Ok _, _) |- _ => destruct b eqn:?
  | H : (let '(_, _) := ?x in _) _ = (Ok _, _) |- _ => destruct x eqn:?
  | H : (let '(_, _) := ?x in _) = (Ok _, _) |- _ => destruct x eqn:?
  end.

Ltac inv_Ok := repeat inv_Ok_step.

Create HintDb frame.

#[export] Hint Resolve keeps_tria_ret keeps_tria_throw keeps_tria_abort
  keeps_tria_hang keeps_tria_undefined keeps_tria_call keeps_tria_on_input
  keeps_tria_AssertThrow keeps_tria_Assert keeps_tria_AssertThrow_in
  keeps_tria_vector_set : frame.

(** Goals [keeps_tria m] are proved along the structure of [m]. *)
Ltac frame_step :=
  match goal with
  | |- keeps_tria (bind _ _) => apply keeps_tria_bind; [| intros ?]
  | |- keeps_tria (for_loop _ _ _ _) => apply keeps_tria_for_loop; intros ? ?
  | |- keeps_tria (if_in _ _) => apply keeps_tria_if_in
  | |- keeps_tria (bounded_by_stream _) =>
      apply keeps_tria_bounded_by_stream; intros ?
  | |- keeps_tria (if ?b then _ else _) => destruct b
  | |- keeps_tria (match ?x with _ => _ end) => destruct x
  | |- keeps_tria _ => solve [auto with frame]
  end.

Ltac frame := repeat frame_step.

(** ** Properties of [read_xda] *)

Section XDA_properties.
Context {PF : Platform} {CO : Collaborators}.

Lemma xda_store_nodes_vertices (x0 x1 x2 x3 x4 x5 x6 x7 : Z) (c : CellData) :
  length (vertices c) = 8%nat ->
  vertices (xda_store_nodes [x0; x1; x2; x3; x4; x5; x6; x7] c)
  = [x0; x1; x5; x4; x3; x2; x6; x7].
Proof.
  intros Hlen. unfold xda_store_nodes. simpl.
  destruct (vertices c) as [|v0 [|v1 [|v2 [|v3 [|v4 [|v5 [|v6 [|v7 [|v8 vs]]]]]]]]];
    simpl in Hlen; try discriminate.
  reflexivity.
Qed.

(** C7.  One pass of the cell loop of the 3d XDA reader: when the stream is
    in a good state and yields the eight node numbers [x0 .. x7], the cell's
    vertex array becomes [(x0, x1, x5, x4, x3, x2, x6, x7)], that is
    [vertices[i] = x[xda_to_dealII_map[i]]]; the other cells are untouched
    and nothing is thrown. *)
Theorem read_xda_3_cell_vertex_order
    (cell : Z) (cells : list CellData) (c : CellData) (w : world)
    (x0 x1 x2 x3 x4 x5 x6 x7 : Z) (rest : istream) :
  stream_ok (input w) = true ->
  extract_unsigned_each 32 (repeat indeterminate_int 8) (input w)
    = ([x0; x1; x2; x3; x4; x5; x6; x7], rest) ->
  cells !! Z.to_nat cell = Some c ->
  length (vertices c) = 8%nat ->
  exists cells',
    read_xda_3_cell cell cells w = (Ok cells', World rest (tria w)) /\
    vertices <$> cells' !! Z.to_nat cell
      = Some (map (fun m => nth m [x0; x1; x2; x3; x4; x5; x6; x7] 0)
                  xda_to_dealII_map) /\
    vertices <$> cells' !! Z.to_nat cell = Some [x0; x1; x5; x4; x3; x2; x6; x7] /\
    forall j, j <> Z.to_nat cell -> cells' !! j = cells !! j.
Proof.
  intros Hok Hx Hc Hlen.
  eexists. split; [|split; [|split]].
  - unfold read_xda_3_cell, bind, AssertThrow_in, if_in, on_input, ret.
    rewrite Hok. change (Nat.eqb (vertices_per_cell 3) 8) with true.
    rewrite Assert_true, Hx. reflexivity.
  - rewrite list_lookup_alter_eq, Hc. cbn -[xda_store_nodes].
    rewrite xda_store_nodes_vertices by assumption. reflexivity.
  - rewrite list_lookup_alter_eq, Hc. cbn -[xda_store_nodes].
    rewrite xda_store_nodes_vertices by assumption. reflexivity.
  - intros j Hj. apply list_lookup_alter_ne. congruence.
Qed.

End XDA_properties.

Lemma read_xda_3_cell_vertex_order_witness :
  exists cells',
    read_xda_3_cell 0 [default_hex] (reading xda_cell_line)
      = (Ok cells', World (Istream "
" false false) []) /\
    vertices <$> cells' !! 0%nat
      = Some (map (fun m => nth m [10; 11; 12; 13; 14; 15; 16; 17] 0)
                  xda_to_dealII_map) /\
    vertices <$> cells' !! 0%nat = Some [10; 11; 15; 14; 13; 12; 16; 17] /\
    forall j, j <> 0%nat -> cells' !! j = [default_hex] !! j.
Proof.
  apply (read_xda_3_cell_vertex_order 0 [default_hex] default_hex
           (reading xda_cell_line) 10 11 12 13 14 15 16 17
           (Istream "
" false false)); reflexivity.
Defined.


(** ** Reading does not touch the triangulation *)

Section Frame.
Context {PF : Platform} {CO : Collaborators}.

Lemma keeps_tria_in_unsigned old : keeps_tria (in_unsigned old).
Proof. apply keeps_tria_on_input. Qed.
Lemma keeps_tria_in_unsigned_long old : keeps_tria (in_unsigned_long old).
Proof. apply keeps_tria_on_input. Qed.
Lemma keeps_tria_in_int old : keeps_tria (in_int old).
Proof. apply keeps_tria_on_input. Qed.
Lemma keeps_tria_in_double old : keeps_tria (in_double old).
Proof. apply keeps_tria_on_input. Qed.
Lemma keeps_tria_in_string old : keeps_tria (in_string old).
Proof. apply keeps_tria_on_input. Qed.
#[local] Hint Resolve keeps_tria_in_unsigned keeps_tria_in_unsigned_long
  keeps_tria_in_int keeps_tria_in_double keeps_tria_in_string : frame.

Lemma keeps_tria_skip_empty_lines_loop n line :
  keeps_tria (skip_empty_lines_loop n line).
Proof. revert line. induction n as [|n IH]; intros line; simpl; frame. Qed.
#[local] Hint Resolve keeps_tria_skip_empty_lines_loop : frame.

Lemma keeps_tria_skip_empty_lines : keeps_tria skip_empty_lines.
Proof. unfold skip_empty_lines. frame. Qed.
#[local] Hint Resolve keeps_tria_skip_empty_lines : frame.

Lemma keeps_tria_skip_to_newline n : keeps_tria (skip_to_newline n).
Proof. induction n as [|n IH]; simpl; frame. Qed.
#[local] Hint Resolve keeps_tria_skip_to_newline : frame.

Lemma keeps_tria_skip_comment_lines_loop n cs c :
  keeps_tria (skip_comment_lines_loop n cs c).
Proof. revert c. induction n as [|n IH]; intros c; simpl; frame. Qed.
#[local] Hint Resolve keeps_tria_skip_comment_lines_loop : frame.

Lemma keeps_tria_skip_comment_lines cs : keeps_tria (skip_comment_lines cs).
Proof. unfold skip_comment_lines. frame. Qed.
#[local] Hint Resolve keeps_tria_skip_comment_lines : frame.

Lemma keeps_tria_renumber_or_throw vi e vs :
  keeps_tria (renumber_or_throw vi e vs).
Proof. induction vs as [|v vs IH]; simpl; frame. Qed.

Lemma keeps_tria_renumber_or_Assert vi e vs :
  keeps_tria (renumber_or_Assert vi e vs).
Proof. induction vs as [|v vs IH]; simpl; frame. Qed.
#[local] Hint Resolve keeps_tria_renumber_or_throw keeps_tria_renumber_or_Assert
  : frame.

(** *** VTK *)

Lemma keeps_tria_read_vtk_header : keeps_tria read_vtk_header.
Proof. unfold read_vtk_header, read_vtk_header_line. frame. Qed.

Lemma keeps_tria_read_vtk_points sd : keeps_tria (read_vtk_points sd).
Proof. unfold read_vtk_points, read_vtk_point. frame. Qed.

Lemma keeps_tria_read_vtk_entry d t : keeps_tria (read_vtk_entry d t).
Proof. unfold read_vtk_entry. frame. Qed.
#[local] Hint Resolve keeps_tria_read_vtk_header keeps_tria_read_vtk_points
  keeps_tria_read_vtk_entry : frame.

Lemma keeps_tria_read_vtk_object_3 c o : keeps_tria (read_vtk_object_3 c o).
Proof. unfold read_vtk_object_3. frame. Qed.
Lemma keeps_tria_read_vtk_object_2 c o : keeps_tria (read_vtk_object_2 c o).
Proof. unfold read_vtk_object_2. frame. Qed.
Lemma keeps_tria_read_vtk_object_1 c o : keeps_tria (read_vtk_object_1 c o).
Proof. unfold read_vtk_object_1. frame. Qed.
#[local] Hint Resolve keeps_tria_read_vtk_object_3 keeps_tria_read_vtk_object_2
  keeps_tria_read_vtk_object_1 : frame.

Lemma keeps_tria_read_vtk_cells dim : keeps_tria (read_vtk_cells dim).
Proof. unfold read_vtk_cells. frame. Qed.

Lemma keeps_tria_read_vtk_cell_types n k : keeps_tria (read_vtk_cell_types n k).
Proof. unfold read_vtk_cell_types. frame. Qed.

Lemma keeps_tria_read_vtk_id set c : keeps_tria (read_vtk_id set c).
Proof. unfold read_vtk_id. frame. Qed.
#[local] Hint Resolve keeps_tria_read_vtk_cells keeps_tria_read_vtk_cell_types
  keeps_tria_read_vtk_id : frame.

Lemma keeps_tria_read_vtk_ids set cs : keeps_tria (read_vtk_ids set cs).
Proof. induction cs as [|c cs IH]; simpl; frame. Qed.
#[local] Hint Resolve keeps_tria_read_vtk_ids : frame.

Lemma keeps_tria_read_vtk_scalars dim o : keeps_tria (read_vtk_scalars dim o).
Proof. unfold read_vtk_scalars. frame. Qed.
#[local] Hint Resolve keeps_tria_read_vtk_scalars : frame.

Lemma keeps_tria_read_vtk_scalars_loop dim n st :
  keeps_tria (read_vtk_scalars_loop dim n st).
Proof. revert st. induction n as [|n IH]; intros st; simpl; frame. Qed.
#[local] Hint Resolve keeps_tria_read_vtk_scalars_loop : frame.

Lemma keeps_tria_read_vtk_cell_data dim n o :
  keeps_tria (read_vtk_cell_data dim n o).
Proof. unfold read_vtk_cell_data. frame. Qed.
#[local] Hint Resolve keeps_tria_read_vtk_cell_data : frame.

Lemma keeps_tria_read_vtk_cell_data_loop dim p n st :
  keeps_tria (read_vtk_cell_data_loop dim p n st).
Proof. revert st. induction p as [|p IH]; intros st; simpl; frame. Qed.
#[local] Hint Resolve keeps_tria_read_vtk_cell_data_loop : frame.

Lemma keeps_tria_read_vtk_before_cells sd : keeps_tria (read_vtk_before_cells sd).
Proof. unfold read_vtk_before_cells. frame. Qed.
#[local] Hint Resolve keeps_tria_read_vtk_before_cells : frame.

Lemma keeps_tria_read_vtk_parse dim sd : keeps_tria (read_vtk_parse dim sd).
Proof. unfold read_vtk_parse. frame. Qed.

(** *** UCD *)

Lemma keeps_tria_read_ucd_vertex sd v st : keeps_tria (read_ucd_vertex sd v st).
Proof. unfold read_ucd_vertex. frame. Qed.

Lemma keeps_tria_read_ucd_cell dim flag c m vi :
  keeps_tria (read_ucd_cell dim flag c m vi).
Proof. unfold read_ucd_cell. frame. Qed.

Lemma keeps_tria_read_ucd_boundary_line flag c m vi :
  keeps_tria (read_ucd_boundary_line flag c m vi).
Proof. unfold read_ucd_boundary_line. frame. Qed.

Lemma keeps_tria_read_ucd_boundary_quad flag c m vi :
  keeps_tria (read_ucd_boundary_quad flag c m vi).
Proof. unfold read_ucd_boundary_quad. frame. Qed.
#[local] Hint Resolve keeps_tria_read_ucd_vertex keeps_tria_read_ucd_cell
  keeps_tria_read_ucd_boundary_line keeps_tria_read_ucd_boundary_quad : frame.

Lemma keeps_tria_read_ucd_entry dim flag vi c st :
  keeps_tria (read_ucd_entry dim flag vi c st).
Proof. unfold read_ucd_entry. frame. Qed.
#[local] Hint Resolve keeps_tria_read_ucd_entry : frame.

Lemma keeps_tria_read_ucd_parse dim sd flag :
  keeps_tria (read_ucd_parse dim sd flag).
Proof. unfold read_ucd_parse. frame. Qed.

(** *** MSH *)

Lemma keeps_tria_skip_until n marker line : keeps_tria (skip_until n marker line).
Proof. revert line. induction n as [|n IH]; intros line; simpl; frame. Qed.
#[local] Hint Resolve keeps_tria_skip_until : frame.

Lemma keeps_tria_read_msh_entity fmt d i tm :
  keeps_tria (read_msh_entity fmt d i tm).
Proof.
  unfold read_msh_entity, read_msh_entity_tag, read_msh_bounding_tags. frame.
Qed.
#[local] Hint Resolve keeps_tria_read_msh_entity : frame.

Lemma keeps_tria_read_msh_entities fmt : keeps_tria (read_msh_entities fmt).
Proof. unfold read_msh_entities. frame. Qed.
#[local] Hint Resolve keeps_tria_read_msh_entities : frame.

Lemma keeps_tria_read_msh_header : keeps_tria read_msh_header.
Proof. unfold read_msh_header. frame. Qed.

Lemma keeps_tria_read_msh_node sd fmt p vn v st :
  keeps_tria (read_msh_node sd fmt p vn v st).
Proof. unfold read_msh_node. frame. Qed.
#[local] Hint Resolve keeps_tria_read_msh_header keeps_tria_read_msh_node : frame.

Lemma keeps_tria_read_msh_node_block sd fmt n b st :
  keeps_tria (read_msh_node_block sd fmt n b st).
Proof. unfold read_msh_node_block. frame. Qed.
#[local] Hint Resolve keeps_tria_read_msh_node_block : frame.

Lemma keeps_tria_read_msh_nodes sd fmt : keeps_tria (read_msh_nodes sd fmt).
Proof. unfold read_msh_nodes. frame. Qed.

Lemma keeps_tria_read_msh_element_head dim fmt st :
  keeps_tria (read_msh_element_head dim fmt st).
Proof. unfold read_msh_element_head. frame. Qed.

Lemma keeps_tria_read_msh_cell dim c e m n vi :
  keeps_tria (read_msh_cell dim c e m n vi).
Proof. unfold read_msh_cell. frame. Qed.

Lemma keeps_tria_read_msh_boundary_line c m vi :
  keeps_tria (read_msh_boundary_line c m vi).
Proof. unfold read_msh_boundary_line. frame. Qed.

Lemma keeps_tria_read_msh_boundary_quad c m vi :
  keeps_tria (read_msh_boundary_quad c m vi).
Proof. unfold read_msh_boundary_quad. frame. Qed.
#[local] Hint Resolve keeps_tria_read_msh_nodes keeps_tria_read_msh_element_head
  keeps_tria_read_msh_cell keeps_tria_read_msh_boundary_line
  keeps_tria_read_msh_boundary_quad : frame.

Lemma keeps_tria_read_msh_element dim fmt c st :
  keeps_tria (read_msh_element dim fmt c st).
Proof. unfold read_msh_element. frame. Qed.
#[local] Hint Resolve keeps_tria_read_msh_element : frame.

Lemma keeps_tria_read_msh_element_block dim fmt n tm b st :
  keeps_tria (read_msh_element_block dim fmt n tm b st).
Proof. unfold read_msh_element_block. frame. Qed.
#[local] Hint Resolve keeps_tria_read_msh_element_block : frame.

Lemma keeps_tria_read_msh_elements dim fmt nb tm vi :
  keeps_tria (read_msh_elements dim fmt nb tm vi).
Proof. unfold read_msh_elements. frame. Qed.

Lemma keeps_tria_read_msh_end dim fmt st : keeps_tria (read_msh_end dim fmt st).
Proof. unfold read_msh_end. frame. Qed.
#[local] Hint Resolve keeps_tria_read_msh_elements keeps_tria_read_msh_end : frame.

Lemma keeps_tria_read_msh_sections dim sd : keeps_tria (read_msh_sections dim sd).
Proof. unfold read_msh_sections. frame. Qed.
#[local] Hint Resolve keeps_tria_read_msh_sections : frame.

Lemma keeps_tria_read_msh_parse dim sd : keeps_tria (read_msh_parse dim sd).
Proof. unfold read_msh_parse. frame. Qed.

End Frame.

#[export] Hint Resolve keeps_tria_in_unsigned keeps_tria_in_unsigned_long
  keeps_tria_in_int keeps_tria_in_double keeps_tria_in_string
  keeps_tria_skip_empty_lines_loop keeps_tria_skip_empty_lines
  keeps_tria_skip_to_newline keeps_tria_skip_comment_lines_loop
  keeps_tria_skip_comment_lines keeps_tria_renumber_or_throw
  keeps_tria_renumber_or_Assert keeps_tria_read_vtk_header
  keeps_tria_read_vtk_points keeps_tria_read_vtk_entry
  keeps_tria_read_vtk_object_3 keeps_tria_read_vtk_object_2
  keeps_tria_read_vtk_object_1 keeps_tria_read_vtk_cells
  keeps_tria_read_vtk_cell_types keeps_tria_read_vtk_id
  keeps_tria_read_vtk_ids keeps_tria_read_vtk_scalars
  keeps_tria_read_vtk_scalars_loop keeps_tria_read_vtk_cell_data
  keeps_tria_read_vtk_cell_data_loop keeps_tria_read_vtk_before_cells
  keeps_tria_read_vtk_parse keeps_tria_read_ucd_vertex
  keeps_tria_read_ucd_cell keeps_tria_read_ucd_boundary_line
  keeps_tria_read_ucd_boundary_quad keeps_tria_read_ucd_entry
  keeps_tria_read_ucd_parse keeps_tria_skip_until keeps_tria_read_msh_entity
  keeps_tria_read_msh_entities keeps_tria_read_msh_header
  keeps_tria_read_msh_node keeps_tria_read_msh_node_block
  keeps_tria_read_msh_nodes keeps_tria_read_msh_element_head
  keeps_tria_read_msh_cell keeps_tria_read_msh_boundary_line
  keeps_tria_read_msh_boundary_quad keeps_tria_read_msh_element
  keeps_tria_read_msh_element_block keeps_tria_read_msh_elements
  keeps_tria_read_msh_end keeps_tria_read_msh_sections
  keeps_tria_read_msh_parse : frame.

(** ** C1: a failed read and the triangulation *)

Section Sink_contract.
Context {PF : Platform} {CO : Collaborators}.

(** What a reader of dimension [dim] may do to the triangulation, started in
    [w]: when it ends well it has made exactly one call, the construction,
    which the triangulation accepted; when it throws, it has made no call,
    unless the exception is the triangulation's own refusal of the mesh it
    was handed; when it ends in any other way it has made no call. *)
Definition sink_contract (dim : Z) (m : M unit) (w : world) : Prop :=
  match m w with
  | (Ok _, w') =>
      exists v c s,
        tria w' = tria w ++ [called_create_triangulation_compatibility v c s]
        /\ tria_refuses dim v c s = None
  | (Throw e, w') =>
      tria w' = tria w \/
      exists v c s,
        tria w' = tria w ++ [called_create_triangulation_compatibility v c s]
        /\ tria_refuses dim v c s = Some e
  | (_, w') => tria w' = tria w
  end.

Definition not_at_boundary : exc :=
  ExcMessage "You are trying to prescribe boundary ids on the face of a 1d cell (i.e., on a vertex), but this face is not actually at the boundary of the mesh. This is not allowed.".

Definition is_set_boundary_id (c : tria_call) : bool :=
  match c with called_set_boundary_id _ _ _ => true | _ => false end.

(** The same for the Gmsh reader in one dimension, where the boundary ids
    of vertices are set after the construction: the construction may be
    followed by calls that set boundary ids, and the reader may throw after
    it, when a vertex with a boundary id is not at the boundary. *)
Definition sink_contract_1d (m : M unit) (w : world) : Prop :=
  match m w with
  | (Ok _, w') =>
      exists v c s ids,
        tria w' = tria w ++ called_create_triangulation_compatibility v c s :: ids
        /\ forallb is_set_boundary_id ids = true
  | (Throw e, w') =>
      tria w' = tria w \/
      exists v c s ids,
        tria w' = tria w ++ called_create_triangulation_compatibility v c s :: ids
        /\ forallb is_set_boundary_id ids = true
        /\ (tria_refuses 1 v c s = Some e \/ e = not_at_boundary)
  | (_, w') => tria w' = tria w
  end.

Lemma sink_contract_bind {A} (dim : Z) (m : M A) (k : A -> M unit) (w : world) :
  keeps_tria m ->
  (forall a w1, sink_contract dim (k a) w1) ->
  sink_contract dim (bind m k) w.
Proof.
  intros Hm Hk. unfold sink_contract, bind. specialize (Hm w).
  destruct (m w) as [[a| e | e | |] w1]; simpl in Hm; auto.
  specialize (Hk a w1). unfold sink_contract in Hk.
  rewrite Hm in Hk. exact Hk.
Qed.

Lemma sink_contract_create (dim : Z) v c s (w : world) :
  sink_contract dim (create_triangulation_compatibility dim v c s) w.
Proof.
  unfold sink_contract, create_triangulation_compatibility.
  destruct (tria_refuses dim v c s) as [e|] eqn:Hr; simpl.
  - right. exists v, c, s. split; [reflexivity | exact Hr].
  - exists v, c, s. split; [reflexivity | exact Hr].
Qed.

Lemma sink_contract_then_ret (dim : Z) (m : M unit) (w : world) :
  sink_contract dim m w -> sink_contract dim (bind m (fun _ => ret tt)) w.
Proof.
  unfold sink_contract, bind. destruct (m w) as [[a| e | e | |] w1]; simpl; auto.
Qed.

(** The steps that every reader ends with. *)
Ltac contract_step :=
  match goal with
  | |- sink_contract _ (create_triangulation_compatibility _ _ _ _) _ =>
      apply sink_contract_create
  | |- sink_contract _ (bind _ _) _ =>
      apply sink_contract_bind; [solve [frame] | intros ? ?]
  | |- sink_contract _ (match ?x with _ => _ end) _ => destruct x
  end.

Lemma read_vtk_contract (dim spacedim : Z) (w : world) :
  sink_contract dim (read_vtk dim spacedim) w.
Proof. unfold read_vtk. repeat contract_step. Qed.

Lemma read_ucd_contract (dim spacedim : Z) (flag : bool) (w : world) :
  sink_contract dim (read_ucd dim spacedim flag) w.
Proof. unfold read_ucd. repeat contract_step. Qed.

Lemma read_msh_contract (dim spacedim : Z) (w : world) :
  (dim =? 1) = false -> sink_contract dim (read_msh dim spacedim) w.
Proof.
  intros Hdim. unfold read_msh. rewrite Hdim.
  repeat first [ apply sink_contract_then_ret | contract_step ].
Qed.

Lemma sink_contract_1d_bind {A} (m : M A) (k : A -> M unit) (w : world) :
  keeps_tria m ->
  (forall a w1, sink_contract_1d (k a) w1) ->
  sink_contract_1d (bind m k) w.
Proof.
  intros Hm Hk. unfold sink_contract_1d, bind. specialize (Hm w).
  destruct (m w) as [[a| e | e | |] w1]; simpl in Hm; auto.
  specialize (Hk a w1). unfold sink_contract_1d in Hk.
  rewrite Hm in Hk. exact Hk.
Qed.

(** The calls [assign_1d_boundary_ids] makes set boundary ids, and the only
    way it fails is by throwing at a vertex that is not at the boundary. *)
Definition sets_boundary_ids (m : M unit) : Prop :=
  forall w,
    exists ids,
      tria (snd (m w)) = tria w ++ ids /\ forallb is_set_boundary_id ids = true /\
      (fst (m w) = Ok tt \/ fst (m w) = Throw not_at_boundary).

Lemma sets_boundary_ids_ret : sets_boundary_ids (ret tt).
Proof.
  intros w. exists []. simpl. rewrite app_nil_r. auto.
Qed.

Lemma sets_boundary_ids_bind (m : M unit) (k : M unit) :
  sets_boundary_ids m -> sets_boundary_ids k ->
  sets_boundary_ids (bind m (fun _ => k)).
Proof.
  intros Hm Hk w. unfold bind.
  destruct (Hm w) as (ids1 & Ht1 & Hf1 & Hr1).
  destruct (m w) as [r w1]. simpl in *.
  destruct Hr1 as [-> | ->].
  - destruct (Hk w1) as (ids2 & Ht2 & Hf2 & Hr2).
    exists (ids1 ++ ids2). rewrite Ht2, Ht1, <- app_assoc.
    rewrite forallb_app, Hf1, Hf2. auto.
  - exists ids1. simpl. auto.
Qed.

Lemma sets_boundary_ids_one ids cell f v :
  sets_boundary_ids (assign_1d_boundary_id ids cell f v).
Proof.
  intros w. unfold assign_1d_boundary_id.
  destruct (ids !! v) as [id|].
  - destruct (at_boundary_1d (tria w) cell f); simpl.
    + exists [called_set_boundary_id cell f id]. auto.
    + exists []. rewrite app_nil_r. auto.
  - apply sets_boundary_ids_ret.
Qed.

Lemma sets_boundary_ids_cells ids cell cells :
  sets_boundary_ids (assign_1d_boundary_ids_cells ids cell cells).
Proof.
  revert cell. induction cells as [|c cells IH]; intros cell; simpl.
  - apply sets_boundary_ids_ret.
  - repeat apply sets_boundary_ids_bind; auto using sets_boundary_ids_one.
Qed.

Lemma sets_boundary_ids_all ids : sets_boundary_ids (assign_1d_boundary_ids ids).
Proof.
  unfold assign_1d_boundary_ids.
  destruct (0 <? Z.of_nat (size ids)); [|apply sets_boundary_ids_ret].
  intros w. apply sets_boundary_ids_cells.
Qed.

Lemma sink_contract_1d_create v c s ids (w : world) :
  sink_contract_1d
    (bind (create_triangulation_compatibility 1 v c s)
          (fun _ => assign_1d_boundary_ids ids)) w.
Proof.
  unfold sink_contract_1d, bind, create_triangulation_compatibility.
  destruct (tria_refuses 1 v c s) as [e|] eqn:Hr.
  - right. exists v, c, s, []. simpl. auto.
  - destruct (sets_boundary_ids_all ids
                (World (input w)
                   (tria w ++ [called_create_triangulation_compatibility v c s])))
      as (l & Ht & Hf & Hres).
    destruct (assign_1d_boundary_ids ids _) as [r w']. simpl in *.
    destruct Hres as [-> | ->].
    + exists v, c, s, l. rewrite Ht, <- app_assoc. auto.
    + right. exists v, c, s, l. rewrite Ht, <- app_assoc. auto.
Qed.

Lemma read_msh_contract_1d (spacedim : Z) (w : world) :
  sink_contract_1d (read_msh 1 spacedim) w.
Proof.
  unfold read_msh. change (1 =? 1) with true. cbv iota.
  repeat first
    [ apply sink_contract_1d_create
    | apply sink_contract_1d_bind; [solve [frame] | intros ? ?]
    | match goal with
      | |- sink_contract_1d (match ?x with _ => _ end) _ => destruct x
      end ].
Qed.

(** C1 (amended).  For the VTK reader, the UCD reader and, in two and three
    dimensions, the Gmsh reader: whatever the input, a read that fails has
    made no call to the triangulation, unless the failure is the
    triangulation's own refusal of the mesh handed to it at the very end; a
    read that ends well has made the one construction call.  The Gmsh
    reader in one dimension sets the boundary ids of vertices after the
    construction and can throw there, so it may fail after it has
    constructed the triangulation. *)
Theorem failed_read_and_the_triangulation
    (dim spacedim : Z) (apply_all_indicators_to_manifolds : bool) (w : world) :
  sink_contract dim (read_vtk dim spacedim) w /\
  sink_contract dim (read_ucd dim spacedim apply_all_indicators_to_manifolds) w /\
  (if dim =? 1 then sink_contract_1d (read_msh 1 spacedim) w
   else sink_contract dim (read_msh dim spacedim) w).
Proof.
  split; [apply read_vtk_contract | split; [apply read_ucd_contract |]].
  destruct (dim =? 1) eqn:Hdim.
  - apply read_msh_contract_1d.
  - apply read_msh_contract. exact Hdim.
Qed.

End Sink_contract.

(** C1, as stated, fails for the Gmsh reader in one dimension: on
    [msh_1d_interior_point] the read throws after the triangulation has
    been constructed. *)
Lemma read_msh_1d_fails_after_construction :
  @read_msh _ release 1 1 (reading msh_1d_interior_point)
  = (Throw not_at_boundary,
     World (Istream "
" false false)
       [@called_create_triangulation_compatibility release_platform
          [[0%Q]; [1%Q]; [2%Q]]
          [mkCellData [0; 1] 0 4294967295; mkCellData [1; 2] 0 4294967295]
          (mkSubCellData [] [])]).
Proof. reflexivity. Qed.

(** ** C2: the number of entries read *)

Section Counts.
Context {PF : Platform} {CO : Collaborators}.

Lemma span_isdigit_digits (s : string) :
  forall acc, 0 <= acc -> 0 <= decimal_value acc (fst (span isdigit s)).
Proof.
  induction s as [|c s IH]; intros acc Hacc; simpl; [exact Hacc|].
  destruct (isdigit c) eqn:Hc; [|exact Hacc].
  destruct (span isdigit s) as [a b] eqn:Hs. simpl in *.
  apply IH. unfold isdigit in Hc. unfold digit_value. lia.
Qed.

(** An unsigned extraction into a variable that holds a value that is not
    negative yields a value that is not negative. *)
Lemma extract_unsigned_nonneg (bits old : Z) (i : istream) :
  0 <= bits -> 0 <= old -> 0 <= fst (extract_unsigned bits old i).
Proof.
  intros Hbits Hold. unfold extract_unsigned.
  destruct (sentry true i) as [[|] i1]; [|exact Hold].
  unfold scan_integer.
  destruct (match buf i1 with
            | String c s' => _ | EmptyString => _ end) as [neg s1].
  pose proof (span_isdigit_digits s1 0 (Z.le_refl 0)) as Hv.
  destruct (span isdigit s1) as [ds rest]. simpl in Hv.
  assert (0 < 2 ^ bits) by (apply Z.pow_pos_nonneg; lia).
  destruct (is_empty ds); simpl; [lia|].
  destruct (2 ^ bits - 1 <? decimal_value 0 ds); simpl; [lia|].
  destruct neg; [apply Z.mod_pos_bound; lia | exact Hv].
Qed.

Lemma n_objects_cell (o : vtk_objects) (c : CellData) :
  n_objects (VtkObjects (vtk_cells o ++ [c]) (vtk_subcelldata o))
  = S (n_objects o).
Proof. unfold n_objects. simpl. rewrite length_app. simpl. lia. Qed.

Lemma n_objects_quad (o : vtk_objects) (c : CellData) :
  n_objects (VtkObjects (vtk_cells o)
               (mkSubCellData (boundary_lines (vtk_subcelldata o))
                              (boundary_quads (vtk_subcelldata o) ++ [c])))
  = S (n_objects o).
Proof. unfold n_objects. simpl. rewrite length_app. simpl. lia. Qed.

Lemma n_objects_line (o : vtk_objects) (c : CellData) :
  n_objects (VtkObjects (vtk_cells o)
               (mkSubCellData (boundary_lines (vtk_subcelldata o) ++ [c])
                              (boundary_quads (vtk_subcelldata o))))
  = S (n_objects o).
Proof. unfold n_objects. simpl. rewrite length_app. simpl. lia. Qed.

(** Every pass of the VTK loops that ends well stores exactly one entry. *)
Lemma read_vtk_object_3_count count o w o' w' :
  read_vtk_object_3 count o w = (Ok o', w') -> n_objects o' = S (n_objects o).
Proof.
  unfold read_vtk_object_3. intros Hr. inv_Ok;
    auto using n_objects_cell, n_objects_quad, n_objects_line.
Qed.

Lemma read_vtk_object_2_count count o w o' w' :
  read_vtk_object_2 count o w = (Ok o', w') -> n_objects o' = S (n_objects o).
Proof.
  unfold read_vtk_object_2. intros Hr. inv_Ok;
    auto using n_objects_cell, n_objects_line.
Qed.

Lemma read_vtk_object_1_count count o w o' w' :
  read_vtk_object_1 count o w = (Ok o', w') -> n_objects o' = S (n_objects o).
Proof.
  unfold read_vtk_object_1. intros Hr. inv_Ok. apply n_objects_cell.
Qed.

Lemma vtk_loop_count (body : Z -> vtk_objects -> M vtk_objects) n first o w o' w' :
  (forall c o1 w1 o2 w2, body c o1 w1 = (Ok o2, w2) -> n_objects o2 = S (n_objects o1)) ->
  for_loop n first body o w = (Ok o', w') ->
  n_objects o' = (n_objects o + n)%nat.
Proof.
  intros Hbody Hloop.
  apply (for_loop_invariant (fun k o1 => n_objects o1 = (n_objects o + k)%nat)
           n first body o o' w w'); [lia | | exact Hloop].
  intros k i s1 s2 w1 w2 HI Hb. rewrite (Hbody _ _ _ _ _ Hb), HI. lia.
Qed.

(** The CELLS section of a VTK file: the entries read are as many as the
    section declares. *)
Lemma read_vtk_cells_count dim w n o w' :
  read_vtk_cells dim w = (Ok (n, o), w') -> Z.of_nat (n_objects o) = n.
Proof.
  unfold read_vtk_cells. intros Hr. inv_Ok.
  all: match goal with
       | H : on_input (extract_unsigned 32 0) _ = _ |- _ =>
           apply on_input_Ok_inv in H as [Hn _]
       end.
  all: pose proof (extract_unsigned_nonneg 32 0 (input w) ltac:(lia) ltac:(lia))
         as Hnn; rewrite <- Hn in Hnn.
  all: match goal with
       | H : for_loop _ _ _ _ _ = _ |- _ =>
           apply vtk_loop_count in H;
             [ rewrite H; unfold n_objects; simpl; lia
             | eauto using read_vtk_object_3_count, read_vtk_object_2_count,
                 read_vtk_object_1_count ]
       end.
Qed.

(** The cell list of a UCD file: every entry read is a cell or a boundary
    entry. *)
Lemma read_ucd_entry_count dim flag vi cell st w st' w' :
  read_ucd_entry dim flag vi cell st w = (Ok st', w') ->
  (length (fst st') + length (boundary_lines (snd st'))
   + length (boundary_quads (snd st')))%nat
  = S (length (fst st) + length (boundary_lines (snd st))
       + length (boundary_quads (snd st))).
Proof.
  unfold read_ucd_entry. intros Hr. inv_Ok; simpl; rewrite length_app; simpl; lia.
Qed.

Lemma read_ucd_parse_count dim sd flag w v cells sub n_cells w' :
  read_ucd_parse dim sd flag w = (Ok (v, cells, sub, n_cells), w') ->
  (length cells + length (boundary_lines sub) + length (boundary_quads sub))%nat
  = Z.to_nat n_cells.
Proof.
  unfold read_ucd_parse. intros Hr. inv_Ok.
  match goal with
  | H : for_loop _ _ (read_ucd_entry _ _ _) _ _ = _ |- _ =>
      apply (for_loop_invariant
               (fun k st =>
                  (length (fst st) + length (boundary_lines (snd st))
                   + length (boundary_quads (snd st)))%nat = k)) in H;
        [exact H | reflexivity |]
  end.
  intros k i s1 s2 w1' w2' HI Hb.
  rewrite (read_ucd_entry_count _ _ _ _ _ _ _ _ Hb), HI. reflexivity.
Qed.

(** The elements of a Gmsh file: every element read is a cell, a boundary
    entry or a point. *)
Definition msh_count (st : msh_elements) : nat :=
  (msh_n_objects st + msh_points st)%nat.

Lemma read_msh_element_count dim fmt c st w st' w' :
  read_msh_element dim fmt c st w = (Ok st', w') ->
  msh_count st' = S (msh_count st) /\
  msh_global_cell st' = msh_global_cell st + 1.
Proof.
  unfold read_msh_element. intros Hr. inv_Ok;
    unfold msh_count, msh_n_objects; simpl;
    rewrite ?length_app; simpl; split; lia.
Qed.

Lemma read_msh_element_block_count dim fmt n_cells tm b st w st' w' :
  read_msh_element_block dim fmt n_cells tm b st w = (Ok st', w') ->
  Z.of_nat (msh_count st') - msh_global_cell st'
  = Z.of_nat (msh_count st) - msh_global_cell st /\
  ((fmt <? 40) = true ->
   msh_count st' = (msh_count st + Z.to_nat n_cells)%nat).
Proof.
  unfold read_msh_element_block. intros Hr. inv_Ok.
  all: match goal with
       | H : for_loop ?n _ _ ?s0 _ = (Ok ?s1, _) |- _ =>
           apply (for_loop_invariant
                    (fun k s =>
                       msh_count s = (msh_count st + k)%nat /\
                       msh_global_cell s = msh_global_cell st + Z.of_nat k)) in H;
             [ destruct H as [Hc Hg]
             | unfold msh_count, msh_n_objects; simpl; split; lia
             | intros ? ? ? ? ? ? [HIc HIg] Hb;
               apply read_msh_element_count in Hb as [Hb1 Hb2];
               rewrite Hb1, Hb2, HIc, HIg; split; lia ]
       end.
  - split; [lia | intros _; exact Hc].
  - split; [lia | intros Hf; discriminate Hf].
Qed.

Lemma read_msh_elements_count dim fmt nb tm vi w n_cells st w' :
  read_msh_elements dim fmt nb tm vi w = (Ok (n_cells, st), w') ->
  Z.of_nat (msh_count st) = msh_global_cell st /\
  ((fmt <? 40) || debug_mode = true -> msh_count st = Z.to_nat n_cells).
Proof.
  unfold read_msh_elements. intros Hr.
  apply bind_Ok_inv in Hr as (h & w1 & Hh & Hr).
  apply bind_Ok_inv in Hr as (st1 & w2 & Hloop & Hr).
  apply bind_Ok_inv in Hr as (u & w3 & Hassert & Hr).
  apply ret_Ok_inv in Hr as [Heq ->]. injection Heq as -> ->.
  apply Assert_Ok_inv in Hassert as [-> Hdebug].
  assert (Hinv : Z.of_nat (msh_count st1) = msh_global_cell st1).
  { apply (for_loop_invariant
             (fun _ s => Z.of_nat (msh_count s) = msh_global_cell s)) in Hloop;
      [exact Hloop | reflexivity |].
    intros k i s2 s3 w4 w5 HI Hb.
    apply read_msh_element_block_count in Hb as [Hb _]. lia. }
  split; [exact Hinv|]. intros Hcase.
  destruct (fmt <? 40) eqn:Hfmt.
  - assert (H40 : (40 <? fmt) = false) by lia.
    assert (H40' : (fmt =? 40) = false) by lia.
    rewrite H40, H40' in Hh. inv_Ok. simpl in Hloop.
    apply bind_Ok_inv in Hloop as (s2 & w4 & Hb & Hret).
    apply ret_Ok_inv in Hret as [-> ->].
    apply read_msh_element_block_count in Hb as [_ Hb].
    rewrite (Hb Hfmt). reflexivity.
  - simpl in Hcase. specialize (Hdebug Hcase).
    apply Z.eqb_eq in Hdebug. rewrite <- Hdebug, <- Hinv.
    rewrite Nat2Z.id. reflexivity.
Qed.

(** C2 (amended).  The CELLS section of a VTK file yields as many cells and
    boundary entries as it declares, and so does the cell list of a UCD
    file.  In a Gmsh file the point elements (type 15) count among the
    declared elements but yield neither a cell nor a boundary entry: the
    cells, boundary entries and points together are as many as the
    elements read, which is the declared number in the formats below 4 (in
    format 4 the agreement of the blocks with the declared number is
    checked in debug mode only). *)
Theorem entries_read_and_declared_count :
  (forall dim w n o w',
      read_vtk_cells dim w = (Ok (n, o), w') -> Z.of_nat (n_objects o) = n) /\
  (forall dim sd flag w v cells sub n_cells w',
      read_ucd_parse dim sd flag w = (Ok (v, cells, sub, n_cells), w') ->
      (length cells + length (boundary_lines sub)
       + length (boundary_quads sub))%nat = Z.to_nat n_cells) /\
  (forall dim fmt nb tm vi w n_cells st w',
      read_msh_elements dim fmt nb tm vi w = (Ok (n_cells, st), w') ->
      Z.of_nat (msh_n_objects st + msh_points st) = msh_global_cell st /\
      ((fmt <? 40) || debug_mode = true ->
       (msh_n_objects st + msh_points st)%nat = Z.to_nat n_cells)).
Proof.
  split; [exact read_vtk_cells_count|].
  split; [exact read_ucd_parse_count|].
  exact read_msh_elements_count.
Qed.

End Counts.

(** ** C6: the order of the entries of a VTK file *)

Section VTK_order.
Context {PF : Platform} {CO : Collaborators}.

Definition has_lines (o : vtk_objects) : bool :=
  negb (Nat.eqb (length (boundary_lines (vtk_subcelldata o))) 0).
Definition has_quads (o : vtk_objects) : bool :=
  negb (Nat.eqb (length (boundary_quads (vtk_subcelldata o))) 0).

(** An entry of [type] vertices is out of order after the entries [o]: in
    3d a hexahedron after a quadrilateral or a line, or a quadrilateral
    after a line; in 2d a quadrilateral after a line. *)
Definition out_of_order (dim type : Z) (o : vtk_objects) : bool :=
  if dim =? 3 then
    ((type =? 8) && (has_quads o || has_lines o)) || ((type =? 4) && has_lines o)
  else if dim =? 2 then (type =? 4) && has_lines o
  else false.

(** The pass of the loop over the entries that [read_vtk_cells] runs. *)
Definition read_vtk_pass (dim : Z) : Z -> vtk_objects -> M vtk_objects :=
  if dim =? 3 then read_vtk_object_3
  else if dim =? 2 then read_vtk_object_2
  else read_vtk_object_1.

Lemma read_vtk_pass_out_of_order dim count o w type i1 :
  extract_unsigned 32 indeterminate_int (input w) = (type, i1) ->
  out_of_order dim type o = true ->
  read_vtk_pass dim count o w = (Throw ExcNotImplemented, World i1 (tria w)).
Proof.
  intros Hx Hout. unfold out_of_order, read_vtk_pass in *.
  unfold has_quads, has_lines in Hout.
  destruct (dim =? 3).
  - unfold read_vtk_object_3. rewrite (bind_Ok _ _ _ _ _ (on_input_eq _ _ _ _ Hx)).
    destruct (type =? 8) eqn:H8.
    + assert (H4 : (type =? 4) = false) by lia. rewrite H4 in Hout.
      simpl in Hout. rewrite orb_false_r in Hout.
      apply bind_Throw. unfold AssertThrow.
      destruct (Nat.eqb (length (boundary_quads (vtk_subcelldata o))) 0),
               (Nat.eqb (length (boundary_lines (vtk_subcelldata o))) 0);
        simpl in *; try discriminate; reflexivity.
    + simpl in Hout. apply andb_prop in Hout as [H4 Hl]. rewrite H4.
      apply bind_Throw. unfold AssertThrow.
      destruct (Nat.eqb (length (boundary_lines (vtk_subcelldata o))) 0);
        simpl in *; try discriminate; reflexivity.
  - destruct (dim =? 2); [|discriminate].
    unfold read_vtk_object_2. rewrite (bind_Ok _ _ _ _ _ (on_input_eq _ _ _ _ Hx)).
    apply andb_prop in Hout as [H4 Hl]. rewrite H4.
    apply bind_Throw. unfold AssertThrow.
    destruct (Nat.eqb (length (boundary_lines (vtk_subcelldata o))) 0);
      simpl in *; try discriminate; reflexivity.
Qed.

Lemma keeps_tria_read_vtk_pass dim c o : keeps_tria (read_vtk_pass dim c o).
Proof.
  unfold read_vtk_pass.
  destruct (dim =? 3); [|destruct (dim =? 2)]; auto with frame.
Qed.

(** C6.  Let the part of a VTK file before the CELLS section be read well,
    and let the first [k] of the [n] declared entries be read well, leaving
    the entries [o].  If the next entry is out of order after [o] (its
    leading count [type] is that of a top-dimension cell and [o] holds a
    boundary entry, or in 3d it is a quadrilateral and [o] holds a line),
    then [read_vtk] throws [ExcNotImplemented], there and then: the state
    it ends in is the one just after [type] was extracted, and the
    triangulation has received no call. *)
Theorem read_vtk_out_of_order_entry
    (dim spacedim : Z) (w w1 wk : world) (vs : list Point)
    (n n_ints type : Z) (i2 i3 i4 : istream) (k : nat) (o : vtk_objects) :
  read_vtk_before_cells spacedim w = (Ok (vs, "CELLS"), w1) ->
  extract_unsigned 32 0 (input w1) = (n, i2) ->
  extract_unsigned 32 indeterminate_int i2 = (n_ints, i3) ->
  (k < Z.to_nat n)%nat ->
  for_loop k 0 (read_vtk_pass dim) (VtkObjects [] SubCellData_empty)
    (World i3 (tria w)) = (Ok o, wk) ->
  extract_unsigned 32 indeterminate_int (input wk) = (type, i4) ->
  out_of_order dim type o = true ->
  read_vtk dim spacedim w = (Throw ExcNotImplemented, World i4 (tria w)).
Proof.
  intros Hbefore Hn Hints Hk Hloop Htype Hout.
  assert (Ht1 : tria w1 = tria w)
    by (eapply keeps_tria_Ok; [apply keeps_tria_read_vtk_before_cells | exact Hbefore]).
  assert (Htk : tria wk = tria w).
  { apply (keeps_tria_Ok _ _ _ _
             (keeps_tria_for_loop k 0 (read_vtk_pass dim) _
                (keeps_tria_read_vtk_pass dim))) in Hloop.
    exact Hloop. }
  unfold read_vtk. apply bind_Throw.
  unfold read_vtk_parse. rewrite (bind_Ok _ _ _ _ _ Hbefore).
  cbn [snd fst]. change (String.eqb "CELLS" "CELLS") with true. cbv iota.
  apply bind_Throw. unfold read_vtk_cells.
  rewrite (bind_Ok _ _ _ _ _ (on_input_eq _ _ _ _ Hn)).
  assert (Hints' : extract_unsigned 32 indeterminate_int
                     (input (World i2 (tria w1))) = (n_ints, i3)) by exact Hints.
  rewrite (bind_Ok _ _ _ _ _ (on_input_eq _ _ _ _ Hints')).
  apply bind_Throw. cbn [tria]. rewrite Ht1.
  pose proof (read_vtk_pass_out_of_order dim (0 + Z.of_nat k) o wk type i4
                Htype Hout) as Hpass.
  rewrite Htk in Hpass.
  pose proof (for_loop_throws_at (Z.to_nat n) k 0 (read_vtk_pass dim) _ o _ wk _ _
                Hk Hloop Hpass) as Hthrow.
  unfold out_of_order in Hout. unfold read_vtk_pass in Hthrow.
  destruct (dim =? 3); [exact Hthrow|].
  destruct (dim =? 2); [exact Hthrow | discriminate Hout].
Qed.

End VTK_order.

Lemma read_vtk_out_of_order_entry_witness :
  @read_vtk _ release 2 2 (reading vtk_quad_after_line)
  = (Throw ExcNotImplemented,
     World (Istream " 0 1 2 3
CELL_TYPES 2
3 9
" false false) []).
Proof.
  eapply (read_vtk_out_of_order_entry (CO := release) 2 2
            (reading vtk_quad_after_line) _ _ _ _ _ _ _ _ _ 1%nat).
  - reflexivity.
  - reflexivity.
  - reflexivity.
  - cbv. lia.
  - reflexivity.
  - reflexivity.
  - reflexivity.
Defined.

(** ** C9: a Gmsh file without cells *)

Section MSH_no_cells.
Context {PF : Platform} {CO : Collaborators}.

(** The boundary entries the Gmsh reader stores fit the dimension: lines
    in 2d and 3d only, quadrilaterals in 3d only. *)
Definition fits_dimension (dim : Z) (s : SubCellData) : Prop :=
  ((dim =? 2) || (dim =? 3) = true \/ boundary_lines s = []) /\
  ((dim =? 3) = true \/ boundary_quads s = []).

Lemma fits_dimension_consistent dim s :
  fits_dimension dim s -> check_consistency dim s = true.
Proof.
  intros [Hl Hq]. unfold check_consistency.
  destruct (dim =? 1) eqn:H1.
  - assert ((dim =? 2) = false) by lia. assert ((dim =? 3) = false) by lia.
    destruct Hl as [Hl | ->]; [rewrite H, H0 in Hl; discriminate|].
    destruct Hq as [Hq | ->]; [congruence|]. reflexivity.
  - destruct (dim =? 2) eqn:H2; [|reflexivity].
    assert ((dim =? 3) = false) by lia.
    destruct Hq as [Hq | ->]; [congruence|]. reflexivity.
Qed.

Lemma read_msh_element_fits dim fmt c st w st' w' :
  read_msh_element dim fmt c st w = (Ok st', w') ->
  fits_dimension dim (msh_subcelldata st) ->
  fits_dimension dim (msh_subcelldata st').
Proof.
  unfold read_msh_element. intros Hr [Hl Hq]. inv_Ok; simpl;
    try (split; assumption).
  - split; [left | assumption].
    match goal with
    | H : (_ && ((dim =? 2) || (dim =? 3))) = true |- _ =>
        apply andb_prop in H as [_ H]; exact H
    end.
  - split; [assumption | left].
    match goal with
    | H : (_ && (dim =? 3)) = true |- _ =>
        apply andb_prop in H as [_ H]; exact H
    end.
Qed.

Lemma read_msh_element_block_fits dim fmt n tm b st w st' w' :
  read_msh_element_block dim fmt n tm b st w = (Ok st', w') ->
  fits_dimension dim (msh_subcelldata st) ->
  fits_dimension dim (msh_subcelldata st').
Proof.
  unfold read_msh_element_block. intros Hr Hfit. inv_Ok.
  all: match goal with
       | H : for_loop _ _ _ _ _ = (Ok _, _) |- _ =>
           apply (for_loop_invariant
                    (fun _ s => fits_dimension dim (msh_subcelldata s))) in H;
             [ exact H | exact Hfit
             | intros ? ? ? ? ? ? HI Hb; exact (read_msh_element_fits _ _ _ _ _ _ _ Hb HI) ]
       end.
Qed.

Lemma read_msh_elements_fits dim fmt nb tm vi w n st w' :
  read_msh_elements dim fmt nb tm vi w = (Ok (n, st), w') ->
  fits_dimension dim (msh_subcelldata st).
Proof.
  unfold read_msh_elements. intros Hr.
  apply bind_Ok_inv in Hr as (h & w1 & Hh & Hr).
  apply bind_Ok_inv in Hr as (st1 & w2 & Hloop & Hr).
  apply bind_Ok_inv in Hr as (u & w3 & Hassert & Hr).
  apply ret_Ok_inv in Hr as [Heq ->]. injection Heq as -> ->.
  apply (for_loop_invariant
           (fun _ s => fits_dimension dim (msh_subcelldata s))) in Hloop;
    [exact Hloop | split; right; reflexivity |].
  intros ? ? ? ? ? ? HI Hb. exact (read_msh_element_block_fits _ _ _ _ _ _ _ _ _ Hb HI).
Qed.

Lemma read_msh_sections_fits dim sd w fmt vs n st w' :
  read_msh_sections dim sd w = (Ok (fmt, vs, n, st), w') ->
  fits_dimension dim (msh_subcelldata st).
Proof.
  unfold read_msh_sections. intros Hr.
  apply bind_Ok_inv in Hr as (h & w1 & Hh & Hr).
  apply bind_Ok_inv in Hr as (nd & w2 & Hn & Hr).
  apply bind_Ok_inv in Hr as ([n' st'] & w3 & He & Hr).
  apply ret_Ok_inv in Hr as [Heq ->]. injection Heq as -> -> -> ->.
  exact (read_msh_elements_fits _ _ _ _ _ _ _ _ _ He).
Qed.

Definition msh_end_marker (gmsh_file_format : Z) : string :=
  if gmsh_file_format =? 10 then "$ENDELM" else "$EndElements".

(** When the list of elements holds no cell, the closing checks of the
    reader do not end well, and they end with [ExcGmshNoCellInformation]
    when the closing marker is there and the stream is in a good state. *)
Lemma read_msh_end_without_cells dim fmt st w line i :
  msh_cells st = [] ->
  fits_dimension dim (msh_subcelldata st) ->
  extract_string "$Elements" (input w) = (line, i) ->
  (exists e, read_msh_end dim fmt st w = (Throw e, World i (tria w))) /\
  (line = msh_end_marker fmt -> stream_ok i = true ->
   read_msh_end dim fmt st w = (Throw ExcGmshNoCellInformation, World i (tria w))).
Proof.
  intros Hcells Hfit Hline. unfold read_msh_end, in_string.
  rewrite (bind_Ok _ _ _ _ _ (on_input_eq _ _ _ _ Hline)).
  rewrite (fits_dimension_consistent _ _ Hfit), Hcells.
  fold (msh_end_marker fmt).
  destruct (String.eqb line (msh_end_marker fmt)) eqn:Hm.
  - rewrite (bind_Ok _ _ _ _ _ (AssertThrow_true _ _)).
    rewrite (bind_Ok _ _ _ _ _ (Assert_true _ _)).
    destruct (stream_ok i) eqn:Hs.
    + rewrite (bind_Ok _ _ _ _ _ (AssertThrow_in_ok _ (World i (tria w)) Hs)).
      split; [eexists; reflexivity | intros _ _; reflexivity].
    + rewrite (bind_Throw _ _ _ _ _ (AssertThrow_in_fail _ (World i (tria w)) Hs)).
      split; [eexists; reflexivity | intros _ Hs'; discriminate Hs'].
  - rewrite (bind_Throw _ _ _ _ _ (AssertThrow_false _ _)).
    split; [eexists; reflexivity |].
    intros ->. rewrite String.eqb_refl in Hm. discriminate Hm.
Qed.

(** C9.  When the sections of a Gmsh file have been read well and the list
    of elements has yielded no cell, [read_msh] throws, and the
    triangulation receives no call; when moreover the marker that closes
    the list of elements is in its place and the stream is in a good state
    after it, the exception is [ExcGmshNoCellInformation]. *)
Theorem read_msh_without_cells
    (dim spacedim : Z) (w w1 : world) (gmsh_file_format n_cells : Z)
    (vs : list Point) (st : msh_elements) (line : string) (i : istream) :
  read_msh_sections dim spacedim w
    = (Ok (gmsh_file_format, vs, n_cells, st), w1) ->
  msh_cells st = [] ->
  extract_string "$Elements" (input w1) = (line, i) ->
  (exists e, read_msh dim spacedim w = (Throw e, World i (tria w))) /\
  (line = msh_end_marker gmsh_file_format -> stream_ok i = true ->
   read_msh dim spacedim w
   = (Throw ExcGmshNoCellInformation, World i (tria w))).
Proof.
  intros Hsec Hcells Hline.
  assert (Ht : tria w1 = tria w)
    by (eapply keeps_tria_Ok; [apply keeps_tria_read_msh_sections | exact Hsec]).
  pose proof (read_msh_end_without_cells dim gmsh_file_format st w1 line i
                Hcells (read_msh_sections_fits _ _ _ _ _ _ _ _ Hsec) Hline)
    as [[e He] Hno].
  rewrite Ht in He, Hno.
  assert (Hparse : forall e',
             read_msh_end dim gmsh_file_format st w1 = (Throw e', World i (tria w)) ->
             read_msh dim spacedim w = (Throw e', World i (tria w))).
  { intros e' He'. unfold read_msh. apply bind_Throw.
    unfold read_msh_parse. rewrite (bind_Ok _ _ _ _ _ Hsec).
    apply bind_Throw. exact He'. }
  split.
  - exists e. apply Hparse. exact He.
  - intros Hm Hs. apply Hparse. apply Hno; assumption.
Qed.

End MSH_no_cells.

Lemma read_msh_without_cells_witness :
  @read_msh _ release 2 2 (reading msh_line_only)
  = (Throw ExcGmshNoCellInformation, World (Istream "
" false false) []).
Proof.
  refine (proj2 (_ : (exists e, _) /\
                     ("$EndElements" = msh_end_marker 22 ->
                      stream_ok (Istream "
" false false) = true -> _)) eq_refl eq_refl).
  eapply (read_msh_without_cells (CO := release) 2 2 (reading msh_line_only));
    reflexivity.
Defined.

(** ** C3: the indicators of the boundary entries of a UCD file *)

Section UCD_indicators.
Context {PF : Platform} {CO : Collaborators}.

Lemma ucd_set_boundary_indicators_ids flag tag c :
  boundary_id (ucd_set_boundary_indicators flag tag c)
  = (if flag then internal_face_boundary_id else cast_boundary_id tag) /\
  manifold_id (ucd_set_boundary_indicators flag tag c)
  = (if flag then cast_manifold_id tag else flat_manifold_id).
Proof. unfold ucd_set_boundary_indicators. destruct flag; split; reflexivity. Qed.

(** The boundary entry a pass of the cell loop has appended, if any. *)
Definition appended (st st' : list CellData * SubCellData) (c : CellData) : Prop :=
  (fst st' = fst st /\
   boundary_lines (snd st') = boundary_lines (snd st) ++ [c] /\
   boundary_quads (snd st') = boundary_quads (snd st)) \/
  (fst st' = fst st /\
   boundary_lines (snd st') = boundary_lines (snd st) /\
   boundary_quads (snd st') = boundary_quads (snd st) ++ [c]).

Lemma app_singleton_neq {A} (l : list A) (x : A) : l <> l ++ [x].
Proof.
  intros Heq. apply (f_equal length) in Heq. rewrite length_app in Heq.
  simpl in Heq. lia.
Qed.

(** C3.  Let a pass of the cell loop of the UCD reader end well, the line
    it reads starting with the cell number and the tag [tag], and let it
    have appended the boundary line or boundary quadrilateral [c].  With
    the flag off, the boundary id of [c] is the tag (converted to the type
    of boundary ids, which leaves a tag of that type as it is) and its
    manifold id is the flat manifold id; with the flag on, its boundary id
    is the internal-face boundary id and its manifold id is the tag
    (converted to the type of manifold ids). *)
Theorem read_ucd_boundary_indicators
    (dim : Z) (apply_all_indicators_to_manifolds : bool)
    (vertex_indices : gmap Z Z) (cell : Z)
    (st st' : list CellData * SubCellData) (w w' : world)
    (dummy tag : Z) (i1 i2 : istream) (c : CellData) :
  read_ucd_entry dim apply_all_indicators_to_manifolds vertex_indices cell st w
    = (Ok st', w') ->
  extract_signed indeterminate_int (input w) = (dummy, i1) ->
  extract_unsigned 32 indeterminate_int i1 = (tag, i2) ->
  appended st st' c ->
  (if apply_all_indicators_to_manifolds
   then boundary_id c = internal_face_boundary_id /\
        manifold_id c = cast_manifold_id tag /\
        (0 <= tag < 2 ^ manifold_id_bits -> manifold_id c = tag)
   else boundary_id c = cast_boundary_id tag /\
        manifold_id c = flat_manifold_id /\
        (0 <= tag <= id_max -> boundary_id c = tag)).
Proof.
  intros Hr Hdummy Htag Happ.
  assert (Hids :
    boundary_id c
    = (if apply_all_indicators_to_manifolds
       then internal_face_boundary_id else cast_boundary_id tag) /\
    manifold_id c
    = (if apply_all_indicators_to_manifolds
       then cast_manifold_id tag else flat_manifold_id)).
  { unfold read_ucd_entry in Hr.
    apply bind_Ok_inv in Hr as (u & w1 & Hin & Hr).
    apply AssertThrow_in_Ok_inv in Hin as [_ ->].
    rewrite (bind_Ok _ _ _ _ _ (on_input_eq _ _ _ _ Hdummy)) in Hr.
    assert (Htag' : extract_unsigned 32 indeterminate_int
                      (input (World i1 (tria w))) = (tag, i2)) by exact Htag.
    rewrite (bind_Ok _ _ _ _ _ (on_input_eq _ _ _ _ Htag')) in Hr.
    unfold appended in Happ.
    unfold read_ucd_boundary_line, read_ucd_boundary_quad in Hr.
    inv_Ok; cbn [fst snd boundary_lines boundary_quads] in Happ.
    - destruct Happ as [(_ & Hl & _) | (_ & _ & Hq)];
        [exfalso; exact (app_singleton_neq _ _ Hl)
        | exfalso; exact (app_singleton_neq _ _ Hq)].
    - destruct Happ as [(_ & Hl & _) | (_ & _ & Hq)];
        [| exfalso; exact (app_singleton_neq _ _ Hq)].
      apply app_inj_tail in Hl as [_ <-].
      apply ucd_set_boundary_indicators_ids.
    - destruct Happ as [(_ & Hl & _) | (_ & _ & Hq)];
        [exfalso; exact (app_singleton_neq _ _ Hl) |].
      apply app_inj_tail in Hq as [_ <-].
      apply ucd_set_boundary_indicators_ids. }
  destruct Hids as [Hb Hm].
  destruct apply_all_indicators_to_manifolds.
  - split; [exact Hb | split; [exact Hm|]].
    intros Hrange. rewrite Hm. unfold cast_manifold_id.
    apply Z.mod_small. exact Hrange.
  - split; [exact Hb | split; [exact Hm|]].
    intros Hrange. rewrite Hb. unfold cast_boundary_id.
    apply Z.mod_small. unfold id_max in Hrange. lia.
Qed.

End UCD_indicators.

Lemma read_ucd_boundary_indicators_witness :
  (let c := mkCellData [0; 1] 5 4294967295 in
   boundary_id c = @cast_boundary_id release_platform 5 /\
   manifold_id c = @flat_manifold_id release_platform /\
   (0 <= 5 <= @id_max release_platform -> boundary_id c = 5)) /\
  (let c := mkCellData [0; 1] 4294967295 5 in
   boundary_id c = @internal_face_boundary_id release_platform /\
   manifold_id c = @cast_manifold_id release_platform 5 /\
   (0 <= 5 < 2 ^ @manifold_id_bits release_platform -> manifold_id c = 5)).
Proof.
  split.
  - eapply (read_ucd_boundary_indicators (PF := release_platform) 2 false
              four_vertex_indices 1 ([], SubCellData_empty)
              ([], mkSubCellData [mkCellData [0; 1] 5 4294967295] [])
              (reading ucd_line_entry)).
    + reflexivity.
    + reflexivity.
    + reflexivity.
    + left. repeat split.
  - eapply (read_ucd_boundary_indicators (PF := release_platform) 2 true
              four_vertex_indices 1 ([], SubCellData_empty)
              ([], mkSubCellData [mkCellData [0; 1] 4294967295 5] [])
              (reading ucd_line_entry)).
    + reflexivity.
    + reflexivity.
    + reflexivity.
    + left. repeat split.
Defined.

(** C2, as stated, fails for Gmsh: [msh_point_and_quad] declares two
    elements, and the parse yields one cell and no boundary entry (the
    other element is a point). *)
Lemma read_msh_counts_points_among_elements :
  match fst (read_msh_parse 2 2 (reading msh_point_and_quad)) with
  | Ok (_, n_cells, st) => (n_cells, msh_n_objects st, msh_points st)
  | _ => (0, 0%nat, 0%nat)
  end = (2, 1%nat, 1%nat).
Proof. reflexivity. Qed.

Lemma entries_read_and_declared_count_witness :
  (exists n o w',
      read_vtk_cells 2 (reading vtk_cells_quad_and_line) = (Ok (n, o), w') /\
      Z.of_nat (n_objects o) = n) /\
  (exists v cells sub n_cells w',
      read_ucd_parse 2 2 false (reading ucd_quad_and_line)
        = (Ok (v, cells, sub, n_cells), w') /\
      (length cells + length (boundary_lines sub)
       + length (boundary_quads sub))%nat = Z.to_nat n_cells) /\
  (exists n_cells st w',
      read_msh_elements 2 22 1 ∅ four_vertex_indices
        (reading msh_point_and_quad_elements) = (Ok (n_cells, st), w') /\
      Z.of_nat (msh_n_objects st + msh_points st) = msh_global_cell st /\
      (msh_n_objects st + msh_points st)%nat = Z.to_nat n_cells).
Proof.
  pose proof (entries_read_and_declared_count (PF := release_platform))
    as (Hvtk & Hucd & Hmsh).
  split; [|split].
  - destruct (read_vtk_cells 2 (reading vtk_cells_quad_and_line))
      as [[[n o]| | | |] w'] eqn:E; try discriminate E.
    exists n, o, w'. split; [reflexivity | exact (Hvtk _ _ _ _ _ E)].
  - destruct (read_ucd_parse 2 2 false (reading ucd_quad_and_line))
      as [[[[[v cells] sub] n_cells]| | | |] w'] eqn:E; try discriminate E.
    exists v, cells, sub, n_cells, w'.
    split; [reflexivity | exact (Hucd _ _ _ _ _ _ _ _ _ E)].
  - destruct (read_msh_elements 2 22 1 ∅ four_vertex_indices
                (reading msh_point_and_quad_elements))
      as [[[n_cells st]| | | |] w'] eqn:E; try discriminate E.
    exists n_cells, st, w'. split; [reflexivity|].
    destruct (Hmsh _ _ _ _ _ _ _ _ _ E) as [H1 H2].
    split; [exact H1 | apply H2; reflexivity].
Defined.

Section Strings.

Lemma append_nil (b : string) : "" +:+ b = b.
Proof. reflexivity. Qed.

Lemma append_cons (c : ascii) (a b : string) :
  String c a +:+ b = String c (a +:+ b).
Proof. reflexivity. Qed.

Lemma length_substring (s : string) :
  forall n m, String.length (substring n m s) = Nat.min m (String.length s - n).
Proof.
  induction s as [|c s IH]; intros [|n] [|m]; simpl; try reflexivity.
  - rewrite IH. simpl. rewrite Nat.sub_0_r. reflexivity.
  - rewrite IH. reflexivity.
  - rewrite IH. reflexivity.
Qed.

Lemma occurrence_fits (pattern s : string) (k : nat) :
  substring k (String.length pattern) s = pattern ->
  pattern <> "" -> (k + String.length pattern <= String.length s)%nat.
Proof.
  intros Hsub Hne.
  assert (Hlen := length_substring s k (String.length pattern)).
  rewrite Hsub in Hlen.
  destruct pattern as [|a p]; [congruence|].
  cbn [String.length] in *. lia.
Qed.

Lemma index_ge (pattern s : string) :
  forall n m, index n pattern s = Some m -> (n <= m)%nat.
Proof.
  induction s as [|c s IH]; intros [|n] m; simpl; intros Hi; try lia.
  - discriminate.
  - destruct (index n pattern s) as [k|] eqn:Hk; [|discriminate].
    injection Hi as <-. apply IH in Hk. lia.
Qed.

Lemma index_first_occurrence (pattern s : string) (from k : nat) :
  pattern <> "" -> first_occurrence pattern s from k = true ->
  index from pattern s = Some k.
Proof.
  intros Hne Hfirst. unfold first_occurrence, occurs_at in Hfirst.
  apply andb_prop in Hfirst as [Hfirst Hbefore].
  apply andb_prop in Hfirst as [Hle Hat].
  apply Nat.leb_le in Hle. apply String.eqb_eq in Hat.
  rewrite forallb_forall in Hbefore.
  destruct (index from pattern s) as [m|] eqn:Hm.
  - f_equal.
    pose proof (index_ge _ _ _ _ Hm) as Hge.
    pose proof (index_correct1 _ _ _ _ Hm) as Hsub.
    destruct (Nat.lt_trichotomy m k) as [Hlt|[Heq|Hgt]]; [|exact Heq|].
    + specialize (Hbefore m). rewrite Hsub, String.eqb_refl in Hbefore.
      assert (In m (seq from (k - from))) as Hin by (apply in_seq; lia).
      apply Hbefore in Hin. discriminate.
    + exfalso. exact (index_correct2 _ _ _ _ Hm k Hle Hgt Hat).
  - exfalso. exact (index_correct3 _ k _ _ Hm Hne Hle Hat).
Qed.

Lemma string_find_first_occurrence (pattern s : string) (from k : nat) :
  pattern <> "" -> first_occurrence pattern s from k = true ->
  string_find s pattern (Z.of_nat from) = Z.of_nat k.
Proof.
  intros Hne Hfirst. unfold string_find.
  pose proof (index_first_occurrence _ _ _ _ Hne Hfirst) as Hi.
  unfold first_occurrence, occurs_at in Hfirst.
  apply andb_prop in Hfirst as [Hfirst _].
  apply andb_prop in Hfirst as [Hle Hat].
  apply Nat.leb_le in Hle. apply String.eqb_eq in Hat.
  pose proof (occurrence_fits _ _ _ Hat Hne).
  destruct (Z.ltb_spec (Z.of_nat (String.length s)) (Z.of_nat from)); [lia|].
  rewrite Nat2Z.id, Hi. reflexivity.
Qed.

(** Searching past a prefix. *)
Lemma index_past (pattern a b : string) :
  forall n, index (String.length a + n) pattern (a +:+ b)
            = (fun k => (String.length a + k)%nat) <$> index n pattern b.
Proof.
  induction a as [|c a IH]; intros n; rewrite ?append_nil, ?append_cons; simpl.
  - destruct (index n pattern b); reflexivity.
  - rewrite IH. destruct (index n pattern b); reflexivity.
Qed.

(** The first occurrence of a character after a run without it. *)
Lemma index_char (c : ascii) (a b : string) :
  forallb (fun x => negb (Ascii.eqb x c)) (list_ascii_of_string a) = true ->
  index 0 (String c "") (a +:+ String c b) = Some (String.length a).
Proof.
  induction a as [|x a IH]; rewrite ?append_nil, ?append_cons; simpl; intros Hno.
  - destruct (ascii_dec c c); [destruct b; reflexivity|congruence].
  - apply andb_prop in Hno as [Hx Hno].
    destruct (ascii_dec c x) as [->|_].
    + rewrite Ascii.eqb_refl in Hx. discriminate.
    + rewrite (IH Hno). reflexivity.
Qed.

Lemma substring_middle (a b c : string) :
  substring (String.length a) (String.length b) (a +:+ b +:+ c) = b.
Proof.
  induction a as [|x a IH]; rewrite ?append_nil, ?append_cons; simpl; [|exact IH].
  induction b as [|y b IHb]; rewrite ?append_nil, ?append_cons; simpl.
  - destruct c; reflexivity.
  - rewrite IHb. reflexivity.
Qed.

Lemma length_append (a b : string) :
  String.length (a +:+ b) = (String.length a + String.length b)%nat.
Proof. induction a; rewrite ?append_nil, ?append_cons; simpl; congruence. Qed.

Lemma prefix_get (pattern s : string) :
  String.prefix pattern s = true ->
  forall i, (i < String.length pattern)%nat ->
            String.get i s = String.get i pattern.
Proof.
  revert s. induction pattern as [|a p IH]; intros s Hp i Hi; simpl in Hi; [lia|].
  destruct s as [|b s]; simpl in Hp; [discriminate|].
  destruct (ascii_dec a b) as [->|]; [|discriminate].
  destruct i as [|i]; simpl; [reflexivity|]. apply IH; [exact Hp | lia].
Qed.

Lemma get_append_without (c : ascii) (a b : string) :
  forallb (fun x => negb (Ascii.eqb x c)) (list_ascii_of_string a) = true ->
  forall i, String.get i (a +:+ b) = Some c ->
  (String.length a <= i)%nat /\ String.get (i - String.length a) b = Some c.
Proof.
  induction a as [|x a IH]; rewrite ?append_nil, ?append_cons; simpl;
    intros Hno i Hget.
  - rewrite Nat.sub_0_r. split; [lia | exact Hget].
  - apply andb_prop in Hno as [Hx Hno].
    destruct i as [|i].
    + injection Hget as ->. rewrite Ascii.eqb_refl in Hx. discriminate.
    + destruct (IH Hno i Hget) as [Hle Hg]. split; [lia | exact Hg].
Qed.

Lemma append_assoc (a b c : string) : (a +:+ b) +:+ c = a +:+ (b +:+ c).
Proof.
  induction a as [|x a IH]; rewrite ?append_nil, ?append_cons; congruence.
Qed.

(** What [find] returns: [npos], or a position at which the pattern fits. *)
Lemma string_find_Some (pattern s : string) (from k : nat) :
  pattern <> "" -> index from pattern s = Some k ->
  string_find s pattern (Z.of_nat from) = Z.of_nat k
  /\ (k + String.length pattern <= String.length s)%nat.
Proof.
  intros Hne Hi. unfold string_find.
  pose proof (index_ge _ _ _ _ Hi).
  pose proof (occurrence_fits _ _ _ (index_correct1 _ _ _ _ Hi) Hne).
  destruct (Z.ltb_spec (Z.of_nat (String.length s)) (Z.of_nat from)); [lia|].
  rewrite Nat2Z.id, Hi. split; [reflexivity | assumption].
Qed.

Lemma string_find_range (pattern s : string) (from : nat) :
  pattern <> "" ->
  string_find s pattern (Z.of_nat from) = npos
  \/ exists k, string_find s pattern (Z.of_nat from) = Z.of_nat k
              /\ (k + String.length pattern <= String.length s)%nat.
Proof.
  intros Hne. destruct (index from pattern s) as [k|] eqn:Hi.
  - right. exists k. exact (string_find_Some _ _ _ _ Hne Hi).
  - left. unfold string_find. rewrite Nat2Z.id, Hi.
    destruct (_ <? _); reflexivity.
Qed.

End Strings.

Section Abaqus_properties.
Context {PF : Platform}.
Import Abaqus_to_UCD.

Lemma span_all_digits (ds rest : string) :
  forallb isdigit (list_ascii_of_string ds) = true ->
  starts_with_digit rest = false ->
  span isdigit (ds +:+ rest) = (ds, rest).
Proof.
  intros Hds Hrest.
  induction ds as [|c ds IH]; rewrite ?append_nil, ?append_cons; simpl in *.
  - destruct rest as [|c rest]; [reflexivity|]. simpl in *. rewrite Hrest.
    reflexivity.
  - apply andb_prop in Hds as [Hc Hds]. rewrite Hc, (IH Hds). reflexivity.
Qed.

Lemma isdigit_not_space (c : ascii) : isdigit c = true -> isspace c = false.
Proof. unfold isdigit, isspace. lia. Qed.

Lemma scan_integer_digit (c : ascii) (s : string) :
  isdigit c = true ->
  scan_integer (String c s)
  = (false, fst (span isdigit (String c s)), snd (span isdigit (String c s))).
Proof.
  intros Hc. unfold scan_integer.
  destruct c as [[] [] [] [] [] [] [] []]; try discriminate Hc;
    destruct (span isdigit _); reflexivity.
Qed.

Lemma decimal_value_nonneg (ds : string) :
  forallb isdigit (list_ascii_of_string ds) = true ->
  forall acc, 0 <= acc -> 0 <= decimal_value acc ds.
Proof.
  induction ds as [|c ds IH]; simpl; intros Hds acc Hacc; [exact Hacc|].
  apply andb_prop in Hds as [Hc Hds]. apply IH; [exact Hds|].
  unfold isdigit in Hc. unfold digit_value. lia.
Qed.

(** [from_string] on a text that starts with a decimal numeral that fits
    an [int]. *)
Lemma from_string_digits (old : Z) (ds rest : string) :
  all_digits ds = true -> starts_with_digit rest = false ->
  decimal_value 0 ds <= 2 ^ 31 - 1 ->
  from_string old (ds +:+ rest) = decimal_value 0 ds.
Proof.
  intros Hds Hrest Hfits. unfold all_digits in Hds.
  apply andb_prop in Hds as [Hne Hds].
  pose proof (decimal_value_nonneg ds Hds 0 (Z.le_refl 0)) as Hpos.
  pose proof (span_all_digits ds rest Hds Hrest) as Hspan.
  destruct ds as [|c ds]; [discriminate Hne|].
  rewrite append_cons in *.
  unfold from_string, extract_signed, istream_of, sentry, good. simpl buf.
  simpl in Hds. apply andb_prop in Hds as [Hc _].
  cbn [negb andb eofbit failbit skipws].
  rewrite (isdigit_not_space c Hc). cbn [buf].
  rewrite (scan_integer_digit c _ Hc), Hspan.
  cbn [fst snd is_empty].
  destruct (Z.ltb_spec (decimal_value 0 (String c ds)) (- 2 ^ 31)); [lia|].
  destruct (Z.ltb_spec (2 ^ 31 - 1) (decimal_value 0 (String c ds))); [lia|].
  reflexivity.
Qed.

Lemma vector_get_Ok {A} (v : list A) (i : Z) (x : A) :
  0 <= i -> v !! Z.to_nat i = Some x -> vector_get v i = Ok x.
Proof.
  intros Hi Hx. unfold vector_get.
  pose proof (lookup_lt_Some _ _ _ Hx).
  destruct (Z.leb_spec 0 i); [|lia].
  destruct (Z.ltb_spec i (Z.of_nat (length v))); [|lia].
  simpl. rewrite Hx. reflexivity.
Qed.

Lemma with_material_nil (m : Z) (i : nat) (row : list double) :
  with_material m [] i row = row.
Proof.
  unfold with_material. rewrite bool_decide_eq_false_2; [reflexivity|].
  apply not_elem_of_nil.
Qed.

Lemma assign_material_spec (m : Z) (cells : list Z) :
  forall cl : list (list double),
  (forall c, c ∈ cells -> 1 <= c <= Z.of_nat (length cl)) ->
  Forall (fun row => row <> []) cl ->
  exists cl', assign_material m cells cl = Ok cl'
    /\ forall i, cl' !! i = with_material m cells i <$> cl !! i.
Proof.
  induction cells as [|c cells IH]; intros cl Hin Hrows; cbn [assign_material].
  - exists cl. split; [reflexivity|]. intros i.
    destruct (cl !! i) as [row|]; simpl; [|reflexivity].
    rewrite with_material_nil. reflexivity.
  - destruct (Hin c ltac:(left)) as [Hlo Hhi].
    destruct (lookup_lt_is_Some_2 cl (Z.to_nat (c - 1))) as [row Hrow]; [lia|].
    assert (0 <= c - 1) as Hc0 by lia.
    rewrite (vector_get_Ok _ _ _ Hc0 Hrow).
    pose proof (Forall_lookup_1 _ _ _ _ Hrows Hrow) as Hne.
    destruct row as [|a row]; [congruence|].
    destruct (IH (<[Z.to_nat (c - 1) := <[0%nat := double_of_int m]> (a :: row)]> cl))
      as [cl' [Hcl' Hlookup]].
    + intros c' Hc'. rewrite length_insert. apply Hin. right. exact Hc'.
    + apply Forall_insert; [exact Hrows | discriminate].
    + exists cl'. split; [exact Hcl'|]. intros i. rewrite Hlookup.
      destruct (decide (i = Z.to_nat (c - 1))) as [->|Hi].
      * rewrite list_lookup_insert_eq by (eapply lookup_lt_Some; exact Hrow).
        rewrite Hrow. simpl. f_equal. unfold with_material.
        rewrite (bool_decide_eq_true_2 (_ ∈ c :: cells))
          by (replace (Z.of_nat (Z.to_nat (c - 1)) + 1) with c by lia; left).
        destruct (bool_decide _); reflexivity.
      * rewrite list_lookup_insert_ne by congruence.
        destruct (cl !! i) as [r|]; simpl; [|reflexivity]. f_equal.
        unfold with_material.
        assert (Z.of_nat i + 1 <> c) by lia.
        destruct (decide (Z.of_nat i + 1 ∈ cells)) as [Hel|Hel].
        -- rewrite !bool_decide_eq_true_2; [reflexivity | right; exact Hel | exact Hel].
        -- rewrite !bool_decide_eq_false_2; [reflexivity | | exact Hel].
           rewrite elem_of_cons. tauto.
Qed.

Lemma substr_or_throw_Ok (line : string) (pos len : Z) (w : world) :
  0 <= pos <= string_size line ->
  substr_or_throw line pos len w
  = (Ok (substring (Z.to_nat pos)
           (Z.to_nat (Z.min len (string_size line - pos))) line), w).
Proof.
  intros Hpos. unfold substr_or_throw, string_substr.
  destruct (Z.ltb_spec (string_size line) pos); [lia | reflexivity].
Qed.

(** The material id of a [*SOLID SECTION] card: the number at the start of
    the text that follows the first hyphen after [MATERIAL=]. *)
Lemma span_no_digit (s : string) :
  starts_with_digit s = false -> span isdigit s = ("", s).
Proof.
  destruct s as [|c s]; [reflexivity|]. simpl. intros ->. reflexivity.
Qed.

Lemma scan_integer_no_number (s : string) :
  starts_with_number s = false -> exists neg rest, scan_integer s = (neg, "", rest).
Proof.
  destruct s as [|c s]; [intros _; exists false, ""; reflexivity|].
  cbn [starts_with_number]. intros Hs.
  apply orb_false_elim in Hs as [Hc Hs].
  destruct (Ascii.eqb_spec c "-") as [-> | Hminus].
  { cbn in Hs. unfold scan_integer. rewrite (span_no_digit s Hs).
    exists true, s. reflexivity. }
  destruct (Ascii.eqb_spec c "+") as [-> | Hplus].
  { cbn in Hs. unfold scan_integer. rewrite (span_no_digit s Hs).
    exists false, s. reflexivity. }
  exists false, (String c s).
  assert (scan_integer (String c s)
          = (let '(ds, rest) := span isdigit (String c s) in (false, ds, rest)))
    as ->.
  { unfold scan_integer.
    destruct c as [[] [] [] [] [] [] [] []]; try reflexivity; congruence. }
  rewrite span_no_digit by exact Hc. reflexivity.
Qed.

(** [from_string] on a text that does not start with a number. *)
Lemma from_string_no_number (s : string) :
  starts_with_number (skipws s) = false -> from_string 0 s = 0.
Proof.
  intros Hs. unfold from_string, extract_signed, istream_of, sentry, good.
  cbn [negb andb eofbit failbit buf].
  destruct (skipws s) as [|c b] eqn:Hb; [reflexivity|].
  cbn [buf].
  destruct (scan_integer_no_number _ Hs) as (neg & rest & ->). reflexivity.
Qed.

(** [from_string] on a text that starts, behind white space, with a
    decimal numeral. *)
Lemma from_string_number (s sign ds rest : string) :
  skipws s = sign +:+ ds +:+ rest ->
  sign = "" \/ sign = "+" \/ sign = "-" ->
  all_digits ds = true -> starts_with_digit rest = false ->
  from_string 0 s
  = nearest_int (if String.eqb sign "-" then - decimal_value 0 ds
                 else decimal_value 0 ds).
Proof.
  intros Hs Hsign Hds Hrest. unfold all_digits in Hds.
  apply andb_prop in Hds as [Hne Hds].
  pose proof (decimal_value_nonneg ds Hds 0 (Z.le_refl 0)) as Hpos.
  pose proof (span_all_digits ds rest Hds Hrest) as Hspan.
  destruct ds as [|c ds]; [discriminate Hne|].
  assert (Hc : isdigit c = true).
  { simpl in Hds. apply andb_prop in Hds as [Hc _]. exact Hc. }
  unfold from_string, extract_signed, istream_of, sentry, good.
  cbn [negb andb eofbit failbit buf]. rewrite Hs.
  set (v := decimal_value 0 (String c ds)) in *.
  assert (Hscan : scan_integer (sign +:+ String c ds +:+ rest)
                  = (String.eqb sign "-", String c ds, rest)).
  { destruct Hsign as [-> | [-> | ->]].
    - rewrite append_nil. rewrite append_cons in *.
      rewrite (scan_integer_digit c _ Hc), Hspan. reflexivity.
    - change ("+" +:+ String c ds +:+ rest)
        with (String "+" (String c ds +:+ rest)).
      unfold scan_integer. rewrite Hspan. reflexivity.
    - change ("-" +:+ String c ds +:+ rest)
        with (String "-" (String c ds +:+ rest)).
      unfold scan_integer. rewrite Hspan. reflexivity. }
  assert (Hform : exists x b, sign +:+ String c ds +:+ rest = String x b).
  { destruct Hsign as [-> | [-> | ->]]; rewrite ?append_nil, ?append_cons; eauto. }
  destruct Hform as (x & b & Hform). rewrite Hform in *. cbn [buf].
  rewrite Hscan. cbn [is_empty]. unfold nearest_int.
  subst v.
  destruct (String.eqb sign "-");
    repeat match goal with
           | |- context [?a <? ?b] => destruct (Z.ltb_spec a b)
           end; cbn [fst]; lia.
Qed.

(** The material id of a [*SOLID SECTION] card that has a hyphen after
    [MATERIAL=]: [from_string] is applied to the text behind the first such
    hyphen. *)
Lemma solid_section_material_tail (line : string) (k h : nat) (w : world) :
  first_occurrence "MATERIAL=" line 0 k = true ->
  first_occurrence "-" line (k + 9) h = true ->
  string_size line < npos ->
  solid_section_material line w
  = (Ok (from_string 0 (substring (S h) (String.length line - S h) line)), w).
Proof.
  intros Hk Hh Hsize.
  unfold solid_section_material.
  assert (Hne1 : "MATERIAL=" <> "") by discriminate.
  assert (Hne2 : "-" <> "") by discriminate.
  pose proof (string_find_first_occurrence _ _ _ _ Hne1 Hk) as Hfind1.
  pose proof (string_find_first_occurrence _ _ _ _ Hne2 Hh) as Hfind2.
  pose proof (index_first_occurrence _ _ _ _ Hne2 Hh) as Hi2.
  destruct (string_find_Some _ _ _ _ Hne2 Hi2) as [_ Hfit2].
  pose proof (index_ge _ _ _ _ Hi2) as Hge2.
  change (Z.of_nat 0) with 0 in Hfind1. rewrite Hfind1.
  unfold string_size, npos, size_t in *. cbn [String.length] in *.
  rewrite (Z.mod_small (Z.of_nat k + _)) by lia.
  replace (Z.of_nat k + Z.of_nat 9) with (Z.of_nat (k + 9)) by lia.
  rewrite Hfind2. rewrite (Z.mod_small (Z.of_nat h + 1)) by lia.
  erewrite bind_Ok; [|apply substr_or_throw_Ok; unfold string_size; lia].
  unfold ret. f_equal. f_equal.
  unfold string_size. rewrite Z.min_r by lia.
  replace (Z.to_nat (Z.of_nat h + 1)) with (S h) by lia.
  replace (Z.to_nat (Z.of_nat (String.length line) - (Z.of_nat h + 1)))
    with (String.length line - S h)%nat by lia.
  reflexivity.
Qed.

(** Reading the name of the element set of a [*SOLID SECTION] card does
    not fail on a line of nine characters or more. *)
Lemma solid_section_elset_total (line : string) (w : world) :
  9 <= string_size line < npos ->
  exists name, solid_section_elset line w = (Ok name, w).
Proof.
  intros Hsize. unfold solid_section_elset. eexists.
  apply substr_or_throw_Ok.
  assert (Hne : "ELSET=" <> "") by discriminate.
  change 0 with (Z.of_nat 0).
  unfold string_size, npos, size_t in *.
  destruct (string_find_range "ELSET=" line 0 Hne) as [->|[e [-> Hfit]]].
  - unfold npos. change ((2 ^ 64 - 1 + Z.of_nat (String.length "ELSET=")) mod 2 ^ 64) with 5.
    lia.
  - cbn [String.length] in *. rewrite Z.mod_small by lia. lia.
Qed.

Lemma without_append (c : ascii) (a b : string) :
  without c (a +:+ b) = without c a && without c b.
Proof.
  unfold without.
  induction a as [|x a IH]; rewrite ?append_nil, ?append_cons; simpl;
    [reflexivity|].
  rewrite IH. apply andb_assoc.
Qed.

Lemma string_size_append (a b : string) :
  string_size (a +:+ b) = string_size a + string_size b.
Proof. unfold string_size. rewrite length_append. lia. Qed.

Lemma prefix_nil (s : string) : String.prefix "" s = true.
Proof. destruct s; reflexivity. Qed.

Lemma prefix_append (pattern t : string) :
  String.prefix pattern (pattern +:+ t) = true.
Proof.
  induction pattern as [|c p IH]; rewrite ?append_nil, ?append_cons;
    [apply prefix_nil|].
  simpl. destruct (ascii_dec c c); [exact IH | congruence].
Qed.

(** A search that starts where [b] starts. *)
Lemma string_find_past (pattern a b : string) (k : nat) :
  pattern <> "" -> index 0 pattern b = Some k ->
  string_find (a +:+ b) pattern (string_size a) = string_size a + Z.of_nat k.
Proof.
  intros Hne Hk. unfold string_size.
  destruct (string_find_Some pattern (a +:+ b) (String.length a)
              (String.length a + k) Hne) as [-> _]; [|lia].
  pose proof (index_past pattern a b 0) as Hpast.
  rewrite Nat.add_0_r, Hk in Hpast. exact Hpast.
Qed.

(** A search for the first occurrence of a character. *)
Lemma string_find_char (c : ascii) (a b d : string) :
  without c b = true ->
  string_find (a +:+ b +:+ String c d) (String c "") (string_size a)
  = string_size a + string_size b.
Proof.
  intros Hb. apply string_find_past; [discriminate|].
  apply index_char. exact Hb.
Qed.

(** A pattern that occurs is found. *)
Lemma string_find_found (pattern s : string) (m : nat) :
  pattern <> "" -> substring m (String.length pattern) s = pattern ->
  string_size s < npos -> string_find s pattern 0 <> npos.
Proof.
  intros Hne Hm Hsize. change 0 with (Z.of_nat 0).
  destruct (index 0 pattern s) as [k|] eqn:Hk.
  - destruct (string_find_Some _ _ _ _ Hne Hk) as [-> Hfit].
    unfold string_size in Hsize. lia.
  - exfalso. exact (index_correct3 _ m _ _ Hk Hne (Nat.le_0_l m) Hm).
Qed.

(** No occurrence starts in a stretch that lacks the first character of
    the pattern. *)
Lemma index_without_first (c : ascii) (p a b : string) :
  without c a = true ->
  index 0 (String c p) (a +:+ b)
  = (fun k => (String.length a + k)%nat) <$> index 0 (String c p) b.
Proof.
  induction a as [|x a IH]; rewrite ?append_nil, ?append_cons; intros Ha.
  - destruct (index 0 (String c p) b); reflexivity.
  - unfold without in Ha. simpl in Ha. apply andb_prop in Ha as [Hx Ha].
    cbn [index String.prefix].
    destruct (ascii_dec c x) as [->|_];
      [rewrite Ascii.eqb_refl in Hx; discriminate|].
    rewrite (IH Ha). destruct (index 0 (String c p) b); reflexivity.
Qed.

(** The key [MATERIAL=] that follows a name without ['=']. *)
Lemma index_material (name t : string) :
  without "=" name = true ->
  index 0 "MATERIAL=" (name +:+ ", MATERIAL=" +:+ t)
  = Some (String.length name + 2)%nat.
Proof.
  remember (", MATERIAL=" +:+ t) as suffix eqn:Hsuffix.
  induction name as [|x name IH]; rewrite ?append_nil, ?append_cons; intros Hname.
  - subst suffix. rewrite !append_cons, append_nil. simpl.
    rewrite prefix_nil. reflexivity.
  - cbn [index].
    destruct (String.prefix "MATERIAL=" (String x (name +:+ suffix)))
      eqn:Hprefix.
    + exfalso. pose proof (prefix_get _ _ Hprefix 8%nat ltac:(simpl; lia)) as Hget.
      rewrite <- append_cons in Hget.
      destruct (get_append_without "=" (String x name) _ Hname 8%nat Hget)
        as [Hle Hin].
      cbn [String.length] in *.
      remember (8 - S (String.length name))%nat as j eqn:Hj.
      assert (j < 8)%nat as Hlt by lia. subst suffix. clear -Hin Hlt.
      do 8 (destruct j as [|j]; [discriminate Hin|]). lia.
    + unfold without in Hname. simpl in Hname.
      apply andb_prop in Hname as [_ Hname].
      rewrite (IH Hname). reflexivity.
Qed.

Lemma index_prefix (pattern s : string) :
  String.prefix pattern s = true -> index 0 pattern s = Some 0%nat.
Proof.
  destruct s as [|c s]; simpl; intros Hp.
  - destruct pattern; [reflexivity | discriminate].
  - change (match pattern with
            | "" => true
            | String a s1' =>
                match ascii_dec a c with
                | left _ => String.prefix s1' s
                | right _ => false
                end
            end) with (String.prefix pattern (String c s)) in *.
    rewrite Hp. reflexivity.
Qed.

Lemma string_find_prefix (pattern t : string) :
  pattern <> "" -> string_find (pattern +:+ t) pattern 0 = 0.
Proof.
  intros Hne.
  destruct (string_find_Some pattern (pattern +:+ t) 0 0 Hne) as [H0 _];
    [|exact H0].
  apply index_prefix, prefix_append.
Qed.

(** The name in the header of an element set that is generated. *)
Lemma elset_name_of_generate (name : string) (w : world) :
  without "," name = true -> string_size name < 2 ^ 32 ->
  elset_name_of ("*ELSET, ELSET=" +:+ name +:+ ", GENERATE") w = (Ok name, w).
Proof.
  intros Hcomma Hsize. unfold elset_name_of.
  rewrite string_find_prefix by discriminate.
  change (0 =? npos) with false. cbv iota.
  set (line := "*ELSET, ELSET=" +:+ name +:+ ", GENERATE").
  assert (Hlen : string_size line = 24 + string_size name).
  { subst line. rewrite !string_size_append. unfold string_size. simpl. lia. }
  assert (Hfirst : string_find line "," 0 = 6) by reflexivity.
  rewrite Hfirst. change (size_t (6 + 1)) with (string_size "*ELSET,").
  assert (Hsecond : string_find line "," (string_size "*ELSET,")
                    = 14 + string_size name).
  { change line with ("*ELSET," +:+ (" ELSET=" +:+ name) +:+ String "," " GENERATE").
    rewrite string_find_char.
    - rewrite string_size_append. unfold string_size. simpl. lia.
    - rewrite without_append, Hcomma. reflexivity. }
  rewrite Hsecond.
  change (size_t (0 + string_size "*ELSET, ELSET=")) with 14.
  assert (0 <= string_size name) by (unfold string_size; lia).
  rewrite substr_or_throw_Ok by lia.
  unfold size_t. rewrite Z.mod_small by lia.
  rewrite Z.min_l by lia.
  replace (14 + string_size name - 14) with (string_size name) by lia.
  unfold string_size at 1. rewrite Nat2Z.id.
  subst line. change (Z.to_nat 14) with (String.length "*ELSET, ELSET=").
  rewrite substring_middle. reflexivity.
Qed.

(** The data line [1,5,2] of a generated element set. *)
Lemma read_elset_generate_1_5_2 (w : world) :
  read_elset_generate "1,5,2" w = (Ok [1; 3; 5], w).
Proof. reflexivity. Qed.

Lemma getline_line (old line rest : string) :
  without newline line = true ->
  getline old (istream_of (line +:+ String newline rest))
  = (line, istream_of rest).
Proof.
  intros Hline. unfold getline, istream_of, sentry, good. simpl.
  assert (upto_newline (line +:+ String newline rest) = (line, Some rest)) as ->;
    [|reflexivity].
  induction line as [|c line IH]; rewrite ?append_nil, ?append_cons.
  - reflexivity.
  - unfold without in Hline. simpl in Hline.
    apply andb_prop in Hline as [Hc Hline].
    cbn [upto_newline]. rewrite (IH Hline).
    destruct (Z.eqb_spec (ascii_code c) 10) as [Heq|]; [|reflexivity].
    exfalso. assert (c = newline) as ->.
    { rewrite <- (ascii_N_embedding c), <- (ascii_N_embedding newline).
      f_equal. unfold ascii_code in Heq. change (N_of_ascii newline) with 10%N. lia. }
    discriminate Hc.
Qed.

Lemma read_elset_generate_set (name : string) (st : bridge) (w : world)
    (rest : string) :
  without "," name = true -> string_size name < 2 ^ 32 ->
  input w = istream_of ("1,5,2" +:+ String newline rest) ->
  read_elset ("*ELSET, ELSET=" +:+ name +:+ ", GENERATE") st w
  = (Ok (fst (getline "1,5,2" (istream_of rest)),
         Bridge (node_list st) (cell_list st) (face_list st)
                (<[name := [1; 3; 5]]> (elsets_list st))),
     World (snd (getline "1,5,2" (istream_of rest))) (tria w)).
Proof.
  intros Hcomma Hsize Hinput. unfold read_elset.
  erewrite bind_Ok; [|apply elset_name_of_generate; assumption].
  set (line := "*ELSET, ELSET=" +:+ name +:+ ", GENERATE").
  assert (string_find line "GENERATE" 0 <> npos) as Hgenerate.
  { apply (string_find_found _ _ (String.length ("*ELSET, ELSET=" +:+ name +:+ ", ")));
      [discriminate| |].
    - subst line.
      replace ("*ELSET, ELSET=" +:+ name +:+ ", GENERATE")
        with (("*ELSET, ELSET=" +:+ name +:+ ", ") +:+ "GENERATE" +:+ "")
        by (rewrite !append_assoc; reflexivity).
      apply substring_middle.
    - subst line. rewrite !string_size_append. unfold string_size, npos in *.
      simpl String.length. lia. }
  apply Z.eqb_neq in Hgenerate. rewrite Hgenerate.
  unfold on_input at 1. unfold bind at 1. rewrite Hinput.
  rewrite (getline_line _ "1,5,2") by reflexivity. cbn [fst snd].
  erewrite bind_Ok; [|apply read_elset_generate_1_5_2].
  unfold on_input, bind, ret. cbn [input tria].
  destruct (getline "1,5,2" (istream_of rest)) as [next i]. reflexivity.
Qed.

Lemma substring_suffix (a b : string) :
  substring (String.length a) (String.length b) (a +:+ b) = b.
Proof.
  pose proof (substring_middle a b "") as Hmiddle.
  replace (b +:+ "") with b in Hmiddle; [exact Hmiddle|].
  clear. induction b as [|c b IH]; rewrite ?append_nil, ?append_cons; congruence.
Qed.

Lemma string_size_solid_section_card (name material digits : string) :
  string_size (solid_section_card name material digits)
  = 34 + string_size name + string_size material + string_size digits.
Proof.
  unfold solid_section_card. rewrite !string_size_append.
  unfold string_size. simpl String.length. lia.
Qed.

Lemma solid_section_elset_card (name material digits : string) (w : world) :
  name <> "" -> without "," name = true ->
  string_size (solid_section_card name material digits) < 2 ^ 32 ->
  solid_section_elset (solid_section_card name material digits) w
  = (Ok name, w).
Proof.
  intros Hne Hcomma Hsize. rewrite string_size_solid_section_card in Hsize.
  assert (Hlen := string_size_solid_section_card name material digits).
  assert (0 <= string_size material) by (unfold string_size; lia).
  assert (0 <= string_size digits) by (unfold string_size; lia).
  destruct name as [|c name]; [congruence|]. clear Hne.
  unfold without in Hcomma. simpl in Hcomma.
  apply andb_prop in Hcomma as [_ Hcomma].
  unfold solid_section_elset.
  set (line := solid_section_card (String c name) material digits) in *.
  assert (Hstart : string_find line "ELSET=" 0 = 16) by reflexivity.
  rewrite Hstart.
  change (size_t (16 + string_size "ELSET=")) with 22.
  change (size_t (22 + 1))
    with (string_size ("*SOLID SECTION, ELSET=" +:+ String c "")).
  assert (Hend : string_find line ","
                   (string_size ("*SOLID SECTION, ELSET=" +:+ String c ""))
                 = 23 + string_size name).
  { change line with (("*SOLID SECTION, ELSET=" +:+ String c "") +:+ name
                        +:+ String "," (" MATERIAL=" +:+ material +:+ "-" +:+ digits)).
    rewrite (string_find_char _ _ _ _ Hcomma). reflexivity. }
  rewrite Hend.
  assert (Hname : string_size (String c name) = 1 + string_size name)
    by (unfold string_size; simpl String.length; lia).
  rewrite Hname in *.
  assert (0 <= string_size name) by (unfold string_size; lia).
  rewrite substr_or_throw_Ok by lia.
  unfold size_t. rewrite Z.mod_small by lia. rewrite Z.min_l by lia.
  replace (23 + string_size name - 22) with (string_size (String c name)) by lia.
  unfold string_size at 1. rewrite Nat2Z.id.
  change (Z.to_nat 22) with (String.length "*SOLID SECTION, ELSET=").
  subst line. unfold solid_section_card. rewrite substring_middle. reflexivity.
Qed.

Lemma solid_section_material_card (name material digits : string) (w : world) :
  without "=" name = true -> without "-" material = true ->
  all_digits digits = true -> decimal_value 0 digits <= 2 ^ 31 - 1 ->
  string_size (solid_section_card name material digits) < 2 ^ 32 ->
  solid_section_material (solid_section_card name material digits) w
  = (Ok (decimal_value 0 digits), w).
Proof.
  intros Hname Hmaterial Hdigits Hfits Hsize.
  assert (Hlen := string_size_solid_section_card name material digits).
  rewrite Hlen in Hsize.
  assert (0 <= string_size name) by (unfold string_size; lia).
  assert (0 <= string_size material) by (unfold string_size; lia).
  assert (0 <= string_size digits) by (unfold string_size; lia).
  unfold solid_section_material.
  set (line := solid_section_card name material digits) in *.
  assert (Hkey : string_find line "MATERIAL=" 0 = 24 + string_size name).
  { destruct (string_find_Some "MATERIAL=" line 0 (22 + (String.length name + 2)))
      as [Hfind _]; [discriminate| |].
    - subst line. unfold solid_section_card.
      rewrite (index_without_first "M" "ATERIAL=" "*SOLID SECTION, ELSET=")
        by reflexivity.
      rewrite index_material by exact Hname. reflexivity.
    - change (Z.of_nat 0) with 0 in Hfind. rewrite Hfind.
      unfold string_size. lia. }
  rewrite Hkey.
  set (before := "*SOLID SECTION, ELSET=" +:+ name +:+ ", MATERIAL=").
  assert (Hbefore : string_size before = 33 + string_size name).
  { subst before. rewrite !string_size_append. unfold string_size.
    simpl String.length. lia. }
  assert (Hline : line = before +:+ material +:+ String "-" digits).
  { subst line before. unfold solid_section_card. rewrite !append_assoc.
    reflexivity. }
  assert (Hequal : size_t (24 + string_size name + string_size "MATERIAL=")
                   = string_size before).
  { unfold size_t. rewrite Z.mod_small; unfold string_size in *;
      simpl String.length in *; lia. }
  rewrite Hequal.
  assert (Hhyphen : string_find line "-" (string_size before)
                    = string_size before + string_size material).
  { rewrite Hline. apply string_find_char. exact Hmaterial. }
  rewrite Hhyphen.
  assert (Hpos : size_t (string_size before + string_size material + 1)
                 = string_size (before +:+ material +:+ "-")).
  { unfold size_t. rewrite !string_size_append. rewrite Z.mod_small.
    - unfold string_size. simpl String.length. lia.
    - lia. }
  rewrite Hpos.
  erewrite bind_Ok.
  2:{ apply substr_or_throw_Ok. rewrite !string_size_append.
      unfold string_size in *. simpl String.length in *. lia. }
  unfold ret. f_equal. f_equal.
  replace (Z.min npos (string_size line - string_size (before +:+ material +:+ "-")))
    with (string_size digits).
  2:{ rewrite Hlen, !string_size_append, Hbefore. unfold npos.
      change (string_size "-") with 1. lia. }
  unfold string_size. rewrite !Nat2Z.id.
  replace line with ((before +:+ material +:+ "-") +:+ digits)
    by (rewrite Hline, !append_assoc; reflexivity).
  rewrite substring_suffix.
  replace digits with (digits +:+ "") at 1.
  2:{ clear. induction digits as [|c d IH]; rewrite ?append_nil, ?append_cons;
        congruence. }
  apply from_string_digits; [exact Hdigits | reflexivity | exact Hfits].
Qed.

Lemma string_map_append (f : ascii -> ascii) (a b : string) :
  string_map f (a +:+ b) = string_map f a +:+ string_map f b.
Proof.
  induction a as [|c a IH]; rewrite ?append_nil, ?append_cons; simpl;
    rewrite ?append_nil, ?append_cons; congruence.
Qed.

Section Cards.
Variables dim spacedim : Z.

(** At a card [*ELSET, ... GENERATE] the loop reads the set, and goes on
    with the line after the data line. *)
Lemma read_lines_elset_generate (name : string) (st : bridge) (w : world)
    (rest l : string) (n : nat) :
  without "," (string_map toupper name) = true ->
  string_size (string_map toupper name) < 2 ^ 31 ->
  input w = istream_of ("1,5,2" +:+ String newline rest) ->
  read_lines dim spacedim (S n)
    (Some ("*ELSET, ELSET=" +:+ name +:+ ", GENERATE")) l st w
  = read_lines dim spacedim n
      (Some (fst (getline "1,5,2" (istream_of rest))))
      (fst (getline "1,5,2" (istream_of rest)))
      (Bridge (node_list st) (cell_list st) (face_list st)
              (<[string_map toupper name := [1; 3; 5]]> (elsets_list st)))
      (World (snd (getline "1,5,2" (istream_of rest))) (tria w)).
Proof.
  intros Hcomma Hsize Hinput. cbn [read_lines].
  rewrite !string_map_append.
  change (string_map toupper "*ELSET, ELSET=") with "*ELSET, ELSET=".
  change (string_map toupper ", GENERATE") with ", GENERATE".
  set (NAME := string_map toupper name) in *.
  set (line := "*ELSET, ELSET=" +:+ NAME +:+ ", GENERATE").
  change (String.eqb line "*HEADING") with false.
  change (compare_prefix line 2 "**") with false.
  change (compare_prefix line 5 "*PART") with false.
  change (compare_prefix line 5 "*NODE") with false.
  change (compare_prefix line 8 "*ELEMENT") with false.
  change (compare_prefix line 8 "*SURFACE") with false.
  change (compare_prefix line 6 "*ELSET") with true.
  cbv iota. cbn [orb].
  erewrite bind_Ok; [|apply read_elset_generate_set; [exact Hcomma|lia|exact Hinput]].
  reflexivity.
Qed.

(** What a card [*SOLID SECTION] with a well-formed material name does to
    the bridge. *)
Lemma read_solid_section_card (name material digits : string) (st : bridge)
    (w : world) (cells : list Z) :
  name <> "" -> without "," name = true -> without "=" name = true ->
  without "-" material = true ->
  all_digits digits = true -> decimal_value 0 digits <= 2 ^ 31 - 1 ->
  string_size (solid_section_card name material digits) < 2 ^ 32 ->
  elsets_list st !! name = Some cells ->
  (forall c, c ∈ cells -> 1 <= c <= Z.of_nat (length (cell_list st))) ->
  Forall (fun row => row <> []) (cell_list st) ->
  exists cl',
    read_solid_section (solid_section_card name material digits) st w
    = (Ok (Bridge (node_list st) cl' (face_list st) (elsets_list st)), w)
    /\ forall i, cl' !! i
         = with_material (decimal_value 0 digits) cells i <$> cell_list st !! i.
Proof.
  intros Hne Hcomma Hequal Hmaterial Hdigits Hfits Hsize Hset Hcells Hrows.
  destruct (assign_material_spec (decimal_value 0 digits) cells (cell_list st)
              Hcells Hrows) as [cl' [Hassign Hlookup]].
  exists cl'. split; [|exact Hlookup].
  unfold read_solid_section.
  erewrite bind_Ok; [|apply solid_section_elset_card; assumption].
  erewrite bind_Ok; [|apply solid_section_material_card; assumption].
  rewrite Hset. cbn [from_option id].
  erewrite bind_Ok; [|unfold call; rewrite Hassign; reflexivity].
  rewrite insert_id by exact Hset. reflexivity.
Qed.

Lemma prefix_split (pattern s : string) :
  String.prefix pattern s = true -> exists t, s = pattern +:+ t.
Proof.
  revert s. induction pattern as [|a p IH]; intros s Hp.
  - exists s. reflexivity.
  - destruct s as [|b s]; simpl in Hp; [discriminate|].
    destruct (ascii_dec a b) as [->|]; [|discriminate].
    destruct (IH s Hp) as [t ->]. exists t. reflexivity.
Qed.

(** At a card whose upper-case form starts with [*SOLID SECTION] the loop
    runs [read_solid_section], and goes on with the next line. *)
Lemma read_lines_at_solid_section (card l : string) (st : bridge) (w : world)
    (n : nat) :
  compare_prefix (string_map toupper card) 14 "*SOLID SECTION" = true ->
  read_lines dim spacedim (S n) (Some card) l st w
  = (let line := string_map toupper card in
     let* st := read_solid_section line st in
     read_lines dim spacedim n None line st) w.
Proof.
  intros Hcard. cbn [read_lines]. cbv zeta.
  set (line := string_map toupper card) in *.
  rewrite Hcard.
  unfold compare_prefix in Hcard. apply String.eqb_eq in Hcard.
  apply (proj2 (prefix_correct "*SOLID SECTION" line)) in Hcard.
  destruct (prefix_split _ _ Hcard) as [t Ht].
  clearbody line. subst line.
  set (line := "*SOLID SECTION" +:+ t).
  change (String.eqb line "*HEADING") with false.
  change (compare_prefix line 2 "**") with false.
  change (compare_prefix line 5 "*PART") with false.
  change (compare_prefix line 5 "*NODE") with false.
  change (compare_prefix line 8 "*ELEMENT") with false.
  change (compare_prefix line 8 "*SURFACE") with false.
  change (compare_prefix line 6 "*ELSET") with false.
  change (compare_prefix line 5 "*NSET") with false.
  reflexivity.
Qed.

(** The loop at the end of the stream: the next line cannot be read, and
    the bridge is returned. *)
Lemma read_lines_at_end (n : nat) (line : string) (st : bridge)
    (t : Triangulation) :
  read_lines dim spacedim (S n) None line st (World (istream_of "") t)
  = (Ok st, World (Istream "" true true) t).
Proof. reflexivity. Qed.

(** The loop without a pending line reads the next line of the stream. *)
Lemma read_lines_next_line (n : nat) (line card rest : string) (st : bridge)
    (t : Triangulation) :
  without newline card = true ->
  read_lines dim spacedim (S n) None line st
    (World (istream_of (card +:+ String newline rest)) t)
  = read_lines dim spacedim n (Some card) card st (World (istream_of rest) t).
Proof.
  intros Hnl. cbn [read_lines]. unfold bind, on_input. cbn [input tria].
  rewrite getline_line by exact Hnl. reflexivity.
Qed.

(** More passes than a run of the loop needs do not change the run. *)
Lemma read_lines_more_passes (n : nat) :
  forall (pending : option string) (line : string) (st : bridge) (w : world)
         (r : result bridge) (w' : world) (m : nat),
    read_lines dim spacedim n pending line st w = (r, w') ->
    r <> Hang -> (n <= m)%nat ->
    read_lines dim spacedim m pending line st w = (r, w').
Proof.
  induction n as [|n IH]; intros pending line st w r w' m Hrun Hr Hm.
  { cbn in Hrun. injection Hrun as <- _. congruence. }
  destruct m as [|m]; [lia|].
  assert (Hle : (n <= m)%nat) by lia.
  cbn [read_lines] in *.
  destruct pending as [card|].
  - cbv zeta in *.
    repeat match goal with
           | |- (if ?b then _ else _) _ = _ => destruct b
           end;
      unfold bind in *;
      repeat match goal with
             | H : (let '(_, _) := ?x in _) = _ |- _ =>
                 destruct x as [[?|?|?| |] ?]
             end;
      eauto.
  - unfold bind, on_input, if_in in *.
    destruct (getline line (input w)) as [l i]. cbn [input] in *.
    destruct (stream_ok i); eauto.
Qed.

Lemma getline_old (a b : string) (i : istream) :
  good i = true -> getline a i = getline b i.
Proof. intros Hi. unfold getline, sentry. rewrite Hi. reflexivity. Qed.

(** A [*SOLID SECTION] card in front of the text [rest]: the reader goes
    on, behind the card, as it does at the start of [rest] with the bridge
    that the card has left. *)
Lemma read_in_abaqus_solid_section (card rest : string) (st st' : bridge)
    (t : Triangulation) (r : result bridge) (w' : world) :
  without newline card = true ->
  compare_prefix (string_map toupper card) 14 "*SOLID SECTION" = true ->
  read_solid_section (string_map toupper card) st (World (istream_of rest) t)
  = (Ok st', World (istream_of rest) t) ->
  read_in_abaqus dim spacedim st' (World (istream_of rest) t) = (r, w') ->
  r <> Hang ->
  read_in_abaqus dim spacedim st
    (World (istream_of (card +:+ String newline rest)) t)
  = (r, w').
Proof.
  intros Hnl Hcard Hsection Hrun Hr. unfold read_in_abaqus in *.
  erewrite bind_Ok; [|apply AssertThrow_in_ok; reflexivity].
  erewrite bind_Ok in Hrun; [|apply AssertThrow_in_ok; reflexivity].
  unfold bounded_by_stream, stream_length in *. cbn [input buf istream_of] in *.
  rewrite length_append. cbn [String.length].
  match goal with
  | |- read_lines _ _ ?n _ _ _ _ = _ =>
      replace n with (S (S (n - 2))) by lia
  end.
  rewrite read_lines_next_line by exact Hnl.
  rewrite read_lines_at_solid_section by exact Hcard. cbv zeta.
  erewrite bind_Ok; [|exact Hsection].
  apply (read_lines_more_passes _ _ _ _ _ _ _ (2 * S (String.length rest) + 4))
    in Hrun; [| exact Hr | lia].
  match goal with
  | |- read_lines _ _ ?n _ _ _ _ = _ =>
      apply (read_lines_more_passes _ _ _ _ _ _ _ n) in Hrun; [| exact Hr | lia]
  end.
  rewrite <- Hrun.
  match goal with
  | |- read_lines _ _ ?n _ _ _ _ = _ => destruct n as [|k]; [reflexivity|]
  end.
  cbn [read_lines]. unfold bind, on_input. cbn [input].
  rewrite (getline_old _ "" (istream_of rest) eq_refl). reflexivity.
Qed.

(** [read_solid_section] looks at the line and the bridge only. *)
Lemma read_solid_section_any_world (line : string) (st : bridge)
    (w0 w : world) :
  read_solid_section line st w = (fst (read_solid_section line st w0), w).
Proof.
  unfold read_solid_section, solid_section_elset, solid_section_material,
    substr_or_throw, bind, ret, throw, call.
  repeat match goal with
         | |- context [match ?x with Some _ => _ | None => _ end] =>
             destruct x
         end; cbn [fst];
    repeat match goal with
           | |- context [assign_material ?a ?b ?c] =>
               destruct (assign_material a b c)
           end; reflexivity.
Qed.

(** C4, amended. A [*SOLID SECTION] card whose line has a hyphen behind
    [MATERIAL=], read into any bridge: every cell of the element set that
    the card names gets the material id [from_string(0, tail)], where
    [tail] is the text behind the first such hyphen.  That is the number
    at the start of the text (white space, a sign and decimal digits; the
    nearest [int] when the value does not fit), and 0 when the text does
    not start with a number.  The bridge [st'] that the card leaves is
    what the reader returns when the stream ends with the card, and
    whatever follows the card is read as it is read into [st']. *)
Theorem solid_section_material_id (card line tail : string) (st : bridge)
    (t : Triangulation) (k h : nat) :
  without newline card = true ->
  line = string_map toupper card ->
  compare_prefix line 14 "*SOLID SECTION" = true ->
  first_occurrence "MATERIAL=" line 0 k = true ->
  first_occurrence "-" line (k + 9) h = true ->
  tail = substring (S h) (String.length line - S h) line ->
  string_size line < npos ->
  (forall name cells c, elsets_list st !! name = Some cells -> c ∈ cells ->
     1 <= c <= Z.of_nat (length (cell_list st))) ->
  Forall (fun row => row <> []) (cell_list st) ->
  exists name st',
    solid_section_elset line (World (istream_of "") t)
    = (Ok name, World (istream_of "") t)
    /\ read_in_abaqus dim spacedim st
         (World (istream_of (card +:+ String newline "")) t)
       = (Ok st', World (Istream "" true true) t)
    /\ (forall rest r w',
          read_in_abaqus dim spacedim st' (World (istream_of rest) t) = (r, w') ->
          r <> Hang ->
          read_in_abaqus dim spacedim st
            (World (istream_of (card +:+ String newline rest)) t)
          = (r, w'))
    /\ (forall c, c ∈ default [] (elsets_list st !! name) ->
          exists row, cell_list st' !! Z.to_nat (c - 1) = Some row
            /\ row !! 0%nat = Some (double_of_int (from_string 0 tail)))
    /\ (forall sign ds rest,
          skipws tail = sign +:+ ds +:+ rest ->
          sign = "" \/ sign = "+" \/ sign = "-" ->
          all_digits ds = true -> starts_with_digit rest = false ->
          from_string 0 tail
          = nearest_int (if String.eqb sign "-" then - decimal_value 0 ds
                         else decimal_value 0 ds))
    /\ (starts_with_number (skipws tail) = false -> from_string 0 tail = 0).
Proof.
  intros Hnl -> Hcard Hk Hh -> Hsize Hsets Hrows.
  set (line := string_map toupper card) in *.
  set (tail := substring (S h) (String.length line - S h) line).
  set (w := World (istream_of "") t).
  pose proof (solid_section_material_tail line k h w Hk Hh Hsize) as Hmaterial.
  fold tail in Hmaterial.
  assert (9 <= string_size line) as Hlong.
  { unfold first_occurrence in Hk.
    apply andb_prop in Hk as [Hk _]. apply andb_prop in Hk as [_ Hk].
    apply String.eqb_eq in Hk.
    pose proof (occurrence_fits _ _ _ Hk ltac:(discriminate)) as Hfit.
    unfold string_size. cbn [String.length] in Hfit. lia. }
  destruct (solid_section_elset_total line w (conj Hlong Hsize)) as [name Hname].
  set (cells := default [] (elsets_list st !! name)).
  assert (forall c, c ∈ cells -> 1 <= c <= Z.of_nat (length (cell_list st)))
    as Hcells.
  { intros c Hc. subst cells.
    destruct (elsets_list st !! name) as [cs|] eqn:Hcs; simpl in Hc.
    - exact (Hsets name cs c Hcs Hc).
    - apply elem_of_nil in Hc. contradiction. }
  destruct (assign_material_spec (from_string 0 tail) cells (cell_list st)
              Hcells Hrows) as [cl' [Hassign Hlookup]].
  set (st' := Bridge (node_list st) cl' (face_list st)
                (<[name := cells]> (elsets_list st))).
  assert (Hsection : forall w1, read_solid_section line st w1 = (Ok st', w1)).
  { intros w1. rewrite (read_solid_section_any_world line st w w1).
    f_equal. unfold read_solid_section.
    erewrite bind_Ok; [|exact Hname].
    erewrite bind_Ok; [|exact Hmaterial].
    fold cells.
    erewrite bind_Ok; [|unfold call; rewrite Hassign; reflexivity].
    reflexivity. }
  exists name, st'. split; [exact Hname|].
  assert (Hlast : read_in_abaqus dim spacedim st' (World (istream_of "") t)
                  = (Ok st', World (Istream "" true true) t)) by reflexivity.
  split; [|split; [|split; [|split]]].
  - eapply read_in_abaqus_solid_section;
      [exact Hnl | exact Hcard | apply Hsection | exact Hlast | discriminate].
  - intros rest r w' Hrun Hr.
    eapply read_in_abaqus_solid_section;
      [exact Hnl | exact Hcard | apply Hsection | exact Hrun | exact Hr].
  - intros c Hc. cbn [cell_list st']. rewrite Hlookup.
    pose proof (Hcells c Hc) as Hrange.
    destruct (lookup_lt_is_Some_2 (cell_list st) (Z.to_nat (c - 1))) as [row Hrow];
      [lia|].
    rewrite Hrow. simpl. eexists. split; [reflexivity|].
    unfold with_material. rewrite bool_decide_eq_true_2.
    + pose proof (Forall_lookup_1 _ _ _ _ Hrows Hrow).
      destruct row; [congruence | reflexivity].
    + replace (Z.of_nat (Z.to_nat (c - 1)) + 1) with c by lia. exact Hc.
  - intros sign ds rest. apply from_string_number.
  - apply from_string_no_number.
Qed.

(** C5. The cards [*ELSET, ELSET=<name>, GENERATE] with the data line
    [1,5,2] and [*SOLID SECTION, ELSET=<name>, MATERIAL=Material-7], read
    from the first line to the end of the stream into any bridge of five
    cells or more: the reader returns, the named set is the elements 1, 3
    and 5, the material of the cells 1, 3 and 5 is 7, and every other cell
    and the rest of the bridge are as they were. *)
Theorem generated_elset_and_solid_section (name NAME : string) (st : bridge)
    (t : Triangulation) :
  NAME = string_map toupper name ->
  NAME <> "" -> without "," NAME = true -> without "=" NAME = true ->
  without newline name = true ->
  string_size NAME < 2 ^ 31 ->
  (5 <= length (cell_list st))%nat ->
  Forall (fun row => row <> []) (cell_list st) ->
  exists cl',
    read_in_abaqus dim spacedim st
      (World
         (istream_of
            (("*ELSET, ELSET=" +:+ name +:+ ", GENERATE")
             +:+ String newline
                   ("1,5,2"
                    +:+ String newline
                          (("*SOLID SECTION, ELSET=" +:+ name
                            +:+ ", MATERIAL=Material-7")
                           +:+ String newline ""))))
         t)
    = (Ok (Bridge (node_list st) cl' (face_list st)
                  (<[NAME := [1; 3; 5]]> (elsets_list st))),
       World (Istream "" true true) t)
    /\ forall i, cl' !! i = with_material 7 [1; 3; 5] i <$> cell_list st !! i.
Proof.
  intros -> Hne Hcomma Hequal Hnl Hsize Hcells Hrows.
  set (NAME := string_map toupper name) in *.
  set (st1 := Bridge (node_list st) (cell_list st) (face_list st)
                (<[NAME := [1; 3; 5]]> (elsets_list st))).
  destruct (read_solid_section_card NAME "MATERIAL" "7" st1
              (World (istream_of "") t) [1; 3; 5])
    as [cl' [Hsection Hlookup]]; try assumption; try reflexivity.
  { cbv. discriminate. }
  { rewrite string_size_solid_section_card.
    change (string_size "MATERIAL") with 8. change (string_size "7") with 1. lia. }
  { apply lookup_insert_eq. }
  { intros c Hc. rewrite !elem_of_cons in Hc. rewrite elem_of_nil in Hc.
    cbn [cell_list st1]. lia. }
  exists cl'. split; [|exact Hlookup].
  unfold read_in_abaqus.
  erewrite bind_Ok; [|apply AssertThrow_in_ok; reflexivity].
  unfold bounded_by_stream.
  match goal with
  | |- read_lines _ _ ?n _ _ _ _ = _ =>
      replace n with (S (S (S (S (n - 4))))) by lia
  end.
  set (m := (_ - 4)%nat). clearbody m.
  rewrite read_lines_next_line
    by (rewrite !without_append, Hnl; reflexivity).
  erewrite read_lines_elset_generate;
    [| exact Hcomma | fold NAME; lia | reflexivity].
  rewrite getline_line.
  2:{ rewrite !without_append, Hnl. reflexivity. }
  cbn [fst snd tria].
  rewrite read_lines_at_solid_section
    by (rewrite !string_map_append; reflexivity).
  cbv zeta. rewrite !string_map_append. fold NAME. fold st1.
  erewrite bind_Ok; [|exact Hsection].
  cbn [node_list face_list elsets_list st1].
  apply read_lines_at_end.
Qed.

End Cards.

End Abaqus_properties.

Section Abaqus_examples.
Import Abaqus_to_UCD.

(** C4, as stated, fails on a material name of two hyphens: the digits
    after the last hyphen of [Steel-Grade-12] spell 12, and the cells of
    the set get the material 0. *)
Lemma solid_section_steel_grade_12 :
  (final_hyphen_number "Steel-Grade-12",
   match fst (read_in_abaqus 2 2 bridge_empty (reading abaqus_steel_grade_12)) with
   | Ok st => materials st
   | _ => []
   end)
  = (12, [Some 0%Q; Some 3%Q; Some 0%Q; Some 3%Q; Some 0%Q; Some 3%Q]).
Proof. reflexivity. Qed.

(** The file of the scenario of C5, read from its first line to its last. *)
Lemma read_in_abaqus_material_7 :
  match fst (read_in_abaqus 2 2 bridge_empty (reading abaqus_material_7)) with
  | Ok st => (materials st, elsets_list st !! "SET1")
  | _ => ([], None)
  end
  = ([Some 7%Q; Some 3%Q; Some 7%Q; Some 3%Q; Some 7%Q; Some 3%Q],
     Some [1; 3; 5]).
Proof. reflexivity. Qed.

Lemma solid_section_material_id_witness :
  exists name st',
    solid_section_elset "*SOLID SECTION, ELSET=SET1, MATERIAL=MATERIAL-7"
      (reading "")
    = (Ok name, reading "")
    /\ read_in_abaqus 2 2 abaqus_six_cells
         (reading "*Solid Section, elset=Set1, material=Material-7
")
       = (Ok st', World (Istream "" true true) [])
    /\ (forall rest r w',
          read_in_abaqus 2 2 st' (reading rest) = (r, w') ->
          r <> Hang ->
          read_in_abaqus 2 2 abaqus_six_cells
            (reading ("*Solid Section, elset=Set1, material=Material-7"
                      +:+ String newline rest))
          = (r, w'))
    /\ (forall c, c ∈ default [] (elsets_list abaqus_six_cells !! name) ->
          exists row, cell_list st' !! Z.to_nat (c - 1) = Some row
            /\ row !! 0%nat = Some (7%Q : @double release_platform))
    /\ (forall sign ds rest,
          skipws "7" = sign +:+ ds +:+ rest ->
          sign = "" \/ sign = "+" \/ sign = "-" ->
          all_digits ds = true -> starts_with_digit rest = false ->
          from_string 0 "7"
          = nearest_int (if String.eqb sign "-" then - decimal_value 0 ds
                         else decimal_value 0 ds))
    /\ (starts_with_number (skipws "7") = false -> from_string 0 "7" = 0).
Proof.
  apply (solid_section_material_id (PF := release_platform) 2 2
           "*Solid Section, elset=Set1, material=Material-7"
           "*SOLID SECTION, ELSET=SET1, MATERIAL=MATERIAL-7" "7"
           abaqus_six_cells [] 28 45);
    try reflexivity.
  - intros name cells c Hset Hc. unfold abaqus_six_cells in Hset.
    cbn [elsets_list] in Hset. apply lookup_singleton_Some in Hset as [_ <-].
    simpl. rewrite !elem_of_cons in Hc. rewrite elem_of_nil in Hc. lia.
  - repeat constructor; discriminate.
Defined.
Lemma generated_elset_and_solid_section_witness :
  exists cl',
    read_in_abaqus 2 2 abaqus_six_cells
      (reading "*ELSET, ELSET=Set2, GENERATE
1,5,2
*SOLID SECTION, ELSET=Set2, MATERIAL=Material-7
")
    = (Ok (Bridge [] cl' [] (<["SET2" := [1; 3; 5]]> {["SET1" := [1; 3; 5]]})),
       World (Istream "" true true) [])
    /\ forall i, cl' !! i
         = with_material 7 [1; 3; 5] i <$> cell_list abaqus_six_cells !! i.
Proof.
  apply (generated_elset_and_solid_section (PF := release_platform) 2 2
           "Set2" "SET2" abaqus_six_cells []); try reflexivity.
  - discriminate.
  - simpl. lia.
  - repeat constructor; discriminate.
Defined.

End Abaqus_examples.

(** ** C10: the vertex that the tecplot reader puts in front *)

Section Cleanup.
Context {PF : Platform}.

(** A vertex that nothing refers to is not kept. *)
Lemma kept_vertices_used (refs : list Z) (n i : nat) :
  i ∈ kept_vertices refs n -> Z.of_nat i ∈ refs.
Proof.
  unfold kept_vertices. rewrite list_elem_of_filter. intros [Hused _].
  unfold vertex_used in Hused. apply existsb_exists in Hused as [r [Hin Heq]].
  apply Z.eqb_eq in Heq. subst r. apply list_elem_of_In. exact Hin.
Qed.

Lemma delete_unused_vertices_spec_kept (vs vs' : list Point)
    (cells cells' : list CellData) (sub sub' : SubCellData) :
  delete_unused_vertices_spec vs cells sub = Ok (vs', cells', sub') ->
  vs' = omap (fun i => vs !! i)
          (kept_vertices (vertex_references cells sub) (length vs)).
Proof.
  unfold delete_unused_vertices_spec.
  destruct (valid_references _ _); [|discriminate].
  intros Hok. injection Hok as <- _ _. reflexivity.
Qed.

(** The new numbers after the search for duplicates among vertices other
    than the first: the first keeps its number, and no other vertex gets
    it. *)
Definition numbers_spare_0 (numbers : list Z) : Prop :=
  forall j x, numbers !! j = Some x -> (1 <= j)%nat -> 1 <= x.

Lemma merge_step_spares_0 (tol : option double) (vs : list Point)
    (st : list nat * list Z) (j : nat) :
  (1 <= j)%nat ->
  Forall (fun r => (1 <= r)%nat) (fst st) -> numbers_spare_0 (snd st) ->
  Forall (fun r => (1 <= r)%nat) (fst (merge_step tol vs st j))
  /\ numbers_spare_0 (snd (merge_step tol vs st j)).
Proof.
  intros Hj Hreps Hnumbers. unfold merge_step.
  destruct (vs !! j) as [p|]; [|split; assumption].
  destruct (find _ (fst st)) as [r|] eqn:Hfind; simpl.
  - split; [exact Hreps|].
    apply find_some in Hfind as [Hin _]. rewrite <- list_elem_of_In in Hin.
    rewrite Forall_forall in Hreps. specialize (Hreps r Hin).
    intros k x Hk Hk1.
    destruct (decide (k = j)) as [->|Hne].
    + apply list_lookup_insert_Some in Hk as [(_ & <- & _)|[? _]]; [lia|congruence].
    + rewrite list_lookup_insert_ne in Hk by congruence. exact (Hnumbers k x Hk Hk1).
  - split; [|exact Hnumbers].
    apply Forall_app. split; [exact Hreps | repeat constructor; exact Hj].
Qed.

Lemma merged_vertex_numbers_spare_0 (tol : option double) (vs : list Point)
    (considered : list Z) :
  considered <> [] -> Forall (fun v => 1 <= v) considered ->
  numbers_spare_0 (merged_vertex_numbers tol vs considered).
Proof.
  intros Hne Hconsidered. unfold merged_vertex_numbers.
  destruct considered as [|c considered]; [congruence|].
  set (js := map Z.to_nat (c :: considered)).
  assert (Forall (fun j => (1 <= j)%nat) js) as Hjs.
  { subst js. apply Forall_map. eapply Forall_impl; [exact Hconsidered|].
    simpl. intros v Hv. lia. }
  clearbody js.
  assert (forall st, Forall (fun r => (1 <= r)%nat) (fst st) ->
                     numbers_spare_0 (snd st) ->
                     numbers_spare_0 (snd (fold_left (merge_step tol vs) js st)))
    as Hfold.
  { induction Hjs as [|j js Hj Hjs IH]; intros st Hreps Hnumbers; simpl.
    - exact Hnumbers.
    - destruct (merge_step_spares_0 tol vs st j Hj Hreps Hnumbers).
      apply IH; assumption. }
  apply Hfold; simpl; [constructor|].
  intros j x Hx Hj. rewrite list_lookup_fmap in Hx.
  destruct (seq 0 (length vs) !! j) as [k|] eqn:Hk; [|discriminate].
  apply lookup_seq in Hk as [-> _]. simpl in Hx. injection Hx as <-. lia.
Qed.

Lemma vertex_references_renumber (f : Z -> Z) (cells : list CellData)
    (sub : SubCellData) :
  vertex_references (map (renumber_vertices f) cells) (renumber_subcelldata f sub)
  = map f (vertex_references cells sub).
Proof.
  unfold vertex_references, renumber_subcelldata. simpl.
  rewrite <- !map_app.
  induction (cells ++ boundary_lines sub ++ boundary_quads sub) as [|c l IH];
    simpl; [reflexivity|].
  rewrite map_app, IH. reflexivity.
Qed.

Lemma valid_references_elem (n : nat) (refs : list Z) (v : Z) :
  valid_references n refs = true -> v ∈ refs -> 0 <= v < Z.of_nat n.
Proof.
  unfold valid_references. rewrite forallb_forall. intros Hall Hin.
  apply list_elem_of_In in Hin. specialize (Hall v Hin). lia.
Qed.

Lemma length_omap_le {A B} (g : A -> option B) (l : list A) :
  (length (omap g l) <= length l)%nat.
Proof.
  induction l as [|a l IH]; csimpl; [lia|]. destruct (g a); csimpl; lia.
Qed.

Lemma filter_seq_sorted (P : nat -> Prop) `{forall i, Decision (P i)}
    (n first : nat) :
  StronglySorted lt (filter P (seq first n))
  /\ Forall (fun i => (first <= i < first + n)%nat) (filter P (seq first n)).
Proof.
  revert first. induction n as [|n IH]; intros first; cbn [seq].
  - split; constructor.
  - destruct (IH (S first)) as [Hsorted Hrange].
    assert (Forall (fun i => (first <= i < first + S n)%nat)
              (filter P (seq (S first) n))) as Hrange'.
    { eapply Forall_impl; [exact Hrange|]. simpl. intros i Hi. lia. }
    rewrite filter_cons. destruct (decide (P first)); [|split; assumption].
    split.
    + constructor; [exact Hsorted|].
      eapply Forall_impl; [exact Hrange|]. simpl. intros i Hi. lia.
    + constructor; [lia | exact Hrange'].
Qed.

(** The positions that the clean-up keeps when nothing refers to the first
    vertex: they increase, they start behind the first vertex, and they
    are fewer than the vertices. *)
Lemma kept_vertices_past_0 (refs : list Z) (n : nat) :
  (forall v, v ∈ refs -> v <> 0) ->
  StronglySorted lt (kept_vertices refs n)
  /\ Forall (fun i => (1 <= i < n)%nat) (kept_vertices refs n)
  /\ ((0 < n)%nat -> (length (kept_vertices refs n) < n)%nat).
Proof.
  intros Hrefs. unfold kept_vertices.
  destruct (filter_seq_sorted (fun i => vertex_used refs i = true) n 0)
    as [Hsorted Hrange].
  assert (H0 : vertex_used refs 0 <> true).
  { intros Hused.
    assert (0%nat ∈ kept_vertices refs 1) as Hin.
    { unfold kept_vertices. cbn [seq]. rewrite filter_cons.
      destruct (decide (vertex_used refs 0 = true)); [left | contradiction]. }
    exact (Hrefs _ (kept_vertices_used _ _ _ Hin) eq_refl). }
  split; [exact Hsorted|]. split.
  - rewrite Forall_forall in *. intros i Hi. specialize (Hrange i Hi).
    apply list_elem_of_filter in Hi as [Hused _].
    destruct i; [contradiction | lia].
  - intros Hn. destruct n as [|n]; [lia|]. cbn [seq]. rewrite filter_cons.
    destruct (decide (vertex_used refs 0 = true)); [contradiction|].
    pose proof (length_filter (fun i => vertex_used refs i = true) (seq 1 n))
      as Hle.
    rewrite length_seq in Hle. lia.
Qed.

Lemma kept_vertices_elem (refs : list Z) (n i : nat) :
  valid_references n refs = true ->
  i ∈ kept_vertices refs n <-> Z.of_nat i ∈ refs.
Proof.
  intros Hvalid. split; [apply kept_vertices_used|].
  intros Hi. unfold kept_vertices. apply list_elem_of_filter. split.
  - unfold vertex_used. apply existsb_exists. exists (Z.of_nat i).
    split; [apply list_elem_of_In; exact Hi | apply Z.eqb_refl].
  - pose proof (valid_references_elem _ _ _ Hvalid Hi).
    apply elem_of_seq. lia.
Qed.

(** What is left of the vertices [vs] when no cell and no boundary entry
    refers to the first of them: the vertices at increasing positions
    behind the first, those that something refers to. *)
Lemma delete_unused_vertices_spec_past_0 (vs vs' : list Point)
    (cells cells' : list CellData) (sub sub' : SubCellData) :
  (forall v, v ∈ vertex_references cells sub -> v <> 0) ->
  delete_unused_vertices_spec vs cells sub = Ok (vs', cells', sub') ->
  exists kept : list nat,
    vs' = omap (fun i => vs !! i) kept
    /\ StronglySorted lt kept
    /\ Forall (fun i => (1 <= i < length vs)%nat) kept
    /\ ((0 < length vs)%nat -> (length vs' < length vs)%nat)
    /\ forall i, i ∈ kept <-> Z.of_nat i ∈ vertex_references cells sub.
Proof.
  intros Hrefs Hok.
  pose proof (delete_unused_vertices_spec_kept _ _ _ _ _ _ Hok) as Hvs'.
  destruct (kept_vertices_past_0 _ (length vs) Hrefs) as (Hsorted & Hrange & Hlen).
  eexists. split; [exact Hvs'|]. split; [exact Hsorted|].
  split; [exact Hrange|]. split.
  - intros Hn. rewrite Hvs'.
    eapply Nat.le_lt_trans; [apply length_omap_le | exact (Hlen Hn)].
  - intros i. apply kept_vertices_elem.
    unfold delete_unused_vertices_spec in Hok.
    destruct (valid_references _ _); [reflexivity | discriminate].
Qed.

(** The same for the clean-up of the duplicates among considered vertices
    other than the first. *)
Lemma delete_duplicated_vertices_spec_past_0 (vs vs' : list Point)
    (cells cells' : list CellData) (sub sub' : SubCellData)
    (considered : list Z) (tol : option double) :
  considered <> [] -> Forall (fun v => 1 <= v) considered ->
  (forall v, v ∈ vertex_references cells sub -> v <> 0) ->
  delete_duplicated_vertices_spec vs cells sub considered tol
  = Ok (vs', cells', sub') ->
  exists kept : list nat,
    vs' = omap (fun i => vs !! i) kept
    /\ StronglySorted lt kept
    /\ Forall (fun i => (1 <= i < length vs)%nat) kept
    /\ ((0 < length vs)%nat -> (length vs' < length vs)%nat).
Proof.
  intros Hne Hconsidered Hrefs. unfold delete_duplicated_vertices_spec.
  destruct (valid_references _ _) eqn:Hvalid; [|discriminate].
  intros Hok.
  apply delete_unused_vertices_spec_past_0 in Hok
    as (kept & Hvs' & Hsorted & Hrange & Hlen & _).
  { exists kept. auto. }
  intros v Hv. rewrite vertex_references_renumber in Hv.
  apply list_elem_of_fmap in Hv as [u [-> Hu]].
  pose proof (valid_references_elem _ _ u Hvalid) as Hrange.
  rewrite elem_of_app in Hrange. specialize (Hrange (or_introl Hu)).
  specialize (Hrefs u Hu).
  pose proof (merged_vertex_numbers_spare_0 tol vs considered Hne Hconsidered)
    as Hnumbers.
  destruct (merged_vertex_numbers tol vs considered !! Z.to_nat u) as [x|] eqn:Hx.
  - rewrite (nth_lookup_Some _ _ _ _ Hx).
    specialize (Hnumbers _ _ Hx). lia.
  - rewrite nth_overflow; [lia|]. apply lookup_ge_None. exact Hx.
Qed.

End Cleanup.

Section Tecplot_properties.
Context {PF : Platform} {CO : Collaborators}.

(** An invariant of a loop whose step may depend on the index. *)
Lemma for_loop_indexed {St} (Inv : nat -> St -> Prop) (n : nat) (first : Z)
    (body : Z -> St -> M St) (s s' : St) (w w' : world) :
  Inv 0%nat s ->
  (forall k s1 s2 w1 w2,
      (k < n)%nat -> Inv k s1 ->
      body (first + Z.of_nat k) s1 w1 = (Ok s2, w2) -> Inv (S k) s2) ->
  for_loop n first body s w = (Ok s', w') ->
  Inv n s'.
Proof.
  revert Inv first s w.
  induction n as [|n IH]; intros Inv first s w H0 Hstep Hloop; simpl in Hloop.
  - inversion Hloop; subst. exact H0.
  - apply bind_Ok_inv in Hloop as (s1 & w1 & Hb & Hrest).
    apply (IH (fun k => Inv (S k)) (first + 1) s1 w1).
    + apply (Hstep 0%nat s s1 w w1); [lia | exact H0 |].
      rewrite Z.add_0_r. exact Hb.
    + intros k s2 s3 w2 w3 Hk HI Hb'.
      apply (Hstep (S k) s2 s3 w2 w3); [lia | exact HI |].
      replace (first + Z.of_nat (S k)) with (first + 1 + Z.of_nat k) by lia.
      exact Hb'.
    + exact Hrest.
Qed.

Lemma vector_set_Ok_inv {A} (i : Z) (x : A) (v v' : list A) (w w' : world) :
  vector_set i x v w = (Ok v', w') ->
  0 <= i < Z.of_nat (length v) /\ v' = <[Z.to_nat i := x]> v /\ w' = w.
Proof.
  unfold vector_set.
  destruct (Z.leb_spec 0 i); destruct (Z.ltb_spec i (Z.of_nat (length v)));
    simpl; intros Hv; try discriminate Hv.
  inversion Hv. auto with lia.
Qed.

Lemma structured_cell_past_0 (I J j i : Z) :
  I * J < 2 ^ 32 -> 1 <= i < I -> 0 <= j < J - 1 ->
  Forall (fun v => v <> 0) (structured_cell I j i).
Proof.
  intros Hfits Hi Hj. unfold structured_cell, u32.
  assert (i + 1 + (j + 1) * I <= I * J) by nia.
  assert (0 <= j * I) by nia.
  repeat constructor; rewrite Z.mod_small; nia.
Qed.

Lemma set_cell_vertices_past_0 (cell : Z) (vs : list Z)
    (cells cells' : list CellData) (w w' : world) :
  Forall (fun v => v <> 0) vs -> Forall refers_past_0 cells ->
  set_cell_vertices cell vs cells w = (Ok cells', w') ->
  Forall refers_past_0 cells'.
Proof.
  intros Hvs Hcells. unfold set_cell_vertices.
  destruct (cells !! Z.to_nat cell) as [c|]; [|discriminate].
  intros Hset. apply vector_set_Ok_inv in Hset as (_ & -> & _).
  apply Forall_insert; [exact Hcells | exact Hvs].
Qed.

Lemma tecplot_structured_cells_past_0 (I J : Z) (cells cells' : list CellData)
    (k : Z) (w w' : world) :
  I * J < 2 ^ 32 -> 1 <= I -> 1 <= J ->
  Forall refers_past_0 cells ->
  tecplot_structured_cells I J cells w = (Ok (cells', k), w') ->
  Forall refers_past_0 cells'.
Proof.
  intros Hfits HI HJ Hcells. unfold tecplot_structured_cells.
  assert (u32 (J - 1) = J - 1) as -> by (unfold u32; rewrite Z.mod_small; nia).
  intros Hloop.
  apply (for_loop_indexed (fun _ st => Forall refers_past_0 (fst st)))
    in Hloop; [exact Hloop | exact Hcells |].
  intros kj s1 s2 w1 w2 Hkj Hs1 Hinner.
  apply (for_loop_indexed (fun _ st => Forall refers_past_0 (fst st)))
    in Hinner; [exact Hinner | exact Hs1 |].
  intros ki s3 s4 w3 w4 Hki Hs3 Hbody.
  inv_Ok. simpl.
  eapply set_cell_vertices_past_0; [|exact Hs3|eassumption].
  apply (structured_cell_past_0 I J); lia.
Qed.

(** The state of the loops that fill [boundary_vertices]: [k] entries
    have been written, none of them 0. *)
Definition boundary_filled (size : Z) (k : Z) (st : list Z * Z) : Prop :=
  Z.of_nat (length (fst st)) = size /\ snd st = k /\ k <= size
  /\ forall p x, fst st !! p = Some x -> Z.of_nat p < k -> 1 <= x.

Lemma boundary_filled_step (size k x y : Z) (st st' : list Z * Z)
    (w w' : world) :
  size < 2 ^ 32 -> 0 <= k -> 1 <= x -> 1 <= y ->
  boundary_filled size k st ->
  (let* b := vector_set (snd st) x (fst st) in
   let k := u32 (snd st + 1) in
   let* b := vector_set k y b in
   ret (b, u32 (k + 1))) w = (Ok st', w') ->
  boundary_filled size (k + 2) st'.
Proof.
  intros Hsize Hk Hx Hy (Hlen & Hsnd & Hle & Hall) Hstep.
  destruct st as [b k0]. simpl in *. subst k0.
  apply bind_Ok_inv in Hstep as (b1 & w1 & Hb1 & Hstep).
  apply vector_set_Ok_inv in Hb1 as (Hk1 & -> & ->).
  apply bind_Ok_inv in Hstep as (b2 & w2 & Hb2 & Hstep).
  assert (u32 (k + 1) = k + 1) as Hu1 by (unfold u32; rewrite Z.mod_small; lia).
  rewrite Hu1 in *.
  apply vector_set_Ok_inv in Hb2 as (Hk2 & -> & ->).
  rewrite length_insert in Hk2.
  assert (u32 (k + 1 + 1) = k + 2) as Hu2 by (unfold u32; rewrite Z.mod_small; lia).
  rewrite Hu2 in Hstep. apply ret_Ok_inv in Hstep as [-> _].
  unfold boundary_filled. simpl. rewrite !length_insert.
  repeat split; try lia.
  intros p v Hp Hlt.
  destruct (decide (p = Z.to_nat (k + 1))) as [->|Hne1].
  - rewrite list_lookup_insert_eq in Hp by (rewrite length_insert; lia).
    congruence.
  - rewrite list_lookup_insert_ne in Hp by congruence.
    destruct (decide (p = Z.to_nat k)) as [->|Hne2].
    + rewrite list_lookup_insert_eq in Hp by lia. congruence.
    + rewrite list_lookup_insert_ne in Hp by congruence.
      apply (Hall p v Hp). lia.
Qed.

Lemma tecplot_boundary_vertices_past_0 (I J : Z) (b : list Z) (k : Z)
    (w w' : world) :
  I * J < 2 ^ 32 - 1 -> 1 <= I -> 1 <= J ->
  tecplot_boundary_vertices I J w = (Ok (b, k), w') ->
  b <> [] /\ Forall (fun v => 1 <= v) b.
Proof.
  intros Hfits HI HJ. unfold tecplot_boundary_vertices.
  set (size := Z.of_nat (Z.to_nat (u32 (2 * I + 2 * J - 4)))).
  assert (0 <= size <= 2 * I + 2 * J - 4 /\ size < 2 ^ 32) as Hsize.
  { subst size. unfold u32.
    pose proof (Z.mod_pos_bound (2 * I + 2 * J - 4) (2 ^ 32) ltac:(lia)).
    pose proof (Z.mod_le (2 * I + 2 * J - 4) (2 ^ 32) ltac:(lia) ltac:(lia)).
    lia. }
  assert (I <= I * J) as HIJ by nia.
  assert (J <= I * J) as HJI by nia.
  assert (u32 (I + 1) - 1 = I) as -> by (unfold u32; rewrite Z.mod_small; lia).
  assert (u32 (J - 1) = J - 1) as -> by (unfold u32; rewrite Z.mod_small; lia).
  intros Hloops.
  apply bind_Ok_inv in Hloops as (st1 & w1 & Hfirst & Hsecond).
  apply (for_loop_indexed
           (fun m st => boundary_filled size (2 * Z.of_nat m) st)) in Hfirst.
  2:{ unfold boundary_filled. simpl. rewrite repeat_length.
      repeat split; try lia. }
  2:{ intros m s1 s2 w2 w3 Hm Hs1 Hbody.
      replace (2 * Z.of_nat (S m)) with (2 * Z.of_nat m + 2) by lia.
      eapply boundary_filled_step; [| | | |exact Hs1|exact Hbody]; try lia.
      unfold u32. rewrite Z.mod_small; nia. }
  apply (for_loop_indexed
           (fun m st => boundary_filled size (2 * I + 2 * Z.of_nat m) st))
    in Hsecond.
  2:{ replace (2 * I + 2 * Z.of_nat 0) with (2 * Z.of_nat (Z.to_nat I)) by lia.
      exact Hfirst. }
  2:{ intros m s1 s2 w2 w3 Hm Hs1 Hbody.
      replace (2 * I + 2 * Z.of_nat (S m)) with (2 * I + 2 * Z.of_nat m + 2) by lia.
      eapply boundary_filled_step; [| | | |exact Hs1|exact Hbody]; try lia;
        unfold u32; rewrite Z.mod_small; nia. }
  destruct Hsecond as (Hlen & _ & Hle & Hall). simpl in *.
  assert (2 <= J) as HJ2 by lia.
  split.
  - intros ->. simpl in Hlen. lia.
  - apply Forall_lookup. intros p x Hp. apply (Hall p x Hp).
    apply lookup_lt_Some in Hp. lia.
Qed.

(** *** The reader leaves the triangulation alone until the end *)

Lemma keeps_tria_strip_blanks_at_equals n header pos :
  keeps_tria (strip_blanks_at_equals n header pos).
Proof. revert header pos. induction n as [|n IH]; intros; simpl; frame. Qed.

Lemma keeps_tria_parse_variables n dim entries i n_vars t2d :
  keeps_tria (parse_variables n dim entries i n_vars t2d).
Proof. revert i n_vars t2d. induction n as [|n IH]; intros; simpl; frame. Qed.

Lemma keeps_tria_check_variables dim t2d : keeps_tria (check_variables dim t2d).
Proof. unfold check_variables. frame. Qed.

Lemma keeps_tria_parse_tecplot_entry dim entry h :
  keeps_tria (parse_tecplot_entry dim entry h).
Proof. unfold parse_tecplot_entry. frame. Qed.

#[local] Hint Resolve keeps_tria_strip_blanks_at_equals
  keeps_tria_parse_variables keeps_tria_check_variables
  keeps_tria_parse_tecplot_entry : frame.

Lemma keeps_tria_parse_tecplot_entries n dim entries i h :
  keeps_tria (parse_tecplot_entries n dim entries i h).
Proof. revert i h. induction n as [|n IH]; intros; simpl; frame. Qed.

Lemma keeps_tria_structured_counts dim ijk : keeps_tria (structured_counts dim ijk).
Proof. unfold structured_counts. frame. Qed.

#[local] Hint Resolve keeps_tria_parse_tecplot_entries
  keeps_tria_structured_counts : frame.

Lemma keeps_tria_parse_tecplot_header dim header :
  keeps_tria (parse_tecplot_header dim header).
Proof. unfold parse_tecplot_header. frame. Qed.

Lemma keeps_tria_read_tecplot_header_lines n line header :
  keeps_tria (read_tecplot_header_lines n line header).
Proof. revert line header. induction n as [|n IH]; intros; simpl; frame. Qed.

Lemma keeps_tria_set_coordinate j d x vertices :
  keeps_tria (set_coordinate j d x vertices).
Proof. unfold set_coordinate. frame. Qed.

#[local] Hint Resolve keeps_tria_parse_tecplot_header
  keeps_tria_read_tecplot_header_lines keeps_tria_set_coordinate : frame.

Lemma keeps_tria_read_coordinate d j vertices :
  keeps_tria (read_coordinate d j vertices).
Proof. unfold read_coordinate. frame. Qed.

#[local] Hint Resolve keeps_tria_read_coordinate : frame.

Lemma keeps_tria_read_coordinates d first n vertices :
  keeps_tria (read_coordinates d first n vertices).
Proof. unfold read_coordinates. frame. Qed.

#[local] Hint Resolve keeps_tria_read_coordinates : frame.

Lemma keeps_tria_read_tecplot_first_variable h line vertices :
  keeps_tria (read_tecplot_first_variable h line vertices).
Proof. unfold read_tecplot_first_variable. frame. Qed.

Lemma keeps_tria_read_tecplot_variable dim h i st :
  keeps_tria (read_tecplot_variable dim h i st).
Proof. unfold read_tecplot_variable. frame. Qed.

#[local] Hint Resolve keeps_tria_read_tecplot_first_variable
  keeps_tria_read_tecplot_variable : frame.

Lemma keeps_tria_read_tecplot_variables n dim h i vertices next_index :
  keeps_tria (read_tecplot_variables n dim h i vertices next_index).
Proof.
  revert i vertices next_index. induction n as [|n IH]; intros; simpl; frame.
Qed.

#[local] Hint Resolve keeps_tria_read_tecplot_variables : frame.

Lemma keeps_tria_read_tecplot_blocked dim h line vertices :
  keeps_tria (read_tecplot_blocked dim h line vertices).
Proof. unfold read_tecplot_blocked. frame. Qed.

Lemma keeps_tria_set_point dim v xs vertices :
  keeps_tria (set_point dim v xs vertices).
Proof. unfold set_point. frame. Qed.

#[local] Hint Resolve keeps_tria_read_tecplot_blocked keeps_tria_set_point
  : frame.

Lemma keeps_tria_read_tecplot_point dim h v st :
  keeps_tria (read_tecplot_point dim h v st).
Proof. unfold read_tecplot_point. frame. Qed.

#[local] Hint Resolve keeps_tria_read_tecplot_point : frame.

Lemma keeps_tria_read_tecplot_points dim h line vertices :
  keeps_tria (read_tecplot_points dim h line vertices).
Proof. unfold read_tecplot_points. frame. Qed.

Lemma keeps_tria_set_cell_vertices cell vs cells :
  keeps_tria (set_cell_vertices cell vs cells).
Proof. unfold set_cell_vertices. frame. Qed.

#[local] Hint Resolve keeps_tria_read_tecplot_points
  keeps_tria_set_cell_vertices : frame.

Lemma keeps_tria_tecplot_structured_cells I J cells :
  keeps_tria (tecplot_structured_cells I J cells).
Proof. unfold tecplot_structured_cells. frame. Qed.

Lemma keeps_tria_tecplot_boundary_vertices I J :
  keeps_tria (tecplot_boundary_vertices I J).
Proof. unfold tecplot_boundary_vertices. frame. Qed.

Lemma keeps_tria_read_tecplot_cell i cells :
  keeps_tria (read_tecplot_cell i cells).
Proof. unfold read_tecplot_cell. frame. Qed.

#[local] Hint Resolve keeps_tria_tecplot_structured_cells
  keeps_tria_tecplot_boundary_vertices keeps_tria_read_tecplot_cell : frame.

Lemma keeps_tria_read_tecplot_mesh : keeps_tria read_tecplot_mesh.
Proof. unfold read_tecplot_mesh. frame. Qed.

(** The header of a structured zone in two dimensions gives [I] and [J],
    neither of them 0. *)
Lemma parse_tecplot_header_structured (header : string) (h : tecplot_header)
    (w w' : world) :
  parse_tecplot_header 2 header w = (Ok h, w') -> structured h = true ->
  exists I J, IJK h !! 0%nat = Some I /\ IJK h !! 1%nat = Some J
              /\ 0 < I /\ 0 < J.
Proof.
  unfold parse_tecplot_header. intros Hparse Hstructured.
  apply bind_Ok_inv in Hparse as (header' & w1 & _ & Hparse).
  apply bind_Ok_inv in Hparse as (h0 & w2 & _ & Hparse).
  destruct (structured h0).
  - apply bind_Ok_inv in Hparse as (counts & w3 & Hcounts & Hret).
    apply ret_Ok_inv in Hret as [-> _]. simpl.
    unfold structured_counts in Hcounts. simpl in Hcounts.
    apply bind_Ok_inv in Hcounts as (c1 & w4 & H0 & Hcounts).
    apply bind_Ok_inv in Hcounts as (c2 & w5 & H1 & _).
    change (Z.to_nat 0) with 0%nat in H0.
    change (Z.to_nat (0 + 1)) with 1%nat in H1.
    destruct (IJK h0 !! 0%nat) as [I|]; [|inversion H0].
    destruct (IJK h0 !! 1%nat) as [J|]; [|inversion H1].
    apply bind_Ok_inv in H0 as (? & ? & H0 & _).
    apply bind_Ok_inv in H1 as (? & ? & H1 & _).
    apply AssertThrow_Ok_inv in H0 as [H0 _].
    apply AssertThrow_Ok_inv in H1 as [H1 _].
    exists I, J. repeat split; lia.
  - apply bind_Ok_inv in Hparse as (? & ? & _ & Hparse).
    apply bind_Ok_inv in Hparse as (? & ? & _ & Hparse).
    apply ret_Ok_inv in Hparse as [-> _]. discriminate Hstructured.
Qed.

Lemma default_cells_past_0 (n : nat) :
  Forall refers_past_0 (repeat (CellData_default 2) n).
Proof.
  apply Forall_forall. intros c Hc. apply list_elem_of_In, repeat_spec in Hc.
  subst c. unfold refers_past_0. simpl. repeat constructor; discriminate.
Qed.

(** The mesh of a structured zone before the clean-up. *)
Lemma read_tecplot_mesh_structured (w w1 : world) (h : tecplot_header)
    (vs : list Point) (cells : list CellData) (bv : list Z) :
  read_tecplot_mesh w = (Ok (h, vs, cells, bv), w1) ->
  structured h = true ->
  fold_right Z.mul 1 (IJK h) < 2 ^ 32 - 1 ->
  Forall refers_past_0 cells /\ bv <> [] /\ Forall (fun v => 1 <= v) bv.
Proof.
  unfold read_tecplot_mesh. intros Hmesh Hstructured Hfits.
  apply bind_Ok_inv in Hmesh as (? & ? & _ & Hmesh).
  apply bind_Ok_inv in Hmesh as (? & ? & _ & Hmesh).
  apply bind_Ok_inv in Hmesh as ([line header] & ? & _ & Hmesh).
  apply bind_Ok_inv in Hmesh as (h0 & ? & Hheader & Hmesh).
  apply bind_Ok_inv in Hmesh as (vs0 & ? & _ & Hmesh).
  apply bind_Ok_inv in Hmesh as (vs1 & ? & _ & Hmesh).
  destruct (structured h0) eqn:Hs0.
  - destruct (parse_tecplot_header_structured _ _ _ _ Hheader Hs0)
      as (I & J & HI & HJ & HI0 & HJ0).
    destruct (IJK h0) as [|i_max [|j_max [|? ?]]] eqn:Hijk;
      try discriminate Hmesh.
    simpl in HI, HJ. injection HI as ->. injection HJ as ->.
    apply bind_Ok_inv in Hmesh as ([cells' k] & ? & Hcells & Hmesh).
    apply bind_Ok_inv in Hmesh as (? & ? & _ & Hmesh).
    apply bind_Ok_inv in Hmesh as ([b kb] & ? & Hboundary & Hmesh).
    apply bind_Ok_inv in Hmesh as (? & ? & _ & Hmesh).
    apply ret_Ok_inv in Hmesh as [Heq _]. injection Heq as -> -> -> ->.
    rewrite Hijk in Hfits. simpl in Hfits. rewrite Z.mul_1_r in Hfits.
    simpl. split.
    + eapply tecplot_structured_cells_past_0; [| | | |exact Hcells]; try lia.
      apply default_cells_past_0.
    + eapply tecplot_boundary_vertices_past_0; [| | |exact Hboundary]; lia.
  - apply bind_Ok_inv in Hmesh as (? & ? & _ & Hmesh).
    apply ret_Ok_inv in Hmesh as [Heq _]. injection Heq as -> -> -> ->.
    congruence.
Qed.

Lemma refers_past_0_references (cells : list CellData) (v : Z) :
  Forall refers_past_0 cells ->
  v ∈ vertex_references cells SubCellData_empty -> v <> 0.
Proof.
  intros Hcells. unfold vertex_references. simpl. rewrite app_nil_r.
  intros Hv. apply list_elem_of_In, in_concat in Hv as [vs [Hvs Hv]].
  apply in_map_iff in Hvs as [c [<- Hc]].
  rewrite Forall_forall in Hcells.
  specialize (Hcells c (proj2 (list_elem_of_In _ _) Hc)).
  unfold refers_past_0 in Hcells. rewrite Forall_forall in Hcells.
  apply Hcells, list_elem_of_In. exact Hv.
Qed.

(** *** The vertex in front of those of the file stays where it is *)

(** The vertices after a step of the reader: as many as before, the first
    of them the same. *)
Definition keeps_vertex_0 (vs vs' : list Point) : Prop :=
  vs' !! 0%nat = vs !! 0%nat /\ length vs' = length vs.

Lemma keeps_vertex_0_refl (vs : list Point) : keeps_vertex_0 vs vs.
Proof. split; reflexivity. Qed.

Lemma keeps_vertex_0_trans (vs1 vs2 vs3 : list Point) :
  keeps_vertex_0 vs1 vs2 -> keeps_vertex_0 vs2 vs3 -> keeps_vertex_0 vs1 vs3.
Proof. intros [H1 H2] [H3 H4]. split; congruence. Qed.

Lemma set_coordinate_keeps_0 (j d : Z) (x : double) (vs vs' : list Point)
    (w w' : world) :
  1 <= j -> set_coordinate j d x vs w = (Ok vs', w') ->
  keeps_vertex_0 vs vs' /\ j < Z.of_nat (length vs).
Proof.
  intros Hj. unfold set_coordinate.
  destruct (vs !! Z.to_nat j) as [p|]; [|discriminate].
  intros Hset. apply bind_Ok_inv in Hset as (p' & w1 & _ & Hset).
  apply vector_set_Ok_inv in Hset as (Hrange & -> & _).
  split; [|lia]. split.
  - apply list_lookup_insert_ne. lia.
  - apply length_insert.
Qed.

Lemma read_coordinate_keeps_0 (d j : Z) (vs vs' : list Point) (w w' : world) :
  1 <= j -> read_coordinate d j vs w = (Ok vs', w') -> keeps_vertex_0 vs vs'.
Proof.
  intros Hj. unfold read_coordinate.
  destruct (vs !! Z.to_nat j) as [p|]; [|discriminate].
  destruct (p !! Z.to_nat d) as [old|]; [|discriminate].
  intros Hread. apply bind_Ok_inv in Hread as (x & w1 & _ & Hset).
  exact (proj1 (set_coordinate_keeps_0 _ _ _ _ _ _ _ Hj Hset)).
Qed.

Lemma read_coordinates_keeps_0 (d first n : Z) (vs vs' : list Point)
    (w w' : world) :
  1 <= first -> read_coordinates d first n vs w = (Ok vs', w') ->
  keeps_vertex_0 vs vs'.
Proof.
  intros Hfirst. unfold read_coordinates. intros Hloop.
  apply (for_loop_indexed (fun _ s => keeps_vertex_0 vs s)) in Hloop;
    [exact Hloop | apply keeps_vertex_0_refl |].
  intros k s1 s2 w1 w2 _ Hs1 Hbody.
  apply (keeps_vertex_0_trans _ _ _ Hs1).
  eapply read_coordinate_keeps_0; [|exact Hbody]. lia.
Qed.

Lemma read_tecplot_first_variable_keeps_0 (h : tecplot_header) (line : string)
    (vs vs' : list Point) (next : Z) (w w' : world) :
  Z.of_nat (length vs) < 2 ^ 32 ->
  read_tecplot_first_variable h line vs w = (Ok (vs', next), w') ->
  keeps_vertex_0 vs vs'.
Proof.
  intros Hlen. unfold read_tecplot_first_variable.
  destruct (tecplot2deal h !! 0%nat) as [t|]; [|discriminate].
  destruct (t =? 0).
  - set (first_var := break_text_into_lines line 1 " ").
    intros Hread.
    apply bind_Ok_inv in Hread as (vs1 & w1 & Hwords & Hread).
    apply bind_Ok_inv in Hread as (vs2 & w2 & Hrest & Hread).
    apply ret_Ok_inv in Hread as [Heq _]. injection Heq as -> ->.
    apply (for_loop_indexed
             (fun k s => keeps_vertex_0 vs s
                         /\ (k = 0%nat \/ Z.of_nat k < Z.of_nat (length vs))))
      in Hwords.
    + destruct Hwords as [Hvs1 Hfits].
      apply (keeps_vertex_0_trans _ _ _ Hvs1).
      eapply read_coordinates_keeps_0; [|exact Hrest].
      unfold u32. rewrite Z.mod_small; lia.
    + split; [apply keeps_vertex_0_refl | left; reflexivity].
    + intros k s1 s2 w3 w4 _ [Hs1 _] Hbody.
      destruct (first_var !! Z.to_nat (1 + Z.of_nat k - 1)); [|discriminate].
      assert (1 <= 1 + Z.of_nat k) as Hj by lia.
      destruct (set_coordinate_keeps_0 _ _ _ _ _ _ _ Hj Hbody)
        as [Hstep Hrange].
      split; [exact (keeps_vertex_0_trans _ _ _ Hs1 Hstep)|].
      destruct Hs1 as [_ Hl]. right. lia.
  - intros Hread. apply ret_Ok_inv in Hread as [Heq _].
    injection Heq as -> ->. apply keeps_vertex_0_refl.
Qed.

Lemma read_tecplot_variable_keeps_0 (dim : Z) (h : tecplot_header) (i : Z)
    (vs vs' : list Point) (next next' : Z) (w w' : world) :
  read_tecplot_variable dim h i (Some (vs, next)) w = (Ok (Some (vs', next')), w') ->
  keeps_vertex_0 vs vs'.
Proof.
  unfold read_tecplot_variable.
  destruct ((next =? dim) && structured h); [discriminate|].
  intros Hread. apply bind_Ok_inv in Hread as (wanted & w1 & _ & Hread).
  destruct wanted.
  - apply bind_Ok_inv in Hread as (vs1 & w2 & Hcoordinates & Hread).
    apply ret_Ok_inv in Hread as [Heq _]. injection Heq as -> ->.
    eapply read_coordinates_keeps_0; [|exact Hcoordinates]. lia.
  - apply bind_Ok_inv in Hread as (? & w2 & _ & Hread).
    apply ret_Ok_inv in Hread as [Heq _]. injection Heq as -> ->.
    apply keeps_vertex_0_refl.
Qed.

Lemma read_tecplot_variables_keeps_0 (n : nat) (dim : Z) (h : tecplot_header) :
  forall (i : Z) (vs vs' : list Point) (next next' : Z) (w w' : world),
  read_tecplot_variables n dim h i vs next w = (Ok (vs', next'), w') ->
  keeps_vertex_0 vs vs'.
Proof.
  induction n as [|n IH]; intros i vs vs' next next' w w' Hread; simpl in Hread.
  - apply ret_Ok_inv in Hread as [Heq _]. injection Heq as -> ->.
    apply keeps_vertex_0_refl.
  - apply bind_Ok_inv in Hread as (st & w1 & Hone & Hread).
    destruct st as [[vs1 next1]|].
    + apply read_tecplot_variable_keeps_0 in Hone.
      apply (keeps_vertex_0_trans _ _ _ Hone). eapply IH. exact Hread.
    + apply ret_Ok_inv in Hread as [Heq _]. injection Heq as -> ->.
      apply keeps_vertex_0_refl.
Qed.

Lemma read_tecplot_blocked_keeps_0 (dim : Z) (h : tecplot_header)
    (line : string) (vs vs' : list Point) (w w' : world) :
  Z.of_nat (length vs) < 2 ^ 32 ->
  read_tecplot_blocked dim h line vs w = (Ok vs', w') -> keeps_vertex_0 vs vs'.
Proof.
  intros Hlen. unfold read_tecplot_blocked. intros Hread.
  apply bind_Ok_inv in Hread as ([vs1 next1] & w1 & Hfirst & Hread).
  apply bind_Ok_inv in Hread as ([vs2 next2] & w2 & Hrest & Hread).
  apply bind_Ok_inv in Hread as (? & w3 & _ & Hread).
  apply ret_Ok_inv in Hread as [-> _]. simpl in *.
  apply read_tecplot_first_variable_keeps_0 in Hfirst; [|exact Hlen].
  apply read_tecplot_variables_keeps_0 in Hrest.
  exact (keeps_vertex_0_trans _ _ _ Hfirst Hrest).
Qed.

Lemma set_point_keeps_0 (dim v : Z) (xs : list double) (vs vs' : list Point)
    (w w' : world) :
  1 <= v -> set_point dim v xs vs w = (Ok vs', w') -> keeps_vertex_0 vs vs'.
Proof.
  intros Hv. unfold set_point. intros Hloop.
  apply (for_loop_indexed (fun _ s => keeps_vertex_0 vs s)) in Hloop;
    [exact Hloop | apply keeps_vertex_0_refl |].
  intros k s1 s2 w1 w2 _ Hs1 Hbody.
  destruct (xs !! Z.to_nat (0 + Z.of_nat k)); [|discriminate].
  apply (keeps_vertex_0_trans _ _ _ Hs1).
  exact (proj1 (set_coordinate_keeps_0 _ _ _ _ _ _ _ Hv Hbody)).
Qed.

Lemma read_tecplot_points_keeps_0 (dim : Z) (h : tecplot_header)
    (line : string) (vs vs' : list Point) (w w' : world) :
  read_tecplot_points dim h line vs w = (Ok vs', w') -> keeps_vertex_0 vs vs'.
Proof.
  unfold read_tecplot_points. intros Hread.
  apply bind_Ok_inv in Hread as (xs & w1 & _ & Hread).
  apply bind_Ok_inv in Hread as (vs1 & w2 & Hfirst & Hread).
  apply bind_Ok_inv in Hread as ([vars vs2] & w3 & Hloop & Hread).
  apply ret_Ok_inv in Hread as [-> _]. simpl.
  apply set_point_keeps_0 in Hfirst; [|lia].
  apply (keeps_vertex_0_trans _ _ _ Hfirst).
  apply (for_loop_indexed (fun _ s => keeps_vertex_0 vs1 (snd s))) in Hloop;
    [exact Hloop | apply keeps_vertex_0_refl |].
  intros k s1 s2 w4 w5 _ Hs1 Hbody. unfold read_tecplot_point in Hbody.
  apply bind_Ok_inv in Hbody as (vars' & w6 & _ & Hbody).
  apply bind_Ok_inv in Hbody as (xs' & w7 & _ & Hbody).
  apply bind_Ok_inv in Hbody as (vs3 & w8 & Hset & Hbody).
  apply ret_Ok_inv in Hbody as [-> _]. simpl.
  apply (keeps_vertex_0_trans _ _ _ Hs1).
  eapply set_point_keeps_0; [|exact Hset]. lia.
Qed.

(** The first of the vertices that the reader holds before the clean-up is
    the origin. *)
Lemma read_tecplot_mesh_vertex_0 (w w1 : world) (h : tecplot_header)
    (vs : list Point) (cells : list CellData) (bv : list Z) :
  read_tecplot_mesh w = (Ok (h, vs, cells, bv), w1) ->
  vs !! 0%nat = Some (Point_origin 2).
Proof.
  unfold read_tecplot_mesh. intros Hmesh.
  apply bind_Ok_inv in Hmesh as (? & ? & _ & Hmesh).
  apply bind_Ok_inv in Hmesh as (? & ? & _ & Hmesh).
  apply bind_Ok_inv in Hmesh as ([line header] & ? & _ & Hmesh).
  apply bind_Ok_inv in Hmesh as (h0 & ? & Hheader & Hmesh).
  apply bind_Ok_inv in Hmesh as (vs0 & ? & Hset & Hmesh).
  apply bind_Ok_inv in Hmesh as (vs1 & ? & Hvertices & Hmesh).
  apply vector_set_Ok_inv in Hset as (Hrange & -> & ->).
  rewrite repeat_length in Hrange.
  assert (keeps_vertex_0
            (<[Z.to_nat 0 := Point_origin 2]>
               (repeat (Point_origin 2) (Z.to_nat (u32 (n_vertices h0 + 1)))))
            vs1) as [Hfirst _].
  { destruct (blocked h0).
    - eapply read_tecplot_blocked_keeps_0; [|exact Hvertices].
      rewrite length_insert, repeat_length. unfold u32 in *.
      pose proof (Z.mod_pos_bound (n_vertices h0 + 1) (2 ^ 32) ltac:(lia)). lia.
    - eapply read_tecplot_points_keeps_0. exact Hvertices. }
  rewrite list_lookup_insert_eq in Hfirst by (rewrite repeat_length; lia).
  destruct (structured h0).
  - destruct (IJK h0) as [|i_max [|j_max [|? ?]]]; try discriminate Hmesh.
    apply bind_Ok_inv in Hmesh as (? & ? & _ & Hmesh).
    apply bind_Ok_inv in Hmesh as (? & ? & _ & Hmesh).
    apply bind_Ok_inv in Hmesh as (? & ? & _ & Hmesh).
    apply bind_Ok_inv in Hmesh as (? & ? & _ & Hmesh).
    apply ret_Ok_inv in Hmesh as [Heq _]. injection Heq as _ -> _ _.
    exact Hfirst.
  - apply bind_Ok_inv in Hmesh as (? & ? & _ & Hmesh).
    apply ret_Ok_inv in Hmesh as [Heq _]. injection Heq as _ -> _ _.
    exact Hfirst.
Qed.

Lemma call_Ok_inv {A} (r : result A) (a : A) (w w' : world) :
  call r w = (Ok a, w') -> r = Ok a /\ w' = w.
Proof. unfold call. intros Hc. inversion Hc. auto. Qed.

(** C10, amended. The vertex that the reader puts in front of the vertices
    of the file is not handed to the triangulation when no cell refers to
    it: no cell of a structured zone does, and a cell of an unstructured
    zone does when the file gives it the vertex number 0.  The vertices
    handed on are then the vertices at increasing positions behind the
    first, so they are fewer than the reader held; for an unstructured
    zone they are exactly the vertices that a cell refers to. *)
Theorem read_tecplot_vertex_0 (w w1 w' : world) (h : tecplot_header)
    (vs : list Point) (cells : list CellData) (bv : list Z) :
  (forall d v c s,
      delete_unused_vertices d v c s = delete_unused_vertices_spec v c s) ->
  (forall d v c s b t,
      delete_duplicated_vertices d v c s b t
      = delete_duplicated_vertices_spec v c s b t) ->
  read_tecplot_mesh w = (Ok (h, vs, cells, bv), w1) ->
  read_tecplot w = (Ok tt, w') ->
  (if structured h then fold_right Z.mul 1 (IJK h) < 2 ^ 32 - 1
   else Forall refers_past_0 cells) ->
  vs !! 0%nat = Some (Point_origin 2)
  /\ Forall refers_past_0 cells
  /\ exists (kept : list nat) vs' cells' sub',
      tria w' = tria w ++ [called_create_triangulation_compatibility vs' cells' sub']
      /\ vs' = omap (fun i => vs !! i) kept
      /\ StronglySorted lt kept
      /\ Forall (fun i => (1 <= i < length vs)%nat) kept
      /\ (length vs' < length vs)%nat
      /\ (structured h = false ->
          forall i, i ∈ kept
                    <-> Z.of_nat i ∈ vertex_references cells SubCellData_empty).
Proof.
  intros Hunused Hduplicated Hmesh Hread Hcase.
  pose proof (read_tecplot_mesh_vertex_0 _ _ _ _ _ _ Hmesh) as Hfirst.
  split; [exact Hfirst|].
  assert (Hn : (0 < length vs)%nat).
  { apply lookup_lt_Some in Hfirst. exact Hfirst. }
  pose proof (keeps_tria_Ok _ _ _ _ keeps_tria_read_tecplot_mesh Hmesh) as Htria.
  unfold read_tecplot in Hread. rewrite (bind_Ok _ _ _ _ _ Hmesh) in Hread.
  cbv zeta in Hread. cbn iota beta in Hread.
  apply bind_Ok_inv in Hread as ([[vs' cells'] sub'] & w2 & Hclean & Hread).
  assert ((if structured h
           then delete_duplicated_vertices 2 vs cells SubCellData_empty bv None
           else delete_unused_vertices 2 vs cells SubCellData_empty)
          = Ok (vs', cells', sub') /\ w2 = w1) as [Hclean' ->].
  { destruct (structured h); apply call_Ok_inv in Hclean; exact Hclean. }
  clear Hclean. rename Hclean' into Hclean.
  apply bind_Ok_inv in Hread as (? & w3 & Hassert & Hread).
  apply Assert_Ok_inv in Hassert as [-> _].
  apply bind_Ok_inv in Hread as (? & w4 & Hin & Hread).
  apply AssertThrow_in_Ok_inv in Hin as [_ ->].
  apply bind_Ok_inv in Hread as (cells1 & w5 & Hinvert & Hread).
  apply call_Ok_inv in Hinvert as [_ ->].
  apply bind_Ok_inv in Hread as (cells2 & w6 & Hreorder & Hread).
  apply call_Ok_inv in Hreorder as [_ ->].
  unfold create_triangulation_compatibility in Hread.
  destruct (tria_refuses 2 vs' cells2 sub'); [discriminate Hread|].
  injection Hread as <-. cbn [tria]. rewrite Htria.
  destruct (structured h) eqn:Hstructured.
  - destruct (read_tecplot_mesh_structured _ _ _ _ _ _ Hmesh Hstructured Hcase)
      as (Hcells & Hne & Hbv).
    split; [exact Hcells|].
    rewrite Hduplicated in Hclean.
    apply delete_duplicated_vertices_spec_past_0 in Hclean
      as (kept & Hvs' & Hsorted & Hrange & Hlen);
      [| exact Hne | exact Hbv
       | intros v; apply refers_past_0_references; exact Hcells].
    exists kept, vs', cells2, sub'.
    repeat (split; [first [reflexivity | assumption | exact (Hlen Hn)]|]).
    intros Hd; discriminate Hd.
  - split; [exact Hcase|].
    rewrite Hunused in Hclean.
    apply delete_unused_vertices_spec_past_0 in Hclean
      as (kept & Hvs' & Hsorted & Hrange & Hlen & Hkept);
      [| intros v; apply refers_past_0_references; exact Hcase].
    exists kept, vs', cells2, sub'.
    repeat (split; [first [reflexivity | assumption | exact (Hlen Hn)]|]).
    intros _. exact Hkept.
Qed.

End Tecplot_properties.

(** C10, as stated, fails for an unstructured zone whose connectivity
    names the vertex 0: the file [tecplot_cell_at_vertex_0] has three
    vertices, and the triangulation is handed four, the first of them the
    vertex that the reader put in front. *)
Lemma read_tecplot_hands_on_vertex_0 :
  (let r := @read_tecplot release_platform release (reading tecplot_cell_at_vertex_0) in
   (fst r, tria (snd r)))
  = (Ok tt,
     [@called_create_triangulation_compatibility release_platform
        [[0; 0]; [1; 0]; [1; 1]; [0; 1]]%Q
        [mkCellData [0; 1; 2; 3] 0 (2 ^ 32 - 1)]
        SubCellData_empty]).
Proof. reflexivity. Qed.

Lemma read_tecplot_vertex_0_witness :
  ([[0; 0]; [0; 0]; [1; 0]; [0; 1]; [1; 1]]%Q : list (@Point release_platform))
    !! 0%nat = Some (@Point_origin release_platform 2)
  /\ Forall refers_past_0
       [mkCellData [1; 2; 4; 3] 0 (2 ^ 32 - 1)]
  /\ exists (kept : list nat) vs' cells' sub',
      tria (snd (@read_tecplot release_platform release (reading tecplot_structured)))
      = tria (reading tecplot_structured)
        ++ [called_create_triangulation_compatibility vs' cells' sub']
      /\ vs' = omap (fun i => ([[0; 0]; [0; 0]; [1; 0]; [0; 1]; [1; 1]]%Q
                               : list (@Point release_platform)) !! i) kept
      /\ StronglySorted lt kept
      /\ Forall (fun i => (1 <= i < 5)%nat) kept
      /\ (length vs' < 5)%nat
      /\ (true = false ->
          forall i, i ∈ kept
                    <-> Z.of_nat i
                        ∈ vertex_references
                            [mkCellData [1; 2; 4; 3] 0 (2 ^ 32 - 1)]
                            SubCellData_empty).
Proof.
  apply (read_tecplot_vertex_0 (CO := release) (reading tecplot_structured)
           (snd (@read_tecplot_mesh release_platform release (reading tecplot_structured)))
           (snd (@read_tecplot release_platform release (reading tecplot_structured)))
           (TecplotHeader [0; 1] 2 4 1 [2; 2] true false)
           ([[0; 0]; [0; 0]; [1; 0]; [0; 1]; [1; 1]]%Q
            : list (@Point release_platform))
           [mkCellData [1; 2; 4; 3] 0 (2 ^ 32 - 1)] [1; 3; 2; 4]).
  - intros. reflexivity.
  - intros. reflexivity.
  - reflexivity.
  - reflexivity.
  - simpl. lia.
Defined.

(** ** C8: merging duplicated vertices until nothing changes *)

Section Merge.
Context {PF : Platform}.















End Merge.

Section Assimp_properties.
Context {PF : Platform} {CO : Collaborators}.
Variable dim : Z.
Hypothesis duplicates_as_specified : forall d v c s b t,
  delete_duplicated_vertices d v c s b t
  = delete_duplicated_vertices_spec v c s b t.




End Assimp_properties.

(** The loop on [doubled_vertices]: four vertices are left, and both cells
    are on them. *)
Lemma merge_until_stable_doubled_vertices :
  @merge_until_stable release_platform release 2 8 (1 # 1000)%Q 0
    (doubled_vertices, doubled_cells, SubCellData_empty)
  = Ok ([[0; 0]; [1; 0]; [1; 1]; [0; 1]]%Q,
        [mkCellData [0; 1; 2; 3] 0 (2 ^ 32 - 1);
         mkCellData [0; 1; 2; 3] 1 (2 ^ 32 - 1)],
        SubCellData_empty).
Proof. reflexivity. Qed.


(** ** The formats *)

Section Format_properties.
Context {PF : Platform}.
Variable ExcInvalidState : exc.

(** The suffix of a format, without its dot, is a name that [parse_format]
    accepts, and it names the format again; only [abaqus], which shares its
    suffix with [ucd], is read back as [ucd]. *)
Theorem default_suffix_parse_format (format : Format) :
  format <> Default -> format <> assimp ->
  exists ext,
    default_suffix format = Ok (String "." ext)
    /\ parse_format ExcInvalidState ext
       = Ok (match format with abaqus => ucd | _ => format end).
Proof.
  intros HD Ha.
  destruct format; try congruence; eexists; (split; [reflexivity|reflexivity]).
Qed.


(** Of the names that [get_format_names] lists, [parse_format] refuses
    two, abaqus and assimp, and accepts the others. *)
Theorem parse_format_of_listed_name (name : string) :
  In name (split_at "|" get_format_names) ->
  (parse_format ExcInvalidState name = Throw ExcInvalidState
   <-> name = "abaqus" \/ name = "assimp")
  /\ (name <> "abaqus" -> name <> "assimp" ->
      exists format, parse_format ExcInvalidState name = Ok format).
Proof.
  intros Hin. simpl in Hin.
  repeat (destruct Hin as [<- | Hin];
          [ split;
            [ split; [ intros Hp; first [discriminate Hp | auto]
                     | intros [Hn | Hn]; first [discriminate Hn | reflexivity] ]
            | intros H1 H2; first [congruence | eexists; reflexivity] ] |]).
  destruct Hin.
Qed.


End Format_properties.

Lemma default_suffix_parse_format_witness :
  exists ext,
    @default_suffix release_platform tecplot = Ok (String "." ext)
    /\ parse_format (ExcMessage "invalid state") ext = Ok tecplot.
Proof.
  apply (default_suffix_parse_format (PF := release_platform)
           (ExcMessage "invalid state") tecplot); discriminate.
Defined.

Lemma parse_format_of_listed_name_witness :
  (parse_format (ExcMessage "invalid state") "abaqus"
   = Throw (ExcMessage "invalid state")
   <-> "abaqus" = "abaqus" \/ "abaqus" = "assimp")
  /\ ("abaqus" <> "abaqus" -> "abaqus" <> "assimp" ->
      exists format, parse_format (ExcMessage "invalid state") "abaqus" = Ok format).
Proof.
  apply (parse_format_of_listed_name (ExcMessage "invalid state") "abaqus").
  simpl. tauto.
Defined.

Section File_names.
Context {PF : Platform}.
Variable ExcInvalidState : exc.

Lemma find_last_of_from_append (c : ascii) (a b : string) :
  forall pos found,
    find_last_of_from c (a +:+ b) pos found
    = find_last_of_from c b (pos + string_size a) (find_last_of_from c a pos found).
Proof.
  unfold string_size.
  induction a as [|x a IH]; intros pos found; rewrite ?append_nil, ?append_cons.
  - simpl. f_equal. lia.
  - cbn [find_last_of_from String.length]. rewrite IH. f_equal. lia.
Qed.

Lemma find_last_of_from_without (c : ascii) (s : string) :
  without c s = true -> forall pos found, find_last_of_from c s pos found = found.
Proof.
  unfold without. induction s as [|x s IH]; intros Hl pos found; [reflexivity|].
  simpl in Hl. apply andb_prop in Hl as [Hx Hl].
  cbn [find_last_of_from]. apply negb_true_iff in Hx. rewrite Hx. apply IH, Hl.
Qed.

Lemma find_last_of_from_range (c : ascii) (s : string) :
  forall pos found,
    find_last_of_from c s pos found = found
    \/ pos <= find_last_of_from c s pos found < pos + string_size s.
Proof.
  unfold string_size.
  induction s as [|x s IH]; intros pos found; [left; reflexivity|].
  cbn [find_last_of_from String.length].
  destruct (IH (pos + 1) (if Ascii.eqb x c then pos else found)) as [-> | Hr].
  - destruct (Ascii.eqb x c); [right; lia | left; reflexivity].
  - right. lia.
Qed.

(** [find_last_of] gives the position of a character after which the
    character does not occur again. *)
Lemma find_last_of_last (c : ascii) (a b : string) :
  without c b = true -> find_last_of (a +:+ String c b) c = string_size a.
Proof.
  intros Hl. unfold find_last_of. rewrite find_last_of_from_append.
  cbn [find_last_of_from]. rewrite Ascii.eqb_refl.
  rewrite find_last_of_from_without by exact Hl. lia.
Qed.

Lemma find_last_of_before (c : ascii) (a b : string) :
  without c b = true ->
  find_last_of (a +:+ b) c = npos \/ 0 <= find_last_of (a +:+ b) c < string_size a.
Proof.
  intros Hl. unfold find_last_of. rewrite find_last_of_from_append.
  rewrite find_last_of_from_without by exact Hl.
  destruct (find_last_of_from_range c a 0 npos) as [-> | Hr]; [left; reflexivity|].
  right. lia.
Qed.

Lemma string_substr_suffix (a b : string) :
  string_size b <= npos ->
  string_substr (a +:+ b) (string_size a) npos = Some b.
Proof.
  intros Hb. unfold string_substr, string_size in *. rewrite length_append.
  destruct (Z.ltb_spec (Z.of_nat (String.length a + String.length b))
              (Z.of_nat (String.length a))); [lia|].
  f_equal. rewrite Nat2Z.id.
  replace (Z.to_nat _) with (String.length b).
  - apply substring_suffix.
  - lia.
Qed.

(** The file name decides the format by the text after its last dot, when
    no slash follows that dot: a name that ends in a dot and an extension
    free of dots and slashes is read in the format that [parse_format]
    gives the extension. *)
Theorem format_of_file_name_extension (stem ext : string) :
  without "." ext = true -> without "/" ext = true ->
  string_size (stem +:+ "." +:+ ext) < npos ->
  format_of_file_name ExcInvalidState (stem +:+ "." +:+ ext)
  = parse_format ExcInvalidState ext.
Proof.
  intros Hdot Hslash Hsize. unfold format_of_file_name.
  change (stem +:+ "." +:+ ext) with (stem +:+ String "." ext) in *.
  rewrite (find_last_of_last "." stem ext Hdot).
  assert (Hlen : string_size (stem +:+ String "." ext)
                 = string_size stem + 1 + string_size ext).
  { unfold string_size. rewrite length_append. cbn [String.length]. lia. }
  assert (Hs : without "/" (String "." ext) = true) by exact Hslash.
  pose proof (find_last_of_before "/" stem (String "." ext) Hs) as Hb.
  assert (0 <= string_size ext) by (unfold string_size; lia).
  assert (0 <= string_size stem) by (unfold string_size; lia).
  replace (string_size stem <? string_size (stem +:+ String "." ext)) with true
    by (symmetry; apply Z.ltb_lt; lia).
  replace ((find_last_of (stem +:+ String "." ext) "/" <? string_size stem)
           || (find_last_of (stem +:+ String "." ext) "/" =? npos)) with true.
  2:{ symmetry. apply orb_true_iff. destruct Hb as [-> | Hb];
        [right; reflexivity | left; apply Z.ltb_lt; lia]. }
  cbn [andb].
  replace (size_t (string_size stem + 1)) with (string_size (stem +:+ "."))
    by (unfold size_t, string_size in *; rewrite length_append; cbn [String.length];
        rewrite Z.mod_small; unfold npos in *; lia).
  replace (stem +:+ String "." ext) with ((stem +:+ ".") +:+ ext)
    by (rewrite append_assoc; reflexivity).
  rewrite string_substr_suffix by lia. reflexivity.
Qed.

(** A dot in the name of a directory is no extension: when the last
    component of the name, after a slash, holds no dot, the format is left
    to the default. *)
Theorem format_of_file_name_directory_dot (dir base : string) :
  without "." base = true -> without "/" base = true ->
  string_size (dir +:+ "/" +:+ base) < npos ->
  format_of_file_name ExcInvalidState (dir +:+ "/" +:+ base) = Ok Default.
Proof.
  intros Hdot Hslash Hsize. unfold format_of_file_name.
  change (dir +:+ "/" +:+ base) with (dir +:+ String "/" base) in *.
  rewrite (find_last_of_last "/" dir base Hslash).
  assert (Hd : without "." (String "/" base) = true) by exact Hdot.
  destruct (find_last_of_before "." dir (String "/" base) Hd) as [-> | Hb].
  - replace (npos <? _) with false; [reflexivity|].
    symmetry. apply Z.ltb_ge. lia.
  - assert (0 <= string_size dir) by (unfold string_size; lia).
    replace (string_size dir <? _) with false by (symmetry; apply Z.ltb_ge; lia).
    replace (string_size dir =? npos) with false.
    + cbn [orb]. rewrite andb_false_r. reflexivity.
    + symmetry. apply Z.eqb_neq. intros Heq.
      unfold string_size in Hsize. rewrite length_append in Hsize.
      unfold string_size in Heq. lia.
Qed.

End File_names.

Lemma format_of_file_name_extension_witness :
  @format_of_file_name (ExcMessage "invalid state") ("grids/mesh.v2" +:+ "." +:+ "msh")
  = @parse_format (ExcMessage "invalid state") "msh".
Proof.
  apply format_of_file_name_extension; reflexivity.
Defined.

Lemma format_of_file_name_directory_dot_witness :
  @format_of_file_name (ExcMessage "invalid state") ("grids.v2" +:+ "/" +:+ "mesh")
  = Ok Default.
Proof.
  apply format_of_file_name_directory_dot; reflexivity.
Defined.

(** The text of lines, each ended by a newline. *)
Fixpoint lines_text (lines : list string) : string :=
  match lines with
  | [] => ""
  | l :: lines' => l +:+ String newline (lines_text lines')
  end.

Section Skipping.
Context {PF : Platform} {CO : Collaborators}.

Lemma blank_without_newline (l : string) :
  has_non_blank l = false -> without newline l = true.
Proof.
  unfold without. induction l as [|c l IH]; intros Hb; [reflexivity|].
  cbn [has_non_blank] in Hb. apply orb_false_iff in Hb as [Hc Hb].
  apply negb_false_iff, Z.eqb_eq in Hc.
  simpl. rewrite (IH Hb), andb_true_r.
  destruct (Ascii.eqb_spec c newline) as [->|]; [discriminate Hc | reflexivity].
Qed.

Lemma upto_newline_end (line : string) :
  without newline line = true -> upto_newline line = (line, None).
Proof.
  unfold without. induction line as [|c line IH]; intros Hw; [reflexivity|].
  simpl in Hw. apply andb_prop in Hw as [Hc Hw].
  cbn [upto_newline]. rewrite (IH Hw).
  destruct (Z.eqb_spec (ascii_code c) 10) as [Heq|]; [|reflexivity].
  exfalso. assert (c = newline) as ->.
  { rewrite <- (ascii_N_embedding c), <- (ascii_N_embedding newline).
    f_equal. unfold ascii_code in Heq. change (N_of_ascii newline) with 10%N. lia. }
  discriminate Hc.
Qed.

Lemma getline_last (old line : string) :
  without newline line = true -> is_empty line = false ->
  getline old (istream_of line) = (line, Istream "" true false).
Proof.
  intros Hnl Hne. unfold getline, istream_of, sentry, good. simpl.
  rewrite (upto_newline_end line Hnl), Hne. reflexivity.
Qed.

Lemma putback_string_reversed_good (line rest : string) :
  putback_string_reversed line (istream_of rest) = istream_of (line +:+ rest).
Proof.
  induction line as [|c line IH]; rewrite ?append_nil, ?append_cons; [reflexivity|].
  cbn [putback_string_reversed]. rewrite IH. reflexivity.
Qed.

Lemma length_lines_text (lines : list string) :
  (length lines <= String.length (lines_text lines))%nat.
Proof.
  induction lines as [|l lines IH]; simpl; [lia|].
  rewrite length_append. cbn [String.length]. lia.
Qed.

Lemma skip_empty_lines_loop_first_line (line rest : string)
    (t : Triangulation) (blanks : list string) :
  Forall (fun l => has_non_blank l = false) blanks ->
  has_non_blank line = true -> without newline line = true ->
  forall passes old,
    (length blanks < passes)%nat ->
    skip_empty_lines_loop passes old
      (World (istream_of (lines_text blanks +:+ line +:+ String newline rest)) t)
    = (Ok tt, World (istream_of (line +:+ String newline rest)) t).
Proof.
  intros Hblanks Hline Hnl.
  induction Hblanks as [|l blanks Hl _ IH]; intros passes old Hp;
    (destruct passes as [|passes]; [simpl in Hp; lia|]);
    cbn [skip_empty_lines_loop lines_text]; rewrite ?append_nil;
    unfold if_in, bind, on_input; cbn [input stream_ok istream_of failbit negb tria].
  - rewrite getline_line by exact Hnl. rewrite Hline.
    cbn [input tria].
    change (putback "010" (istream_of rest)) with (istream_of (String newline rest)).
    rewrite putback_string_reversed_good. reflexivity.
  - rewrite append_assoc, append_cons.
    rewrite getline_line by (apply blank_without_newline; exact Hl).
    rewrite Hl. cbn [input tria]. apply IH. simpl in Hp. lia.
Qed.

(** [skip_empty_lines] drops the lines that hold nothing but blanks and
    leaves the stream, in a good state, in front of the first other line:
    what it puts back is what it has read of that line, its newline
    included.  (The line is one that a newline ends; for a last line
    without one the character put back is not the one read last.) *)
Theorem skip_empty_lines_first_line (blanks : list string) (line rest : string)
    (t : Triangulation) :
  Forall (fun l => has_non_blank l = false) blanks ->
  has_non_blank line = true -> without newline line = true ->
  skip_empty_lines
    (World (istream_of (lines_text blanks +:+ line +:+ String newline rest)) t)
  = (Ok tt, World (istream_of (line +:+ String newline rest)) t).
Proof.
  intros Hblanks Hline Hnl. unfold skip_empty_lines, bounded_by_stream.
  apply skip_empty_lines_loop_first_line; try assumption.
  unfold stream_length. cbn [input istream_of buf].
  rewrite length_append. pose proof (length_lines_text blanks). lia.
Qed.

Lemma skip_empty_lines_loop_blank (t : Triangulation) (blanks : list string) :
  Forall (fun l => has_non_blank l = false) blanks ->
  forall passes old,
    has_non_blank old = false ->
    (S (length blanks) < passes)%nat ->
    skip_empty_lines_loop passes old (World (istream_of (lines_text blanks)) t)
    = (Ok tt, World (Istream "" true true) t).
Proof.
  intros Hblanks.
  induction Hblanks as [|l blanks Hl _ IH]; intros passes old Hold Hp;
    (destruct passes as [|passes]; [simpl in Hp; lia|]);
    cbn [skip_empty_lines_loop lines_text];
    unfold if_in, bind, on_input; cbn [input stream_ok istream_of failbit negb tria].
  - destruct passes as [|passes]; [simpl in Hp; lia|]. reflexivity.
  - rewrite getline_line by (apply blank_without_newline; exact Hl).
    rewrite Hl. cbn [input tria]. apply IH; [exact Hl | simpl in Hp; lia].
Qed.

(** On a stream that holds nothing but blank lines, [skip_empty_lines]
    returns with the stream at its end and failed. *)
Theorem skip_empty_lines_only_blanks (blanks : list string) (t : Triangulation) :
  Forall (fun l => has_non_blank l = false) blanks ->
  skip_empty_lines (World (istream_of (lines_text blanks)) t)
  = (Ok tt, World (Istream "" true true) t).
Proof.
  intros Hblanks. unfold skip_empty_lines, bounded_by_stream.
  apply skip_empty_lines_loop_blank; [exact Hblanks | reflexivity |].
  unfold stream_length. cbn [input istream_of buf].
  pose proof (length_lines_text blanks). lia.
Qed.

End Skipping.

Ltac refold_istream :=
  repeat match goal with
         | |- context [Istream ?b false false] =>
             change (Istream b false false) with (istream_of b)
         end.

Section Comments.
Context {PF : Platform} {CO : Collaborators}.

Lemma ascii_code_newline (c : ascii) :
  (ascii_code c =? 10) = Ascii.eqb c newline.
Proof.
  destruct (Ascii.eqb_spec c newline) as [->|Hne]; [reflexivity|].
  apply Z.eqb_neq. intros Heq. apply Hne.
  rewrite <- (ascii_N_embedding c), <- (ascii_N_embedding newline).
  f_equal. unfold ascii_code in Heq. change (N_of_ascii newline) with 10%N. lia.
Qed.

Lemma ascii_code_eqb (c d : ascii) :
  (ascii_code c =? ascii_code d) = Ascii.eqb c d.
Proof.
  destruct (Ascii.eqb_spec c d) as [->|Hne]; [apply Z.eqb_refl|].
  apply Z.eqb_neq. intros Heq. apply Hne.
  rewrite <- (ascii_N_embedding c), <- (ascii_N_embedding d).
  f_equal. unfold ascii_code in Heq. lia.
Qed.

(** The inner loop of [skip_comment_lines] on a line with its newline, and
    on a text that ends before a newline. *)
Lemma skip_to_newline_line (line rest : string) (t : Triangulation) :
  without newline line = true ->
  forall passes,
    (String.length line < passes)%nat ->
    skip_to_newline passes (World (istream_of (line +:+ String newline rest)) t)
    = (Ok tt, World (istream_of rest) t).
Proof.
  unfold without.
  induction line as [|c line IH]; intros Hw passes Hp;
    (destruct passes as [|passes]; [simpl in Hp; lia|]);
    rewrite ?append_nil, ?append_cons.
  - reflexivity.
  - simpl in Hw. apply andb_prop in Hw as [Hc Hw].
    cbn [skip_to_newline]. unfold bind, on_input, get, sentry, good.
    cbn [input istream_of eofbit failbit negb andb buf tria].
    rewrite ascii_code_newline. apply negb_true_iff in Hc. rewrite Hc.
    apply IH; [exact Hw | simpl in Hp; lia].
Qed.

Lemma skip_to_newline_end (text : string) (t : Triangulation) :
  without newline text = true ->
  forall passes, fst (skip_to_newline passes (World (istream_of text) t)) = Hang.
Proof.
  unfold without.
  induction text as [|c text IH]; intros Hw passes;
    (destruct passes as [|passes]; [reflexivity|]).
  - reflexivity.
  - simpl in Hw. apply andb_prop in Hw as [Hc Hw].
    cbn [skip_to_newline]. unfold bind, on_input, get, sentry, good.
    cbn [input istream_of eofbit failbit negb andb buf tria].
    rewrite ascii_code_newline. apply negb_true_iff in Hc. rewrite Hc.
    apply IH. exact Hw.
Qed.

(** The lines of a comment: each starts with the comment character. *)
Definition comment_lines (c : ascii) (comments : list string) : string :=
  lines_text (map (String c) comments).

Lemma length_comment_lines (c : ascii) (comments : list string) :
  (length comments <= String.length (comment_lines c comments))%nat.
Proof.
  unfold comment_lines. rewrite <- (length_map (String c) comments).
  apply length_lines_text.
Qed.

Lemma skip_comment_lines_loop_step (c : ascii) (t : Triangulation)
    (l rest : string) (passes : nat) (old : ascii) :
  without newline l = true ->
  skip_comment_lines_loop (S passes) c old
    (World (istream_of (String c l +:+ String newline rest)) t)
  = skip_comment_lines_loop passes c c (World (istream_of rest) t).
Proof.
  intros Hl. cbn [skip_comment_lines_loop]. rewrite append_cons.
  unfold bind at 1. unfold on_input at 1. unfold get_char, sentry, good.
  cbn [input istream_of eofbit failbit negb andb buf tria].
  unfold if_in. cbn [input stream_ok failbit negb].
  rewrite Z.eqb_refl. unfold bind, bounded_by_stream. refold_istream.
  rewrite skip_to_newline_line; [reflexivity | exact Hl |].
  unfold stream_length. cbn [input buf istream_of]. rewrite length_append. lia.
Qed.

Lemma skip_comment_lines_loop_open (c : ascii) (t : Triangulation)
    (text : string) (comments : list string) :
  Forall (fun l => without newline l = true) comments ->
  without newline text = true ->
  forall passes old,
    fst (skip_comment_lines_loop passes c old
           (World (istream_of (comment_lines c comments +:+ String c text)) t))
    = Hang.
Proof.
  intros Hcomments Htext.
  induction Hcomments as [|l comments Hl _ IH]; intros passes old;
    (destruct passes as [|passes]; [reflexivity|]).
  - unfold comment_lines. cbn [map lines_text]. rewrite append_nil.
    cbn [skip_comment_lines_loop].
    unfold bind at 1. unfold on_input at 1. unfold get_char, sentry, good.
    cbn [input istream_of eofbit failbit negb andb buf tria].
    unfold if_in. cbn [input stream_ok failbit negb].
    rewrite Z.eqb_refl. unfold bind, bounded_by_stream.
    pose proof (skip_to_newline_end text t Htext
                  (S (stream_length (World (Istream text false false) t)))) as Hh.
    unfold istream_of in Hh.
    destruct (skip_to_newline _ _) as [r w1]. simpl in Hh. subst r. reflexivity.
  - unfold comment_lines. cbn [map lines_text].
    rewrite append_assoc, (append_cons newline).
    rewrite skip_comment_lines_loop_step by exact Hl. apply IH.
Qed.

(** The stream ends inside a comment line: [skip_comment_lines] does not
    return.  The lines before may be any number of comment lines. *)
Theorem skip_comment_lines_open_comment (c : ascii) (comments : list string)
    (text : string) (t : Triangulation) :
  Forall (fun l => without newline l = true) comments ->
  without newline text = true ->
  fst (skip_comment_lines c
         (World (istream_of (comment_lines c comments +:+ String c text)) t))
  = Hang.
Proof.
  intros Hcomments Htext. unfold skip_comment_lines.
  unfold bind at 1. unfold bounded_by_stream.
  pose proof (skip_comment_lines_loop_open c t text comments Hcomments Htext
                (S (stream_length
                      (World (istream_of (comment_lines c comments +:+ String c text)) t)))
                indeterminate_char) as Hh.
  destruct (skip_comment_lines_loop _ _ _ _) as [r w1]. simpl in Hh. subst r.
  reflexivity.
Qed.

Lemma skip_comment_lines_loop_body (c x : ascii) (t : Triangulation)
    (body : string) (comments : list string) :
  Forall (fun l => without newline l = true) comments ->
  Ascii.eqb x c = false ->
  forall passes old,
    (length comments < passes)%nat ->
    skip_comment_lines_loop passes c old
      (World (istream_of (comment_lines c comments +:+ String x body)) t)
    = (Ok x, World (istream_of body) t).
Proof.
  intros Hcomments Hx.
  induction Hcomments as [|l comments Hl _ IH]; intros passes old Hp;
    (destruct passes as [|passes]; [simpl in Hp; lia|]).
  - unfold comment_lines. cbn [map lines_text]. rewrite append_nil.
    cbn [skip_comment_lines_loop].
    unfold bind at 1. unfold on_input at 1. unfold get_char, sentry, good.
    cbn [input istream_of eofbit failbit negb andb buf tria].
    unfold if_in. cbn [input stream_ok failbit negb].
    rewrite ascii_code_eqb, Hx. reflexivity.
  - unfold comment_lines. cbn [map lines_text].
    rewrite append_assoc, (append_cons newline).
    rewrite skip_comment_lines_loop_step by exact Hl.
    apply IH. simpl in Hp. lia.
Qed.

(** [skip_comment_lines] drops the comment lines at the start of the
    stream and then does what [skip_empty_lines] does with the rest, when
    the rest starts with a character that is not the comment character. *)
Theorem skip_comment_lines_then_empty_lines (c x : ascii)
    (comments : list string) (body : string) (t : Triangulation) :
  Forall (fun l => without newline l = true) comments ->
  Ascii.eqb x c = false ->
  skip_comment_lines c
    (World (istream_of (comment_lines c comments +:+ String x body)) t)
  = skip_empty_lines (World (istream_of (String x body)) t).
Proof.
  intros Hcomments Hx. unfold skip_comment_lines.
  unfold bind at 1. unfold bounded_by_stream at 1.
  rewrite (skip_comment_lines_loop_body c x t body comments Hcomments Hx).
  - reflexivity.
  - unfold stream_length. cbn [input istream_of buf].
    rewrite length_append. pose proof (length_comment_lines c comments). lia.
Qed.

End Comments.

Lemma skip_empty_lines_first_line_witness :
  @skip_empty_lines release_platform
    (World (istream_of (lines_text ["  "; ""] +:+ "4 1 0" +:+ String newline "1 0 0"))
       [])
  = (Ok tt, World (istream_of ("4 1 0" +:+ String newline "1 0 0")) []).
Proof.
  apply (skip_empty_lines_first_line (PF := release_platform)
           ["  "; ""] "4 1 0" "1 0 0" []).
  - repeat constructor.
  - reflexivity.
  - reflexivity.
Defined.

Lemma skip_empty_lines_only_blanks_witness :
  @skip_empty_lines release_platform
    (World (istream_of (lines_text ["  "; ""])) [])
  = (Ok tt, World (Istream "" true true) []).
Proof.
  apply (skip_empty_lines_only_blanks (PF := release_platform) ["  "; ""] []).
  repeat constructor.
Defined.

Lemma skip_comment_lines_open_comment_witness :
  fst (@skip_comment_lines release_platform "#"
         (World (istream_of (comment_lines "#" [" mesh"] +:+ String "#" " end")) []))
  = Hang.
Proof.
  apply (skip_comment_lines_open_comment (PF := release_platform)
           "#" [" mesh"] " end" []).
  - repeat constructor.
  - reflexivity.
Defined.

Lemma skip_comment_lines_then_empty_lines_witness :
  @skip_comment_lines release_platform "#"
    (World (istream_of (comment_lines "#" [" mesh"] +:+ String "4" " 1 0")) [])
  = @skip_empty_lines release_platform (World (istream_of (String "4" " 1 0")) []).
Proof.
  apply (skip_comment_lines_then_empty_lines (PF := release_platform)
           "#" "4" [" mesh"] " 1 0" []).
  - repeat constructor.
  - reflexivity.
Defined.

(** ** The other readers and the triangulation *)

Section Other_readers.
Context {PF : Platform} {CO : Collaborators}.

Ltac contract_step :=
  match goal with
  | |- sink_contract _ (create_triangulation_compatibility _ _ _ _) _ =>
      apply sink_contract_create
  | |- sink_contract _ (bind _ _) _ =>
      apply sink_contract_bind; [solve [frame] | intros ? ?]
  | |- sink_contract _ (match ?x with _ => _ end) _ => destruct x
  end.

Lemma keeps_tria_read_xda_3_cell c cells : keeps_tria (read_xda_3_cell c cells).
Proof. unfold read_xda_3_cell. frame. Qed.

Lemma keeps_tria_read_xda_vertex sd v vs : keeps_tria (read_xda_vertex sd v vs).
Proof. unfold read_xda_vertex. frame. Qed.

Lemma keeps_tria_read_xda_2_cell c cells : keeps_tria (read_xda_2_cell c cells).
Proof. unfold read_xda_2_cell. frame. Qed.

#[local] Hint Resolve keeps_tria_read_xda_3_cell keeps_tria_read_xda_vertex
  keeps_tria_read_xda_2_cell : frame.

Lemma keeps_tria_read_xda_2_parse : keeps_tria read_xda_2_parse.
Proof. unfold read_xda_2_parse. frame. Qed.

#[local] Hint Resolve keeps_tria_read_xda_2_parse : frame.

Lemma sink_contract_keeps (dim : Z) (m : M unit) (w : world) :
  keeps_tria m -> (forall w', m w <> (Ok tt, w')) -> sink_contract dim m w.
Proof.
  intros Hk Hno. unfold sink_contract. specialize (Hk w).
  destruct (m w) as [[[]| e | e | |] w1] eqn:Hm; simpl in Hk; auto.
  exfalso. exact (Hno w1 eq_refl).
Qed.

Lemma read_xda_2_contract (w : world) : sink_contract 2 read_xda_2 w.
Proof. unfold read_xda_2. repeat contract_step. Qed.

Lemma read_xda_3_contract (w : world) : sink_contract 3 read_xda_3 w.
Proof. unfold read_xda_3. repeat contract_step. Qed.

(** [read_xda] is defined for two and for three dimensions.  There, a read
    that fails has made no call to the triangulation, unless the failure is
    the triangulation's refusal of the mesh, and a read that ends well has
    made the one construction call.  In every other dimension the reader
    is a failed debug-mode assertion: a release build returns at once,
    without a mesh and without an error. *)
Theorem read_xda_and_the_triangulation (dim spacedim : Z) (w : world) :
  if ((dim =? 2) && (spacedim =? 2)) || ((dim =? 3) && (spacedim =? 3))
  then sink_contract dim (read_xda dim spacedim) w
  else read_xda dim spacedim w
       = ((if debug_mode then Abort ExcNotImplemented else Ok tt), w).
Proof.
  unfold read_xda.
  destruct ((dim =? 2) && (spacedim =? 2)) eqn:H2.
  - apply andb_prop in H2 as [Hd _]. apply Z.eqb_eq in Hd. subst dim.
    cbn [orb]. apply read_xda_2_contract.
  - destruct ((dim =? 3) && (spacedim =? 3)) eqn:H3.
    + apply andb_prop in H3 as [Hd _]. apply Z.eqb_eq in Hd. subst dim.
      cbn [orb]. apply read_xda_3_contract.
    + cbn [orb]. unfold read_xda_generic, Assert.
      destruct debug_mode; reflexivity.
Qed.

(** *** [read_unv] *)

Lemma keeps_tria_read_unv_vertices sd n st : keeps_tria (read_unv_vertices sd n st).
Proof.
  revert st. induction n as [|n IH]; intros st; cbn [read_unv_vertices]; frame.
Qed.

Lemma keeps_tria_read_unv_entry d vi : keeps_tria (read_unv_entry d vi).
Proof. unfold read_unv_entry. frame. Qed.

#[local] Hint Resolve keeps_tria_read_unv_vertices keeps_tria_read_unv_entry
  : frame.

Lemma keeps_tria_read_unv_element dim no st :
  keeps_tria (read_unv_element dim no st).
Proof. unfold read_unv_element. frame. Qed.

#[local] Hint Resolve keeps_tria_read_unv_element : frame.

Lemma keeps_tria_read_unv_elements dim n st :
  keeps_tria (read_unv_elements dim n st).
Proof.
  revert st. induction n as [|n IH]; intros st; cbn [read_unv_elements]; frame.
Qed.

Lemma keeps_tria_set_id_at i id v : keeps_tria (set_id_at i id v).
Proof. unfold set_id_at. frame. Qed.

#[local] Hint Resolve keeps_tria_read_unv_elements keeps_tria_set_id_at : frame.

Lemma keeps_tria_unv_set_ids id no st : keeps_tria (unv_set_ids id no st).
Proof. unfold unv_set_ids. frame. Qed.

#[local] Hint Resolve keeps_tria_unv_set_ids : frame.

Lemma keeps_tria_read_unv_fragment id st : keeps_tria (read_unv_fragment id st).
Proof. unfold read_unv_fragment. destruct st as [[d no] el]. frame. Qed.

Lemma keeps_tria_unv_n_lines n : keeps_tria (unv_n_lines n).
Proof. unfold unv_n_lines. frame. Qed.

#[local] Hint Resolve keeps_tria_read_unv_fragment keeps_tria_unv_n_lines : frame.

Lemma keeps_tria_read_unv_group_line ne nl id line st :
  keeps_tria (read_unv_group_line ne nl id line st).
Proof. unfold read_unv_group_line. frame. Qed.

#[local] Hint Resolve keeps_tria_read_unv_group_line : frame.

Lemma keeps_tria_read_unv_group dummy st : keeps_tria (read_unv_group dummy st).
Proof. unfold read_unv_group. frame. Qed.

#[local] Hint Resolve keeps_tria_read_unv_group : frame.

Lemma keeps_tria_read_unv_groups n st : keeps_tria (read_unv_groups n st).
Proof.
  revert st. induction n as [|n IH]; intros st; cbn [read_unv_groups]; frame.
Qed.

Lemma keeps_tria_if_eof {A} (m1 m2 : M A) :
  keeps_tria m1 -> keeps_tria m2 -> keeps_tria (if_eof m1 m2).
Proof.
  intros H1 H2 w. unfold if_eof. destruct (eofbit (input w)); [apply H1 | apply H2].
Qed.

#[local] Hint Resolve keeps_tria_read_unv_groups : frame.

Lemma keeps_tria_read_unv_parse dim sd : keeps_tria (read_unv_parse dim sd).
Proof.
  unfold read_unv_parse.
  repeat first [ apply keeps_tria_if_eof | frame_step ].
Qed.

#[local] Hint Resolve keeps_tria_read_unv_parse : frame.

Lemma read_unv_contract (dim spacedim : Z) (w : world) :
  sink_contract dim (read_unv dim spacedim) w.
Proof. unfold read_unv. repeat contract_step. Qed.

(** Whatever the input, a [read_unv] that fails has made no call to the
    triangulation, unless the failure is the triangulation's refusal of
    the mesh handed to it at the very end; a read that ends well has made
    the one construction call. *)
Theorem read_unv_and_the_triangulation (dim spacedim : Z) (w : world) :
  sink_contract dim (read_unv dim spacedim) w.
Proof. apply read_unv_contract. Qed.

(** *** [read_tecplot] *)

#[local] Hint Resolve keeps_tria_read_tecplot_mesh : frame.

Lemma read_tecplot_contract (w : world) : sink_contract 2 read_tecplot w.
Proof. unfold read_tecplot. repeat contract_step. Qed.

(** Whatever the input, a [read_tecplot] that fails has made no call to the
    triangulation, unless the failure is the triangulation's refusal of
    the mesh handed to it at the very end; a read that ends well has made
    the one construction call. *)
Theorem read_tecplot_and_the_triangulation (w : world) :
  sink_contract 2 read_tecplot w.
Proof. apply read_tecplot_contract. Qed.

(** *** [read_assimp] *)

(** The one construction call, of either kind, with what the triangulation
    made of it. *)
Definition constructed (dim : Z) (w w' : world) (refusal : option exc) : Prop :=
  exists v c s,
    (tria w' = tria w ++ [called_create_triangulation_compatibility v c s]
     \/ tria w' = tria w ++ [called_create_triangulation v c s])
    /\ tria_refuses dim v c s = refusal.

(** What [read_assimp] may do to the triangulation: as the other readers,
    but it may also end well without a call (the reader returns early for
    a scene that gave no cell). *)
Definition assimp_contract (dim : Z) (m : M unit) (w : world) : Prop :=
  match m w with
  | (Ok _, w') => tria w' = tria w \/ constructed dim w w' None
  | (Throw e, w') => tria w' = tria w \/ constructed dim w w' (Some e)
  | (_, w') => tria w' = tria w
  end.

Lemma assimp_contract_bind {A} (dim : Z) (m : M A) (k : A -> M unit) (w : world) :
  keeps_tria m ->
  (forall a w1, assimp_contract dim (k a) w1) ->
  assimp_contract dim (bind m k) w.
Proof.
  intros Hm Hk. unfold assimp_contract, bind. specialize (Hm w).
  destruct (m w) as [[a| e | e | |] w1]; simpl in Hm; auto.
  specialize (Hk a w1). unfold assimp_contract, constructed in *.
  rewrite Hm in Hk. exact Hk.
Qed.

Lemma assimp_contract_keeps (dim : Z) (m : M unit) (w : world) :
  keeps_tria m -> assimp_contract dim m w.
Proof.
  intros Hk. unfold assimp_contract. specialize (Hk w).
  destruct (m w) as [[[]| e | e | |] w1]; simpl in Hk; auto.
Qed.

Lemma assimp_contract_create (dim : Z) v c s (w : world) :
  assimp_contract dim (create_triangulation dim v c s) w.
Proof.
  unfold assimp_contract, constructed, create_triangulation.
  destruct (tria_refuses dim v c s) as [e|] eqn:Hr; simpl;
    right; exists v, c, s; (split; [right; reflexivity | exact Hr]).
Qed.

Lemma assimp_contract_create_compatibility (dim : Z) v c s (w : world) :
  assimp_contract dim (create_triangulation_compatibility dim v c s) w.
Proof.
  unfold assimp_contract, constructed, create_triangulation_compatibility.
  destruct (tria_refuses dim v c s) as [e|] eqn:Hr; simpl;
    right; exists v, c, s; (split; [left; reflexivity | exact Hr]).
Qed.

Lemma keeps_tria_read_assimp_face dim ig m vo mesh i st :
  keeps_tria (read_assimp_face dim ig m vo mesh i st).
Proof. unfold read_assimp_face. frame. Qed.

#[local] Hint Resolve keeps_tria_read_assimp_face : frame.

Lemma keeps_tria_read_assimp_mesh dim sd ig scene m st :
  keeps_tria (read_assimp_mesh dim sd ig scene m st).
Proof. unfold read_assimp_mesh. destruct st as [[[vs cs] vo] co]. frame. Qed.

#[local] Hint Resolve keeps_tria_read_assimp_mesh : frame.

(** Whatever the scene, a [read_assimp] that fails has made no call to the
    triangulation, unless the failure is the triangulation's refusal of
    the mesh; a read that ends well has made one construction call, or
    none at all. *)
Theorem read_assimp_and_the_triangulation (dim spacedim : Z)
    (with_assimp : bool) (scene : string + aiScene) (mesh_index : Z)
    (remove_duplicates : bool) (tol : double) (ignore_unsupported_types : bool)
    (w : world) :
  assimp_contract dim
    (read_assimp dim spacedim with_assimp scene mesh_index remove_duplicates
       tol ignore_unsupported_types) w.
Proof.
  unfold read_assimp.
  destruct with_assimp; [| apply assimp_contract_keeps; frame].
  apply assimp_contract_bind; [solve [frame] | intros ? ?].
  destruct scene as [err | scene]; [apply assimp_contract_keeps; frame|].
  apply assimp_contract_bind; [solve [frame] | intros ? ?].
  apply assimp_contract_bind; [solve [frame] | intros ? ?].
  apply assimp_contract_bind; [solve [frame] | intros [[[vs cs] vo] co] ?].
  destruct (Nat.eqb (length cs) 0); [apply assimp_contract_keeps; frame|].
  apply assimp_contract_bind; [solve [frame] | intros [[vs1 cs1] s1] ?].
  apply assimp_contract_bind; [solve [frame] | intros [[vs2 cs2] s2] ?].
  apply assimp_contract_bind; [solve [frame] | intros ? ?].
  apply assimp_contract_bind; [solve [frame] | intros ? ?].
  destruct (dim =? 2);
    [apply assimp_contract_create_compatibility | apply assimp_contract_create].
Qed.

End Other_readers.

(** ** More of the ABAQUS bridge *)

Section Bridge_properties.
Context {PF : Platform}.
Import Abaqus_to_UCD.

Lemma digits_of_digits (s : string) :
  forallb isdigit (list_ascii_of_string (digits_of s)) = true.
Proof.
  induction s as [|c s IH]; [reflexivity|]. cbn [digits_of].
  destruct (isdigit c) eqn:Hc; [|exact IH]. simpl. rewrite Hc. exact IH.
Qed.

Lemma append_empty (s : string) : s +:+ "" = s.
Proof. induction s as [|c s IH]; rewrite ?append_nil, ?append_cons; congruence. Qed.

(** [extract_int] reads the number that the digits of the text spell, in
    their order, whatever stands between them: a sign or a letter is
    dropped.  A text without a digit gives 0, and a number too large for
    an [int] gives the largest [int]. *)
Theorem extract_int_digits (s : string) :
  extract_int s = Z.min (decimal_value 0 (digits_of s)) (2 ^ 31 - 1).
Proof.
  unfold extract_int. pose proof (digits_of_digits s) as Hds.
  destruct (digits_of s) as [|c ds] eqn:Hd; [reflexivity|].
  pose proof (decimal_value_nonneg _ Hds 0 (Z.le_refl 0)) as Hpos.
  destruct (Z.le_gt_cases (decimal_value 0 (String c ds)) (2 ^ 31 - 1)) as [Hle|Hgt].
  - rewrite Z.min_l by exact Hle.
    rewrite <- (append_empty (String c ds)) at 1.
    apply from_string_digits; [| reflexivity | exact Hle].
    unfold all_digits. rewrite Hds. reflexivity.
  - rewrite Z.min_r by lia.
    pose proof (span_all_digits (String c ds) "" Hds eq_refl) as Hspan.
    rewrite append_empty in Hspan.
    unfold from_string, extract_signed, istream_of, sentry, good. simpl buf.
    simpl in Hds. apply andb_prop in Hds as [Hc _].
    cbn [negb andb eofbit failbit skipws].
    rewrite (isdigit_not_space c Hc). cbn [buf].
    rewrite (scan_integer_digit c _ Hc), Hspan.
    cbn [fst snd is_empty].
    destruct (Z.ltb_spec (decimal_value 0 (String c ds)) (- 2 ^ 31)); [lia|].
    destruct (Z.ltb_spec (2 ^ 31 - 1) (decimal_value 0 (String c ds))); [|lia].
    reflexivity.
Qed.

Lemma generate_from (elid_end elis_step : Z) :
  0 < elis_step -> elid_end + elis_step <= 2 ^ 31 - 1 ->
  forall passes i,
    i <= elid_end + elis_step ->
    (Z.to_nat (elid_end + 1 - i) < passes)%nat ->
    generate passes i elid_end elis_step
    = Ok (map (fun k => i + Z.of_nat k * elis_step)
            (seq 0 (Z.to_nat ((elid_end - i + elis_step) / elis_step)))).
Proof.
  intros Hstep Hmax.
  induction passes as [|passes IH]; intros i Hi Hp; [lia|].
  cbn [generate].
  destruct (Z.leb_spec i elid_end) as [Hle|Hgt].
  - destruct (Z.ltb_spec (2 ^ 31 - 1) (i + elis_step)); [lia|].
    rewrite IH by lia.
    replace ((elid_end - i + elis_step) / elis_step)
      with ((elid_end - (i + elis_step) + elis_step) / elis_step + 1).
    2:{ rewrite <- Z.div_add by lia. f_equal. lia. }
    assert (0 <= (elid_end - (i + elis_step) + elis_step) / elis_step)
      by (apply Z.div_pos; lia).
    rewrite Z2Nat.inj_add by lia.
    change (Z.to_nat 1) with 1%nat. rewrite Nat.add_1_r.
    cbn [seq map]. f_equal. f_equal; [lia|].
    rewrite <- seq_shift, map_map. apply map_ext. intros k. lia.
  - rewrite Z.div_small by lia. reflexivity.
Qed.

(** The loop of a [GENERATE] line with a positive step: the set is the
    arithmetic progression from the lower bound, by the step, up to the
    upper bound, when the bound and the step together stay within an
    [int]. *)
Lemma generate_progression (elid_start elid_end elis_step : Z) :
  0 < elis_step -> elid_start <= elid_end ->
  elid_end + elis_step <= 2 ^ 31 - 1 ->
  generate (S (S (Z.to_nat (elid_end - elid_start)))) elid_start elid_end
    elis_step
  = Ok (map (fun k => elid_start + Z.of_nat k * elis_step)
          (seq 0 (S (Z.to_nat ((elid_end - elid_start) / elis_step))))).
Proof.
  intros Hstep Hle Hmax. rewrite generate_from by lia.
  f_equal. f_equal. f_equal.
  replace (elid_end - elid_start + elis_step)
    with (elid_end - elid_start + 1 * elis_step) by lia.
  rewrite Z.div_add by lia.
  assert (0 <= (elid_end - elid_start) / elis_step) by (apply Z.div_pos; lia).
  lia.
Qed.

Lemma extract_signed_digits (old : Z) (ds rest : string) :
  all_digits ds = true -> starts_with_digit rest = false ->
  decimal_value 0 ds <= 2 ^ 31 - 1 ->
  extract_signed old (istream_of (ds +:+ rest))
  = (decimal_value 0 ds, Istream rest (is_empty rest) false).
Proof.
  intros Hds Hrest Hfits. unfold all_digits in Hds.
  apply andb_prop in Hds as [Hne Hds].
  pose proof (decimal_value_nonneg ds Hds 0 (Z.le_refl 0)) as Hpos.
  pose proof (span_all_digits ds rest Hds Hrest) as Hspan.
  destruct ds as [|c ds]; [discriminate Hne|].
  rewrite append_cons in *.
  unfold extract_signed, istream_of, sentry, good. simpl buf.
  simpl in Hds. apply andb_prop in Hds as [Hc _].
  cbn [negb andb eofbit failbit skipws].
  rewrite (isdigit_not_space c Hc). cbn [buf].
  rewrite (scan_integer_digit c _ Hc), Hspan.
  cbn [fst snd is_empty].
  destruct (Z.ltb_spec (decimal_value 0 (String c ds)) (- 2 ^ 31)); [lia|].
  destruct (Z.ltb_spec (2 ^ 31 - 1) (decimal_value 0 (String c ds))); [lia|].
  reflexivity.
Qed.

(** The step of a [GENERATE] line and its text: without one, the step is 1. *)
Definition step_text (step : option string) : string :=
  match step with Some s => String "," s | None => "" end.

Definition step_value (step : option string) : Z :=
  match step with Some s => decimal_value 0 s | None => 1 end.

(** The data line of an [*ELSET] card with [GENERATE]: the two bounds and,
    if there is one, the step, decimal numerals with commas between them,
    give the arithmetic progression from the lower bound, by the step, up
    to the upper bound. *)
Theorem read_elset_generate_progression (lower upper : string)
    (step : option string) (w : world) :
  all_digits lower = true -> all_digits upper = true ->
  (forall s, step = Some s -> all_digits s = true) ->
  decimal_value 0 lower <= decimal_value 0 upper ->
  0 < step_value step ->
  decimal_value 0 upper + step_value step <= 2 ^ 31 - 1 ->
  read_elset_generate (lower +:+ "," +:+ upper +:+ step_text step) w
  = (Ok (map (fun k => decimal_value 0 lower + Z.of_nat k * step_value step)
           (seq 0 (S (Z.to_nat ((decimal_value 0 upper - decimal_value 0 lower)
                                / step_value step))))), w).
Proof.
  intros Hl Hu Hs Hle Hstep Hmax.
  assert (Hup : 0 <= decimal_value 0 upper).
  { apply decimal_value_nonneg; [|lia].
    unfold all_digits in Hu. apply andb_prop in Hu. tauto. }
  assert (Hlo : 0 <= decimal_value 0 lower).
  { apply decimal_value_nonneg; [|lia].
    unfold all_digits in Hl. apply andb_prop in Hl. tauto. }
  unfold read_elset_generate.
  change (lower +:+ "," +:+ upper +:+ step_text step)
    with (lower +:+ String "," (upper +:+ step_text step)).
  rewrite extract_signed_digits by (first [assumption | reflexivity | lia]).
  cbn [is_empty].
  change (extract_char indeterminate_char
            (Istream (String "," (upper +:+ step_text step)) false false))
    with (","%char, istream_of (upper +:+ step_text step)).
  cbv iota beta.
  rewrite extract_signed_digits;
    [| assumption | destruct step; reflexivity | lia].
  change (ascii_code "," =? 44) with true.
  unfold AssertThrow at 1. unfold bind at 1. unfold ret at 1.
  destruct (Z.leb_spec (decimal_value 0 lower) (decimal_value 0 upper)); [|lia].
  unfold AssertThrow at 1. unfold bind at 1. unfold ret at 1.
  destruct step as [s|]; cbn [step_text step_value is_empty buf] in *.
  - change (extract_char ","%char (Istream (String "," s) false false))
      with (","%char, istream_of s).
    cbv iota beta.
    assert (Hfits : decimal_value 0 s <= 2 ^ 31 - 1) by lia.
    pose proof (extract_signed_digits 1 s "" (Hs s eq_refl) eq_refl Hfits)
      as Hextract.
    rewrite append_empty in Hextract. rewrite Hextract. clear Hextract.
    change (ascii_code "," =? 44) with true.
    unfold AssertThrow at 1. unfold bind at 1. unfold ret at 1.
    destruct (Z.eqb_spec (decimal_value 0 s) 0); [lia|].
    destruct (Z.ltb_spec (decimal_value 0 s) 0); [lia|].
    unfold call. rewrite generate_progression by lia. reflexivity.
  - change (ascii_code "," =? 44) with true.
    unfold AssertThrow at 1. unfold bind at 1. unfold ret at 1.
    cbn [Z.eqb Z.ltb Z.compare].
    unfold call. rewrite generate_progression by lia. reflexivity.
Qed.

Lemma cell_nodes_Ok (cells : list (list double)) (row : list double)
    (cell : Z) (ks : list Z) :
  0 <= cell -> cells !! Z.to_nat cell = Some row ->
  Forall (fun k => 0 <= k < Z.of_nat (length row)) ks ->
  exists xs, cell_nodes cells cell ks = Ok xs /\ length xs = length ks.
Proof.
  intros Hcell Hrow Hks. induction Hks as [|k ks Hk _ [xs [IH Hlen]]].
  - exists []. split; reflexivity.
  - destruct (lookup_lt_is_Some_2 row (Z.to_nat k)) as [x Hx]; [lia|].
    exists (x :: xs). cbn [cell_nodes]. unfold cell_node.
    rewrite (vector_get_Ok cells cell row Hcell Hrow).
    rewrite (vector_get_Ok row k x) by (first [lia | exact Hx]).
    rewrite IH. split; [reflexivity | simpl; congruence].
Qed.

(** A face number that names no face.  In two dimensions a number above 4
    is refused, and a number below 1 gives a face of two zeros.  In three
    dimensions the source tests the number of the cell where it means the
    number of the face: a face number that is not one of 1 to 6 is refused
    only for a cell after the sixth, and for the first six cells it gives
    a face of four zeros. *)
Theorem get_global_node_numbers_no_such_face (dim : Z)
    (cells : list (list double)) (cell face : Z) :
  Forall (fun row => (2 ^ Z.to_nat dim < length row)%nat) cells ->
  1 <= cell <= Z.of_nat (length cells) ->
  (dim = 2 ->
   (get_global_node_numbers dim cells cell face
    = Throw (ExcMessage "Invalid face number in 2d") <-> 4 < face)
   /\ (face < 1 ->
       get_global_node_numbers dim cells cell face = Ok (repeat double_zero 2)))
  /\ (dim = 3 ->
      (get_global_node_numbers dim cells cell face
       = Throw (ExcMessage "Invalid face number in 3d")
       <-> (face < 1 \/ 6 < face) /\ 6 < cell)
      /\ ((face < 1 \/ 6 < face) -> cell <= 6 ->
          get_global_node_numbers dim cells cell face
          = Ok (repeat double_zero 4))).
Proof.
  intros Hrows Hcell.
  destruct (lookup_lt_is_Some_2 cells (Z.to_nat (cell - 1))) as [row Hrow]; [lia|].
  pose proof (Forall_lookup_1 _ _ _ _ Hrows Hrow) as Hlen. cbv beta in Hlen.
  assert (Hnodes : forall ks,
             Forall (fun k => 0 <= k < Z.of_nat (length row)) ks ->
             exists xs, cell_nodes cells (cell - 1) ks = Ok xs /\ length xs = length ks).
  { intros ks Hks. apply (cell_nodes_Ok cells row); [lia | exact Hrow | exact Hks]. }
  split; intros ->; unfold get_global_node_numbers; cbn [Z.eqb Pos.eqb];
    change (Z.to_nat (2 ^ (2 - 1))) with 2%nat;
    change (Z.to_nat (2 ^ (3 - 1))) with 4%nat.
  - change (2 ^ Z.to_nat 2)%nat with 4%nat in Hlen.
    unfold face_nodes_2d.
    repeat match goal with
           | |- context [face =? ?n] =>
               destruct (Z.eqb_spec face n) as [->|];
               [ cbv iota beta;
                 match goal with
                 | |- context [cell_nodes cells (cell - 1) ?ks] =>
                     destruct (Hnodes ks) as [xs [-> _]];
                     [repeat constructor; lia|]
                 end;
                 split; [split; [intros Hd; discriminate Hd | lia] | lia] |]
           end.
    destruct (Z.leb_spec face 4).
    + split; [split; [intros Hd; discriminate Hd | lia] | reflexivity].
    + split; [split; [intros _; lia | intros _; reflexivity] | intros; lia].
  - change (2 ^ Z.to_nat 3)%nat with 8%nat in Hlen.
    unfold face_nodes_3d.
    repeat match goal with
           | |- context [face =? ?n] =>
               destruct (Z.eqb_spec face n) as [->|];
               [ cbv iota beta;
                 match goal with
                 | |- context [cell_nodes cells (cell - 1) ?ks] =>
                     destruct (Hnodes ks) as [xs [-> _]];
                     [repeat constructor; lia|]
                 end;
                 split; [split; [intros Hd; discriminate Hd | lia] | lia] |]
           end.
    destruct (Z.leb_spec cell 6).
    + split; [split; [intros Hd; discriminate Hd | lia] | reflexivity].
    + split; [split; [intros _; lia | intros _; reflexivity] | intros; lia].
Qed.

End Bridge_properties.

Lemma read_elset_generate_progression_witness :
  @Abaqus_to_UCD.read_elset_generate release_platform
    ("2" +:+ "," +:+ "11" +:+ step_text (Some "3")) (reading "")
  = (Ok (map (fun k => 2 + Z.of_nat k * 3) (seq 0 (S (Z.to_nat ((11 - 2) / 3))))),
     reading "").
Proof.
  apply (read_elset_generate_progression (PF := release_platform)
           "2" "11" (Some "3") (reading "")); try reflexivity; try discriminate.
  intros s Hs. injection Hs as <-. reflexivity.
Defined.

Lemma get_global_node_numbers_no_such_face_witness :
  (3 = 2 ->
   (@Abaqus_to_UCD.get_global_node_numbers release_platform 3 [[0; 1; 2; 3; 4; 5; 6; 7; 8]%Q] 1 7
    = Throw (ExcMessage "Invalid face number in 2d") <-> 4 < 7)
   /\ (7 < 1 ->
       @Abaqus_to_UCD.get_global_node_numbers release_platform 3 [[0; 1; 2; 3; 4; 5; 6; 7; 8]%Q] 1 7
       = Ok (repeat double_zero 2)))
  /\ (3 = 3 ->
      (@Abaqus_to_UCD.get_global_node_numbers release_platform 3 [[0; 1; 2; 3; 4; 5; 6; 7; 8]%Q] 1 7
       = Throw (ExcMessage "Invalid face number in 3d")
       <-> (7 < 1 \/ 6 < 7) /\ 6 < 1)
      /\ ((7 < 1 \/ 6 < 7) -> 1 <= 6 ->
          @Abaqus_to_UCD.get_global_node_numbers release_platform 3 [[0; 1; 2; 3; 4; 5; 6; 7; 8]%Q] 1 7
          = Ok (repeat double_zero 4))).
Proof.
  apply (get_global_node_numbers_no_such_face (PF := release_platform) 3
           [[0; 1; 2; 3; 4; 5; 6; 7; 8]%Q] 1 7).
  - repeat constructor.
  - simpl. lia.
Defined.

Section Bridge_rows.
Context {PF : Platform}.
Import Abaqus_to_UCD.
Variables dim spacedim : Z.

(** The shape of the lists of the bridge: a node is its number and
    [spacedim] coordinates, a cell its material and the nodes of a cell, a
    face its indicator and the nodes of a face. *)
Definition rows (n : nat) (l : list (list double)) : Prop :=
  Forall (fun row => length row = n) l.

Definition well_shaped (st : bridge) : Prop :=
  rows (Z.to_nat (spacedim + 1)) (node_list st)
  /\ rows (S (vertices_per_cell dim)) (cell_list st)
  /\ rows (S (Z.to_nat (2 ^ (dim - 1)))) (face_list st).

Lemma length_extract_numbers (n : nat) :
  forall comma iss, length (fst (fst (extract_numbers n comma iss))) = n.
Proof.
  induction n as [|n IH]; intros comma iss; [reflexivity|].
  cbn [extract_numbers].
  destruct (extract_double double_zero iss) as [x i1].
  destruct (extract_char comma i1) as [comma' i2].
  specialize (IH comma' i2).
  destruct (extract_numbers n comma' i2) as [[xs c] i3]. simpl in *. congruence.
Qed.

Lemma length_numbers_of_line (n : nat) (line : string) :
  length (numbers_of_line n line) = n.
Proof. apply length_extract_numbers. Qed.

Lemma rows_app (n : nat) (l : list (list double)) (row : list double) :
  rows n l -> length row = n -> rows n (l ++ [row]).
Proof.
  intros Hl Hrow. apply Forall_app. split; [exact Hl|].
  constructor; [exact Hrow | constructor].
Qed.

Lemma read_nodes_rows (passes : nat) :
  forall line nodes w next nodes' w',
    rows (Z.to_nat (spacedim + 1)) nodes ->
    read_nodes spacedim passes line nodes w = (Ok (next, nodes'), w') ->
    rows (Z.to_nat (spacedim + 1)) nodes'.
Proof.
  induction passes as [|passes IH]; intros line nodes w next nodes' w' Hn Hr;
    [discriminate Hr|].
  cbn [read_nodes] in Hr. inv_Ok. unfold if_in in Hr.
  destruct (stream_ok (input w0)).
  - destruct (starts_with_star a).
    + inv_Ok. exact Hn.
    + apply IH in Hr; [exact Hr|]. apply rows_app; [exact Hn|].
      apply length_numbers_of_line.
  - inv_Ok. exact Hn.
Qed.

Lemma read_elements_rows (passes : nat) :
  forall material line cells w next cells' w',
    rows (S (vertices_per_cell dim)) cells ->
    read_elements dim passes material line cells w = (Ok (next, cells'), w') ->
    rows (S (vertices_per_cell dim)) cells'.
Proof.
  induction passes as [|passes IH];
    intros material line cells w next cells' w' Hn Hr; [discriminate Hr|].
  cbn [read_elements] in Hr. inv_Ok. unfold if_in in Hr.
  destruct (stream_ok (input w0)).
  - destruct (starts_with_star a).
    + inv_Ok. exact Hn.
    + apply IH in Hr; [exact Hr|]. apply rows_app; [exact Hn|].
      rewrite length_insert. apply length_numbers_of_line.
  - inv_Ok. exact Hn.
Qed.

Lemma length_cell_nodes (cells : list (list double)) (cell : Z) (ks : list Z) :
  forall xs, cell_nodes cells cell ks = Ok xs -> length xs = length ks.
Proof.
  induction ks as [|k ks IH]; intros xs Hx; cbn [cell_nodes] in Hx.
  - injection Hx as <-. reflexivity.
  - destruct (cell_node cells cell k); try discriminate Hx.
    destruct (cell_nodes cells cell ks); try discriminate Hx.
    injection Hx as <-. simpl. f_equal. apply IH. reflexivity.
Qed.

Lemma length_get_global_node_numbers (cells : list (list double))
    (cell face : Z) (q : list double) :
  get_global_node_numbers dim cells cell face = Ok q ->
  length q = Z.to_nat (2 ^ (dim - 1)).
Proof.
  unfold get_global_node_numbers. intros Hq.
  destruct (Z.eqb_spec dim 2) as [->|].
  - change (Z.to_nat (2 ^ (2 - 1))) with 2%nat in *.
    destruct (face_nodes_2d face) as [ks|] eqn:Hks.
    + apply length_cell_nodes in Hq. rewrite Hq.
      unfold face_nodes_2d in Hks.
      repeat match type of Hks with
             | (if ?b then _ else _) = _ => destruct b
             end;
        first [discriminate Hks | injection Hks as <-; reflexivity].
    + destruct (face <=? 4); [|discriminate Hq]. injection Hq as <-. reflexivity.
  - destruct (Z.eqb_spec dim 3) as [->|]; [|discriminate Hq].
    change (Z.to_nat (2 ^ (3 - 1))) with 4%nat in *.
    destruct (face_nodes_3d face) as [ks|] eqn:Hks.
    + apply length_cell_nodes in Hq. rewrite Hq.
      unfold face_nodes_3d in Hks.
      repeat match type of Hks with
             | (if ?b then _ else _) = _ => destruct b
             end;
        first [discriminate Hks | injection Hks as <-; reflexivity].
    + destruct (cell <=? 6); [|discriminate Hq]. injection Hq as <-. reflexivity.
Qed.

Lemma faces_of_cells_rows (cells : list (list double)) (b face : Z) (els : list Z) :
  forall fs, faces_of_cells dim cells b face els = Ok fs ->
             rows (S (Z.to_nat (2 ^ (dim - 1)))) fs.
Proof.
  induction els as [|el els IH]; intros fs Hf; cbn [faces_of_cells] in Hf.
  - injection Hf as <-. constructor.
  - destruct (get_global_node_numbers dim cells el face) as [q| | | |] eqn:Hq;
      try discriminate Hf.
    destruct (faces_of_cells dim cells b face els) as [fs'| | | |];
      try discriminate Hf.
    injection Hf as <-. constructor; [|apply IH; reflexivity].
    simpl. f_equal. exact (length_get_global_node_numbers _ _ _ _ Hq).
Qed.

Lemma surface_line_faces_rows (st : bridge) (b : Z) (line : string) fs :
  surface_line_faces dim st b line = Ok fs ->
  rows (S (Z.to_nat (2 ^ (dim - 1)))) fs.
Proof.
  unfold surface_line_faces. intros Hf.
  destruct (elsets_list st !! _).
  - destruct (extract_string _ _) as [? ?]. destruct (extract_char _ _) as [? ?].
    destruct (extract_signed _ _) as [? ?].
    exact (faces_of_cells_rows _ _ _ _ _ Hf).
  - destruct (extract_signed _ _) as [? ?]. destruct (extract_char _ _) as [? ?].
    destruct (extract_char _ _) as [? ?]. destruct (extract_signed _ _) as [? ?].
    exact (faces_of_cells_rows _ _ _ _ _ Hf).
Qed.

Lemma read_surface_shape (passes : nat) :
  forall b line st w next st' w',
    well_shaped st ->
    read_surface dim passes b line st w = (Ok (next, st'), w') ->
    well_shaped st'.
Proof.
  induction passes as [|passes IH]; intros b line st w next st' w' Hs Hr;
    [discriminate Hr|].
  cbn [read_surface] in Hr. inv_Ok. unfold if_in in Hr.
  destruct (stream_ok (input w0)).
  - destruct (starts_with_star a).
    + inv_Ok. exact Hs.
    + inv_Ok. apply IH in Hr; [exact Hr|].
      destruct Hs as (Hn & Hc & Hf). repeat split; cbn; try assumption.
      apply Forall_app. split; [exact Hf|].
      unfold call in Ha0. injection Ha0 as Ha0 _.
      exact (surface_line_faces_rows _ _ _ _ Ha0).
  - inv_Ok. exact Hs.
Qed.

Lemma read_elset_shape (line : string) (st : bridge) (w : world) next st' w' :
  well_shaped st ->
  read_elset line st w = (Ok (next, st'), w') -> well_shaped st'.
Proof.
  intros Hs Hr. unfold read_elset in Hr.
  apply bind_Ok_inv in Hr as (name & w1 & _ & Hr).
  destruct (string_find line "GENERATE" 0 =? npos); inv_Ok; exact Hs.
Qed.

Lemma assign_material_rows (n : nat) (m : Z) (els : list Z) :
  forall cells cells',
    rows n cells -> assign_material m els cells = Ok cells' -> rows n cells'.
Proof.
  induction els as [|el els IH]; intros cells cells' Hc Ha;
    cbn [assign_material] in Ha.
  - injection Ha as <-. exact Hc.
  - unfold vector_get in Ha.
    destruct ((0 <=? el - 1) && (el - 1 <? Z.of_nat (length cells)));
      [|discriminate Ha].
    destruct (cells !! Z.to_nat (el - 1)) as [row|] eqn:Hrow; [|discriminate Ha].
    destruct row as [|x row]; [discriminate Ha|].
    apply IH in Ha; [exact Ha|].
    apply Forall_insert; [exact Hc|].
    rewrite length_insert. exact (Forall_lookup_1 _ _ _ _ Hc Hrow).
Qed.

Lemma read_solid_section_shape (line : string) (st : bridge) (w : world) st' w' :
  well_shaped st ->
  read_solid_section line st w = (Ok st', w') -> well_shaped st'.
Proof.
  intros (Hn & Hc & Hf) Hr. unfold read_solid_section in Hr. inv_Ok.
  unfold call in Ha1. injection Ha1 as Ha1 _.
  repeat split; cbn; try assumption.
  exact (assign_material_rows _ _ _ _ _ Hc Ha1).
Qed.

Lemma read_lines_shape (passes : nat) :
  forall pending line st w st' w',
    well_shaped st ->
    read_lines dim spacedim passes pending line st w = (Ok st', w') ->
    well_shaped st'.
Proof.
  induction passes as [|passes IH]; intros pending line st w st' w' Hs Hr;
    [discriminate Hr|].
  cbn [read_lines] in Hr. destruct pending as [l|].
  - cbv zeta in Hr.
    repeat match type of Hr with
           | (if ?b then _ else _) _ = _ => destruct b
           end.
    + apply bind_Ok_inv in Hr as (next & w1 & _ & Hr). exact (IH _ _ _ _ _ _ Hs Hr).
    + apply bind_Ok_inv in Hr as ([next nodes] & w1 & Hn & Hr).
      apply (IH _ _ _ _ _ _) in Hr; [exact Hr|].
      unfold bounded_by_stream in Hn. apply read_nodes_rows in Hn; [|apply Hs].
      destruct Hs as (_ & Hc & Hf). repeat split; assumption.
    + apply bind_Ok_inv in Hr as (material & w1 & _ & Hr).
      apply bind_Ok_inv in Hr as ([next cells] & w2 & Hn & Hr).
      apply (IH _ _ _ _ _ _) in Hr; [exact Hr|].
      unfold bounded_by_stream in Hn. apply read_elements_rows in Hn; [|apply Hs].
      destruct Hs as (Hnodes & _ & Hf). repeat split; assumption.
    + apply bind_Ok_inv in Hr as (b & w1 & _ & Hr).
      apply bind_Ok_inv in Hr as ([next st1] & w2 & Hn & Hr).
      apply (IH _ _ _ _ _ _) in Hr; [exact Hr|].
      unfold bounded_by_stream in Hn. exact (read_surface_shape _ _ _ _ _ _ _ _ Hs Hn).
    + apply bind_Ok_inv in Hr as ([next st1] & w1 & Hn & Hr).
      apply (IH _ _ _ _ _ _) in Hr; [exact Hr|].
      exact (read_elset_shape _ _ _ _ _ _ Hs Hn).
    + apply bind_Ok_inv in Hr as (next & w1 & _ & Hr). exact (IH _ _ _ _ _ _ Hs Hr).
    + apply bind_Ok_inv in Hr as (st1 & w1 & Hn & Hr).
      apply (IH _ _ _ _ _ _) in Hr; [exact Hr|].
      exact (read_solid_section_shape _ _ _ _ _ Hs Hn).
    + exact (IH _ _ _ _ _ _ Hs Hr).
  - apply bind_Ok_inv in Hr as (l & w1 & _ & Hr). unfold if_in in Hr.
    destruct (stream_ok (input w1)).
    + exact (IH _ _ _ _ _ _ Hs Hr).
    + inv_Ok. exact Hs.
Qed.

(** Whatever the file, the bridge that [read_in_abaqus] fills keeps its
    shape: every node has a number and [spacedim] coordinates, every cell a
    material and as many nodes as a cell has vertices, and every face an
    indicator and as many nodes as a face has vertices. *)
Theorem read_in_abaqus_well_shaped (w : world) (st' : bridge) (w' : world) :
  read_in_abaqus dim spacedim bridge_empty w = (Ok st', w') -> well_shaped st'.
Proof.
  intros Hr. unfold read_in_abaqus in Hr.
  apply bind_Ok_inv in Hr as (u & w1 & _ & Hr). unfold bounded_by_stream in Hr.
  apply read_lines_shape in Hr; [exact Hr|].
  repeat split; constructor.
Qed.

End Bridge_rows.

Lemma read_in_abaqus_well_shaped_witness :
  @well_shaped release_platform 2 2
    (match fst (Abaqus_to_UCD.read_in_abaqus 2 2 Abaqus_to_UCD.bridge_empty (reading abaqus_material_7)) with
     | Ok st => st
     | _ => Abaqus_to_UCD.bridge_empty
     end).
Proof.
  apply (read_in_abaqus_well_shaped (PF := release_platform) 2 2
           (reading abaqus_material_7) _
           (snd (Abaqus_to_UCD.read_in_abaqus 2 2 Abaqus_to_UCD.bridge_empty (reading abaqus_material_7)))).
  reflexivity.
Defined.

Section Bridge_end_of_stream.
Context {PF : Platform}.
Import Abaqus_to_UCD.
Variables dim spacedim : Z.

Lemma toupper_toupper (c : ascii) : toupper (toupper c) = toupper c.
Proof. destruct c as [[] [] [] [] [] [] [] []]; reflexivity. Qed.

Lemma string_map_toupper_idempotent (s : string) :
  string_map toupper (string_map toupper s) = string_map toupper s.
Proof.
  induction s as [|c s IH]; [reflexivity|]. simpl. rewrite toupper_toupper, IH.
  reflexivity.
Qed.

Lemma elset_name_of_total (line : string) (w : world) :
  string_size line + 14 < 2 ^ 64 ->
  exists name, elset_name_of line w = (Ok name, w).
Proof.
  intros Hsize. unfold elset_name_of.
  pose proof (string_find_range "*ELSET, ELSET=" line 0 ltac:(discriminate))
    as Hrange.
  change (Z.of_nat 0) with 0 in Hrange.
  destruct Hrange as [-> | (k & -> & Hk)].
  - exists "". reflexivity.
  - change (String.length "*ELSET, ELSET=") with 14%nat in Hk.
    change (string_size "*ELSET, ELSET=") with 14.
    unfold string_size in Hsize.
    destruct (Z.eqb_spec (Z.of_nat k) npos); [eexists; reflexivity|].
    assert (Hs : size_t (Z.of_nat k + 14) = Z.of_nat k + 14)
      by (unfold size_t; apply Z.mod_small; lia).
    unfold substr_or_throw, string_substr. rewrite !Hs.
    destruct (Z.ltb_spec (string_size line) (Z.of_nat k + 14)) as [Hlt|];
      [unfold string_size in Hlt; lia|].
    eexists. reflexivity.
Qed.

Lemma getline_at_end (old : string) (i : istream) :
  eofbit i = true -> getline old i = (old, Istream (buf i) true true).
Proof.
  intros He. unfold getline, sentry, good, setstate. rewrite He.
  cbn [negb andb]. rewrite orb_true_r. reflexivity.
Qed.

Lemma read_elset_lines_at_end (passes : nat) (line : string) (w : world) :
  eofbit (input w) = true ->
  read_elset_lines (S passes) line [] w
  = (Ok (line, []), World (Istream (buf (input w)) true true) (tria w)).
Proof.
  intros He. cbn [read_elset_lines]. unfold bind, on_input.
  rewrite (getline_at_end _ _ He). reflexivity.
Qed.

Lemma read_lines_elset_at_end (LINE tail : string) :
  LINE = "*ELSET" +:+ tail ->
  string_map toupper LINE = LINE ->
  string_find LINE "GENERATE" 0 = npos ->
  string_size LINE + 14 < 2 ^ 64 ->
  forall passes l st w,
    eofbit (input w) = true ->
    fst (read_lines dim spacedim passes (Some LINE) l st w) = Hang.
Proof.
  intros Hstart Hupper Hgenerate Hsize.
  induction passes as [|passes IH]; intros l st w He; [reflexivity|].
  cbn [read_lines]. cbv zeta. rewrite Hupper.
  assert (String.eqb LINE "*HEADING" || compare_prefix LINE 2 "**"
          || compare_prefix LINE 5 "*PART" = false) as ->
    by (rewrite Hstart; reflexivity).
  assert (compare_prefix LINE 5 "*NODE" = false) as ->
    by (rewrite Hstart; reflexivity).
  assert (compare_prefix LINE 8 "*ELEMENT" = false) as ->
    by (rewrite Hstart; reflexivity).
  assert (compare_prefix LINE 8 "*SURFACE" = false) as ->
    by (rewrite Hstart; reflexivity).
  assert (compare_prefix LINE 6 "*ELSET" = true) as ->.
  { rewrite Hstart. unfold compare_prefix.
    change 6%nat with (String.length "*ELSET").
    pose proof (substring_middle "" "*ELSET" tail) as Hm.
    rewrite append_nil in Hm. simpl String.length in Hm at 1.
    rewrite Hm. reflexivity. }
  unfold bind at 1. unfold read_elset.
  destruct (elset_name_of_total LINE w Hsize) as [name Hname].
  unfold bind at 1. rewrite Hname. rewrite Hgenerate.
  change (npos =? npos) with true. cbv iota.
  unfold bind at 1. unfold bounded_by_stream.
  rewrite (read_elset_lines_at_end _ _ _ He).
  unfold ret at 1. cbn [fst snd].
  apply IH. reflexivity.
Qed.

(** An [*ELSET] card without [GENERATE] that is met when the stream is at
    its end, as the last line of a file is when no newline follows it: the
    loop over the lines comes back to the same card again and again, and
    [read_in_abaqus] does not return. *)
Theorem read_lines_elset_at_end_of_stream (line tail : string) (passes : nat)
    (l : string) (st : bridge) (w : world) :
  string_map toupper line = "*ELSET" +:+ tail ->
  string_find (string_map toupper line) "GENERATE" 0 = npos ->
  string_size line + 14 < 2 ^ 64 ->
  eofbit (input w) = true ->
  fst (read_lines dim spacedim passes (Some line) l st w) = Hang.
Proof.
  intros Hstart Hgenerate Hsize He.
  assert (Hlen : string_size (string_map toupper line) = string_size line).
  { unfold string_size. f_equal. clear.
    induction line as [|c s IH]; simpl; congruence. }
  destruct passes as [|passes]; [reflexivity|].
  pose proof (read_lines_elset_at_end (string_map toupper line) tail Hstart
                (string_map_toupper_idempotent line) Hgenerate
                ltac:(rewrite Hlen; exact Hsize) (S passes) l st w He) as Hh.
  cbn [read_lines] in Hh |- *. cbv zeta in Hh |- *.
  rewrite string_map_toupper_idempotent in Hh. exact Hh.
Qed.

End Bridge_end_of_stream.

Lemma read_lines_elset_at_end_of_stream_witness :
  fst (@Abaqus_to_UCD.read_lines release_platform 2 2 7 (Some "*Elset, elset=Set1") ""
         Abaqus_to_UCD.bridge_empty (World (Istream "" true false) []))
  = Hang.
Proof.
  apply (read_lines_elset_at_end_of_stream (PF := release_platform) 2 2
           "*Elset, elset=Set1" ", ELSET=SET1"); reflexivity.
Defined.

(** ** [read_unv]: labels without a vertex *)

Section UNV_labels.
Context {PF : Platform}.

(** The position that the map gives a label: 0 for a label it lacks. *)
Definition position_of (vertex_indices : gmap Z Z) (v : Z) : Z :=
  to_unsigned (default 0 (vertex_indices !! to_int v)).

Lemma map_index_value (m : gmap Z Z) (k : Z) :
  fst (map_index m k) = default 0 (m !! k)
  /\ forall k', default 0 (snd (map_index m k) !! k') = default 0 (m !! k').
Proof.
  unfold map_index. destruct (m !! k) as [n|] eqn:Hk; cbn [fst snd].
  - split; reflexivity.
  - split; [reflexivity|]. intros k'.
    destruct (decide (k = k')) as [<-|Hne].
    + rewrite lookup_insert_eq, Hk. reflexivity.
    + rewrite lookup_insert_ne by exact Hne. reflexivity.
Qed.

Lemma unv_renumber_positions (vs : list Z) :
  forall m, fst (unv_renumber m vs) = map (position_of m) vs.
Proof.
  induction vs as [|v vs IH]; intros m; [reflexivity|].
  cbn [unv_renumber map].
  destruct (map_index_value m (to_int v)) as [Hv Hrest].
  destruct (map_index m (to_int v)) as [n m1]. cbn [fst snd] in *.
  specialize (IH m1). destruct (unv_renumber m1 vs) as [ns m2]. cbn [fst] in *.
  subst. unfold position_of at 1. f_equal.
  apply map_ext. intros k. unfold position_of. rewrite Hrest. reflexivity.
Qed.

(** An entry of the element section, whenever it has been read: its
    vertices are the numbers of the file, each replaced by the position of
    the vertex with that label, and a label that no vertex has is replaced
    by 0, the position of the first vertex of the file, without a
    complaint.  The id of the entry is 0. *)
Theorem read_unv_entry_positions (structdim : Z) (vertex_indices : gmap Z Z)
    (w : world) (c : CellData) (m : gmap Z Z) (w' : world) :
  read_unv_entry structdim vertex_indices w = (Ok (c, m), w') ->
  vertices c
  = map (position_of vertex_indices)
        (fst (extract_unsigned_each 32
                (repeat invalid_unsigned_int (vertices_per_cell structdim))
                (input w)))
  /\ material_id c = 0.
Proof.
  intros Hr. unfold read_unv_entry in Hr.
  apply bind_Ok_inv in Hr as ([] & w1 & Ha & Hr).
  apply AssertThrow_in_Ok_inv in Ha as [_ ->].
  apply bind_Ok_inv in Hr as (vs & w2 & Hvs & Hr).
  unfold on_input in Hvs. cbn [CellData_default vertices] in Hvs.
  destruct (extract_unsigned_each 32 _ (input w)) as [vs0 i0] eqn:He.
  injection Hvs as <- <-.
  pose proof (unv_renumber_positions vs0 vertex_indices) as Hp.
  destruct (unv_renumber vertex_indices vs0) as [ns m'].
  apply ret_Ok_inv in Hr as [Hr _]. injection Hr as Hc Hm. subst c m.
  cbn [fst] in *. split; [exact Hp | reflexivity].
Qed.

End UNV_labels.

Lemma read_unv_entry_positions_witness :
  vertices (mkCellData [0; 1; 2; 0] 0 (2 ^ 32 - 1))
  = map (position_of {[1 := 0; 2 := 1; 3 := 2]})
        (fst (extract_unsigned_each 32
                (repeat (@invalid_unsigned_int) (vertices_per_cell 2))
                (input (reading "1 2 3 9"))))
  /\ material_id (mkCellData [0; 1; 2; 0] 0 (2 ^ 32 - 1)) = 0.
Proof.
  apply (read_unv_entry_positions (PF := release_platform) 2
           {[1 := 0; 2 := 1; 3 := 2]} (reading "1 2 3 9") _
           (<[9 := 0]> {[1 := 0; 2 := 1; 3 := 2]})
           (World (Istream "" true false) [])).
  reflexivity.
Defined.

(** ** [read_ucd]: labels without a vertex *)

Section UCD_labels.
Context {PF : Platform} {CO : Collaborators}.

(** The position that the map gives a label, and the first label of an
    entry that the map lacks. *)
Definition ucd_position (vertex_indices : gmap Z Z) (v : Z) : Z :=
  match vertex_indices !! to_int v with
  | Some n => to_unsigned n
  | None => invalid_unsigned_int
  end.

Definition first_unknown (vertex_indices : gmap Z Z) (vs : list Z) : option Z :=
  List.find (fun v => negb (bool_decide (is_Some (vertex_indices !! to_int v)))) vs.

(** The vertices of a cell or of a boundary line of a UCD file are
    replaced by their positions; the entry is refused, with the exception
    naming the label, at the first label that no vertex has.  For a
    boundary quad the same test is a debug-mode assertion: a release build
    accepts the quad and gives the vertex the invalid index. *)
Theorem ucd_labels_without_vertex (vertex_indices : gmap Z Z) (e : Z -> exc)
    (vs : list Z) (w : world) :
  renumber_or_throw vertex_indices e vs w
  = match first_unknown vertex_indices vs with
    | None => (Ok (map (ucd_position vertex_indices) vs), w)
    | Some v => (Throw (e v), w)
    end
  /\ renumber_or_Assert vertex_indices e vs w
     = match first_unknown vertex_indices vs with
       | Some v =>
           if debug_mode then (Abort (e v), w)
           else (Ok (map (ucd_position vertex_indices) vs), w)
       | None => (Ok (map (ucd_position vertex_indices) vs), w)
       end.
Proof.
  unfold first_unknown, ucd_position.
  induction vs as [|v vs [IHt IHa]]; [split; reflexivity|].
  cbn [renumber_or_throw renumber_or_Assert List.find map].
  destruct (vertex_indices !! to_int v) as [n|] eqn:Hv.
  - rewrite bool_decide_eq_true_2 by (eexists; reflexivity). cbn [negb].
    unfold bind at 1 3. unfold ret at 1 3. unfold bind at 1 2.
    rewrite IHt, IHa.
    destruct (List.find _ vs) as [u|]; [|split; reflexivity].
    split; [reflexivity|]. destruct debug_mode; reflexivity.
  - rewrite bool_decide_eq_false_2 by (intros [? ?]; discriminate). cbn [negb].
    split; [reflexivity|].
    unfold bind at 1. unfold bind at 1. unfold Assert.
    destruct debug_mode eqn:Hd; cbn [negb andb]; [reflexivity|].
    unfold ret at 1. unfold ret at 1. unfold bind at 1. rewrite IHa.
    destruct (List.find _ vs) as [u|]; reflexivity.
Qed.

End UCD_labels.

(** ** [read_dbmesh] *)

Section DBMESH_properties.
Context {PF : Platform} {CO : Collaborators}.
Variables dim spacedim : Z.
Variable ExcInvalidDBMESHInput : string -> exc.
Variable ExcDBMESHWrongDimension : Z -> exc.
Variable ExcInvalidDBMeshFormat : exc.

Ltac contract_step :=
  match goal with
  | |- sink_contract _ (create_triangulation_compatibility _ _ _ _) _ =>
      apply sink_contract_create
  | |- sink_contract _ (bind _ _) _ =>
      apply sink_contract_bind; [solve [frame] | intros ? ?]
  | |- sink_contract _ (match ?x with _ => _ end) _ => destruct x
  end.

Lemma keeps_tria_dbmesh_keyword k l :
  keeps_tria (dbmesh_keyword ExcInvalidDBMESHInput k l).
Proof. unfold dbmesh_keyword. frame. Qed.

Lemma keeps_tria_dbmesh_skip_to_END n l : keeps_tria (dbmesh_skip_to_END n l).
Proof. revert l. induction n; intros l; cbn [dbmesh_skip_to_END]; frame. Qed.

Lemma keeps_tria_dbmesh_skip_to_End n l : keeps_tria (dbmesh_skip_to_End n l).
Proof. revert l. induction n; intros l; cbn [dbmesh_skip_to_End]; frame. Qed.

#[local] Hint Resolve keeps_tria_dbmesh_keyword keeps_tria_dbmesh_skip_to_END
  keeps_tria_dbmesh_skip_to_End keeps_tria_read_coordinate : frame.

Lemma keeps_tria_read_dbmesh_vertex v st :
  keeps_tria (read_dbmesh_vertex dim v st).
Proof. unfold read_dbmesh_vertex. frame. Qed.

Lemma keeps_tria_read_dbmesh_edge e d : keeps_tria (read_dbmesh_edge e d).
Proof. unfold read_dbmesh_edge. frame. Qed.

#[local] Hint Resolve keeps_tria_read_dbmesh_vertex keeps_tria_read_dbmesh_edge
  : frame.

Lemma keeps_tria_read_dbmesh_edges k l n d :
  keeps_tria (read_dbmesh_edges ExcInvalidDBMESHInput ExcInvalidDBMeshFormat k l n d).
Proof. unfold read_dbmesh_edges. frame. Qed.

Lemma keeps_tria_read_dbmesh_cell_vertex cell n i c :
  keeps_tria (read_dbmesh_cell_vertex cell n i c).
Proof. unfold read_dbmesh_cell_vertex. frame. Qed.

#[local] Hint Resolve keeps_tria_read_dbmesh_edges
  keeps_tria_read_dbmesh_cell_vertex : frame.

Lemma keeps_tria_read_dbmesh_cell n cell st :
  keeps_tria (read_dbmesh_cell dim n cell st).
Proof. unfold read_dbmesh_cell. frame. Qed.

#[local] Hint Resolve keeps_tria_read_dbmesh_cell : frame.

Lemma keeps_tria_read_dbmesh_parse :
  keeps_tria (read_dbmesh_parse dim spacedim ExcInvalidDBMESHInput
                ExcDBMESHWrongDimension ExcInvalidDBMeshFormat).
Proof. unfold read_dbmesh_parse. frame. Qed.

#[local] Hint Resolve keeps_tria_read_dbmesh_parse : frame.

Lemma read_dbmesh_contract (w : world) :
  sink_contract dim
    (read_dbmesh dim spacedim ExcInvalidDBMESHInput ExcDBMESHWrongDimension
       ExcInvalidDBMeshFormat) w.
Proof. unfold read_dbmesh. repeat contract_step. Qed.

(** Whatever the input, a [read_dbmesh] that fails has made no call to the
    triangulation, unless the failure is the triangulation's refusal of
    the mesh handed to it at the very end; a read that ends well has made
    the one construction call. *)
Theorem read_dbmesh_and_the_triangulation (w : world) :
  sink_contract dim
    (read_dbmesh dim spacedim ExcInvalidDBMESHInput ExcDBMESHWrongDimension
       ExcInvalidDBMeshFormat) w.
Proof. apply read_dbmesh_contract. Qed.

(** A cell whose vertices are all positions of a vector of [n] vertices. *)
Definition refers_within (n : nat) (c : CellData) : Prop :=
  Forall (fun v => 0 <= v < Z.of_nat n) (vertices c).

Lemma read_dbmesh_cell_vertex_within (cell : Z) (n : nat) (k : nat)
    (c c' : CellData) (w w' : world) :
  (forall j v, (j < k)%nat -> vertices c !! j = Some v -> 0 <= v < Z.of_nat n) ->
  read_dbmesh_cell_vertex cell n (0 + Z.of_nat k) c w = (Ok c', w') ->
  length (vertices c') = length (vertices c)
  /\ forall j v, (j < S k)%nat -> vertices c' !! j = Some v ->
                 0 <= v < Z.of_nat n.
Proof.
  intros Hc Hr. unfold read_dbmesh_cell_vertex in Hr.
  replace (Z.to_nat (0 + Z.of_nat k)) with k in Hr by lia.
  destruct (vertices c !! k) as [old|] eqn:Hold; [|discriminate Hr].
  apply bind_Ok_inv in Hr as (v & w1 & _ & Hr).
  apply bind_Ok_inv in Hr as ([] & w2 & Ha & Hr).
  apply AssertThrow_Ok_inv in Ha as [Hv _].
  apply ret_Ok_inv in Hr as [Hc' _]. subst c'. cbn [set_vertices vertices].
  split; [apply length_insert|].
  intros j x Hj Hx.
  destruct (decide (j = k)) as [->|Hne].
  - rewrite list_lookup_insert_eq in Hx by (apply (lookup_lt_Some _ _ _ Hold)).
    injection Hx as <-. unfold u32.
    pose proof (Z.mod_pos_bound (v - 1) (2 ^ 32) ltac:(lia)).
    pose proof (Z.mod_le (v - 1) (2 ^ 32) ltac:(lia) ltac:(lia)). lia.
  - rewrite list_lookup_insert_ne in Hx by congruence.
    apply (Hc j x); [lia | exact Hx].
Qed.

Lemma read_dbmesh_cell_within (n : nat) (cell : Z)
    (st st' : list CellData * double) (w w' : world) :
  Forall (refers_within n) (fst st) ->
  read_dbmesh_cell dim n cell st w = (Ok st', w') ->
  Forall (refers_within n) (fst st').
Proof.
  intros Hst Hr. unfold read_dbmesh_cell in Hr.
  apply bind_Ok_inv in Hr as (c & w1 & Hc & Hr).
  apply bind_Ok_inv in Hr as (dummy & w2 & _ & Hr).
  apply ret_Ok_inv in Hr as [Hst' _]. subst st'. cbn [fst].
  apply Forall_app. split; [exact Hst|]. constructor; [|constructor].
  apply (for_loop_indexed
           (fun k c => length (vertices c) = vertices_per_cell dim
                       /\ forall j v, (j < k)%nat -> vertices c !! j = Some v ->
                                      0 <= v < Z.of_nat n)) in Hc.
  - destruct Hc as [Hlen Hall]. unfold refers_within.
    apply Forall_lookup. intros j v Hj. apply (Hall j v); [|exact Hj].
    rewrite <- Hlen. exact (lookup_lt_Some _ _ _ Hj).
  - split; [apply repeat_length | intros j v Hj; lia].
  - intros k c1 c2 w3 w4 Hk [Hlen Hall] Hb.
    destruct (read_dbmesh_cell_vertex_within _ _ _ _ _ _ _ Hall Hb) as [Hl Ha].
    split; [congruence | exact Ha].
Qed.

(** The vertex numbers of a DB Mesh file count from one and are checked:
    when the file has been read, every cell refers to positions of the
    vector of vertices only. *)
Theorem read_dbmesh_cells_refer_to_vertices (w : world)
    (vertices : list Point) (cells : list CellData) (w' : world) :
  read_dbmesh_parse dim spacedim ExcInvalidDBMESHInput ExcDBMESHWrongDimension
    ExcInvalidDBMeshFormat w
  = (Ok (vertices, cells), w') ->
  Forall (refers_within (length vertices)) cells.
Proof.
  intros Hr. unfold read_dbmesh_parse in Hr.
  do 13 (apply bind_Ok_inv in Hr as (? & ? & _ & Hr)).
  apply bind_Ok_inv in Hr as ([vs dummy] & w1 & Hvs & Hr).
  do 2 (apply bind_Ok_inv in Hr as (? & ? & _ & Hr)).
  apply bind_Ok_inv in Hr as ([[l1 n1] d1] & w2 & _ & Hr).
  apply bind_Ok_inv in Hr as ([[l2 n2] d2] & w3 & _ & Hr).
  do 2 (apply bind_Ok_inv in Hr as (? & ? & _ & Hr)).
  apply bind_Ok_inv in Hr as ([cs d3] & w4 & Hcells & Hr).
  do 3 (apply bind_Ok_inv in Hr as (? & ? & _ & Hr)).
  apply ret_Ok_inv in Hr as [Hr _]. injection Hr as Hv Hc. subst vertices cells.
  apply (for_loop_invariant (fun _ st => Forall (refers_within (length vs)) (fst st)))
    in Hcells; [exact Hcells | constructor |].
  intros k i s1 s2 w5 w6 Hs Hb. exact (read_dbmesh_cell_within _ _ _ _ _ _ Hs Hb).
Qed.

Lemma dbmesh_skip_to_END_at_end (passes : nat) :
  forall line i t,
    good i = false ->
    string_find line "# END" 0 = npos ->
    fst (dbmesh_skip_to_END passes line (World i t)) = Hang.
Proof.
  induction passes as [|passes IH]; intros line i t Hi Hline; [reflexivity|].
  cbn [dbmesh_skip_to_END]. unfold bind, on_input, getline, sentry.
  cbn [input tria]. rewrite Hi, Hline. change (npos =? npos) with true.
  cbv iota. apply IH; [|exact Hline].
  unfold good, setstate. cbn [eofbit failbit]. rewrite orb_true_r, andb_false_r.
  reflexivity.
Qed.

(** A stream in which no line contains [# END]: the loop of [read_dbmesh]
    that looks for such a line does not look at the state of the stream,
    and never ends.  The stream is the lines [lines], each followed by a
    newline, and a last line [last] that is not. *)
Theorem dbmesh_skip_to_END_without_END (lines : list string) (last : string)
    (passes : nat) (line : string) (t : Triangulation) :
  Forall (fun l => without newline l = true
                   /\ string_find l "# END" 0 = npos) lines ->
  without newline last = true -> string_find last "# END" 0 = npos ->
  fst (dbmesh_skip_to_END passes line
         (World (istream_of (lines_text lines +:+ last)) t))
  = Hang.
Proof.
  intros Hlines Hnl Hlast. revert passes line.
  induction Hlines as [|l lines [Hl Hfind] _ IH]; intros passes line;
    (destruct passes as [|passes]; [reflexivity|]);
    cbn [dbmesh_skip_to_END lines_text]; rewrite ?append_nil;
    unfold bind, on_input; cbn [input tria].
  - destruct last as [|c last].
    + change (getline line (istream_of "")) with ("", Istream "" true true).
      change (string_find "" "# END" 0 =? npos) with true. cbv iota.
      apply dbmesh_skip_to_END_at_end; reflexivity.
    + rewrite getline_last by (first [exact Hnl | reflexivity]).
      rewrite Hlast. change (npos =? npos) with true. cbv iota.
      apply dbmesh_skip_to_END_at_end; [reflexivity | exact Hlast].
  - rewrite append_assoc, append_cons.
    rewrite getline_line by exact Hl.
    rewrite Hfind. change (npos =? npos) with true. cbv iota. apply IH.
Qed.

End DBMESH_properties.

(** ** [read_abaqus] *)

Section Bridge_frame.
Context {PF : Platform}.
Import Abaqus_to_UCD.

Lemma keeps_tria_substr_or_throw s p l : keeps_tria (substr_or_throw s p l).
Proof. unfold substr_or_throw. frame. Qed.

#[local] Hint Resolve keeps_tria_substr_or_throw : frame.

Lemma keeps_tria_skip_section n l : keeps_tria (skip_section n l).
Proof. revert l. induction n; intros l; cbn [skip_section]; frame. Qed.

Lemma keeps_tria_read_nodes sd n l nodes : keeps_tria (read_nodes sd n l nodes).
Proof. revert l nodes. induction n; intros l nodes; cbn [read_nodes]; frame. Qed.

Lemma keeps_tria_read_elements d n m l cells :
  keeps_tria (read_elements d n m l cells).
Proof.
  revert l cells. induction n; intros l cells; cbn [read_elements]; frame.
Qed.

Lemma keeps_tria_read_surface d n b l st : keeps_tria (read_surface d n b l st).
Proof. revert l st. induction n; intros l st; cbn [read_surface]; frame. Qed.

Lemma keeps_tria_read_elset_generate l : keeps_tria (read_elset_generate l).
Proof.
  unfold read_elset_generate.
  destruct (extract_signed _ _) as [? ?]. destruct (extract_char _ _) as [? ?].
  destruct (extract_signed _ _) as [? ?].
  repeat first [ frame_step
               | match goal with
                 | |- keeps_tria (let '(_, _) := ?x in _) => destruct x
                 end ].
Qed.

Lemma keeps_tria_read_elset_numbers n l e c i els :
  keeps_tria (read_elset_numbers n l e c i els).
Proof.
  revert e c i els. induction n; intros e c i els; cbn [read_elset_numbers];
    [frame|].
  destruct (eofbit i); [frame|].
  destruct (extract_signed e i) as [? ?]. destruct (extract_char _ _) as [? ?].
  frame.
Qed.

#[local] Hint Resolve keeps_tria_read_elset_numbers : frame.

Lemma keeps_tria_read_elset_lines n l els : keeps_tria (read_elset_lines n l els).
Proof.
  revert l els. induction n; intros l els; cbn [read_elset_lines]; frame.
Qed.

Lemma keeps_tria_elset_name_of l : keeps_tria (elset_name_of l).
Proof. unfold elset_name_of. frame. Qed.

#[local] Hint Resolve keeps_tria_read_elset_generate keeps_tria_read_elset_lines
  keeps_tria_elset_name_of : frame.

Lemma keeps_tria_read_elset l st : keeps_tria (read_elset l st).
Proof. unfold read_elset. frame. Qed.

Lemma keeps_tria_solid_section_elset l : keeps_tria (solid_section_elset l).
Proof. unfold solid_section_elset. frame. Qed.

Lemma keeps_tria_solid_section_material l : keeps_tria (solid_section_material l).
Proof. unfold solid_section_material. frame. Qed.

#[local] Hint Resolve keeps_tria_solid_section_elset
  keeps_tria_solid_section_material : frame.

Lemma keeps_tria_read_solid_section l st : keeps_tria (read_solid_section l st).
Proof. unfold read_solid_section. frame. Qed.

Lemma keeps_tria_element_material l : keeps_tria (element_material l).
Proof. unfold element_material. frame. Qed.

Lemma keeps_tria_surface_indicator l : keeps_tria (surface_indicator l).
Proof. unfold surface_indicator. frame. Qed.

#[local] Hint Resolve keeps_tria_skip_section keeps_tria_read_nodes
  keeps_tria_read_elements keeps_tria_read_surface keeps_tria_read_elset
  keeps_tria_read_solid_section keeps_tria_element_material
  keeps_tria_surface_indicator : frame.

Lemma keeps_tria_read_lines d sd n p l st : keeps_tria (read_lines d sd n p l st).
Proof.
  revert p l st. induction n; intros p l st; cbn [read_lines]; frame.
Qed.

#[local] Hint Resolve keeps_tria_read_lines : frame.

Lemma keeps_tria_read_in_abaqus d sd st : keeps_tria (read_in_abaqus d sd st).
Proof. unfold read_in_abaqus. frame. Qed.

End Bridge_frame.

Section Abaqus_reader_properties.
Context {PF : Platform} {CO : Collaborators}.
Variables dim spacedim : Z.
Variable double_general : double -> string.
Variable double_scientific : double -> string.
Variable double_abs : double -> double.
Import Abaqus_to_UCD.

(** What [read_abaqus] may do to the triangulation: as the other readers,
    but when the triangulation refuses the mesh the exception is not the
    triangulation's own: it is [internal_conversion_unsuccessful]. *)
Definition abaqus_contract (m : M unit) (w : world) : Prop :=
  match m w with
  | (Ok _, w') =>
      exists v c s,
        tria w' = tria w ++ [called_create_triangulation_compatibility v c s]
        /\ tria_refuses dim v c s = None
  | (Throw e, w') =>
      tria w' = tria w \/
      exists v c s,
        tria w' = tria w ++ [called_create_triangulation_compatibility v c s]
        /\ is_Some (tria_refuses dim v c s)
        /\ e = internal_conversion_unsuccessful
  | (_, w') => tria w' = tria w
  end.

Lemma abaqus_contract_bind {A} (m : M A) (k : A -> M unit) (w : world) :
  keeps_tria m ->
  (forall a w1, abaqus_contract (k a) w1) ->
  abaqus_contract (bind m k) w.
Proof.
  intros Hm Hk. unfold abaqus_contract, bind. specialize (Hm w).
  destruct (m w) as [[a| e | e | |] w1]; simpl in Hm; auto.
  specialize (Hk a w1). unfold abaqus_contract in Hk.
  rewrite Hm in Hk. exact Hk.
Qed.

Lemma abaqus_contract_read_ucd_of_text (flag : bool) (text : string) (w : world) :
  abaqus_contract (read_ucd_of_text dim spacedim flag text) w.
Proof.
  unfold abaqus_contract, read_ucd_of_text.
  pose proof (read_ucd_contract dim spacedim flag
                (World (istream_of text) (tria w))) as Hc.
  unfold sink_contract in Hc.
  destruct (read_ucd dim spacedim flag _) as [[[]| e | e | |] w1];
    cbn [tria] in *; try exact Hc.
  destruct Hc as [Hc | (v & c & s & Hc & Hr)]; [left; exact Hc|].
  right. exists v, c, s. split; [exact Hc|]. split; [|reflexivity].
  rewrite Hr. eexists. reflexivity.
Qed.

Lemma read_abaqus_contract (flag : bool) (w : world) :
  abaqus_contract
    (read_abaqus dim spacedim double_general double_scientific double_abs flag) w.
Proof.
  unfold read_abaqus.
  apply abaqus_contract_bind; [solve [frame] | intros ? ?].
  apply abaqus_contract_bind; [solve [frame] | intros ? ?].
  apply abaqus_contract_bind; [solve [frame] | intros ? ?].
  apply abaqus_contract_bind; [apply keeps_tria_read_in_abaqus | intros st ?].
  apply abaqus_contract_bind; [solve [frame] | intros text ?].
  apply abaqus_contract_read_ucd_of_text.
Qed.

(** Whatever the input, a [read_abaqus] that fails has made no call to the
    triangulation, unless the triangulation refused the mesh that the
    internal UCD reader handed to it; and then the exception that leaves
    [read_abaqus] is not the triangulation's: every exception of the
    second stage is replaced by the one message about the internal
    conversion.  A read that ends well has made the one construction
    call. *)
Theorem read_abaqus_and_the_triangulation
    (apply_all_indicators_to_manifolds : bool) (w : world) :
  abaqus_contract
    (read_abaqus dim spacedim double_general double_scientific double_abs
       apply_all_indicators_to_manifolds) w.
Proof. apply read_abaqus_contract. Qed.

Lemma write_row_Ok (show : double -> string) (row : list double) (n : nat) :
  forall first,
    0 <= first -> first + Z.of_nat n <= Z.of_nat (length row) ->
    exists text, write_row show row first n = Ok text.
Proof.
  induction n as [|n IH]; intros first Hf Hn; [exists ""; reflexivity|].
  cbn [write_row].
  destruct (lookup_lt_is_Some_2 row (Z.to_nat first)) as [x Hx]; [lia|].
  rewrite (vector_get_Ok row first x Hf Hx).
  destruct (IH (first + 1)) as [rest ->]; [lia | lia |].
  eexists. reflexivity.
Qed.

Lemma write_rows_Ok (write : bool -> Z -> list double -> result string)
    (n : nat) (l : list (list double)) :
  (forall wide ii row, length row = n -> exists text, write wide ii row = Ok text) ->
  Forall (fun row => length row = n) l ->
  forall wide ii, exists text, write_rows write wide ii l = Ok text.
Proof.
  intros Hwrite Hl. induction Hl as [|row l Hrow _ IH]; intros wide ii.
  - exists "". reflexivity.
  - cbn [write_rows]. destruct (Hwrite wide ii row Hrow) as [a ->].
    destruct (IH false (ii + 1)) as [b ->]. eexists. reflexivity.
Qed.

(** The two stages of the bridge fit: whatever the file, when
    [read_in_abaqus] returns, [write_out_avs_ucd] finds every entry that it
    writes: it reads no node, cell or face past its end. *)
Theorem write_out_avs_ucd_after_read_in_abaqus (w : world) (st : bridge)
    (w' : world) :
  0 <= spacedim ->
  read_in_abaqus dim spacedim bridge_empty w = (Ok st, w') ->
  exists text,
    write_out_avs_ucd dim spacedim double_general double_scientific double_abs st
    = Ok text.
Proof.
  intros Hsd Hr. unfold read_in_abaqus in Hr.
  apply bind_Ok_inv in Hr as (u & w1 & _ & Hr). unfold bounded_by_stream in Hr.
  apply read_lines_shape in Hr; [|repeat split; constructor].
  destruct Hr as (Hnodes & Hcells & Hfaces).
  unfold write_out_avs_ucd.
  destruct (write_rows_Ok
              (fun wide _ => write_node spacedim double_general double_scientific
                               double_abs wide)
              (Z.to_nat (spacedim + 1)) (node_list st)) with (wide := true) (ii := 0)
    as [nodes ->]; [| exact Hnodes |].
  { intros wide ii row Hrow. unfold write_node.
    destruct (lookup_lt_is_Some_2 row 0) as [x Hx]; [lia|].
    rewrite (vector_get_Ok row 0 x (Z.le_refl 0) Hx).
    destruct (write_row_Ok (write_coordinate double_scientific double_abs) row
                (Z.to_nat spacedim) 1) as [cs ->]; [lia | lia |].
    eexists. reflexivity. }
  destruct (write_rows_Ok
              (fun wide => write_entry double_general wide
                             (if dim =? 2 then "quad" else "hex")
                             (vertices_per_cell dim))
              (S (vertices_per_cell dim)) (cell_list st))
    with (wide := Nat.eqb (length (node_list st)) 0) (ii := 0)
    as [cells ->]; [| exact Hcells |].
  { intros wide ii row Hrow. unfold write_entry.
    destruct (lookup_lt_is_Some_2 row 0) as [x Hx]; [lia|].
    rewrite (vector_get_Ok row 0 x (Z.le_refl 0) Hx).
    destruct (write_row_Ok double_general row (vertices_per_cell dim) 1)
      as [cs ->]; [lia | lia |].
    eexists. reflexivity. }
  destruct (write_rows_Ok
              (fun wide => write_entry double_general wide
                             (if dim =? 2 then "line" else "quad")
                             (Z.to_nat (2 ^ (dim - 1))))
              (S (Z.to_nat (2 ^ (dim - 1)))) (face_list st))
    with (wide := Nat.eqb (length (node_list st)) 0
                  && Nat.eqb (length (cell_list st)) 0) (ii := 0)
    as [faces ->]; [| exact Hfaces |].
  { intros wide ii row Hrow. unfold write_entry.
    destruct (lookup_lt_is_Some_2 row 0) as [x Hx]; [lia|].
    rewrite (vector_get_Ok row 0 x (Z.le_refl 0) Hx).
    destruct (write_row_Ok double_general row (Z.to_nat (2 ^ (dim - 1))) 1)
      as [cs ->]; [lia | lia |].
    eexists. reflexivity. }
  eexists. reflexivity.
Qed.

End Abaqus_reader_properties.

(** ** [read(std::istream &, Format)] *)

Section Dispatch_properties.
Context {PF : Platform} {CO : Collaborators}.
Variables dim spacedim : Z.
Variable ExcInvalidDBMESHInput : string -> exc.
Variable ExcDBMESHWrongDimension : Z -> exc.
Variable ExcInvalidDBMeshFormat : exc.
Variable double_general : double -> string.
Variable double_scientific : double -> string.
Variable double_abs : double -> double.
Variable apply_all_indicators_to_manifolds : bool.

(** The triangulation has received one construction call, and after it
    nothing but boundary ids. *)
Definition constructed_once (w w' : world) : Prop :=
  exists v c s ids,
    tria w' = tria w ++ called_create_triangulation_compatibility v c s :: ids
    /\ forallb is_set_boundary_id ids = true.

(** What a read may do to the triangulation, whatever the format: nothing,
    or one construction; and nothing when it neither returns nor throws. *)
Definition read_outcome (m : M unit) (w : world) : Prop :=
  match m w with
  | (Ok _, w') | (Throw _, w') => tria w' = tria w \/ constructed_once w w'
  | (_, w') => tria w' = tria w
  end.

Lemma read_outcome_contract (d : Z) (m : M unit) (w : world) :
  sink_contract d m w -> read_outcome m w.
Proof.
  unfold sink_contract, read_outcome, constructed_once.
  destruct (m w) as [[[]| e | e | |] w1]; auto.
  - intros (v & c & s & Ht & _). right. exists v, c, s, []. auto.
  - intros [Ht | (v & c & s & Ht & _)]; [left; exact Ht|].
    right. exists v, c, s, []. auto.
Qed.

Lemma read_outcome_contract_1d (m : M unit) (w : world) :
  sink_contract_1d m w -> read_outcome m w.
Proof.
  unfold sink_contract_1d, read_outcome, constructed_once.
  destruct (m w) as [[[]| e | e | |] w1]; auto.
  intros [Ht | (v & c & s & ids & Ht & Hids & _)]; [left; exact Ht|].
  right. exists v, c, s, ids. auto.
Qed.

Lemma read_outcome_abaqus (m : M unit) (w : world) :
  abaqus_contract dim m w -> read_outcome m w.
Proof.
  unfold abaqus_contract, read_outcome, constructed_once.
  destruct (m w) as [[[]| e | e | |] w1]; auto.
  - intros (v & c & s & Ht & _). right. exists v, c, s, []. auto.
  - intros [Ht | (v & c & s & Ht & _)]; [left; exact Ht|].
    right. exists v, c, s, []. auto.
Qed.

Lemma read_outcome_Assert (e : exc) (w : world) :
  read_outcome (Assert false e) w.
Proof.
  unfold read_outcome, Assert. destruct debug_mode; cbn; auto.
Qed.

(** The reader of streams, for each of the formats: whatever the input, a
    read makes at most one construction call to the triangulation, which
    only calls that set boundary ids can follow; a read that neither
    returns nor throws has made no call. *)
Theorem read_and_the_triangulation (format : Format) (w : world) :
  read_outcome
    (read dim spacedim ExcInvalidDBMESHInput ExcDBMESHWrongDimension
       ExcInvalidDBMeshFormat double_general double_scientific double_abs
       apply_all_indicators_to_manifolds format) w.
Proof.
  unfold read, default_format.
  destruct format; cbv iota;
    try apply read_outcome_Assert;
    try (apply (read_outcome_contract dim);
         first [ apply read_unv_contract | apply read_ucd_contract
               | apply read_dbmesh_contract | apply read_vtk_contract ]).
  - apply read_outcome_abaqus, read_abaqus_contract.
  - unfold read_xda.
    destruct ((dim =? 2) && (spacedim =? 2));
      [apply (read_outcome_contract 2), read_xda_2_contract|].
    destruct ((dim =? 3) && (spacedim =? 3));
      [apply (read_outcome_contract 3), read_xda_3_contract|].
    apply read_outcome_Assert.
  - destruct (dim =? 1) eqn:Hd.
    + apply Z.eqb_eq in Hd. subst dim.
      apply read_outcome_contract_1d, read_msh_contract_1d.
    + apply (read_outcome_contract dim), read_msh_contract. exact Hd.
  - unfold read_tecplot_in.
    destruct ((dim =? 2) && (spacedim =? 2));
      [apply (read_outcome_contract 2), read_tecplot_contract|].
    apply read_outcome_Assert.
Qed.

End Dispatch_properties.

(** ** The header of a tecplot file: [K=] *)

Section Tecplot_K.
Context {PF : Platform} {CO : Collaborators}.

(** [Utilities::match_at_string_start(name, pattern)] tells whether [name]
    starts with [pattern]. *)
Hypothesis match_at_string_start_prefix :
  forall name pattern,
    match_at_string_start name pattern = String.prefix pattern name.

(** [IJK] has one entry for each dimension, and the entry [K=] of a header
    is stored in [IJK[2]] before the dimension is looked at: in two
    dimensions (and in one) the store is past the end of the vector, and
    the behaviour of the reader is undefined, also for [K=1], which the
    check after the store would accept. *)
Theorem parse_tecplot_entry_K (dim : Z) (entry : string) (h : tecplot_header)
    (w : world) :
  String.prefix "K=" entry = true ->
  (length (IJK h) <= 2)%nat ->
  parse_tecplot_entry dim entry h w = (Undefined, w).
Proof.
  intros Hk Hlen. unfold parse_tecplot_entry.
  rewrite !match_at_string_start_prefix.
  destruct entry as [|a entry]; [discriminate Hk|].
  cbn [String.prefix] in Hk.
  destruct (ascii_dec "K" a) as [<-|]; [|discriminate Hk].
  destruct entry as [|b rest]; [discriminate Hk|].
  cbn [String.prefix] in Hk.
  destruct (ascii_dec "=" b) as [<-|]; [|discriminate Hk].
  cbn [String.prefix ascii_dec ascii_rec ascii_rect Bool.bool_dec bool_rec bool_rect
       andb sumbool_rec sumbool_rect].
  rewrite prefix_nil. cbv iota beta.
  unfold bind at 1. unfold bind at 1. unfold vector_set.
  destruct (Z.ltb_spec 2 (Z.of_nat (length (IJK h)))); [lia|].
  reflexivity.
Qed.

End Tecplot_K.

Lemma parse_tecplot_entry_K_witness :
  @parse_tecplot_entry release_platform release 2 "K=1"
    (TecplotHeader [0; 0] 0 0 0 [0; 0] true false) (reading "")
  = (Undefined, reading "").
Proof.
  apply (parse_tecplot_entry_K (CO := release)).
  - intros name pattern. reflexivity.
  - reflexivity.
  - simpl. lia.
Defined.

(** ** The loops of [read_unv] end *)

Section Stream_length.
Context {PF : Platform}.

Lemma length_skipws (s : string) :
  (String.length (skipws s) <= String.length s)%nat.
Proof.
  induction s as [|c s IH]; [simpl; lia|]. cbn [skipws].
  destruct (isspace c); simpl; lia.
Qed.

Lemma length_span (p : ascii -> bool) (s : string) :
  (String.length (fst (span p s)) + String.length (snd (span p s))
   = String.length s)%nat.
Proof.
  induction s as [|c s IH]; [reflexivity|]. cbn [span].
  destruct (p c); [|reflexivity].
  destruct (span p s) as [a b]. simpl in *. lia.
Qed.

Lemma length_scan_integer (s : string) :
  (String.length (snd (fst (scan_integer s))) + String.length (snd (scan_integer s))
   <= String.length s)%nat.
Proof.
  unfold scan_integer.
  assert (Hs : forall t, (String.length t <= String.length s)%nat ->
             let '(ds, rest) := span isdigit t in
             (String.length ds + String.length rest <= String.length s)%nat).
  { intros t Ht. pose proof (length_span isdigit t).
    destruct (span isdigit t) as [ds rest]. simpl in *. lia. }
  destruct s as [|c s']; [reflexivity|].
  destruct (Ascii.eqb_spec c "-") as [->|Hm].
  - specialize (Hs s' ltac:(simpl; lia)).
    destruct (span isdigit s') as [ds rest]. exact Hs.
  - destruct (Ascii.eqb_spec c "+") as [->|Hp].
    + specialize (Hs s' ltac:(simpl; lia)).
      destruct (span isdigit s') as [ds rest]. exact Hs.
    + specialize (Hs (String c s') ltac:(lia)).
      assert (match String c s' with
              | String "-" s1 => (true, s1)
              | String "+" s1 => (false, s1)
              | _ => (false, String c s')
              end = (false, String c s')) as ->.
      { destruct c as [[] [] [] [] [] [] [] []]; try reflexivity; congruence. }
      destruct (span isdigit (String c s')) as [ds rest]. exact Hs.
Qed.

Lemma sign_match {A} (c : ascii) (s' : string) (X Y : string -> A) (Z : A) :
  match String c s' with
  | String "-" s1 => X s1
  | String "+" s1 => Y s1
  | _ => Z
  end
  = if Ascii.eqb c "-" then X s' else if Ascii.eqb c "+" then Y s' else Z.
Proof. destruct c as [[] [] [] [] [] [] [] []]; reflexivity. Qed.

(** What is left of a text after a number has been scanned is no longer
    than the text. *)
Lemma length_scan_float (s : string) :
  (String.length (snd (scan_float s)) <= String.length s)%nat.
Proof.
  unfold scan_float.
  assert (Hsign : forall t,
             (String.length (snd (match t with
                                  | String "-" s' => ("-", s')
                                  | String "+" s' => ("+", s')
                                  | _ => ("", t)
                                  end)) <= String.length t)%nat).
  { intros [|c t]; [simpl; lia|]. rewrite sign_match.
    destruct (Ascii.eqb c "-"); [simpl; lia|].
    destruct (Ascii.eqb c "+"); simpl; lia. }
  pose proof (Hsign s) as H1.
  destruct (match s with
            | String "-" s' => ("-", s')
            | String "+" s' => ("+", s')
            | _ => ("", s)
            end) as [sign s1].
  cbn [snd] in H1.
  pose proof (length_span isdigit s1) as H2.
  destruct (span isdigit s1) as [int_part s2]. cbn [fst snd] in H2.
  assert (H3 : forall frac s3,
             match s2 with
             | String "." s' => let '(ds, r) := span isdigit s' in (String "." ds, r)
             | _ => ("", s2)
             end = (frac, s3) ->
             (String.length s3 <= String.length s2)%nat).
  { intros frac s3 Hf. destruct s2 as [|c t]; [injection Hf as <- <-; lia|].
    destruct (Ascii.eqb_spec c ".") as [->|Hne].
    - pose proof (length_span isdigit t) as Hl.
      destruct (span isdigit t) as [ds r]. injection Hf as <- <-.
      simpl in *. lia.
    - assert (match String c t with
              | String "." s' =>
                  let '(ds, r) := span isdigit s' in (String "." ds, r)
              | _ => ("", String c t)
              end = ("", String c t)) as Hd.
      { destruct c as [[] [] [] [] [] [] [] []]; try reflexivity; congruence. }
      rewrite Hd in Hf. injection Hf as <- <-. lia. }
  destruct (match s2 with
            | String "." s' => let '(ds, r) := span isdigit s' in (String "." ds, r)
            | _ => ("", s2)
            end) as [frac s3] eqn:Hfrac.
  specialize (H3 frac s3 eq_refl).
  set (has_mantissa := negb (is_empty int_part)
                       || (1 <? Z.of_nat (String.length frac))).
  assert (H4 : forall expo s4 ok,
             match s3 with
             | String c s' =>
                 if has_mantissa && ((ascii_code c =? 101) || (ascii_code c =? 69)) then
                   let '(esign, s5) :=
                     match s' with
                     | String "-" s'' => ("-", s'')
                     | String "+" s'' => ("+", s'')
                     | _ => ("", s')
                     end in
                   let '(eds, r) := span isdigit s5 in
                   (String c (esign +:+ eds), r, negb (is_empty eds))
                 else ("", s3, true)
             | EmptyString => ("", s3, true)
             end = (expo, s4, ok) ->
             (String.length s4 <= String.length s3)%nat).
  { intros expo s4 ok He. destruct s3 as [|c t]; [injection He as <- <- <-; lia|].
    destruct (has_mantissa && _); [|injection He as <- <- <-; lia].
    pose proof (Hsign t) as Ht.
    destruct (match t with
              | String "-" s'' => ("-", s'')
              | String "+" s'' => ("+", s'')
              | _ => ("", t)
              end) as [esign s5].
    cbn [snd] in Ht. pose proof (length_span isdigit s5) as Hl.
    destruct (span isdigit s5) as [eds r]. injection He as <- <- <-.
    simpl in *. lia. }
  destruct (match s3 with
            | String c s' => _
            | EmptyString => _
            end) as [[expo s4] ok] eqn:Hexpo.
  specialize (H4 expo s4 ok eq_refl). cbn [snd]. lia.
Qed.

Lemma sentry_length (skip : bool) (i : istream) :
  (String.length (buf (snd (sentry skip i))) <= String.length (buf i))%nat
  /\ (fst (sentry skip i) = false -> failbit (snd (sentry skip i)) = true).
Proof.
  unfold sentry. destruct (good i).
  - destruct skip; [|split; [simpl; lia | discriminate]].
    pose proof (length_skipws (buf i)).
    destruct (skipws (buf i)); simpl in *; split; first [lia | auto | discriminate].
  - unfold setstate. simpl. rewrite orb_true_r. split; [lia | reflexivity].
Qed.

(** An extraction of an [int] leaves the stream no longer, and shorter if
    it leaves it without failure. *)
Lemma extract_signed_length (old : Z) (i : istream) :
  (String.length (buf (snd (extract_signed old i))) <= String.length (buf i))%nat
  /\ (failbit (snd (extract_signed old i)) = false ->
      (String.length (buf (snd (extract_signed old i))) < String.length (buf i))%nat).
Proof.
  unfold extract_signed. destruct (sentry_length true i) as [Hlen Hfail].
  destruct (sentry true i) as [[] i1]; cbn [fst snd] in *.
  - pose proof (length_scan_integer (buf i1)) as Hs.
    destruct (scan_integer (buf i1)) as [[neg ds] rest]. cbn [fst snd] in Hs.
    destruct ds as [|d ds]; cbn [is_empty].
    + cbn [snd buf failbit]. split; [simpl in *; lia | discriminate].
    + repeat match goal with
             | |- context [if ?b then _ else _] => destruct b
             end; cbn [snd buf failbit]; simpl in *;
        (split; [lia | first [discriminate | intros _; lia]]).
  - split; [exact Hlen|]. rewrite (Hfail eq_refl). discriminate.
Qed.

Lemma extract_unsigned_length (bits old : Z) (i : istream) :
  (String.length (buf (snd (extract_unsigned bits old i))) <= String.length (buf i))%nat.
Proof.
  unfold extract_unsigned. destruct (sentry_length true i) as [Hlen _].
  destruct (sentry true i) as [[] i1]; cbn [fst snd] in *; [|exact Hlen].
  pose proof (length_scan_integer (buf i1)) as Hs.
  destruct (scan_integer (buf i1)) as [[neg ds] rest]. cbn [fst snd] in Hs.
  repeat match goal with
         | |- context [if ?b then _ else _] => destruct b
         end; cbn [snd buf]; lia.
Qed.

Lemma extract_unsigned_each_length (bits : Z) (olds : list Z) :
  forall i,
    (String.length (buf (snd (extract_unsigned_each bits olds i)))
     <= String.length (buf i))%nat.
Proof.
  induction olds as [|o olds IH]; intros i; [simpl; lia|].
  cbn [extract_unsigned_each].
  pose proof (extract_unsigned_length bits o i) as H1.
  destruct (extract_unsigned bits o i) as [v i1]. cbn [snd] in H1.
  specialize (IH i1). destruct (extract_unsigned_each bits olds i1) as [vs i2].
  cbn [snd] in *. lia.
Qed.

Lemma extract_double_length (old : double) (i : istream) :
  (String.length (buf (snd (extract_double old i))) <= String.length (buf i))%nat.
Proof.
  unfold extract_double. destruct (sentry_length true i) as [Hlen _].
  destruct (sentry true i) as [[] i1]; cbn [fst snd] in *; [|exact Hlen].
  pose proof (length_scan_float (buf i1)) as Hs.
  destruct (scan_float (buf i1)) as [lexeme rest]. cbn [snd] in Hs.
  destruct (is_empty lexeme); cbn [snd buf]; lia.
Qed.

Lemma extract_double_each_length (olds : list double) :
  forall i,
    (String.length (buf (snd (extract_double_each olds i)))
     <= String.length (buf i))%nat.
Proof.
  induction olds as [|o olds IH]; intros i; [simpl; lia|].
  cbn [extract_double_each].
  pose proof (extract_double_length o i) as H1.
  destruct (extract_double o i) as [v i1]. cbn [snd] in H1.
  specialize (IH i1). destruct (extract_double_each olds i1) as [vs i2].
  cbn [snd] in *. lia.
Qed.

End Stream_length.

Section UNV_termination.
Context {PF : Platform} {CO : Collaborators}.

(** A computation that, started in [w], ends (it is not [Hang]) and, when
    it ends well, establishes [P]. *)
Definition ends_with {A} (m : M A) (w : world) (P : A -> world -> Prop) : Prop :=
  match m w with
  | (Ok a, w') => P a w'
  | (Hang, _) => False
  | _ => True
  end.

Lemma ends_with_bind {A B} (m : M A) (k : A -> M B) (w : world)
    (Q : A -> world -> Prop) (P : B -> world -> Prop) :
  ends_with m w Q ->
  (forall a w1, Q a w1 -> ends_with (k a) w1 P) ->
  ends_with (bind m k) w P.
Proof.
  unfold ends_with, bind. intros Hm Hk.
  destruct (m w) as [[a| e | e | |] w1]; auto. exact (Hk a w1 Hm).
Qed.

Lemma ends_with_ret {A} (a : A) (w : world) (P : A -> world -> Prop) :
  P a w -> ends_with (ret a) w P.
Proof. intros HP. exact HP. Qed.

Lemma ends_with_weaken {A} (m : M A) (w : world) (P Q : A -> world -> Prop) :
  ends_with m w P -> (forall a w', P a w' -> Q a w') -> ends_with m w Q.
Proof.
  unfold ends_with. intros Hm HPQ. destruct (m w) as [[a| e | e | |] w1]; auto.
Qed.

Lemma ends_with_AssertThrow_in (e : exc) (w : world) :
  ends_with (AssertThrow_in e) w
    (fun _ w' => w' = w /\ failbit (input w) = false).
Proof.
  unfold ends_with, AssertThrow_in, if_in, stream_ok.
  destruct (failbit (input w)); simpl; auto.
Qed.

Lemma ends_with_AssertThrow (c : bool) (e : exc) (w : world) :
  ends_with (AssertThrow c e) w (fun _ w' => w' = w).
Proof. unfold ends_with, AssertThrow. destruct c; simpl; auto. Qed.

Lemma ends_with_Assert (c : bool) (e : exc) (w : world) :
  ends_with (Assert c e) w (fun _ w' => w' = w).
Proof.
  unfold ends_with, Assert. destruct (debug_mode && negb c); simpl; auto.
Qed.

Definition len (w : world) : nat := String.length (buf (input w)).

Lemma ends_with_in_int (old : Z) (w : world) :
  ends_with (in_int old) w
    (fun _ w' => (len w' <= len w)%nat
                 /\ (failbit (input w') = false -> (len w' < len w)%nat)).
Proof.
  unfold ends_with, in_int, on_input, len.
  pose proof (extract_signed_length old (input w)) as Hl.
  destruct (extract_signed old (input w)) as [v i1]. exact Hl.
Qed.

Lemma ends_with_unsigned_each (olds : list Z) (w : world) :
  ends_with (on_input (extract_unsigned_each 32 olds)) w
    (fun _ w' => (len w' <= len w)%nat).
Proof.
  unfold ends_with, on_input, len.
  pose proof (extract_unsigned_each_length 32 olds (input w)) as Hl.
  destruct (extract_unsigned_each 32 olds (input w)) as [v i1]. exact Hl.
Qed.

Lemma ends_with_double_each (olds : list double) (w : world) :
  ends_with (on_input (extract_double_each olds)) w
    (fun _ w' => (len w' <= len w)%nat).
Proof.
  unfold ends_with, on_input, len.
  pose proof (extract_double_each_length olds (input w)) as Hl.
  destruct (extract_double_each olds (input w)) as [v i1]. exact Hl.
Qed.

(** A loop of a fixed number of passes ends when its passes do. *)
Lemma ends_with_for_loop {St} (n : nat) (body : Z -> St -> M St) :
  (forall i s w, ends_with (body i s) w (fun _ w' => (len w' <= len w)%nat)) ->
  forall first s w,
    ends_with (for_loop n first body s) w (fun _ w' => (len w' <= len w)%nat).
Proof.
  intros Hbody. induction n as [|n IH]; intros first s w; cbn [for_loop].
  - apply ends_with_ret. lia.
  - eapply ends_with_bind; [apply Hbody|].
    intros s1 w1 H1. eapply ends_with_weaken; [apply IH|].
    intros s2 w2 H2. cbv beta in *. lia.
Qed.

Ltac ends_step :=
  lazymatch goal with
  | |- ends_with (bind (AssertThrow_in _) _) _ _ =>
      eapply ends_with_bind; [apply ends_with_AssertThrow_in|];
      let H := fresh "Hok" in intros [] ? [-> H]
  | |- ends_with (bind (AssertThrow _ _) _) _ _ =>
      eapply ends_with_bind; [apply ends_with_AssertThrow|]; intros [] ? ->
  | |- ends_with (bind (Assert _ _) _) _ _ =>
      eapply ends_with_bind; [apply ends_with_Assert|]; intros [] ? ->
  | |- ends_with (bind (in_int _) _) _ _ =>
      eapply ends_with_bind; [apply ends_with_in_int|];
      let H := fresh "Hle" in let Hs := fresh "Hlt" in intros ? ? [H Hs]
  | |- ends_with (bind (on_input (extract_unsigned_each 32 _)) _) _ _ =>
      eapply ends_with_bind; [apply ends_with_unsigned_each|];
      let H := fresh "Hle" in intros ? ? H; cbv beta in H
  | |- ends_with (bind (on_input (extract_double_each _)) _) _ _ =>
      eapply ends_with_bind; [apply ends_with_double_each|];
      let H := fresh "Hle" in intros ? ? H; cbv beta in H
  end.

Variables dim spacedim : Z.

Lemma read_unv_vertices_ends (n : nat) :
  forall st w,
    (len w < n)%nat ->
    ends_with (read_unv_vertices spacedim n st) w
      (fun _ w' => (len w' <= len w)%nat).
Proof.
  induction n as [|n IH]; intros st w Hn; [lia|].
  cbn [read_unv_vertices]. repeat ends_step.
  destruct (_ =? -1); [apply ends_with_ret; lia|].
  repeat ends_step. destruct st as [[vs vi] nv].
  specialize (Hlt2 Hok0).
  eapply ends_with_weaken; [apply IH; lia|].
  intros r w' Hr. cbv beta in *. lia.
Qed.

Lemma read_unv_entry_ends (structdim : Z) (vi : gmap Z Z) (w : world) :
  ends_with (read_unv_entry structdim vi) w
    (fun _ w' => (len w' <= len w)%nat /\ failbit (input w) = false).
Proof.
  unfold read_unv_entry. repeat ends_step.
  destruct (unv_renumber vi _) as [vs m]. apply ends_with_ret. auto.
Qed.

Lemma read_unv_element_ends (no : Z) (st : unv_elements) (w : world) :
  ends_with (read_unv_element dim no st) w (fun _ w' => (len w' < len w)%nat).
Proof.
  unfold read_unv_element. repeat ends_step.
  repeat match goal with
         | |- ends_with (if ?b then _ else _) _ _ => destruct b
         end.
  - eapply ends_with_bind; [apply read_unv_entry_ends|].
    intros r w' [Hr Hok]. apply ends_with_ret. specialize (Hlt3 Hok). lia.
  - repeat ends_step.
    eapply ends_with_bind; [apply read_unv_entry_ends|].
    intros r w' [Hr Hok']. apply ends_with_ret. specialize (Hlt3 Hok). lia.
  - eapply ends_with_bind; [apply read_unv_entry_ends|].
    intros r w' [Hr Hok]. apply ends_with_ret. specialize (Hlt3 Hok). lia.
  - exact I.
Qed.

Lemma read_unv_elements_ends (n : nat) :
  forall st w,
    (len w < n)%nat ->
    ends_with (read_unv_elements dim n st) w (fun _ w' => (len w' <= len w)%nat).
Proof.
  induction n as [|n IH]; intros st w Hn; [lia|].
  cbn [read_unv_elements]. repeat ends_step.
  destruct (_ =? -1); [apply ends_with_ret; lia|].
  eapply ends_with_bind; [apply read_unv_element_ends|].
  intros st' w' H'. cbv beta in H'.
  eapply ends_with_weaken; [apply IH; lia|].
  intros r w'' Hr. cbv beta in *. lia.
Qed.

Lemma set_id_at_ends (i id : Z) (v : list CellData) (w : world) :
  ends_with (set_id_at i id v) w (fun _ w' => w' = w).
Proof.
  unfold set_id_at. destruct (v !! Z.to_nat i); [|exact I].
  destruct (0 <=? i); [apply ends_with_ret; reflexivity | exact I].
Qed.

Lemma unv_set_ids_ends (id no : Z) (st : unv_elements) (w : world) :
  ends_with (unv_set_ids id no st) w (fun _ w' => w' = w).
Proof.
  unfold unv_set_ids.
  eapply ends_with_bind.
  { destruct (cell_indices st !! no);
      [apply set_id_at_ends | apply ends_with_ret; reflexivity]. }
  intros cells ? ->. eapply ends_with_bind.
  { destruct (line_indices st !! no);
      [apply set_id_at_ends | apply ends_with_ret; reflexivity]. }
  intros lines ? ->. eapply ends_with_bind.
  { destruct (quad_indices st !! no);
      [apply set_id_at_ends | apply ends_with_ret; reflexivity]. }
  intros quads ? ->. apply ends_with_ret. reflexivity.
Qed.

Lemma read_unv_fragment_ends (id : Z) (st : Z * Z * unv_elements) (w : world) :
  ends_with (read_unv_fragment id st) w (fun _ w' => (len w' <= len w)%nat).
Proof.
  unfold read_unv_fragment. destruct st as [[dummy no] elements].
  repeat ends_step.
  eapply ends_with_bind; [apply unv_set_ids_ends|].
  intros el ? ->. apply ends_with_ret. lia.
Qed.

Lemma unv_n_lines_ends (n_entities : Z) (w : world) :
  ends_with (unv_n_lines n_entities) w (fun _ w' => w' = w).
Proof.
  unfold unv_n_lines.
  repeat match goal with
         | |- ends_with (if ?b then _ else _) _ _ => destruct b
         end; first [exact I | apply ends_with_ret; reflexivity].
Qed.

Lemma read_unv_group_ends (dummy : Z) (st : unv_elements) (w : world) :
  ends_with (read_unv_group dummy st) w (fun _ w' => (len w' < len w)%nat).
Proof.
  unfold read_unv_group. repeat ends_step.
  specialize (Hlt5 Hok).
  eapply ends_with_bind; [apply unv_n_lines_ends|].
  intros n_lines ? ->.
  eapply ends_with_bind.
  { apply ends_with_for_loop. intros i s w'. unfold read_unv_group_line.
    apply ends_with_for_loop. intros j s' w''. apply read_unv_fragment_ends. }
  intros r w' Hr. cbv beta in Hr. apply ends_with_ret. lia.
Qed.

Lemma read_unv_groups_ends (n : nat) :
  forall st w,
    (len w < n)%nat ->
    ends_with (read_unv_groups n st) w (fun _ w' => (len w' <= len w)%nat).
Proof.
  induction n as [|n IH]; intros st w Hn; [lia|].
  cbn [read_unv_groups]. repeat ends_step.
  destruct (_ =? -1); [apply ends_with_ret; lia|].
  eapply ends_with_bind; [apply read_unv_group_ends|].
  intros st' w' H'. cbv beta in H'.
  eapply ends_with_weaken; [apply IH; lia|].
  intros r w'' Hr. cbv beta in *. lia.
Qed.

Lemma ends_with_not_Hang {A} (m : M A) (w : world) (P : A -> world -> Prop) :
  ends_with m w P -> fst (m w) <> Hang.
Proof.
  unfold ends_with. destruct (m w) as [[a| e | e | |] w1]; simpl;
    intros H; try discriminate. destruct H.
Qed.

Lemma hang_bind_inv {A B} (m : M A) (k : A -> M B) (w : world) :
  fst (bind m k w) = Hang ->
  fst (m w) = Hang \/ exists a w1, m w = (Ok a, w1) /\ fst (k a w1) = Hang.
Proof.
  unfold bind. destruct (m w) as [[a| e | e | |] w1]; simpl; intros Hh;
    try discriminate Hh; [right; exists a, w1; auto | left; reflexivity].
Qed.

(** The three loops of [read_unv], over the vertices, over the elements
    and over the groups, end on every input: a pass that does not end the
    loop or throw has taken a number from the stream.  So the reader can
    fail to return only where [skip_comment_lines] does, at its start. *)
Theorem read_unv_parse_returns (w : world) :
  fst (read_unv_parse dim spacedim w) = Hang ->
  fst (skip_comment_lines "#" w) = Hang.
Proof.
  intros Hh. unfold read_unv_parse in Hh.
  apply hang_bind_inv in Hh as [Hh | (u & w0 & Ha & Hh)].
  { unfold Assert in Hh. destruct (debug_mode && _); discriminate Hh. }
  apply Assert_Ok_inv in Ha as [-> _].
  apply hang_bind_inv in Hh as [Hh | (u0 & w0 & Ha & Hh)].
  { unfold AssertThrow_in, if_in in Hh.
    destruct (stream_ok (input w)); discriminate Hh. }
  apply AssertThrow_in_Ok_inv in Ha as [_ ->].
  apply hang_bind_inv in Hh as [Hh | (u1 & w1 & Ha & Hh)]; [exact Hh|].
  exfalso. revert Hh.
  match goal with
  | |- fst (?m w1) = Hang -> False =>
      apply (ends_with_not_Hang m w1 (fun _ _ => True))
  end.
  repeat ends_step.
  eapply ends_with_bind.
  { unfold bounded_by_stream. apply read_unv_vertices_ends.
    unfold stream_length, len. lia. }
  intros [[vs vi] nv] ? _. repeat ends_step.
  eapply ends_with_bind.
  { unfold bounded_by_stream. apply read_unv_elements_ends.
    unfold stream_length, len. lia. }
  intros st ? _. repeat ends_step.
  eapply ends_with_bind with (Q := fun _ _ => True).
  { unfold if_eof. unfold ends_with at 1.
    match goal with
    | |- context [eofbit ?i] => destruct (eofbit i); [exact I|]
    end.
    match goal with
    | |- match ?m ?w with _ => _ end =>
        change (ends_with m w (fun _ _ => True))
    end.
    repeat ends_step. unfold bounded_by_stream.
    eapply ends_with_weaken;
      [apply read_unv_groups_ends; unfold stream_length, len; lia | auto]. }
  intros st' ? _. exact I.
Qed.

End UNV_termination.

(** ** [GridIn<2>::read_xda]: what the header declares *)

Section XDA_2_properties.
Context {PF : Platform}.

Lemma length_extract_unsigned_each (bits : Z) (olds : list Z) :
  forall i, length (fst (extract_unsigned_each bits olds i)) = length olds.
Proof.
  induction olds as [|o olds IH]; intros i; [reflexivity|].
  cbn [extract_unsigned_each].
  destruct (extract_unsigned bits o i) as [v i1].
  specialize (IH i1). destruct (extract_unsigned_each bits olds i1) as [vs i2].
  simpl in *. congruence.
Qed.

Lemma length_extract_double_each (olds : list double) :
  forall i, length (fst (extract_double_each olds i)) = length olds.
Proof.
  induction olds as [|o olds IH]; intros i; [reflexivity|].
  cbn [extract_double_each].
  destruct (extract_double o i) as [v i1].
  specialize (IH i1). destruct (extract_double_each olds i1) as [vs i2].
  simpl in *. congruence.
Qed.

Lemma Forall_repeat {A} (P : A -> Prop) (x : A) (n : nat) :
  P x -> Forall P (repeat x n).
Proof. intros Hx. induction n; simpl; constructor; assumption. Qed.

(** The header of an XDA file declares the numbers of the cells and of the
    vertices, and the reader hands on as many: when the file has been
    read, there are as many cells as the first number of the header says,
    each with four vertices, and as many vertices as the second number
    says, each with two coordinates (the third of the file is dropped). *)
Theorem read_xda_2_parse_counts (w : world) (vs : list Point)
    (cells : list CellData) (n_vertices n_cells : Z) (w' : world) :
  read_xda_2_parse w = (Ok (vs, cells, n_vertices, n_cells), w') ->
  length cells = Z.to_nat n_cells
  /\ Forall (fun c => length (vertices c) = 4%nat) cells
  /\ length vs = Z.to_nat n_vertices
  /\ Forall (fun p => length p = 2%nat) vs.
Proof.
  intros Hr. unfold read_xda_2_parse in Hr.
  apply bind_Ok_inv in Hr as ([] & w0 & _ & Hr).
  apply bind_Ok_inv in Hr as (l0 & w1 & _ & Hr).
  apply bind_Ok_inv in Hr as (nc & w2 & _ & Hr).
  apply bind_Ok_inv in Hr as (l1 & w3 & _ & Hr).
  apply bind_Ok_inv in Hr as (nv & w4 & _ & Hr).
  apply bind_Ok_inv in Hr as (l2 & w5 & _ & Hr).
  apply bind_Ok_inv in Hr as (l3 & w6 & _ & Hr).
  apply bind_Ok_inv in Hr as (cs & w7 & Hcells & Hr).
  apply bind_Ok_inv in Hr as (ps & w8 & Hvs & Hr).
  apply bind_Ok_inv in Hr as ([] & w9 & _ & Hr).
  apply ret_Ok_inv in Hr as [Hr _]. injection Hr as Hps Hcs Hnv Hnc. subst vs cells n_vertices n_cells.
  apply (for_loop_invariant
           (fun _ cs => length cs = Z.to_nat nc
                        /\ Forall (fun c => length (vertices c) = 4%nat) cs))
    in Hcells.
  - apply (for_loop_invariant
             (fun _ ps => length ps = Z.to_nat nv
                          /\ Forall (fun p => length p = 2%nat) ps))
      in Hvs.
    + tauto.
    + split; [apply repeat_length|]. apply Forall_repeat, repeat_length.
    + intros k i s1 s2 wa wb [Hlen Hall] Hb. unfold read_xda_vertex in Hb.
      apply bind_Ok_inv in Hb as (x & wc & Hx & Hb).
      apply ret_Ok_inv in Hb as [Hb _]. subst s2.
      split; [rewrite length_insert; exact Hlen|].
      apply Forall_insert; [exact Hall|].
      unfold on_input in Hx.
      pose proof (length_extract_double_each (repeat indeterminate_double 3) (input wa))
        as Hl.
      destruct (extract_double_each _ (input wa)) as [x' i']. injection Hx as -> _.
      cbn [fst] in Hl. unfold Point_of. rewrite length_take, Hl. reflexivity.
  - split; [apply repeat_length|]. apply Forall_repeat. reflexivity.
  - intros k i s1 s2 wa wb [Hlen Hall] Hb. unfold read_xda_2_cell in Hb.
    apply bind_Ok_inv in Hb as ([] & wc & _ & Hb).
    apply bind_Ok_inv in Hb as ([] & wd & _ & Hb).
    destruct (s1 !! Z.to_nat i) as [c|] eqn:Hc; [|discriminate Hb].
    apply bind_Ok_inv in Hb as (x & we & Hx & Hb).
    apply ret_Ok_inv in Hb as [Hb _]. subst s2.
    split; [rewrite length_insert; exact Hlen|].
    apply Forall_insert; [exact Hall|]. cbn [set_vertices vertices].
    unfold on_input in Hx.
    pose proof (length_extract_unsigned_each 32 (vertices c) (input wd)) as Hl.
    destruct (extract_unsigned_each 32 _ (input wd)) as [x' i']. injection Hx as -> _.
    cbn [fst] in Hl. rewrite Hl. exact (Forall_lookup_1 _ _ _ _ Hall Hc).
Qed.

End XDA_2_properties.

(** ** The properties above, on sample inputs *)

Section More_examples.
Import Abaqus_to_UCD.

Lemma read_dbmesh_cells_refer_to_vertices_witness :
  Forall (refers_within
            (length ([[0; 0]; [1; 0]; [1; 1]; [0; 1]]%Q
                     : list (@Point release_platform))))
    [mkCellData [0; 1; 2; 3] 0 (2 ^ 32 - 1)].
Proof.
  apply (read_dbmesh_cells_refer_to_vertices (PF := release_platform) 2 2
           ExcMessage (fun _ => ExcMessage "dimension") (ExcMessage "format")
           (reading dbmesh_square) _ _ (reading "")).
  reflexivity.
Defined.

Lemma dbmesh_skip_to_END_without_END_witness :
  fst (@dbmesh_skip_to_END release_platform 9 "Dimension"
         (World (istream_of (lines_text ["2"; "Vertices"] +:+ "4")) []))
  = Hang.
Proof.
  apply (dbmesh_skip_to_END_without_END (PF := release_platform)
           ["2"; "Vertices"] "4" 9 "Dimension" []).
  - repeat constructor.
  - reflexivity.
  - reflexivity.
Defined.

Lemma write_out_avs_ucd_after_read_in_abaqus_witness :
  exists text,
    @write_out_avs_ucd release_platform 2 2 (fun _ => "1") (fun _ => "0.0") Qabs
      (match fst (read_in_abaqus 2 2 bridge_empty (reading abaqus_material_7)) with
       | Ok st => st
       | _ => bridge_empty
       end)
    = Ok text.
Proof.
  apply (write_out_avs_ucd_after_read_in_abaqus (PF := release_platform) 2 2
           (fun _ => "1") (fun _ => "0.0") Qabs
           (reading abaqus_material_7) _
           (snd (read_in_abaqus 2 2 bridge_empty (reading abaqus_material_7)))).
  - discriminate.
  - reflexivity.
Defined.

Lemma read_unv_parse_returns_witness :
  fst (@skip_comment_lines release_platform "#" (reading "# no end of line"))
  = Hang.
Proof.
  apply (read_unv_parse_returns (PF := release_platform) 2 2
           (reading "# no end of line")).
  reflexivity.
Defined.

Lemma read_xda_2_parse_counts_witness :
  length [mkCellData [0; 1; 2; 3] 0 (2 ^ 32 - 1)] = Z.to_nat 1
  /\ Forall (fun c => length (vertices c) = 4%nat)
       [mkCellData [0; 1; 2; 3] 0 (2 ^ 32 - 1)]
  /\ length ([[0; 0]; [1; 0]; [1; 1]; [0; 1]]%Q : list (@Point release_platform))
     = Z.to_nat 4
  /\ Forall (fun p => length p = 2%nat)
       ([[0; 0]; [1; 0]; [1; 1]; [0; 1]]%Q : list (@Point release_platform)).
Proof.
  apply (read_xda_2_parse_counts (PF := release_platform) (reading xda_square)
           _ _ 4 1 (reading (String newline ""))).
  reflexivity.
Defined.

End More_examples.

(** ** [read_unv]: the cells refer to vertices of the file *)

Section UNV_references.
Context {PF : Platform}.
Variables dim spacedim : Z.

(** A map from labels to positions in a vector of [n] vertices. *)
Definition positions_within (n : nat) (m : gmap Z Z) : Prop :=
  forall k p, m !! k = Some p -> 0 <= p < Z.of_nat n.

Lemma read_unv_vertices_within (passes : nat) :
  forall st w vs vi nv w',
    snd st = Z.of_nat (length (fst (fst st))) ->
    positions_within (length (fst (fst st))) (snd (fst st)) ->
    read_unv_vertices spacedim passes st w = (Ok (vs, vi, nv), w') ->
    positions_within (length vs) vi.
Proof.
  induction passes as [|passes IH]; intros st w vs vi nv w' Hnv Hst Hr;
    [discriminate Hr|].
  cbn [read_unv_vertices] in Hr.
  apply bind_Ok_inv in Hr as ([] & w0 & _ & Hr).
  apply bind_Ok_inv in Hr as (no & w1 & _ & Hr).
  destruct (no =? -1).
  - apply ret_Ok_inv in Hr as [Hr _]. subst st. exact Hst.
  - do 3 (apply bind_Ok_inv in Hr as (? & ? & _ & Hr)).
    apply bind_Ok_inv in Hr as ([] & ? & _ & Hr).
    apply bind_Ok_inv in Hr as (xs & ? & _ & Hr).
    destruct st as [[vs0 vi0] nv0]. cbn [fst snd] in *.
    apply IH in Hr; [exact Hr | |]; cbn [fst snd].
    + rewrite length_app. simpl. lia.
    + intros k p Hk. rewrite length_app. simpl.
      destruct (decide (no = k)) as [->|Hne].
      * rewrite lookup_insert_eq in Hk. injection Hk as <-. lia.
      * rewrite lookup_insert_ne in Hk by exact Hne.
        specialize (Hst k p Hk). lia.
Qed.

Lemma to_unsigned_within (n : nat) (p : Z) :
  0 <= p < Z.of_nat n -> 0 <= to_unsigned p < Z.of_nat n.
Proof.
  intros Hp. unfold to_unsigned.
  pose proof (Z.mod_pos_bound p (2 ^ 32) ltac:(lia)).
  pose proof (Z.mod_le p (2 ^ 32) ltac:(lia) ltac:(lia)). lia.
Qed.

Lemma unv_renumber_within (n : nat) (vs : list Z) :
  (0 < n)%nat ->
  forall m,
    positions_within n m ->
    Forall (fun v => 0 <= v < Z.of_nat n) (fst (unv_renumber m vs))
    /\ positions_within n (snd (unv_renumber m vs)).
Proof.
  intros Hn. induction vs as [|v vs IH]; intros m Hm; [split; [constructor | exact Hm]|].
  cbn [unv_renumber]. unfold map_index.
  destruct (m !! to_int v) as [p|] eqn:Hp.
  - destruct (IH m Hm) as [Hvs Hm'].
    destruct (unv_renumber m vs) as [ns m']. cbn [fst snd] in *.
    split; [|exact Hm']. constructor; [|exact Hvs].
    apply to_unsigned_within. exact (Hm _ _ Hp).
  - assert (Hm0 : positions_within n (<[to_int v := 0]> m)).
    { intros k p Hk. destruct (decide (to_int v = k)) as [<-|Hne].
      - rewrite lookup_insert_eq in Hk. injection Hk as <-. lia.
      - rewrite lookup_insert_ne in Hk by exact Hne. exact (Hm _ _ Hk). }
    destruct (IH _ Hm0) as [Hvs Hm'].
    destruct (unv_renumber (<[to_int v := 0]> m) vs) as [ns m']. cbn [fst snd] in *.
    split; [|exact Hm']. constructor; [|exact Hvs].
    apply to_unsigned_within. lia.
Qed.

(** What the loops over the elements and over the groups keep: the
    positions of the map, and of the cells, lines and quads, are within
    the vertices. *)
Definition elements_within (n : nat) (st : unv_elements) : Prop :=
  positions_within n (unv_vertex_indices st)
  /\ Forall (refers_within n) (unv_cells st)
  /\ Forall (refers_within n) (boundary_lines (unv_subcelldata st))
  /\ Forall (refers_within n) (boundary_quads (unv_subcelldata st)).

Lemma read_unv_entry_within (n : nat) (structdim : Z) (vi : gmap Z Z)
    (w : world) (c : CellData) (m : gmap Z Z) (w' : world) :
  (0 < n)%nat -> positions_within n vi ->
  read_unv_entry structdim vi w = (Ok (c, m), w') ->
  refers_within n c /\ positions_within n m.
Proof.
  intros Hn Hvi Hr. unfold read_unv_entry in Hr.
  apply bind_Ok_inv in Hr as ([] & w1 & _ & Hr).
  apply bind_Ok_inv in Hr as (vs & w2 & _ & Hr).
  destruct (unv_renumber_within n vs Hn vi Hvi) as [Hvs Hm].
  destruct (unv_renumber vi vs) as [ns m'].
  apply ret_Ok_inv in Hr as [Hr _]. injection Hr as Hc Hm'. subst c m.
  split; [exact Hvs | exact Hm].
Qed.

Lemma read_unv_element_within (n : nat) (no : Z) (st st' : unv_elements)
    (w w' : world) :
  (0 < n)%nat -> elements_within n st ->
  read_unv_element dim no st w = (Ok st', w') ->
  elements_within n st'.
Proof.
  intros Hn (Hvi & Hc & Hl & Hq) Hr. unfold read_unv_element in Hr.
  do 5 (apply bind_Ok_inv in Hr as (? & ? & _ & Hr)).
  apply bind_Ok_inv in Hr as ([] & ? & _ & Hr).
  repeat match type of Hr with
         | (if ?b then _ else _) _ = _ => destruct b
         end.
  - apply bind_Ok_inv in Hr as ([c m] & ? & He & Hr).
    apply ret_Ok_inv in Hr as [Hr _]. subst st'.
    destruct (read_unv_entry_within n _ _ _ _ _ _ Hn Hvi He) as [Hc' Hm].
    split; [exact Hm | split; [|split]]; cbn; try assumption;
      apply Forall_app; split; [assumption | constructor; [exact Hc' | constructor]].
  - apply bind_Ok_inv in Hr as ([] & ? & _ & Hr).
    do 3 (apply bind_Ok_inv in Hr as (? & ? & _ & Hr)).
    apply bind_Ok_inv in Hr as ([c m] & ? & He & Hr).
    apply ret_Ok_inv in Hr as [Hr _]. subst st'.
    destruct (read_unv_entry_within n _ _ _ _ _ _ Hn Hvi He) as [Hc' Hm].
    split; [exact Hm | split; [|split]]; cbn; try assumption;
      apply Forall_app; split; [assumption | constructor; [exact Hc' | constructor]].
  - apply bind_Ok_inv in Hr as ([c m] & ? & He & Hr).
    apply ret_Ok_inv in Hr as [Hr _]. subst st'.
    destruct (read_unv_entry_within n _ _ _ _ _ _ Hn Hvi He) as [Hc' Hm].
    split; [exact Hm | split; [|split]]; cbn; try assumption;
      apply Forall_app; split; [assumption | constructor; [exact Hc' | constructor]].
  - discriminate Hr.
Qed.

Lemma read_unv_elements_within (n : nat) (passes : nat) :
  (0 < n)%nat ->
  forall st w st' w',
    elements_within n st ->
    read_unv_elements dim passes st w = (Ok st', w') ->
    elements_within n st'.
Proof.
  intros Hn. induction passes as [|passes IH]; intros st w st' w' Hst Hr;
    [discriminate Hr|].
  cbn [read_unv_elements] in Hr.
  apply bind_Ok_inv in Hr as ([] & w0 & _ & Hr).
  apply bind_Ok_inv in Hr as (no & w1 & _ & Hr).
  destruct (no =? -1).
  - apply ret_Ok_inv in Hr as [Hr _]. subst st'. exact Hst.
  - apply bind_Ok_inv in Hr as (st1 & w2 & He & Hr).
    apply (IH _ _ _ _ (read_unv_element_within n _ _ _ _ _ Hn Hst He) Hr).
Qed.

Lemma set_id_at_within (n : nat) (i id : Z) (v v' : list CellData) (w w' : world) :
  Forall (refers_within n) v ->
  set_id_at i id v w = (Ok v', w') -> Forall (refers_within n) v'.
Proof.
  intros Hv Hr. unfold set_id_at in Hr.
  destruct (v !! Z.to_nat i) as [c|] eqn:Hc; [|discriminate Hr].
  destruct (0 <=? i); [|discriminate Hr].
  apply ret_Ok_inv in Hr as [Hr _]. subst v'.
  apply Forall_insert; [exact Hv|]. exact (Forall_lookup_1 _ _ _ _ Hv Hc).
Qed.

Lemma unv_set_ids_within (n : nat) (id no : Z) (st st' : unv_elements)
    (w w' : world) :
  elements_within n st ->
  unv_set_ids id no st w = (Ok st', w') -> elements_within n st'.
Proof.
  intros (Hvi & Hc & Hl & Hq) Hr. unfold unv_set_ids in Hr.
  apply bind_Ok_inv in Hr as (cells & w1 & H1 & Hr).
  apply bind_Ok_inv in Hr as (lines & w2 & H2 & Hr).
  apply bind_Ok_inv in Hr as (quads & w3 & H3 & Hr).
  apply ret_Ok_inv in Hr as [Hr _]. subst st'.
  split; [exact Hvi | split; [|split]]; cbn.
  - destruct (cell_indices st !! no);
      [exact (set_id_at_within _ _ _ _ _ _ _ Hc H1)|].
    apply ret_Ok_inv in H1 as [H1 _]. subst cells. exact Hc.
  - destruct (line_indices st !! no);
      [exact (set_id_at_within _ _ _ _ _ _ _ Hl H2)|].
    apply ret_Ok_inv in H2 as [H2 _]. subst lines. exact Hl.
  - destruct (quad_indices st !! no);
      [exact (set_id_at_within _ _ _ _ _ _ _ Hq H3)|].
    apply ret_Ok_inv in H3 as [H3 _]. subst quads. exact Hq.
Qed.

Lemma read_unv_group_within (n : nat) (dummy : Z) (st st' : unv_elements)
    (w w' : world) :
  elements_within n st ->
  read_unv_group dummy st w = (Ok st', w') -> elements_within n st'.
Proof.
  intros Hst Hr. unfold read_unv_group in Hr.
  do 7 (apply bind_Ok_inv in Hr as (? & ? & _ & Hr)).
  apply bind_Ok_inv in Hr as ([] & ? & _ & Hr).
  apply bind_Ok_inv in Hr as (id & ? & _ & Hr).
  apply bind_Ok_inv in Hr as (n_lines & ? & _ & Hr).
  apply bind_Ok_inv in Hr as (r & ? & Hloop & Hr).
  apply ret_Ok_inv in Hr as [Hr _]. subst st'.
  apply (for_loop_invariant (fun _ s => elements_within n (snd s))) in Hloop;
    [exact Hloop | exact Hst |].
  intros k i s1 s2 wa wb Hs Hb. unfold read_unv_group_line in Hb.
  apply (for_loop_invariant (fun _ s => elements_within n (snd s))) in Hb;
    [exact Hb | exact Hs |].
  intros k' i' [[d1 n1] e1] s4 wc wd Hs' Hf. unfold read_unv_fragment in Hf.
  apply bind_Ok_inv in Hf as ([] & ? & _ & Hf).
  do 4 (apply bind_Ok_inv in Hf as (? & ? & _ & Hf)).
  apply bind_Ok_inv in Hf as (e2 & ? & He & Hf).
  apply ret_Ok_inv in Hf as [Hf _]. subst s4. cbn [snd] in *.
  exact (unv_set_ids_within _ _ _ _ _ _ _ Hs' He).
Qed.

Lemma read_unv_groups_within (n : nat) (passes : nat) :
  forall st w st' w',
    elements_within n st ->
    read_unv_groups passes st w = (Ok st', w') ->
    elements_within n st'.
Proof.
  induction passes as [|passes IH]; intros st w st' w' Hst Hr;
    [discriminate Hr|].
  cbn [read_unv_groups] in Hr.
  apply bind_Ok_inv in Hr as ([] & w0 & _ & Hr).
  apply bind_Ok_inv in Hr as (d & w1 & _ & Hr).
  destruct (d =? -1).
  - apply ret_Ok_inv in Hr as [Hr _]. subst st'. exact Hst.
  - apply bind_Ok_inv in Hr as (st1 & w2 & He & Hr).
    apply (IH _ _ _ _ (read_unv_group_within n _ _ _ _ _ Hst He) Hr).
Qed.

(** A UNV file with at least one vertex: whenever it has been read, every
    vertex index of every cell, of every boundary line and of every
    boundary quad is a position in the vector of vertices.  (A label that
    no vertex has was replaced by the position 0.) *)
Theorem read_unv_refers_to_vertices (w : world) (vertices : list Point)
    (st : unv_elements) (w' : world) :
  read_unv_parse dim spacedim w = (Ok (vertices, st), w') ->
  vertices <> [] ->
  Forall (refers_within (length vertices)) (unv_cells st)
  /\ Forall (refers_within (length vertices)) (boundary_lines (unv_subcelldata st))
  /\ Forall (refers_within (length vertices)) (boundary_quads (unv_subcelldata st)).
Proof.
  intros Hr Hne. unfold read_unv_parse in Hr.
  do 8 (apply bind_Ok_inv in Hr as (? & ? & _ & Hr)).
  apply bind_Ok_inv in Hr as ([[vs vi] nv] & w1 & Hvs & Hr).
  do 5 (apply bind_Ok_inv in Hr as (? & ? & _ & Hr)).
  apply bind_Ok_inv in Hr as (st1 & w2 & Hel & Hr).
  apply bind_Ok_inv in Hr as (tmp & w3 & _ & Hr).
  apply bind_Ok_inv in Hr as (st2 & w4 & Hgr & Hr).
  apply ret_Ok_inv in Hr as [Hr _]. injection Hr as Hv Hst. subst vertices st.
  assert (Hn : (0 < length vs)%nat) by (destruct vs; [congruence | simpl; lia]).
  unfold bounded_by_stream in Hvs, Hel.
  apply read_unv_vertices_within in Hvs;
    [| reflexivity | intros k p Hk; cbn [fst snd] in Hk; rewrite lookup_empty in Hk; discriminate Hk].
  apply (read_unv_elements_within (length vs)) in Hel; [|exact Hn|].
  2:{ split; [exact Hvs | split; [|split]]; constructor. }
  assert (Hst2 : elements_within (length vs) st2).
  { unfold if_eof in Hgr. destruct (eofbit (input w3)).
    - apply ret_Ok_inv in Hgr as [Hgr _]. subst st2. exact Hel.
    - apply bind_Ok_inv in Hgr as ([] & ? & _ & Hgr).
      apply bind_Ok_inv in Hgr as (? & ? & _ & Hgr).
      apply bind_Ok_inv in Hgr as ([] & ? & _ & Hgr).
      unfold bounded_by_stream in Hgr.
      exact (read_unv_groups_within _ _ _ _ _ _ Hel Hgr). }
  destruct Hst2 as (_ & Hc & Hl & Hq). auto.
Qed.

End UNV_references.

Lemma read_unv_refers_to_vertices_witness :
  Forall (refers_within 4) [mkCellData [0; 1; 2; 3] 0 (2 ^ 32 - 1)]
  /\ Forall (refers_within 4) []
  /\ Forall (refers_within 4) [].
Proof.
  eapply (read_unv_refers_to_vertices (PF := release_platform) 2 2
           (reading unv_square)
           ([[0; 0]; [1; 0]; [1; 1]; [0; 1]]%Q : list (@Point release_platform))
           (UnvElements
              (<[4 := 3]> (<[3 := 2]> (<[2 := 1]> (<[1 := 0]> ∅))))
              [mkCellData [0; 1; 2; 3] 0 (2 ^ 32 - 1)] SubCellData_empty
              (<[1 := 0]> ∅) ∅ ∅ 1 0 0)).
  - reflexivity.
  - discriminate.
Defined.
